(** * SpareRoomReservationSystem: reservation lifecycle and seat conflicts

    A shallow embedding of the request handlers of [core/views.py], the
    management commands [cleanup] and [send_access_codes], and the admin
    form and action of [core/admin.py].  The database tables are lists of
    rows in primary-key order; an ORM query is a [filter] over the list, a
    bulk [update] is a [map], and [save] rewrites the row that carries the
    primary key of the in-memory object.  A handler runs alone on the
    database (one request at a time). *)

From Stdlib Require Import ZArith String Ascii List Bool Lia Permutation.
Import ListNotations.
Local Open Scope Z_scope.

(** ** Dates and times

    A [datetime.date] is its ordinal day number, a naive
    [datetime.datetime] the number of microseconds since the start of
    ordinal day 0.  The range limits of Python's datetime are not
    modelled. *)

Definition date := Z.
Definition datetime := Z.

Definition US_PER_MINUTE : Z := 60000000.
Definition timedelta_minutes (n : Z) : Z := n * US_PER_MINUTE.
Definition timedelta_hours (n : Z) : Z := n * 60 * US_PER_MINUTE.
Definition timedelta_days_us (n : Z) : Z := n * 1440 * US_PER_MINUTE.

(** [datetime.datetime.combine(d, datetime.time(h, m))] *)
Definition combine (d : date) (h m : Z) : datetime :=
  timedelta_days_us d + timedelta_minutes (h * 60 + m).

(** [dt.date()] *)
Definition date_of (dt : datetime) : date := dt / timedelta_days_us 1.

(** ** The pieces of Python's [str] that the slot labels go through *)

Module Py.

Fixpoint split (sep : ascii) (s : string) : list string :=
  match s with
  | EmptyString => [EmptyString]
  | String c s' =>
      if Ascii.eqb c sep then EmptyString :: split sep s'
      else match split sep s' with
           | [] => [String c EmptyString]
           | h :: t => String c h :: t
           end
  end.

(** ASCII white space as [str.strip] and [int] see it. *)
Definition is_space (c : ascii) : bool :=
  let n := nat_of_ascii c in
  ((9 <=? n) && (n <=? 13) || (28 <=? n) && (n <=? 32))%nat.

Fixpoint lstrip (s : string) : string :=
  match s with
  | String c s' => if is_space c then lstrip s' else s
  | EmptyString => EmptyString
  end.

Fixpoint rstrip (s : string) : string :=
  match s with
  | EmptyString => EmptyString
  | String c s' =>
      match rstrip s' with
      | EmptyString => if is_space c then EmptyString else String c EmptyString
      | t => String c t
      end
  end.

Definition strip (s : string) : string := rstrip (lstrip s).

Definition digit_of (c : ascii) : option Z :=
  let n := nat_of_ascii c in
  if ((48 <=? n) && (n <=? 57))%nat then Some (Z.of_nat n - 48) else None.

(** Decimal digits, a single underscore allowed between two digits. *)
Fixpoint digits (s : string) (acc : Z) (after_digit : bool) : option Z :=
  match s with
  | EmptyString => if after_digit then Some acc else None
  | String c s' =>
      match digit_of c with
      | Some d => digits s' (10 * acc + d) true
      | None =>
          if Ascii.eqb c "_"%char && after_digit then digits s' acc false
          else None
      end
  end.

(** [int(s)] on an ASCII string; [None] stands for [ValueError]. *)
Definition int (s : string) : option Z :=
  match strip s with
  | String "-"%char s' => option_map Z.opp (digits s' 0 false)
  | String "+"%char s' => digits s' 0 false
  | s' => digits s' 0 false
  end.

(** [dict(pairs).get(k, default)]: the last pair with key [k] wins. *)
Definition dict_get {V : Type} (pairs : list (Z * V)) (k : Z) (default : V) : V :=
  fold_left (fun acc kv => if fst kv =? k then snd kv else acc) pairs default.

(** [getattr(settings, name, default)] *)
Definition getattr {A : Type} (o : option A) (default : A) : A :=
  match o with Some v => v | None => default end.

End Py.

(** ** Models ([core/models.py]) *)

Inductive Status := pending | approved | rejected | expired | cancelled.
Inductive Role := user | manager.
Inductive StudentStatus := normal | blacklist | whitelist.

Definition Status_eqb (a b : Status) : bool :=
  match a, b with
  | pending, pending | approved, approved | rejected, rejected
  | expired, expired | cancelled, cancelled => true
  | _, _ => false
  end.

Definition Role_eqb (a b : Role) : bool :=
  match a, b with
  | user, user | manager, manager => true
  | _, _ => false
  end.

Module Student.
Record t := mk {
  id : Z;
  student_id : string;
  status : StudentStatus;
  role : Role;
  is_auto_created : bool
}.
End Student.

Module Classroom.
Record t := mk {
  id : Z;
  name : string;
  layout : string;
  is_active : bool
}.
End Classroom.

(** One entry of the JSON list kept in [cancelled_seats_info]. *)
Record SeatInfo := mkSeatInfo {
  si_classroom : Z;                 (* the classroom, by key *)
  si_date : date;
  si_time_slot : Z;
  si_seat_row : Z;
  si_seat_col : Z
}.

Module Reservation.
Record t := mk {
  id : Z;
  batch_id : Z;
  student : Z;
  classroom : Z;
  seat_row : Z;
  seat_col : Z;
  date : date;
  time_slot : Z;
  status : Status;
  created_at : datetime;
  is_admin_action : bool;
  cancelled_seats_info : list SeatInfo
}.

Definition set_status (s : Status) (r : t) : t :=
  mk (id r) (batch_id r) (student r) (classroom r) (seat_row r) (seat_col r)
     (date r) (time_slot r) s (created_at r) (is_admin_action r)
     (cancelled_seats_info r).

Definition set_is_admin_action (b : bool) (r : t) : t :=
  mk (id r) (batch_id r) (student r) (classroom r) (seat_row r) (seat_col r)
     (date r) (time_slot r) (status r) (created_at r) b
     (cancelled_seats_info r).
End Reservation.

Module AccessCode.
Record t := mk {
  id : Z;
  classroom : Z;
  date : date;
  time_slot : Z;
  code : string;
  notified : bool
}.

Definition set_notified (b : bool) (a : t) : t :=
  mk (id a) (classroom a) (date a) (time_slot a) (code a) b.
End AccessCode.

(** ** The database *)

Record DB := mkDB {
  students : list Student.t;
  classrooms : list Classroom.t;
  reservations : list Reservation.t;
  access_codes : list AccessCode.t;
  next_id : Z;              (* next primary key of a reservation *)
  next_student_id : Z;
  next_code_id : Z
}.

Definition with_reservations (db : DB) (rs : list Reservation.t) : DB :=
  mkDB (students db) (classrooms db) rs (access_codes db) (next_id db)
       (next_student_id db) (next_code_id db).

(** The seat, date and slot a reservation competes for. *)
Record SeatKey := mkKey {
  k_classroom : Z;
  k_row : Z;
  k_col : Z;
  k_date : date;
  k_slot : Z
}.

Definition key_of (r : Reservation.t) : SeatKey :=
  mkKey (Reservation.classroom r) (Reservation.seat_row r)
        (Reservation.seat_col r) (Reservation.date r) (Reservation.time_slot r).

Definition SeatKey_eqb (a b : SeatKey) : bool :=
  (k_classroom a =? k_classroom b) && (k_row a =? k_row b)
  && (k_col a =? k_col b) && (k_date a =? k_date b) && (k_slot a =? k_slot b).

Definition has_status (s : Status) (r : Reservation.t) : bool :=
  Status_eqb (Reservation.status r) s.

(** [Reservation.objects.filter(classroom=.., seat_row=.., seat_col=..,
    date=.., time_slot=.., status=s)] *)
Definition seat_with_status (k : SeatKey) (s : Status) (r : Reservation.t) : bool :=
  SeatKey_eqb (key_of r) k && has_status s r.

(** ** ORM primitives on the reservation table *)

Definition same_id (a b : Reservation.t) : bool :=
  Reservation.id a =? Reservation.id b.

(** [res.save()]: UPDATE the row with the primary key of [res]; INSERT
    when there is none. *)
Definition save (res : Reservation.t) (rows : list Reservation.t) : list Reservation.t :=
  if existsb (same_id res) rows
  then map (fun x => if same_id res x then res else x) rows
  else rows ++ [res].

(** [queryset.filter(p).update(..)] *)
Definition update_where (p : Reservation.t -> bool)
    (f : Reservation.t -> Reservation.t) (rows : list Reservation.t) :=
  map (fun x => if p x then f x else x) rows.

(** [Reservation.objects.create(..)]: the new row takes the next key. *)
Definition create (db : DB) (mk_row : Z -> Reservation.t) : DB * Reservation.t :=
  let res := mk_row (next_id db) in
  (mkDB (students db) (classrooms db) (reservations db ++ [res])
        (access_codes db) (next_id db + 1) (next_student_id db)
        (next_code_id db), res).

(** [for res in queryset: res.<field> = ..; res.save()] over the rows the
    query returned. *)
Definition save_each (f : Reservation.t -> Reservation.t)
    (queryset : list Reservation.t) (rows : list Reservation.t) :=
  fold_left (fun acc res => save (f res) acc) queryset rows.

(** [queryset.first()] of a query without ordering: the least primary key. *)
Definition first (queryset : list Reservation.t) : option Reservation.t :=
  fold_left (fun acc r =>
               match acc with
               | None => Some r
               | Some a => if Reservation.id r <? Reservation.id a
                           then Some r else Some a
               end) queryset None.

Definition get_student (db : DB) (pk : Z) : option Student.t :=
  find (fun s => Student.id s =? pk) (students db).

Definition classroom_exists (db : DB) (cid : Z) : bool :=
  existsb (fun c => Classroom.id c =? cid) (classrooms db).

(** ** Settings

    [settings.py] is not among the sources: every setting the handlers
    read is a field here, [None] when the module does not define it, so
    that [getattr] falls back to the default written at the call site. *)

Record Settings := {
  TIME_SLOTS : list (Z * string);
  RESERVATION_BOOKING_WINDOW_MINUTES : option Z;
  RESERVATION_MAX_DAYS_AHEAD : option Z;
  RESERVATION_MAX_DAYS_AHEAD_MANAGER : option Z;
  RESERVATION_TIMEOUT_HOURS : option Z;
  RESERVATION_EXPIRE_DAYS : option Z;
  ACCESS_CODE_NOTIFY_MINUTES : option Z;
  ACCESS_CODE_FIXED : option string
}.

(** What a handler can raise. *)
Inductive Exn :=
| ValueError_seat_taken (r c : Z)
| ValueError_invalid_literal
| IntegrityError
| DoesNotExist
| SMTPException
| AttributeError
| IndexError
| ValidationError.

Inductive result (A : Type) :=
| Ok (a : A)
| Raise (e : Exn).
Arguments Ok {A} a.
Arguments Raise {A} e.

(** The e-mails of the application, one constructor per call site of
    [send_mail]: the recipient and the data the text is built from
    (subject and wording are left out). *)
Inductive Mail :=
| mail_application (applicant : Z) (res_ids : list Z)
| mail_cancel_notice (recipient : Z) (seats : list SeatInfo)
| mail_access_code (recipient : Z) (classroom : Z) (d : date) (slot : Z)
    (code : string).

Section Handlers.

Variable settings : Settings.

Definition slot_label (slot : Z) : string :=
  Py.dict_get (TIME_SLOTS settings) slot EmptyString.

(** [h, m = map(int, label.split('-')[0].strip().split(':'))] followed by
    [datetime.time(h, m)]; [None] when any step raises. *)
Definition start_hm (label : string) : option (Z * Z) :=
  match Py.split "-"%char label with
  | first :: _ =>
      match Py.split ":"%char (Py.strip first) with
      | [hs; ms] =>
          match Py.int hs, Py.int ms with
          | Some h, Some m =>
              if (0 <=? h) && (h <=? 23) && (0 <=? m) && (m <=? 59)
              then Some (h, m) else None
          | _, _ => None
          end
      | _ => None
      end
  | [] => None
  end.

(** [get_slot_start_time] of [send_access_codes.py]; the views and
    [cleanup] inline the same steps. *)
Definition get_slot_start_time (d : date) (slot_id : Z) : option datetime :=
  match slot_label slot_id with
  | EmptyString => None
  | label =>
      match start_hm label with
      | Some (h, m) => Some (combine d h m)
      | None => None
      end
  end.

Definition deadline_minutes : Z :=
  Py.getattr (RESERVATION_BOOKING_WINDOW_MINUTES settings) 30.

(** The slot start minus the booking window, when the label parses. *)
Definition slot_deadline (d : date) (slot_id : Z) : option datetime :=
  match get_slot_start_time d slot_id with
  | Some slot_start => Some (slot_start - timedelta_minutes deadline_minutes)
  | None => None
  end.

(** [now >= deadline], [false] when the [try] block is left by [pass]
    or the label is empty. *)
Definition deadline_passed (d : date) (slot_id : Z) (now : datetime) : bool :=
  match slot_deadline d slot_id with
  | Some deadline => now >=? deadline
  | None => false
  end.

(** The booking-window check of [submit] and [admin_booking_view]: the
    deadline when it has been reached, [None] when the code goes on. *)
Definition booking_closed (d : date) (slot_id : Z) (now : datetime) : option datetime :=
  match slot_deadline d slot_id with
  | Some booking_deadline =>
      if now >=? booking_deadline then Some booking_deadline else None
  | None => None
  end.

(** *** [submit] *)

(** The POST fields, parsed: [cid] and [slot] as the integers the ORM and
    [int] make of them, [date] by [strptime], [seats_list] split at the
    commas with each token as [map(int, s.split('-'))] reads it.  The
    queries are given the date as the string it came in: [strptime] reads
    a day padded with a blank, the ORM does not, and a string that both
    read is read as the same day. *)
Record SubmitPost := {
  post_cid : Z;
  post_date : option date;          (* [None]: [strptime] raises *)
  post_orm_date_ok : bool;          (* [false]: the ORM's [DateField] rejects the
                                       string that [strptime] has read *)
  post_slot : Z;
  post_seats_list : list (option (Z * Z))   (* [None]: a token [int] rejects *)
}.

Inductive SubmitMessage :=
| msg_invalid_date
| msg_date_in_past
| msg_date_too_far (max_ahead : Z)
| msg_booking_closed (booking_deadline : datetime)
| msg_no_seats
| msg_pending_limit (current_pending_batches : nat)
| msg_user_single_seat
| msg_user_has_booking
| msg_value_error (e : Exn)
| msg_system_error (e : Exn)
| msg_submitted (n : nat).

Inductive MsgType := type_error | type_success.

Definition MAX_PENDING_BATCHES : nat := 3.

Definition current_pending_batches (db : DB) (student : Student.t) (today : date) : nat :=
  length (nodup Z.eq_dec
    (map Reservation.batch_id
       (filter (fun r => (Reservation.student r =? Student.id student)
                         && has_status pending r
                         && (Reservation.date r >=? today))
               (reservations db)))).

Definition has_booking (db : DB) (student : Student.t) (d : date) (slot : Z) : bool :=
  existsb (fun r => (Reservation.student r =? Student.id student)
                    && (Reservation.date r =? d)
                    && (Reservation.time_slot r =? slot)
                    && (has_status approved r || has_status pending r))
          (reservations db).

Definition is_hard_locked (db : DB) (k : SeatKey) : bool :=
  existsb (seat_with_status k approved) (reservations db).

Definition new_pending (student cid r c : Z) (d : date) (slot batch : Z)
    (now : datetime) (pk : Z) : Reservation.t :=
  Reservation.mk pk batch student cid r c d slot pending now false [].

(** The body of the [for s in seats_list] loop inside
    [transaction.atomic()]. *)
Fixpoint create_batch (db : DB) (student cid : Z) (d : date) (slot batch : Z)
    (now : datetime) (seats_list : list (option (Z * Z)))
    (new_reservations : list Reservation.t)
    : result (DB * list Reservation.t) :=
  match seats_list with
  | [] => Ok (db, new_reservations)
  | None :: _ => Raise ValueError_invalid_literal
  | Some (r, c) :: rest =>
      if is_hard_locked db (mkKey cid r c d slot)
      then Raise (ValueError_seat_taken r c)
      else
        let (db', res) := create db (new_pending student cid r c d slot batch now) in
        create_batch db' student cid d slot batch now rest (new_reservations ++ [res])
  end.

(** The loop with the date as the string of the request: when the ORM
    rejects it, the first query raises, after the token has been read. *)
Definition create_batch_str (db : DB) (student cid : Z) (d : date)
    (orm_date_ok : bool) (slot batch : Z) (now : datetime)
    (seats_list : list (option (Z * Z))) : result (DB * list Reservation.t) :=
  if orm_date_ok then create_batch db student cid d slot batch now seats_list []
  else match seats_list with
       | [] => Ok (db, [])
       | None :: _ => Raise ValueError_invalid_literal
       | Some _ :: _ => Raise ValidationError
       end.

(** Leaving the [atomic] block commits; the foreign key to the classroom
    is checked then (Django declares it deferred). *)
Definition commit_fk (cid : Z) (r : result (DB * list Reservation.t))
    : result (DB * list Reservation.t) :=
  match r with
  | Ok (db', rows) =>
      if classroom_exists db' cid then Ok (db', rows) else Raise IntegrityError
  | Raise e => Raise e
  end.

Record SubmitEnv := {
  env_today : date;              (* [datetime.date.today()] *)
  env_now : datetime;            (* [datetime.datetime.now()] *)
  env_uuid4 : Z;                 (* [uuid.uuid4()] *)
  env_send_mail : Mail -> bool   (* [false]: [send_mail] raises *)
}.

(** How many days ahead the role may book. *)
Definition max_ahead (student : Student.t) : Z :=
  match Student.role student with
  | manager => Py.getattr (RESERVATION_MAX_DAYS_AHEAD_MANAGER settings) 7
  | user => Py.getattr (RESERVATION_MAX_DAYS_AHEAD settings) 2
  end.

Definition submit (db : DB) (sid : Z) (post : SubmitPost) (env : SubmitEnv)
    : DB * (SubmitMessage * MsgType) * list Mail :=
  match get_student db sid with
  | None => (db, (msg_system_error DoesNotExist, type_error), [])
  | Some student =>
  match post_date post with
  | None => (db, (msg_invalid_date, type_error), [])
  | Some req_date =>
  let today := env_today env in
  if req_date <? today then (db, (msg_date_in_past, type_error), [])
  else if req_date >? today + max_ahead student
  then (db, (msg_date_too_far (max_ahead student), type_error), [])
  else
  match booking_closed req_date (post_slot post) (env_now env) with
  | Some booking_deadline =>
      (db, (msg_booking_closed booking_deadline, type_error), [])
  | None =>
  match post_seats_list post with
  | [] => (db, (msg_no_seats, type_error), [])
  | seats_list =>
  let n := current_pending_batches db student today in
  if (MAX_PENDING_BATCHES <=? n)%nat
  then (db, (msg_pending_limit n, type_error), [])
  else if Role_eqb (Student.role student) user
          && (1 <? length seats_list)%nat
  then (db, (msg_user_single_seat, type_error), [])
  else if Role_eqb (Student.role student) user
          && negb (post_orm_date_ok post)
  then (db, (msg_system_error ValidationError, type_error), [])
  else if Role_eqb (Student.role student) user
          && has_booking db student req_date (post_slot post)
  then (db, (msg_user_has_booking, type_error), [])
  else
  match commit_fk (post_cid post)
          (create_batch_str db (Student.id student) (post_cid post) req_date
             (post_orm_date_ok post) (post_slot post) (env_uuid4 env) (env_now env)
             seats_list)
  with
  | Raise (ValueError_seat_taken r c) =>
      (db, (msg_value_error (ValueError_seat_taken r c), type_error), [])
  | Raise ValueError_invalid_literal =>
      (db, (msg_value_error ValueError_invalid_literal, type_error), [])
  | Raise e => (db, (msg_system_error e, type_error), [])
  | Ok (db', new_reservations) =>
      let mail := mail_application (Student.id student)
                    (map Reservation.id new_reservations) in
      if env_send_mail env mail
      then (db', (msg_submitted (length new_reservations), type_success), [mail])
      else (db', (msg_system_error SMTPException, type_error), [mail])
  end end end end end.

(** *** [admin_action], the branch [type_code == 'res'] *)

Inductive Action := act_approve | act_reject | act_other.

Inductive AdminActionResponse :=
| resp_invalid_link
| resp_skipped_cancelled (cancelled_count : nat)
| resp_skipped_expired (n : nat)
| resp_already_handled
| resp_auto_expired (expired_count : nat)
| resp_done (success_count auto_reject_count expired_count cancelled_count : nat).

(** The deadline loop over [target_res]; each [save] is committed at once. *)
Fixpoint expire_overdue (now : datetime) (target_res : list Reservation.t)
    (rows : list Reservation.t) (valid_res : list Reservation.t)
    (expired_count : nat)
    : list Reservation.t * list Reservation.t * nat :=
  match target_res with
  | [] => (rows, valid_res, expired_count)
  | res :: rest =>
      if deadline_passed (Reservation.date res) (Reservation.time_slot res) now
      then expire_overdue now rest
             (save (Reservation.set_status expired res) rows)
             valid_res (S expired_count)
      else expire_overdue now rest rows (valid_res ++ [res]) expired_count
  end.

(** [competitors]: pending rows of the same seat, date and slot, without
    [res] itself. *)
Definition competitors (res : Reservation.t) (x : Reservation.t) : bool :=
  seat_with_status (key_of res) pending x && negb (same_id res x).

(** The loop over [valid_res] inside [transaction.atomic()]. *)
Fixpoint review (action : Action) (valid_res : list Reservation.t)
    (rows : list Reservation.t) (success_count auto_reject_count : nat)
    : list Reservation.t * nat * nat :=
  match valid_res with
  | [] => (rows, success_count, auto_reject_count)
  | res :: rest =>
      match action with
      | act_approve =>
          let is_taken := existsb (seat_with_status (key_of res) approved) rows in
          if is_taken
          then review action rest (save (Reservation.set_status rejected res) rows)
                 success_count auto_reject_count
          else
            let rows1 := save (Reservation.set_status approved res) rows in
            let c_cnt := length (filter (competitors res) rows1) in
            review action rest
              (update_where (competitors res) (Reservation.set_status rejected) rows1)
              (S success_count) (auto_reject_count + c_cnt)
      | act_reject =>
          review action rest (save (Reservation.set_status rejected res) rows)
            (S success_count) auto_reject_count
      | act_other => review action rest rows success_count auto_reject_count
      end
  end.

(** [token]: the ids and the action the signed link carries, [None] when
    [unsign] raises. *)
Definition admin_action (db : DB) (token : option (list Z * Action))
    (now : datetime) : DB * AdminActionResponse :=
  match token with
  | None => (db, resp_invalid_link)
  | Some (ids, action) =>
  let all_found :=
    filter (fun r => existsb (Z.eqb (Reservation.id r)) ids) (reservations db) in
  let cancelled_count := length (filter (has_status cancelled) all_found) in
  let target_res := filter (has_status pending) all_found in
  match target_res with
  | [] =>
      if (0 <? cancelled_count)%nat then (db, resp_skipped_cancelled cancelled_count)
      else match filter (has_status expired) all_found with
           | [] => (db, resp_already_handled)
           | exp => (db, resp_skipped_expired (length exp))
           end
  | _ =>
  match expire_overdue now target_res (reservations db) [] 0 with
  | (rows1, valid_res, expired_count) =>
  match valid_res with
  | [] =>
      if (0 <? expired_count)%nat
      then (with_reservations db rows1, resp_auto_expired expired_count)
      else if (0 <? cancelled_count)%nat
      then (with_reservations db rows1, resp_skipped_cancelled cancelled_count)
      else (with_reservations db rows1, resp_already_handled)
  | _ =>
  match review action valid_res rows1 0 0 with
  | (rows2, success_count, auto_reject_count) =>
      (with_reservations db rows2,
       resp_done success_count auto_reject_count expired_count cancelled_count)
  end end end end end.

(** *** [cancel_booking] *)

Inductive Flash :=
| warning_nothing_to_cancel
| error_cancel_closed (cancel_deadline : datetime)
| success_cancelled (cnt : nat)
| error_mail_failed (recipient : Z)
| success_admin_cancelled (total pending_cancelled email_sent_count : nat)
| warning_cannot_cancel (n : nat)
| warning_not_found
| error_booking_closed (booking_deadline : option datetime)
| error_no_student_id
| warning_account_created (target_sid : string)
| error_blacklisted (target_sid : string)
| success_booked (created_count : nat)
| warning_none_booked
| error_failed (e : Exn).

Inductive CancelResponse :=
| redirect_index
| redirect_my_bookings (messages : list Flash)
| server_error (e : Exn).

Definition cancellable (batch_id : Z) (student : Student.t) (r : Reservation.t) : bool :=
  (Reservation.batch_id r =? batch_id)
  && (Reservation.student r =? Student.id student)
  && (has_status pending r || has_status approved r).

Definition cancel_by_user (r : Reservation.t) : Reservation.t :=
  Reservation.set_is_admin_action false (Reservation.set_status cancelled r).

(** [sid]: the session's student key, [None] when the session holds none
    (keys start at 1, so a stored key is never falsy); [is_post]: the
    request method. *)
Definition cancel_booking (db : DB) (sid : option Z) (is_post : bool)
    (batch_id : Z) (now : datetime) : DB * CancelResponse :=
  match sid with
  | None => (db, redirect_index)
  | Some sid =>
  if negb is_post then (db, redirect_my_bookings [])
  else
  match get_student db sid with
  | None => (db, server_error DoesNotExist)
  | Some student =>
  let qs := filter (cancellable batch_id student) (reservations db) in
  match first qs with
  | None => (db, redirect_my_bookings [warning_nothing_to_cancel])
  | Some first_res =>
  match booking_closed (Reservation.date first_res)
          (Reservation.time_slot first_res) now with
  | Some cancel_deadline =>
      (db, redirect_my_bookings [error_cancel_closed cancel_deadline])
  | None =>
      let cnt := length qs in
      (with_reservations db (save_each cancel_by_user qs (reservations db)),
       redirect_my_bookings
         [if (0 <? cnt)%nat then success_cancelled cnt
          else warning_nothing_to_cancel])
  end end end end.

(** *** The [cleanup] command *)

Definition timeout_hours : Z := Py.getattr (RESERVATION_TIMEOUT_HOURS settings) 24.
Definition expire_days : Z := Py.getattr (RESERVATION_EXPIRE_DAYS settings) 1.

(** Step 0: the pending rows of today and later, expired one by one. *)
Definition expire_past_deadline (now : datetime) (today : date)
    (rows : list Reservation.t) : list Reservation.t * nat :=
  let pending_reservations :=
    filter (fun r => has_status pending r && (Reservation.date r >=? today)) rows in
  fold_left
    (fun acc res =>
       if deadline_passed (Reservation.date res) (Reservation.time_slot res) now
       then (save (Reservation.set_status expired res) (fst acc), S (snd acc))
       else acc)
    pending_reservations (rows, 0%nat).

Definition timed_out (now : datetime) (r : Reservation.t) : bool :=
  has_status pending r
  && (Reservation.created_at r <? now - timedelta_hours timeout_hours).

Definition date_passed (today : date) (r : Reservation.t) : bool :=
  has_status pending r && (Reservation.date r <=? today - expire_days).

(** [Command.handle]: the new table and the three counters it prints;
    [today] stands for both reads of [datetime.date.today()]. *)
Definition cleanup (db : DB) (now : datetime) (today : date) : DB * (nat * nat * nat) :=
  let (rows0, deadline_expired) := expire_past_deadline now today (reservations db) in
  let expired_pending := length (filter (timed_out now) rows0) in
  let rows1 := update_where (timed_out now) (Reservation.set_status expired) rows0 in
  let expired_date := length (filter (date_passed today) rows1) in
  let rows2 := update_where (date_passed today) (Reservation.set_status expired) rows1 in
  (with_reservations db rows2, (deadline_expired, expired_pending, expired_date)).

(** *** The staff pages [admin_booking_view] and [admin_cancel_view] *)

(** The [date] of the query string.  The view reads it with [strptime];
    the queries of [admin_booking_view] hand the string itself to the ORM,
    whose [DateField] reads it in its own way: the two agree on a date
    written [YYYY-MM-DD], [strptime] alone reads a day padded with a
    blank, the ORM alone reads an ISO date without dashes. *)
Inductive DateParam :=
| date_absent                 (* no [date] in the query string: today *)
| date_invalid                (* [strptime] raises and the ORM rejects it *)
| date_ok (d : date)          (* both read [d] *)
| date_orm_only (d : date)    (* [strptime] raises, the ORM reads [d] *)
| date_strptime_only (d : date).  (* [strptime] reads [d], the ORM rejects it *)

Record AdminGet := {
  get_classroom_id : option Z;
  get_date : DateParam;
  get_slot : option Z           (* [None]: absent, or [int] raises *)
}.

Inductive AdminResponse :=
| admin_login_required
| admin_no_classroom
| admin_not_found
| admin_server_error (e : Exn)
| admin_redirect (messages : list Flash)
| admin_render (messages : list Flash).

Definition starts_after (today : date) (now : datetime) (sl : Z * string) : bool :=
  match start_hm (snd sl) with
  | Some (h, m) => combine today h m >? now
  | None => false
  end.

(** The default slot of the three grid pages. *)
Definition choose_slot (slot_param : option Z) (req_date_obj today : date)
    (now : datetime) : result Z :=
  match slot_param with
  | Some slot_id => Ok slot_id
  | None =>
      if req_date_obj =? today then
        match find (starts_after today now) (TIME_SLOTS settings) with
        | Some sl => Ok (fst sl)
        | None =>
            match rev (TIME_SLOTS settings) with
            | sl :: _ => Ok (fst sl)
            | [] => Raise IndexError
            end
        end
      else
        match TIME_SLOTS settings with
        | sl :: _ => Ok (fst sl)
        | [] => Raise IndexError
        end
  end.

Definition req_date_of (p : DateParam) (today : date) : date :=
  match p with
  | date_ok d | date_strptime_only d => d
  | date_absent | date_invalid | date_orm_only _ => today
  end.

(** The date the ORM receives as [date=date_str]; [None] when it rejects
    the string. *)
Definition orm_date (p : DateParam) (today : date) : option date :=
  match p with
  | date_ok d | date_orm_only d => Some d
  | date_absent => Some today
  | date_invalid | date_strptime_only _ => None
  end.

(** [get_object_or_404(Classroom, id=cls_id) if cls_id else classrooms.first()];
    the classroom table is kept in primary-key order. *)
Definition current_classroom (db : DB) (cls_id : option Z) : option Classroom.t :=
  match cls_id with
  | Some cid => find (fun c => Classroom.id c =? cid) (classrooms db)
  | None => hd_error (filter Classroom.is_active (classrooms db))
  end.

(** [Student.objects.get_or_create(student_id=.., defaults=..)] *)
Definition get_or_create_student (db : DB) (target_sid : string)
    : DB * Student.t * bool :=
  match find (fun s => String.eqb (Student.student_id s) target_sid) (students db) with
  | Some s => (db, s, false)
  | None =>
      let s := Student.mk (next_student_id db) target_sid normal user true in
      (mkDB (students db ++ [s]) (classrooms db) (reservations db)
            (access_codes db) (next_id db) (next_student_id db + 1)
            (next_code_id db), s, true)
  end.

Definition new_approved (student cid r c : Z) (d : date) (slot batch : Z)
    (now : datetime) (pk : Z) : Reservation.t :=
  Reservation.mk pk batch student cid r c d slot approved now true [].

(** The loop of [admin_booking_view] inside [transaction.atomic()]. *)
Fixpoint book_seats (db : DB) (student cid : Z) (d : option date) (slot batch : Z)
    (now : datetime) (seats_list : list (option (Z * Z))) (created_count : nat)
    : result (DB * nat) :=
  match seats_list with
  | [] => Ok (db, created_count)
  | None :: _ => Raise ValueError_invalid_literal
  | Some (r, c) :: rest =>
      match d with
      | None => Raise ValidationError
      | Some d' =>
          let k := mkKey cid r c d' slot in
          let is_taken := existsb (seat_with_status k approved) (reservations db) in
          if is_taken
          then book_seats db student cid d slot batch now rest created_count
          else
            let db1 := with_reservations db
                         (update_where (seat_with_status k pending)
                            (Reservation.set_status rejected) (reservations db)) in
            let (db2, _) := create db1 (new_approved student cid r c d' slot batch now) in
            book_seats db2 student cid d slot batch now rest (S created_count)
      end
  end.

Record AdminEnv := {
  adm_today : date;
  adm_now : datetime;
  adm_uuid4 : Z -> Z;            (* the uuid drawn for a given student *)
  adm_send_mail : Mail -> bool   (* [false]: [send_mail] raises *)
}.

(** What [admin_booking_view] answers once its handler has caught an
    exception: it goes on to draw the grid, and the query for the records
    of the grid is given the date string; when the ORM rejects the string,
    [filter] raises outside every handler. *)
Definition render_after_failure (p : DateParam) (today : date)
    (messages : list Flash) : AdminResponse :=
  match orm_date p today with
  | Some _ => admin_render messages
  | None => admin_server_error ValidationError
  end.

(** The POST branch of [admin_booking_view]; the student [get_or_create]
    has made is kept when the transaction of the seats rolls back. *)
Definition admin_booking_view (db : DB) (is_staff : bool) (q : AdminGet)
    (target_student_id : option string)
    (seats_str : option (list (option (Z * Z)))) (env : AdminEnv)
    : DB * AdminResponse :=
  if negb is_staff then (db, admin_login_required)
  else
  let today := adm_today env in
  let req_date_obj := req_date_of (get_date q) today in
  match choose_slot (get_slot q) req_date_obj today (adm_now env) with
  | Raise e => (db, admin_server_error e)
  | Ok slot_id =>
  match filter Classroom.is_active (classrooms db) with
  | [] => (db, admin_no_classroom)
  | _ =>
  match current_classroom db (get_classroom_id q) with
  | None => (db, admin_not_found)
  | Some curr_cls =>
  match booking_closed req_date_obj slot_id (adm_now env) with
  | Some booking_deadline =>
      (db, admin_redirect [error_booking_closed (Some booking_deadline)])
  | None =>
  match target_student_id with
  | None | Some EmptyString => (db, admin_redirect [error_no_student_id])
  | Some target_sid =>
  match get_or_create_student db target_sid with
  | (db0, target_student, created) =>
  let created_msg := if created then [warning_account_created target_sid] else [] in
  match Student.status target_student with
  | blacklist =>
      (db0, admin_redirect (created_msg ++ [error_blacklisted target_sid]))
  | _ =>
  match seats_str with
  | None =>
      (db0, render_after_failure (get_date q) today
              (created_msg ++ [error_failed AttributeError]))
  | Some seats_list =>
  match book_seats db0 (Student.id target_student) (Classroom.id curr_cls)
          (orm_date (get_date q) today) slot_id
          (adm_uuid4 env (Student.id target_student)) (adm_now env) seats_list 0
  with
  | Raise e =>
      (db0, render_after_failure (get_date q) today (created_msg ++ [error_failed e]))
  | Ok (db1, created_count) =>
      (db1, admin_redirect
              (created_msg ++
               [if (0 <? created_count)%nat then success_booked created_count
                else warning_none_booked]))
  end end end end end end end end end.

(** [pending_seats_to_cancel]: a set of seat keys; it is walked in the
    order of first insertion (the rows of two different keys are disjoint,
    so the order of the walk does not show in the table). *)
Fixpoint add_key (k : SeatKey) (keys : list SeatKey) : list SeatKey :=
  match keys with
  | [] => [k]
  | k' :: rest => if SeatKey_eqb k' k then keys else k' :: add_key k rest
  end.

(** For each seat, every pending row competing for it is loaded and saved
    as cancelled. *)
Definition cancel_competing (keys : list SeatKey) (rows : list Reservation.t)
    : list Reservation.t * nat :=
  fold_left
    (fun acc k =>
       let competing_reservations := filter (seat_with_status k pending) (fst acc) in
       (save_each (Reservation.set_status cancelled) competing_reservations (fst acc),
        (snd acc + length competing_reservations)%nat))
    keys (rows, 0%nat).

(** [student_reservations]: a dict from the student's key to the rows, in
    insertion order. *)
Fixpoint group_add (res : Reservation.t) (groups : list (Z * list Reservation.t))
    : list (Z * list Reservation.t) :=
  match groups with
  | [] => [(Reservation.student res, [res])]
  | (stu_id, rs) :: rest =>
      if stu_id =? Reservation.student res then (stu_id, rs ++ [res]) :: rest
      else (stu_id, rs) :: group_add res rest
  end.

Definition group_by_student (l : list Reservation.t) : list (Z * list Reservation.t) :=
  fold_left (fun groups res => group_add res groups) l [].

Definition seat_info (res : Reservation.t) : SeatInfo :=
  mkSeatInfo (Reservation.classroom res) (Reservation.date res)
    (Reservation.time_slot res) (Reservation.seat_row res) (Reservation.seat_col res).

Definition cancel_record (first_res : Reservation.t) (stu_id batch : Z)
    (info : list SeatInfo) (now : datetime) (pk : Z) : Reservation.t :=
  Reservation.mk pk batch stu_id (Reservation.classroom first_res)
    (Reservation.seat_row first_res) (Reservation.seat_col first_res)
    (Reservation.date first_res) (Reservation.time_slot first_res)
    cancelled now true info.

Record CancelAcc := {
  acc_db : DB;
  acc_approved_cancelled : nat;
  acc_email_sent_count : nat;
  acc_messages : list Flash;
  acc_outbox : list Mail          (* every call of [send_mail], in order *)
}.

(** One student of [student_reservations]: the rows are saved as
    cancelled, one cancellation record is created, one mail is sent; when
    [send_mail] raises, the handler adds an error message and goes on. *)
Definition cancel_for_student (env : AdminEnv) (acc : CancelAcc)
    (group : Z * list Reservation.t) : CancelAcc :=
  let (stu_id, reservations_) := group in
  match reservations_ with
  | [] => acc
  | first_res :: _ =>
      let db := acc_db acc in
      let rows := save_each (Reservation.set_status cancelled) reservations_
                    (reservations db) in
      let seats_info_list := map seat_info reservations_ in
      let (db', _) := create (with_reservations db rows)
                        (cancel_record first_res stu_id (adm_uuid4 env stu_id)
                           seats_info_list (adm_now env)) in
      let mail := mail_cancel_notice stu_id seats_info_list in
      if adm_send_mail env mail
      then Build_CancelAcc db'
             (acc_approved_cancelled acc + length reservations_)
             (S (acc_email_sent_count acc)) (acc_messages acc)
             (acc_outbox acc ++ [mail])
      else Build_CancelAcc db'
             (acc_approved_cancelled acc + length reservations_)
             (acc_email_sent_count acc)
             (acc_messages acc ++ [error_mail_failed stu_id])
             (acc_outbox acc ++ [mail])
  end.

(** The POST branch of [admin_cancel_view]; [reservation_ids] is the
    parsed field of that name, [None] when it is empty. *)
Definition admin_cancel_view (db : DB) (is_staff : bool) (q : AdminGet)
    (reservation_ids : option (list Z)) (env : AdminEnv)
    : DB * AdminResponse * list Mail :=
  if negb is_staff then (db, admin_login_required, [])
  else
  let today := adm_today env in
  let req_date_obj := req_date_of (get_date q) today in
  match choose_slot (get_slot q) req_date_obj today (adm_now env) with
  | Raise e => (db, admin_server_error e, [])
  | Ok slot_id =>
  match filter Classroom.is_active (classrooms db) with
  | [] => (db, admin_no_classroom, [])
  | _ =>
  match current_classroom db (get_classroom_id q) with
  | None => (db, admin_not_found, [])
  | Some curr_cls =>
  let can_cancel := negb (deadline_passed req_date_obj slot_id (adm_now env)) in
  match reservation_ids with
  | None => (db, admin_redirect [], [])
  | Some res_ids =>
  let reservations_to_cancel :=
    filter (fun r => existsb (Z.eqb (Reservation.id r)) res_ids
                     && (has_status pending r || has_status approved r))
           (reservations db) in
  match reservations_to_cancel with
  | [] => (db, admin_redirect [warning_not_found], [])
  | _ =>
  let pending_list := filter (has_status pending) reservations_to_cancel in
  let approved_list :=
    filter (fun r => has_status approved r && can_cancel) reservations_to_cancel in
  let approved_cannot_cancel :=
    filter (fun r => has_status approved r && negb can_cancel) reservations_to_cancel in
  let pending_seats_to_cancel :=
    fold_left (fun keys res => add_key (key_of res) keys) pending_list [] in
  let (rows1, pending_cancelled) :=
    cancel_competing pending_seats_to_cancel (reservations db) in
  let acc :=
    fold_left (cancel_for_student env) (group_by_student approved_list)
      (Build_CancelAcc (with_reservations db rows1) 0 0 [] []) in
  let total_cancelled := (pending_cancelled + acc_approved_cancelled acc)%nat in
  let done_msg :=
    if (0 <? total_cancelled)%nat
    then [success_admin_cancelled total_cancelled pending_cancelled
            (acc_email_sent_count acc)]
    else [] in
  let late_msg :=
    match approved_cannot_cancel with
    | [] => []
    | _ => [warning_cannot_cancel (length approved_cannot_cancel)]
    end in
  (acc_db acc, admin_redirect (acc_messages acc ++ done_msg ++ late_msg),
   acc_outbox acc)
  end end end end end.

(** *** [ReservationAdmin.cancel_reservations] ([core/admin.py]) *)

(** [selected]: the keys of the rows ticked in the change list.  The
    change list hands the action its queryset ordered by [-pk], the order
    it gives itself when no other is asked for: the rows of the table,
    which is kept in key order, are walked from the last to the first.
    The groups of [student_reservations], their first rows, the keys of
    the cancellation records and the order of the mails follow that
    walk. *)
Definition cancel_reservations (db : DB) (selected : list Z) (env : AdminEnv)
    : DB * list Flash * list Mail :=
  let valid_reservations :=
    rev (filter (fun r => existsb (Z.eqb (Reservation.id r)) selected
                          && (has_status pending r || has_status approved r))
                (reservations db)) in
  match valid_reservations with
  | [] => (db, [warning_nothing_to_cancel], [])
  | _ =>
  let late r := deadline_passed (Reservation.date r) (Reservation.time_slot r)
                  (adm_now env) in
  let pending_reservations := filter (has_status pending) valid_reservations in
  let approved_can_cancel :=
    filter (fun r => has_status approved r && negb (late r)) valid_reservations in
  let approved_cannot_cancel :=
    filter (fun r => has_status approved r && late r) valid_reservations in
  let late_msg :=
    match approved_cannot_cancel with
    | [] => []
    | _ => [warning_cannot_cancel (length approved_cannot_cancel)]
    end in
  let pending_seats_to_cancel :=
    fold_left (fun keys res => add_key (key_of res) keys) pending_reservations [] in
  let (rows1, pending_cancelled) :=
    cancel_competing pending_seats_to_cancel (reservations db) in
  match approved_can_cancel with
  | [] =>
      (with_reservations db rows1,
       late_msg ++ (if (0 <? pending_cancelled)%nat
                    then [success_admin_cancelled pending_cancelled pending_cancelled 0]
                    else []),
       [])
  | _ =>
  let acc :=
    fold_left (cancel_for_student env) (group_by_student approved_can_cancel)
      (Build_CancelAcc (with_reservations db rows1) 0 0 [] []) in
  (acc_db acc,
   late_msg ++ acc_messages acc ++
   [success_admin_cancelled (pending_cancelled + acc_approved_cancelled acc)
      pending_cancelled (acc_email_sent_count acc)],
   acc_outbox acc)
  end end.

(** *** [ReservationAdminForm] ([core/admin.py]) *)

Record ReservationForm := {
  f_student : Z;
  f_classroom : Z;
  f_row_input : Z;
  f_col_input : Z;
  f_date : date;
  f_time_slot : Z;
  f_status : Status;
  f_cancelled_seats_info : list SeatInfo
}.

Inductive FormError :=
| err_field                    (* a field of the form does not validate *)
| err_row_out_of_range
| err_col_out_of_range
| err_aisle
| err_seat_taken
| err_not_found.               (* no row with that key: the site redirects *)

Definition string_in_range (s : string) (i : Z) : option ascii :=
  if i <? 0 then None else String.get (Z.to_nat i) s.

(** [ReservationAdminForm.clean]: the 0-based seat, or the error raised. *)
Definition clean (db : DB) (instance : Reservation.t) (f : ReservationForm)
    : FormError + (Z * Z) :=
  match find (fun c => Classroom.id c =? f_classroom f) (classrooms db),
        get_student db (f_student f) with
  | Some classroom, Some _ =>
      if (f_row_input f <? 1) || (f_col_input f <? 1)
         || negb (existsb (fun sl => fst sl =? f_time_slot f) (TIME_SLOTS settings))
      then inl err_field
      else
      let real_r := f_row_input f - 1 in
      let real_c := f_col_input f - 1 in
      let layout_lines := Py.split "010"%char (Py.strip (Classroom.layout classroom)) in
      match nth_error layout_lines (Z.to_nat real_r) with
      | None => inl err_row_out_of_range
      | Some line =>
          let row_str := Py.strip line in
          match string_in_range row_str real_c with
          | None => inl err_col_out_of_range
          | Some ch =>
              if Ascii.eqb ch "0"%char then inl err_aisle
              else
                let k := mkKey (f_classroom f) real_r real_c (f_date f) (f_time_slot f) in
                let conflicts x :=
                  SeatKey_eqb (key_of x) k
                  && (has_status approved x || has_status pending x)
                  && negb (same_id instance x) in
                if existsb (fun x => conflicts x && has_status approved x)
                     (reservations db)
                then inl err_seat_taken
                else inr (real_r, real_c)
          end
      end
  | _, _ => inl err_field
  end.

Definition form_instance (instance : Reservation.t) (f : ReservationForm)
    (seat : Z * Z) : Reservation.t :=
  Reservation.mk (Reservation.id instance) (Reservation.batch_id instance)
    (f_student f) (f_classroom f) (fst seat) (snd seat) (f_date f)
    (f_time_slot f) (f_status f) (Reservation.created_at instance) true
    (f_cancelled_seats_info f).

(** [ReservationAdminForm.save(commit)]; with [commit] the row is saved
    and the pending rows of the same seat other than the instance are
    rejected. *)
Definition form_save (db : DB) (instance : Reservation.t) (f : ReservationForm)
    (seat : Z * Z) (commit : bool) : DB * Reservation.t :=
  let inst := form_instance instance f seat in
  if commit then
    let rows1 := save inst (reservations db) in
    let k := mkKey (f_classroom f) (fst seat) (snd seat) (f_date f) (f_time_slot f) in
    let pending_conflicts x :=
      SeatKey_eqb (key_of x) k
      && (has_status approved x || has_status pending x)
      && negb (same_id instance x) && has_status pending x in
    (with_reservations db
       (update_where pending_conflicts (Reservation.set_status rejected) rows1),
     inst)
  else (db, inst).

(** The change page of the admin site: the form is validated, saved with
    [commit=False], and the object is saved by the site ([commit] is a
    parameter here so that a direct [form.save()] is covered as well). *)
Definition admin_change (db : DB) (pk : Z) (f : ReservationForm) (commit : bool)
    : DB * option FormError :=
  match find (fun r => Reservation.id r =? pk) (reservations db) with
  | None => (db, Some err_not_found)
  | Some instance =>
      match clean db instance f with
      | inl e => (db, Some e)
      | inr seat =>
          let (db1, inst) := form_save db instance f seat commit in
          if commit then (db1, None)
          else (with_reservations db1 (save inst (reservations db1)), None)
      end
  end.

(** *** The [send_access_codes] command *)

Definition notify_minutes : Z := Py.getattr (ACCESS_CODE_NOTIFY_MINUTES settings) 15.

(** [generate_access_code]; [random_digits] is what [random.choices]
    draws. *)
Definition generate_access_code (random_digits : string) : string :=
  match ACCESS_CODE_FIXED settings with
  | Some EmptyString | None => random_digits
  | Some fixed_code => fixed_code
  end.

Definition code_for (classroom : Z) (d : date) (slot_id : Z) (a : AccessCode.t) : bool :=
  (AccessCode.classroom a =? classroom) && (AccessCode.date a =? d)
  && (AccessCode.time_slot a =? slot_id).

(** [AccessCode.objects.get_or_create(classroom=.., date=.., time_slot=..,
    defaults={'code': .., 'notified': False})] *)
Definition get_or_create_code (db : DB) (classroom : Z) (d : date) (slot_id : Z)
    (code : string) : DB * AccessCode.t :=
  match find (code_for classroom d slot_id) (access_codes db) with
  | Some a => (db, a)
  | None =>
      let a := AccessCode.mk (next_code_id db) classroom d slot_id code false in
      (mkDB (students db) (classrooms db) (reservations db)
            (access_codes db ++ [a]) (next_id db) (next_student_id db)
            (next_code_id db + 1), a)
  end.

(** [access_code_obj.notified = True; access_code_obj.save()] *)
Definition mark_notified (db : DB) (a : AccessCode.t) : DB :=
  mkDB (students db) (classrooms db) (reservations db)
       (map (fun x => if AccessCode.id x =? AccessCode.id a
                      then AccessCode.set_notified true a else x)
            (access_codes db))
       (next_id db) (next_student_id db) (next_code_id db).

(** The keys of [student_seats], in insertion order. *)
Fixpoint add_student (stu_id : Z) (l : list Z) : list Z :=
  match l with
  | [] => [stu_id]
  | x :: rest => if x =? stu_id then l else x :: add_student stu_id rest
  end.

Definition approved_for (classroom : Z) (d : date) (slot_id : Z) (r : Reservation.t) : bool :=
  (Reservation.classroom r =? classroom) && (Reservation.date r =? d)
  && (Reservation.time_slot r =? slot_id) && has_status approved r.

Record NotifyEnv := {
  ne_now : datetime;
  ne_dry_run : bool;
  ne_random : Z -> Z -> string;   (* the digits drawn for a classroom and slot *)
  ne_send_mail : Mail -> bool     (* [false]: [send_mail] raises *)
}.

Record NotifyAcc := {
  na_db : DB;
  na_outbox : list Mail;          (* every call of [send_mail], in order *)
  na_total_sent : nat
}.

(** The body of [for classroom in classrooms]. *)
Definition notify_classroom (env : NotifyEnv) (today : date) (slot_id : Z)
    (acc : NotifyAcc) (classroom : Classroom.t) : NotifyAcc :=
  let cid := Classroom.id classroom in
  let (db1, access_code_obj) :=
    get_or_create_code (na_db acc) cid today slot_id
      (generate_access_code (ne_random env cid slot_id)) in
  if AccessCode.notified access_code_obj
  then Build_NotifyAcc db1 (na_outbox acc) (na_total_sent acc)
  else
    let approved_reservations :=
      filter (approved_for cid today slot_id) (reservations db1) in
    match approved_reservations with
    | [] =>
        Build_NotifyAcc (mark_notified db1 access_code_obj)
          (na_outbox acc) (na_total_sent acc)
    | _ =>
        let student_seats :=
          fold_left (fun l r => add_student (Reservation.student r) l)
            approved_reservations [] in
        if ne_dry_run env
        then Build_NotifyAcc db1 (na_outbox acc) (na_total_sent acc)
        else
          let mails :=
            map (fun stu => mail_access_code stu cid today slot_id
                              (AccessCode.code access_code_obj)) student_seats in
          Build_NotifyAcc (mark_notified db1 access_code_obj)
            (na_outbox acc ++ mails)
            (na_total_sent acc + length (filter (ne_send_mail env) mails))
    end.

(** The body of [for slot_id, slot_label in TIME_SLOTS]. *)
Definition notify_slot (env : NotifyEnv) (today : date) (acc : NotifyAcc)
    (sl : Z * string) : NotifyAcc :=
  let slot_id := fst sl in
  match get_slot_start_time today slot_id with
  | None => acc
  | Some slot_start =>
      let notify_time := slot_start - timedelta_minutes notify_minutes in
      if (notify_time <=? ne_now env) && (ne_now env <? slot_start)
      then fold_left (notify_classroom env today slot_id)
             (filter Classroom.is_active (classrooms (na_db acc))) acc
      else acc
  end.

(** [Command.handle] *)
Definition send_access_codes (db : DB) (env : NotifyEnv) : NotifyAcc :=
  let today := date_of (ne_now env) in
  fold_left (notify_slot env today) (TIME_SLOTS settings)
    (Build_NotifyAcc db [] 0).

End Handlers.

(** ** Properties of the tables that the statements below speak about *)

Definition approved_count (rows : list Reservation.t) (k : SeatKey) : nat :=
  length (filter (seat_with_status k approved) rows).

Definition pending_count (rows : list Reservation.t) (k : SeatKey) : nat :=
  length (filter (seat_with_status k pending) rows).

(** At most one approved reservation per classroom, seat, date and slot. *)
Definition hard_lock_unique (rows : list Reservation.t) : Prop :=
  forall k, (approved_count rows k <= 1)%nat.

(** Primary keys are unique and below the next key to be handed out. *)
Definition wf (db : DB) : Prop :=
  NoDup (map Reservation.id (reservations db))
  /\ Forall (fun r => Reservation.id r < next_id db) (reservations db).

(** The row of the table with a given primary key. *)
Definition row (rows : list Reservation.t) (pk : Z) : option Reservation.t :=
  find (fun r => Reservation.id r =? pk) rows.

Definition submit_db (r : DB * (SubmitMessage * MsgType) * list Mail) : DB := fst (fst r).
Definition submit_msg (r : DB * (SubmitMessage * MsgType) * list Mail) : SubmitMessage :=
  fst (snd (fst r)).
Definition submit_type (r : DB * (SubmitMessage * MsgType) * list Mail) : MsgType :=
  snd (snd (fst r)).


(** The refusals [submit] issues before it opens the transaction. *)
Definition precheck_refusal (m : SubmitMessage) : bool :=
  match m with
  | msg_invalid_date | msg_date_in_past | msg_date_too_far _
  | msg_booking_closed _ | msg_no_seats | msg_pending_limit _
  | msg_user_single_seat | msg_user_has_booking
  | msg_system_error DoesNotExist => true
  | _ => false
  end.




(** The three ways a reservation goes stale for [cleanup]: (a) it is dated
    today or later and its slot start minus the booking window has passed,
    (b) it was created more than RESERVATION_TIMEOUT_HOURS ago, (c) it is
    dated RESERVATION_EXPIRE_DAYS or more days back. *)
Definition stale (settings : Settings) (now : datetime) (today : date)
    (r : Reservation.t) : Prop :=
  (today <= Reservation.date r
   /\ exists slot_start,
        get_slot_start_time settings (Reservation.date r) (Reservation.time_slot r)
          = Some slot_start
        /\ slot_start
             - timedelta_minutes
                 (Py.getattr (RESERVATION_BOOKING_WINDOW_MINUTES settings) 30)
           <= now)
  \/ Reservation.created_at r
       < now - timedelta_hours (Py.getattr (RESERVATION_TIMEOUT_HOURS settings) 24)
  \/ Reservation.date r
       <= today - Py.getattr (RESERVATION_EXPIRE_DAYS settings) 1.

(** [stale] as the three queries of [cleanup] decide it. *)
Definition staleb (settings : Settings) (now : datetime) (today : date)
    (r : Reservation.t) : bool :=
  ((Reservation.date r >=? today)
   && deadline_passed settings (Reservation.date r) (Reservation.time_slot r) now)
  || (Reservation.created_at r <? now - timedelta_hours (timeout_hours settings))
  || (Reservation.date r <=? today - expire_days settings).

(** What one run of [cleanup] does to a row. *)
Definition cleaned (settings : Settings) (now : datetime) (today : date)
    (r r' : Reservation.t) : Prop :=
  (Reservation.status r = pending /\ stale settings now today r
   /\ r' = Reservation.set_status expired r)
  \/ (~ (Reservation.status r = pending /\ stale settings now today r) /\ r' = r).

(** The reservations [cancel_booking] is about: those of the batch that
    belong to the student and are pending or approved. *)
Definition in_batch (batch_id : Z) (student : Student.t) (r : Reservation.t) : Prop :=
  Reservation.batch_id r = batch_id
  /\ Reservation.student r = Student.id student
  /\ (Reservation.status r = pending \/ Reservation.status r = approved).

(** What a cancellation by the student does to a row. *)
Definition user_cancelled (batch_id : Z) (student : Student.t)
    (r r' : Reservation.t) : Prop :=
  (in_batch batch_id student r
   /\ r' = Reservation.set_is_admin_action false (Reservation.set_status cancelled r))
  \/ (~ in_batch batch_id student r /\ r' = r).

(** One turn of the approval loop of [admin_action], as a function on the
    table. *)
Definition approve_turn (rows : list Reservation.t) (res : Reservation.t)
    : list Reservation.t :=
  if existsb (seat_with_status (key_of res) approved) rows
  then save (Reservation.set_status rejected res) rows
  else update_where (competitors res) (Reservation.set_status rejected)
         (save (Reservation.set_status approved res) rows).

(** What the loop needs of the table and of the rows still to be handled:
    keys are unique, and each row to be handled is pending in memory and
    is, in the table, either itself or itself rejected by an earlier turn. *)
Definition review_inv (rows valid_res : list Reservation.t) : Prop :=
  NoDup (map Reservation.id rows)
  /\ NoDup (map Reservation.id valid_res)
  /\ forall v, In v valid_res ->
       Reservation.status v = pending
       /\ (In v rows \/ In (Reservation.set_status rejected v) rows).

(** The rows a signed link is about: pending, with a key among [ids]. *)
Definition targeted (ids : list Z) (r : Reservation.t) : bool :=
  existsb (Z.eqb (Reservation.id r)) ids && has_status pending r.

(** The booking deadline of the row's slot has been reached. *)
Definition overdue (settings : Settings) (now : datetime) (r : Reservation.t) : bool :=
  deadline_passed settings (Reservation.date r) (Reservation.time_slot r) now.

(** The invariant of the reservation table: well-formed keys and at most
    one approved reservation per seat, date and slot. *)
Definition rows_inv (n : Z) (rows : list Reservation.t) : Prop :=
  NoDup (map Reservation.id rows)
  /\ Forall (fun r => Reservation.id r < n) rows
  /\ hard_lock_unique rows.

Definition lock_inv (db : DB) : Prop :=
  rows_inv (next_id db) (reservations db).

(** One request or one run of a command. *)
Inductive step (settings : Settings) : DB -> DB -> Prop :=
| step_submit db sid post env :
    step settings db (submit_db (submit settings db sid post env))
| step_admin_action db token now :
    step settings db (fst (admin_action settings db token now))
| step_admin_booking_view db is_staff q target seats env :
    step settings db (fst (admin_booking_view settings db is_staff q target seats env))
| step_admin_cancel_view db is_staff q ids env :
    step settings db (fst (fst (admin_cancel_view settings db is_staff q ids env)))
| step_cancel_booking db sid is_post batch_id now :
    step settings db (fst (cancel_booking settings db sid is_post batch_id now))
| step_cleanup db now today :
    step settings db (fst (cleanup settings db now today))
| step_cancel_reservations db selected env :
    step settings db (fst (fst (cancel_reservations settings db selected env)))
| step_admin_change db pk f commit :
    step settings db (fst (admin_change settings db pk f commit))
| step_send_access_codes db env :
    step settings db (na_db (send_access_codes settings db env)).

(** The databases the application can get to from an empty reservation
    table. *)
Inductive reachable (settings : Settings) : DB -> Prop :=
| reachable_empty db : reservations db = [] -> reachable settings db
| reachable_step db db' :
    reachable settings db -> step settings db db' -> reachable settings db'.

(** A delivery is retried when the same mail is handed to [send_mail] at
    two different places of the run. *)
Definition retried (outbox : list Mail) (mail : Mail) : Prop :=
  exists i j, i <> j /\ nth_error outbox i = Some mail /\ nth_error outbox j = Some mail.

Definition recipient (m : Mail) : Z :=
  match m with
  | mail_application s _ => s
  | mail_cancel_notice s _ => s
  | mail_access_code s _ _ _ _ => s
  end.

(** The notice [admin_cancel_view] sends for one student. *)
Definition notice (group : Z * list Reservation.t) : Mail :=
  mail_cancel_notice (fst group) (map seat_info (snd group)).

Definition flash_messages (r : AdminResponse) : list Flash :=
  match r with
  | admin_redirect msgs | admin_render msgs => msgs
  | _ => []
  end.

(** The notification window of a slot of today:
    [slot start - ACCESS_CODE_NOTIFY_MINUTES <= now < slot start]. *)
Definition in_window (settings : Settings) (now : datetime) (slot_id : Z) : Prop :=
  exists slot_start,
    get_slot_start_time settings (date_of now) slot_id = Some slot_start
    /\ slot_start
         - timedelta_minutes (Py.getattr (ACCESS_CODE_NOTIFY_MINUTES settings) 15)
       <= now
    /\ now < slot_start.

Definition in_windowb (settings : Settings) (now : datetime) (slot_id : Z) : bool :=
  match get_slot_start_time settings (date_of now) slot_id with
  | Some slot_start =>
      (slot_start - timedelta_minutes (notify_minutes settings) <=? now)
      && (now <? slot_start)
  | None => false
  end.

(** The classroom, date and slot an access code is for. *)
Definition triple_of (a : AccessCode.t) : Z * date * Z :=
  (AccessCode.classroom a, AccessCode.date a, AccessCode.time_slot a).

(** The access-code table respects its primary key and the
    [unique_together] constraint of the model. *)
Definition codes_wf (db : DB) : Prop :=
  NoDup (map AccessCode.id (access_codes db))
  /\ Forall (fun a => AccessCode.id a < next_code_id db) (access_codes db)
  /\ NoDup (map triple_of (access_codes db)).

(** The code of a classroom and slot has been sent out already. *)
Definition notifiedb (db : DB) (classroom : Z) (d : date) (slot_id : Z) : bool :=
  match find (code_for classroom d slot_id) (access_codes db) with
  | Some a => AccessCode.notified a
  | None => false
  end.

(** The classrooms and slots one run of [send_access_codes] goes through,
    in order. *)
Definition jobs (settings : Settings) (db : DB) (now : datetime)
    : list (Z * Classroom.t) :=
  flat_map (fun sl => if in_windowb settings now (fst sl)
                      then map (pair (fst sl)) (filter Classroom.is_active (classrooms db))
                      else [])
           (TIME_SLOTS settings).

Definition notify_job (settings : Settings) (env : NotifyEnv) (today : date)
    (acc : NotifyAcc) (j : Z * Classroom.t) : NotifyAcc :=
  notify_classroom settings env today (fst j) acc (snd j).

(** The students with an approved reservation, in the order of
    [student_seats]. *)
Definition student_seats (db : DB) (classroom : Z) (d : date) (slot_id : Z) : list Z :=
  fold_left (fun l r => add_student (Reservation.student r) l)
    (filter (approved_for classroom d slot_id) (reservations db)) [].

(** Every mail of the outbox is an access-code mail for a triple whose
    code is marked as notified, and no mail occurs twice. *)
Definition outbox_inv (today : date) (acc : NotifyAcc) : Prop :=
  NoDup (na_outbox acc)
  /\ forall m, In m (na_outbox acc) ->
       exists stu c s code,
         m = mail_access_code stu c today s code
         /\ notifiedb (na_db acc) c today s = true.

(** ** A small installation, used to run the handlers *)

Module Demo.

Local Open Scope string_scope.

Definition cfg : Settings :=
  {| TIME_SLOTS := [(1, "08:00 - 10:00"); (2, "10:00 - 12:00"); (3, "14:00 - 16:00")];
     RESERVATION_BOOKING_WINDOW_MINUTES := None;
     RESERVATION_MAX_DAYS_AHEAD := None;
     RESERVATION_MAX_DAYS_AHEAD_MANAGER := None;
     RESERVATION_TIMEOUT_HOURS := None;
     RESERVATION_EXPIRE_DAYS := None;
     ACCESS_CODE_NOTIFY_MINUTES := None;
     ACCESS_CODE_FIXED := None |}.

Definition today : date := 739000.
Definition tomorrow : date := 739001.

Definition alice : Student.t := Student.mk 1 "U202400001" normal user false.
Definition bob : Student.t := Student.mk 2 "U202400002" normal manager false.
Definition room : Classroom.t := Classroom.mk 1 "A101" "111" true.

(** Seat (0,0) of tomorrow's first slot is approved for alice and asked
    for by bob; seat (0,1) is asked for by both. *)
Definition r1 : Reservation.t :=
  Reservation.mk 1 100 1 1 0 0 tomorrow 1 approved (combine today 9 0) false [].
Definition r2 : Reservation.t :=
  Reservation.mk 2 101 2 1 0 0 tomorrow 1 pending (combine today 9 5) false [].
Definition r3 : Reservation.t :=
  Reservation.mk 3 102 2 1 0 1 tomorrow 1 pending (combine today 9 10) false [].
Definition r4 : Reservation.t :=
  Reservation.mk 4 103 1 1 0 1 tomorrow 1 pending (combine today 9 15) false [].

Definition r5 : Reservation.t :=
  Reservation.mk 5 104 2 1 0 2 tomorrow 1 pending (combine today 9 20) false [].

Definition db : DB :=
  {| students := [alice; bob];
     classrooms := [room];
     reservations := [r1; r2; r3; r4];
     access_codes := [];
     next_id := 5;
     next_student_id := 3;
     next_code_id := 1 |}.

(** The same with a third pending batch of bob. *)
Definition db_three_batches : DB :=
  {| students := [alice; bob];
     classrooms := [room];
     reservations := [r1; r2; r3; r4; r5];
     access_codes := [];
     next_id := 6;
     next_student_id := 3;
     next_code_id := 1 |}.

(** Noon of today, and a quarter to eight tomorrow, after the deadline
    (07:30) of tomorrow's first slot. *)
Definition noon : datetime := combine today 12 0.
Definition late : datetime := combine tomorrow 7 45.

Definition no_mail : Mail -> bool := fun _ => false.

Definition post_two_seats : SubmitPost :=
  {| post_cid := 1; post_date := Some tomorrow; post_orm_date_ok := true;
     post_slot := 2;
     post_seats_list := [Some (0, 0); Some (0, 2)] |}.

Definition post_locked_seat : SubmitPost :=
  {| post_cid := 1; post_date := Some tomorrow; post_orm_date_ok := true;
     post_slot := 1;
     post_seats_list := [Some (0, 2); Some (0, 0)] |}.

Definition submit_env (now : datetime) : SubmitEnv :=
  {| env_today := today; env_now := now; env_uuid4 := 200;
     env_send_mail := fun _ => true |}.

Definition admin_env (now : datetime) : AdminEnv :=
  {| adm_today := today; adm_now := now; adm_uuid4 := fun stu => 300 + stu;
     adm_send_mail := no_mail |}.

Definition page : AdminGet :=
  {| get_classroom_id := Some 1; get_date := date_ok tomorrow; get_slot := Some 1 |}.

(** A database of tomorrow at 07:50, inside the notification window of
    the first slot, with alice's approved seat dated that day. *)
Definition notify_env : NotifyEnv :=
  {| ne_now := combine tomorrow 7 50; ne_dry_run := false;
     ne_random := fun _ _ => "482913"; ne_send_mail := fun _ => true |}.

End Demo.

(** ** The life cycle of a reservation *)

(** The moves of a status: a pending request can end anywhere, an approved
    reservation can only be cancelled, and rejected, expired and cancelled
    are final. *)
Definition lifecycle (s s' : Status) : Prop :=
  s' = s \/ s = pending \/ (s = approved /\ s' = cancelled).

(** Two versions of one request: everything but the status and the
    [is_admin_action] flag is the same. *)
Definition same_request (r r' : Reservation.t) : Prop :=
  Reservation.id r' = Reservation.id r
  /\ Reservation.batch_id r' = Reservation.batch_id r
  /\ Reservation.student r' = Reservation.student r
  /\ key_of r' = key_of r
  /\ Reservation.created_at r' = Reservation.created_at r
  /\ Reservation.cancelled_seats_info r' = Reservation.cancelled_seats_info r.

(** Every row of [rows] is still in [rows'], moved along its life cycle. *)
Definition evolves (rows rows' : list Reservation.t) : Prop :=
  forall r, In r rows ->
    exists r', In r' rows' /\ same_request r r'
               /\ lifecycle (Reservation.status r) (Reservation.status r').

(** No pending request is left for the seat, date and slot [k]. *)
Definition swept (k : SeatKey) (rows : list Reservation.t) : Prop :=
  forall y, In y rows -> seat_with_status k pending y = false.

(** The keys [n], [n + 1], ... of [len] new rows. *)
Definition fresh_ids (n : Z) (len : nat) : list Z :=
  map (fun i => n + Z.of_nat i) (seq 0 len).

(** ** The seat grid of a student ([booking_view]) *)

Inductive CellType := cell_aisle | cell_seat.

(** ['free'], a status of the student's own or of a locked seat, or
    ['other_pending']. *)
Inductive CellStatus :=
| cell_free
| cell_status_of (s : Status)
| cell_other_pending.

(** One cell of [matrix]; [cell_has_other_pending] is the key
    ['other_pending'], which only the student's own seats carry. *)
Record Cell := mkCell {
  cell_r : Z;
  cell_c : Z;
  cell_type : CellType;
  cell_status : CellStatus;
  cell_is_mine : bool;
  cell_has_other_pending : option bool
}.

(** One value of [cell_map]. *)
Record CellData := mkCellData {
  approved_by_other : bool;
  mine : option Status;
  other_pending : bool
}.

(** [cell_map]: a dict from [(seat_row, seat_col)] to its data. *)
Definition CellMap := list ((Z * Z) * CellData).

Definition seat_eqb (a b : Z * Z) : bool := (fst a =? fst b) && (snd a =? snd b).

Fixpoint cell_map_get (cell_map : CellMap) (key : Z * Z) : option CellData :=
  match cell_map with
  | [] => None
  | (k, data) :: rest => if seat_eqb k key then Some data else cell_map_get rest key
  end.

Fixpoint cell_map_set (cell_map : CellMap) (key : Z * Z) (data : CellData) : CellMap :=
  match cell_map with
  | [] => [(key, data)]
  | (k, d) :: rest =>
      if seat_eqb k key then (k, data) :: rest else (k, d) :: cell_map_set rest key data
  end.

(** The body of [for r in records]. *)
Definition cell_map_add (student : Student.t) (cell_map : CellMap)
    (r : Reservation.t) : CellMap :=
  let key := (Reservation.seat_row r, Reservation.seat_col r) in
  let data := match cell_map_get cell_map key with
              | Some data => data
              | None => mkCellData false None false
              end in
  let is_mine := Reservation.student r =? Student.id student in
  cell_map_set cell_map key
    match Reservation.status r with
    | approved =>
        if is_mine then mkCellData (approved_by_other data) (Some approved) (other_pending data)
        else mkCellData true (mine data) (other_pending data)
    | pending =>
        if is_mine then
          match mine data with
          | Some approved => data
          | _ => mkCellData (approved_by_other data) (Some pending) (other_pending data)
          end
        else mkCellData (approved_by_other data) (mine data) true
    | _ => data
    end.

(** [enumerate(l)] *)
Fixpoint enumerate_from {A : Type} (i : Z) (l : list A) : list (Z * A) :=
  match l with
  | [] => []
  | x :: l' => (i, x) :: enumerate_from (i + 1) l'
  end.

Definition enumerate {A : Type} (l : list A) : list (Z * A) := enumerate_from 0 l.

(** One cell of the grid: an aisle stays free; on a seat, an approval of
    another student comes first, then the student's own request, then a
    pending request of somebody else. *)
Definition booking_cell (cell_map : CellMap) (r_idx c_idx : Z) (char : ascii) : Cell :=
  if Ascii.eqb char "0"
  then mkCell r_idx c_idx cell_aisle cell_free false None
  else
    match cell_map_get cell_map (r_idx, c_idx) with
    | Some data =>
        if approved_by_other data
        then mkCell r_idx c_idx cell_seat (cell_status_of approved) false None
        else match mine data with
             | Some s =>
                 mkCell r_idx c_idx cell_seat (cell_status_of s) true
                   (Some (other_pending data))
             | None =>
                 if other_pending data
                 then mkCell r_idx c_idx cell_seat cell_other_pending false None
                 else mkCell r_idx c_idx cell_seat cell_free false None
             end
    | None => mkCell r_idx c_idx cell_seat cell_free false None
    end.

Definition booking_matrix (layout_lines : list string) (cell_map : CellMap)
    : list (list Cell) :=
  map (fun rl =>
         map (fun cc => booking_cell cell_map (fst rl) (fst cc) (snd cc))
             (enumerate (list_ascii_of_string (Py.strip (snd rl)))))
      (enumerate layout_lines).

Inductive BookingResponse :=
| booking_redirect_index
| booking_server_error (e : Exn)
| booking_no_classroom
| booking_not_found
| booking_page (student : Student.t) (curr_cls : Classroom.t)
    (matrix : list (list Cell)) (current_slot : Z) (max_date : date).

Section Pages.

Variable settings : Settings.

(** The reservations the grid is drawn from. *)
Definition grid_records (db : DB) (curr_cls : Classroom.t) (req_date_obj : date)
    (slot_id : Z) : list Reservation.t :=
  filter (fun r => (Reservation.classroom r =? Classroom.id curr_cls)
                   && (Reservation.date r =? req_date_obj)
                   && (Reservation.time_slot r =? slot_id)
                   && (has_status approved r || has_status pending r))
         (reservations db).

(** [booking_view]; [q] is the query string, [today] and [now] the clock. *)
Definition booking_view (db : DB) (sid : option Z) (q : AdminGet)
    (today : date) (now : datetime) : BookingResponse :=
  match sid with
  | None => booking_redirect_index
  | Some sid =>
  match get_student db sid with
  | None => booking_server_error DoesNotExist
  | Some student =>
  let req_date_obj := req_date_of (get_date q) today in
  match choose_slot settings (get_slot q) req_date_obj today now with
  | Raise e => booking_server_error e
  | Ok slot_id =>
  match filter Classroom.is_active (classrooms db) with
  | [] => booking_no_classroom
  | _ =>
  match current_classroom db (get_classroom_id q) with
  | None => booking_not_found
  | Some curr_cls =>
      let layout_lines := Py.split "010" (Py.strip (Classroom.layout curr_cls)) in
      let records := grid_records db curr_cls req_date_obj slot_id in
      let cell_map := fold_left (cell_map_add student) records [] in
      booking_page student curr_cls (booking_matrix layout_lines cell_map)
        slot_id (today + max_ahead settings student)
  end end end end end.

End Pages.

(** The character of a layout at a 0-based position, as the grid pages
    and the admin form read it. *)
Definition layout_cell (layout : string) (r c : Z) : option ascii :=
  if r <? 0 then None
  else match nth_error (Py.split "010" (Py.strip layout)) (Z.to_nat r) with
       | Some line => string_in_range (Py.strip line) c
       | None => None
       end.

(** The cell of a matrix at a 0-based position. *)
Definition matrix_cell (matrix : list (list Cell)) (r c : Z) : option Cell :=
  if (r <? 0) || (c <? 0) then None
  else match nth_error matrix (Z.to_nat r) with
       | Some row_data => nth_error row_data (Z.to_nat c)
       | None => None
       end.

(** Some reservation with status [s] holds or asks for the seat [k]; with
    [own] it belongs to [student], without it to somebody else. *)
Definition requested (db : DB) (k : SeatKey) (s : Status) (own : bool)
    (student : Student.t) : bool :=
  existsb (fun x => seat_with_status k s x
                    && Bool.eqb (Reservation.student x =? Student.id student) own)
          (reservations db).

(** What a seat of the grid shows, decided on the table. *)
Definition seat_shown (db : DB) (k : SeatKey) (student : Student.t) : Cell :=
  if requested db k approved false student
  then mkCell (k_row k) (k_col k) cell_seat (cell_status_of approved) false None
  else if requested db k approved true student
  then mkCell (k_row k) (k_col k) cell_seat (cell_status_of approved) true
         (Some (requested db k pending false student))
  else if requested db k pending true student
  then mkCell (k_row k) (k_col k) cell_seat (cell_status_of pending) true
         (Some (requested db k pending false student))
  else if requested db k pending false student
  then mkCell (k_row k) (k_col k) cell_seat cell_other_pending false None
  else mkCell (k_row k) (k_col k) cell_seat cell_free false None.

(** The record belongs to the student the grid is drawn for. *)
Definition own (student : Student.t) (r : Reservation.t) : bool :=
  Reservation.student r =? Student.id student.

(** The data of a seat, read off the records that are about it. *)
Definition cell_data (student : Student.t) (here : list Reservation.t) : CellData :=
  mkCellData
    (existsb (fun r => has_status approved r && negb (own student r)) here)
    (if existsb (fun r => has_status approved r && own student r) here
     then Some approved
     else if existsb (fun r => has_status pending r && own student r) here
          then Some pending else None)
    (existsb (fun r => has_status pending r && negb (own student r)) here).

(** The value [cell_map] holds for a seat; no value without a record. *)
Definition cell_data_of (student : Student.t) (records : list Reservation.t)
    (key : Z * Z) : option CellData :=
  let here :=
    filter (fun r => seat_eqb (Reservation.seat_row r, Reservation.seat_col r) key)
      records in
  match here with
  | [] => None
  | _ :: _ => Some (cell_data student here)
  end.

(** ** More of Python's [str]: [str(n)], [join], [split] with a limit *)

Module PyText.

Definition digit_char (d : Z) : ascii := ascii_of_nat (48 + Z.to_nat d).

(** The decimal digits of [n >= 0] in front of [acc]; [fuel] bounds the
    number of digits after the first. *)
Fixpoint str_digits (fuel : nat) (n : Z) (acc : string) : string :=
  let acc' := String (digit_char (n mod 10)) acc in
  match fuel with
  | O => acc'
  | S f => if n <? 10 then acc' else str_digits f (n / 10) acc'
  end.

(** [str(n)] for an [int] *)
Definition str (n : Z) : string :=
  if n <? 0
  then String "-" (str_digits (Z.to_nat (Z.log2 (- n))) (- n) EmptyString)
  else str_digits (Z.to_nat (Z.log2 n)) n EmptyString.

(** [sep.join(l)] *)
Fixpoint join (sep : string) (l : list string) : string :=
  match l with
  | [] => EmptyString
  | [x] => x
  | x :: rest => (x ++ sep ++ join sep rest)%string
  end.

(** [s.split(sep, maxsplit)] *)
Fixpoint split_max (sep : ascii) (s : string) (maxsplit : nat) : list string :=
  match s with
  | EmptyString => [EmptyString]
  | String c s' =>
      match maxsplit with
      | O => [s]
      | S n =>
          if Ascii.eqb c sep then EmptyString :: split_max sep s' n
          else match split_max sep s' maxsplit with
               | [] => [String c EmptyString]
               | h :: t => String c h :: t
               end
      end
  end.

(** Every character of [s] satisfies [p]. *)
Fixpoint all_chars (p : ascii -> bool) (s : string) : bool :=
  match s with
  | EmptyString => true
  | String c s' => p c && all_chars p s'
  end.

Definition is_digit (c : ascii) : bool :=
  match Py.digit_of c with Some _ => true | None => false end.

Definition digit_or_minus (c : ascii) : bool := is_digit c || Ascii.eqb c "-".

Definition is_not (sep : ascii) (c : ascii) : bool := negb (Ascii.eqb c sep).

End PyText.

(** ** Signed links: the data [signer.sign] is given

    [TimestampSigner] is the framework's: a handler that calls
    [signer.unsign] is given the signed data when the signature is good
    and young enough, and [None] when [unsign] raises. *)

Section Tokens.

Local Open Scope string_scope.
Local Open Scope Z_scope.

(** [generate_action_url]: [f"{type_code}:{id_val}:{action}"] *)
Definition action_data (id_val action type_code : string) : string :=
  (type_code ++ ":" ++ id_val ++ ":" ++ action)%string.

(** [submit]: the two links of the application mail. *)
Definition res_ids_str (ids : list Z) : string :=
  PyText.join "," (map PyText.str ids).

Definition approve_data (ids : list Z) : string := action_data (res_ids_str ids) "approve" "res".
Definition reject_data (ids : list Z) : string := action_data (res_ids_str ids) "reject" "res".

(** [reset_request]: [f"reset:{student.id}:{new_password}"] *)
Definition reset_data (student_pk : Z) (new_password : string) : string :=
  ("reset:" ++ PyText.str student_pk ++ ":" ++ new_password)%string.

(** [admin_action]: [parts = data.split(':')] and the three items read
    from it; [None] stands for [IndexError]. *)
Definition action_parts (data : string) : option (string * string * string) :=
  match Py.split ":" data with
  | type_code :: id_vals_str :: action :: _ => Some (type_code, id_vals_str, action)
  | _ => None
  end.

(** [id__in=ids] with strings: each one goes through [int]; [None] when
    one of them is not a number. *)
Fixpoint ids_of (l : list string) : option (list Z) :=
  match l with
  | [] => Some []
  | s :: rest =>
      match Py.int s, ids_of rest with
      | Some n, Some ns => Some (n :: ns)
      | _, _ => None
      end
  end.

Definition action_of (action : string) : Action :=
  if String.eqb action "approve" then act_approve
  else if String.eqb action "reject" then act_reject
  else act_other.

End Tokens.

(** ** Promotion requests and passwords *)

Inductive PromotionStatus := promo_pending | promo_approved | promo_rejected.

Module PromotionRequest.
Record t := mk {
  id : Z;
  student : Z;
  status : PromotionStatus;
  created_at : datetime;
  reviewed_at : option datetime;
  reviewer : string
}.

Definition reviewed (s : PromotionStatus) (now : datetime) (who : string) (p : t) : t :=
  mk (id p) (student p) s (created_at p) (Some now) who.
End PromotionRequest.

(** The tables next to those of [DB]: the promotion requests, and the
    [password] column of [Student], kept as a map from the primary key
    (no entry: the empty string of the column's default). *)
Record Site := mkSite {
  site_db : DB;
  promotion_requests : list PromotionRequest.t;
  next_request_id : Z;
  passwords : list (Z * string)
}.

Definition with_db (site : Site) (db : DB) : Site :=
  mkSite db (promotion_requests site) (next_request_id site) (passwords site).

Definition with_students (db : DB) (l : list Student.t) : DB :=
  mkDB l (classrooms db) (reservations db) (access_codes db) (next_id db)
       (next_student_id db) (next_code_id db).

(** [stu.save()] *)
Definition save_student (stu : Student.t) (l : list Student.t) : list Student.t :=
  if existsb (fun x => Student.id x =? Student.id stu) l
  then map (fun x => if Student.id x =? Student.id stu then stu else x) l
  else l ++ [stu].

Definition set_role (r : Role) (s : Student.t) : Student.t :=
  Student.mk (Student.id s) (Student.student_id s) (Student.status s) r
    (Student.is_auto_created s).

Definition has_request (site : Site) (stu : Student.t) (s : PromotionStatus) : bool :=
  existsb (fun p => (PromotionRequest.student p =? Student.id stu)
                    && match PromotionRequest.status p, s with
                       | promo_pending, promo_pending
                       | promo_approved, promo_approved
                       | promo_rejected, promo_rejected => true
                       | _, _ => false
                       end)
          (promotion_requests site).

(** [PromotionRequest.objects.filter(student=stu, status='pending')
    .update(status=.., reviewed_at=now, reviewer=..)] *)
Definition review_pending (stu : Student.t) (s : PromotionStatus) (now : datetime)
    (who : string) (l : list PromotionRequest.t) : list PromotionRequest.t :=
  map (fun p => if (PromotionRequest.student p =? Student.id stu)
                   && match PromotionRequest.status p with
                      | promo_pending => true | _ => false end
                then PromotionRequest.reviewed s now who p else p) l.

(** The mails of the promotion workflow. *)
Inductive PromoMail :=
| mail_promotion_request (applicant : Z) (promote_data reject_data : string)
| mail_promotion_approved (recipient : Z)
| mail_promotion_rejected (recipient : Z).

Inductive PromoResponse :=
| promo_redirect_index
| promo_server_error (e : Exn)
| promo_already_manager
| promo_was_rejected
| promo_already_pending
| promo_submitted.

Section Promotion.

Local Open Scope string_scope.
Local Open Scope Z_scope.

(** [apply_promotion]; there is no [transaction.atomic] here: the request
    is stored when [create] returns, before the mail is sent. *)
Definition apply_promotion (site : Site) (sid : option Z) (now : datetime)
    (send_mail : PromoMail -> bool) : Site * PromoResponse * list PromoMail :=
  match sid with
  | None => (site, promo_redirect_index, [])
  | Some sid =>
  match get_student (site_db site) sid with
  | None => (site, promo_server_error DoesNotExist, [])
  | Some stu =>
  match Student.role stu with
  | manager => (site, promo_already_manager, [])
  | user =>
  if has_request site stu promo_rejected then (site, promo_was_rejected, [])
  else if has_request site stu promo_pending then (site, promo_already_pending, [])
  else
    let pr := PromotionRequest.mk (next_request_id site) (Student.id stu) promo_pending
                now None EmptyString in
    let site' := mkSite (site_db site) (promotion_requests site ++ [pr])
                   (next_request_id site + 1) (passwords site) in
    let mail := mail_promotion_request (Student.id stu)
                  (action_data (PyText.str (Student.id stu)) "promote" "stu")
                  (action_data (PyText.str (Student.id stu)) "reject" "stu") in
    if send_mail mail then (site', promo_submitted, [mail])
    else (site', promo_server_error SMTPException, [mail])
  end end end.

(** ** [admin_action], from the signed data on *)

Inductive ActionResponse :=
| action_invalid_link
| action_server_error (e : Exn)
| action_reviewed (r : AdminActionResponse)
| action_promoted (student : Z)
| action_rejected (student : Z)
| action_no_student
| action_unknown.

(** [unsigned]: what [signer.unsign(token, max_age=86400)] returns;
    [remote_user]: [request.META.get('REMOTE_USER', '')].  The mails to
    the student are sent inside [try: .. except Exception: pass]: whether
    they go out changes nothing. *)
Definition admin_action_link (settings : Settings) (site : Site)
    (unsigned : option string) (now : datetime) (remote_user : string)
    : Site * ActionResponse * list PromoMail :=
  match unsigned with
  | None => (site, action_invalid_link, [])
  | Some data =>
  match action_parts data with
  | None => (site, action_invalid_link, [])
  | Some (type_code, id_vals_str, action) =>
      if String.eqb type_code "res" then
        match ids_of (Py.split "," id_vals_str) with
        | None => (site, action_server_error ValueError_invalid_literal, [])
        | Some ids =>
            let (db', r) :=
              admin_action settings (site_db site) (Some (ids, action_of action)) now in
            (with_db site db', action_reviewed r, [])
        end
      else if String.eqb type_code "stu" then
        match Py.int id_vals_str with
        | None => (site, action_server_error ValueError_invalid_literal, [])
        | Some pk =>
            match get_student (site_db site) pk with
            | None => (site, action_no_student, [])
            | Some stu =>
                if String.eqb action "promote" then
                  let stu' := set_role manager stu in
                  (mkSite (with_students (site_db site)
                             (save_student stu' (students (site_db site))))
                     (review_pending stu promo_approved now remote_user
                        (promotion_requests site))
                     (next_request_id site) (passwords site),
                   action_promoted pk, [mail_promotion_approved pk])
                else if String.eqb action "reject" then
                  (mkSite (site_db site)
                     (review_pending stu promo_rejected now remote_user
                        (promotion_requests site))
                     (next_request_id site) (passwords site),
                   action_rejected pk, [mail_promotion_rejected pk])
                else (site, action_unknown, [])
            end
        end
      else (site, action_unknown, [])
  end end.

End Promotion.

(** ** The link of a mail, followed

    [reset_request] puts the token into the path of the link as it is,
    unquoted: [f"{settings.SITE_DOMAIN}/reset-confirm/{token}/"].  What
    is modelled is the part of the link after [SITE_DOMAIN], for a client
    that asks for the link as it is written, and the route of
    [config/urls.py] that takes it. *)

(** The characters a path segment carries as they are (RFC 3986, [pchar]
    without the escapes): letters, digits and [-._~!$&'()*+,;=:@]. *)
Definition pchar (c : ascii) : bool :=
  let n := nat_of_ascii c in
  ((65 <=? n) && (n <=? 90) || (97 <=? n) && (n <=? 122)
   || (48 <=? n) && (n <=? 57))%nat
  || existsb (Ascii.eqb c) (list_ascii_of_string "-._~!$&'()*+,;=:@").

Definition path_char (c : ascii) : bool := pchar c || Ascii.eqb c "/".

(** The path the server is given when the link is followed.  [None]: the
    link holds a character that does not stand for itself in a path ([?]
    and [#] end the path, [%xx] is decoded, others are quoted by the
    client); what arrives then need not be the text of the link. *)
Definition followed_link (link : string) : option string :=
  if PyText.all_chars path_char link then Some link else None.

(** [s.startswith(p)], with what follows [p]. *)
Fixpoint strip_prefix (p s : string) : option string :=
  match p with
  | EmptyString => Some s
  | String a p' =>
      match s with
      | String b s' => if Ascii.eqb a b then strip_prefix p' s' else None
      | EmptyString => None
      end
  end.

(** [<str:token>/] at the end of a route: the converter [str] takes a
    non-empty run of characters other than [/], and the path ends with
    the slash after it. *)
Fixpoint str_converter (s : string) : option string :=
  match s with
  | EmptyString => None
  | String c s' =>
      if Ascii.eqb c "/" then None
      else if String.eqb s' "/" then Some (String c EmptyString)
      else match str_converter s' with
           | Some t => Some (String c t)
           | None => None
           end
  end.

(** [path('reset-confirm/<str:token>/', views.reset_confirm)]: the token
    the view is called with; [None] when the route does not take the
    path. *)
Definition reset_confirm_route (path : string) : option string :=
  match strip_prefix "/reset-confirm/" path with
  | Some rest => str_converter rest
  | None => None
  end.

(** [reset_url], after [SITE_DOMAIN]. *)
Definition reset_url (token : string) : string :=
  ("/reset-confirm/" ++ token ++ "/")%string.

(** ** Logging in and resetting a password *)

Section Accounts.

Local Open Scope string_scope.
Local Open Scope Z_scope.

(** [make_password(raw)] and [check_password(raw, encoded)] of
    [django.contrib.auth.hashers]; the salt [make_password] draws is
    part of the function. *)
Variable make_password : string -> string.
Variable check_password : string -> string -> bool.

Definition password_of (site : Site) (pk : Z) : string :=
  match find (fun e => fst e =? pk) (passwords site) with
  | Some e => snd e
  | None => EmptyString
  end.

(** [Student.set_password] followed by [save]: the column is written. *)
Definition store_password (pk : Z) (raw : string) (l : list (Z * string))
    : list (Z * string) :=
  if existsb (fun e => fst e =? pk) l
  then map (fun e => if fst e =? pk then (pk, make_password raw) else e) l
  else l ++ [(pk, make_password raw)].

(** [Student.check_password]: no password, no match. *)
Definition student_check_password (site : Site) (stu : Student.t) (raw : string) : bool :=
  match password_of site (Student.id stu) with
  | EmptyString => false
  | encoded => check_password raw encoded
  end.

Definition set_auto_created (b : bool) (s : Student.t) : Student.t :=
  Student.mk (Student.id s) (Student.student_id s) (Student.status s)
    (Student.role s) b.

Inductive LoginMessage :=
| login_need_credentials
| login_password_set
| login_wrong_password
| login_hint_reset
| login_blacklisted
| login_registered.

Inductive LoginPage := render_index | redirect_booking.

Record LoginResult := mkLogin {
  login_site : Site;
  login_session : option Z;        (* [request.session['sid']], when it is set *)
  login_messages : list LoginMessage;
  login_page : LoginPage
}.

(** [index], the POST branch; an absent field is the empty string. *)
Definition index (site : Site) (sid password : string) : LoginResult :=
  match sid, password with
  | EmptyString, _ | _, EmptyString =>
      mkLogin site None [login_need_credentials] render_index
  | _, _ =>
      let db := site_db site in
      match find (fun s => String.eqb (Student.student_id s) sid) (students db) with
      | Some student =>
          if Student.is_auto_created student then
            let student' := set_auto_created false student in
            let site' :=
              mkSite (with_students db (save_student student' (students db)))
                (promotion_requests site) (next_request_id site)
                (store_password (Student.id student) password (passwords site)) in
            match Student.status student with
            | blacklist =>
                mkLogin site' None [login_password_set; login_blacklisted] render_index
            | _ =>
                mkLogin site' (Some (Student.id student)) [login_password_set]
                  redirect_booking
            end
          else if negb (student_check_password site student password) then
            mkLogin site None [login_wrong_password; login_hint_reset] render_index
          else
            match Student.status student with
            | blacklist => mkLogin site None [login_blacklisted] render_index
            | _ => mkLogin site (Some (Student.id student)) [] redirect_booking
            end
      | None =>
          let student := Student.mk (next_student_id db) sid normal user false in
          let db' :=
            mkDB (students db ++ [student]) (classrooms db) (reservations db)
              (access_codes db) (next_id db) (next_student_id db + 1)
              (next_code_id db) in
          mkLogin
            (mkSite db' (promotion_requests site) (next_request_id site)
               (store_password (Student.id student) password (passwords site)))
            (Some (Student.id student)) [login_registered] redirect_booking
      end
  end.

Inductive ResetResponse :=
| reset_need_fields
| reset_no_student
| reset_mail_sent (to : Z) (link : string)
| reset_server_error (e : Exn).

(** [signer.sign] at the time of the request. *)
Variable sign : string -> string.

(** [reset_request], the POST branch: the link that is mailed to the
    student, with the signed token in its path; nothing is written. *)
Definition reset_request (site : Site) (sid new_password : string)
    (send_mail : Z -> bool) : ResetResponse :=
  match sid, new_password with
  | EmptyString, _ | _, EmptyString => reset_need_fields
  | _, _ =>
      match find (fun s => String.eqb (Student.student_id s) sid)
              (students (site_db site)) with
      | None => reset_no_student
      | Some student =>
          let data := reset_data (Student.id student) new_password in
          let token := sign data in
          if send_mail (Student.id student)
          then reset_mail_sent (Student.id student) (reset_url token)
          else reset_server_error SMTPException
      end
  end.

Inductive ConfirmResponse :=
| confirm_invalid_link
| confirm_server_error (e : Exn)
| confirm_done (student : Z).

(** [reset_confirm]; [unsigned] is what [signer.unsign(token, max_age=600)]
    returns.  On success the session is flushed. *)
Definition reset_confirm (site : Site) (unsigned : option string)
    : Site * ConfirmResponse :=
  match unsigned with
  | None => (site, confirm_invalid_link)
  | Some data =>
      match PyText.split_max ":" data 2 with
      | [type_code; sid_db_id; new_password] =>
          if negb (String.eqb type_code "reset") then (site, confirm_invalid_link)
          else
            match Py.int sid_db_id with
            | None => (site, confirm_server_error ValueError_invalid_literal)
            | Some pk =>
                match get_student (site_db site) pk with
                | None => (site, confirm_invalid_link)
                | Some student =>
                    (mkSite (with_students (site_db site)
                               (save_student student (students (site_db site))))
                       (promotion_requests site) (next_request_id site)
                       (store_password pk new_password (passwords site)),
                     confirm_done pk)
                end
            end
      | _ => (site, confirm_invalid_link)
      end
  end.

(** The request a client makes with the link of the mail, and the answer
    of [reset_confirm] to it; [unsign] is [signer.unsign(_, max_age=600)]
    at the time of that request, [None] where it raises.  The result is
    [None] when the path need not arrive as it is written, or when the
    route [reset-confirm/<str:token>/] does not take it: [reset_confirm]
    is then not called with the token of the mail. *)
Definition follow_reset_link (unsign : string -> option string) (site : Site)
    (link : string) : option (Site * ConfirmResponse) :=
  match followed_link link with
  | None => None
  | Some path =>
      match reset_confirm_route path with
      | None => None
      | Some token => Some (reset_confirm site (unsign token))
      end
  end.

End Accounts.

(** The open requests of the student with the key [pk]:
    [PromotionRequest.objects.filter(student=pk, status='pending')]. *)
Definition open_requests (site : Site) (pk : Z) : list PromotionRequest.t :=
  filter (fun p => (PromotionRequest.student p =? pk)
                   && match PromotionRequest.status p with
                      | promo_pending => true | _ => false end)
         (promotion_requests site).

(** ** More of the small installation *)

Module Scenes.

Import Demo.

Local Open Scope string_scope.

(** The admin form moving request 3 of bob to seat (1, 2) as approved. *)
Definition demo_form : ReservationForm :=
  {| f_student := 2; f_classroom := 1; f_row_input := 1; f_col_input := 2;
     f_date := tomorrow; f_time_slot := 1; f_status := approved;
     f_cancelled_seats_info := [] |}.

(** The installation with no promotion request and no password yet. *)
Definition demo_site : Site := mkSite db [] 1 [].

(** A hasher for the runs: the raw password behind a prefix. *)
Definition demo_make_password (raw : string) : string := "plain$" ++ raw.
Definition demo_check_password (raw encoded : string) : bool :=
  String.eqb ("plain$" ++ raw) encoded.

(** alice has the password [tea:time]. *)
(** A signer for the runs, in the format of [TimestampSigner]: the value,
    a stamp and a signature, joined by colons.  The stamp is fixed and
    the signature is the length of what is signed. *)
Definition demo_signature (value : string) : string :=
  PyText.str (Z.of_nat (String.length value)).

Definition demo_sign (value : string) : string :=
  value ++ ":" ++ "1tZ4x9" ++ ":" ++ demo_signature (value ++ ":" ++ "1tZ4x9").

(** [s.rsplit(':', 1)] of a string with a colon. *)
Fixpoint rsplit_colon (s : string) : option (string * string) :=
  match s with
  | EmptyString => None
  | String c s' =>
      match rsplit_colon s' with
      | Some (a, b) => Some (String c a, b)
      | None => if Ascii.eqb c ":" then Some (EmptyString, s') else None
      end
  end.

Definition demo_unsign (token : string) : option string :=
  match rsplit_colon token with
  | Some (value, sig) =>
      if String.eqb sig (demo_signature value)
      then match rsplit_colon value with
           | Some (data, _) => Some data
           | None => None
           end
      else None
  | None => None
  end.

Definition demo_site_alice : Site :=
  mkSite db [] 1 [(1, demo_make_password "tea:time")].

(** carol was entered by the staff and has not logged in yet. *)
Definition carol : Student.t := Student.mk 3 "U202400003" normal user true.

Definition demo_site_carol : Site :=
  mkSite {| students := [alice; bob; carol];
            classrooms := [room];
            reservations := [r1; r2; r3; r4];
            access_codes := [];
            next_id := 5;
            next_student_id := 4;
            next_code_id := 1 |} [] 1 [].

(** [send_access_codes --dry-run] at 07:50 of tomorrow. *)
Definition dry_env : NotifyEnv :=
  {| ne_now := combine tomorrow 7 50; ne_dry_run := true;
     ne_random := fun _ _ => "482913"; ne_send_mail := fun _ => true |}.

End Scenes.

(** ** The scheduler ([cleanup_scheduler.py])

    [_run_all_tasks]: one tick.  [cleanup] runs with its clock ([now],
    [today]), then [send_access_codes] with the clock of [env]; each
    sits in a [try] that logs and goes on. *)
Definition run_all_tasks (settings : Settings) (db : DB) (now : datetime)
    (today : date) (env : NotifyEnv) : NotifyAcc :=
  let (db1, _) := cleanup settings db now today in
  send_access_codes settings db1 env.

(** ** [my_bookings]: the reservations of a student, batch by batch *)

(** The label of a seat of the list: [f"{row}行{col}列"] for the seat of
    the reservation itself, [f"{classroom} - {seat_label}"] for an entry
    of [cancelled_seats_info]; rows and columns count from one. *)
Inductive SeatLabel :=
| own_label (row col : Z)
| info_label (classroom : Z) (row col : Z).

Record SeatEntry := mkSeatEntry {
  entry_label : SeatLabel;
  entry_status : Status
}.

(** [status_counts] *)
Record StatusCounts := mkCounts {
  count_pending : nat;
  count_approved : nat;
  count_rejected : nat;
  count_cancelled : nat;
  count_expired : nat
}.

(** [status_counts[s] += n] *)
Definition bump (s : Status) (n : nat) (c : StatusCounts) : StatusCounts :=
  match s with
  | pending =>
      mkCounts (count_pending c + n) (count_approved c) (count_rejected c)
        (count_cancelled c) (count_expired c)
  | approved =>
      mkCounts (count_pending c) (count_approved c + n) (count_rejected c)
        (count_cancelled c) (count_expired c)
  | rejected =>
      mkCounts (count_pending c) (count_approved c) (count_rejected c + n)
        (count_cancelled c) (count_expired c)
  | cancelled =>
      mkCounts (count_pending c) (count_approved c) (count_rejected c)
        (count_cancelled c + n) (count_expired c)
  | expired =>
      mkCounts (count_pending c) (count_approved c) (count_rejected c)
        (count_cancelled c) (count_expired c + n)
  end.

(** What [get_time_slot_display] returns: the label of the choice, or
    the value itself when [TIME_SLOTS] has no such choice. *)
Inductive SlotDisplay :=
| slot_name (label : string)
| slot_value (v : Z).

(** One group of [temp_groups]. *)
Record Group := mkGroup {
  is_admin : bool;
  is_admin_cancelled : bool;
  group_batch_id : Z;
  group_date : date;
  group_time_slot : Z;
  time_slot_name : SlotDisplay;
  group_classroom : Z;
  seats : list SeatEntry;
  status_counts : StatusCounts;
  can_cancel : bool;
  cancel_deadline : option datetime;      (* [None]: the empty string *)
  is_admin_created : bool
}.

Inductive FinalStatus :=
| final_approved | final_warning | final_pending
| final_cancelled | final_expired | final_rejected.

Inductive StatusDisplay :=
| display_all_approved
| display_partly_approved (n total : nat)
| display_pending
| display_admin_cancelled
| display_cancelled
| display_expired
| display_all_failed.

(** A group after the second loop. *)
Record Booking := mkBooking {
  booking_group : Group;
  final_status : FinalStatus;
  status_display : StatusDisplay
}.

Inductive BookingsResponse :=
| bookings_redirect_index
| bookings_server_error (e : Exn)
| bookings_page (student : Student.t) (grouped_bookings : list Booking)
    (status_filter : string).

Section Bookings.

Variable settings : Settings.

(** [Reservation.objects.filter(student=student).order_by('-created_at')]
    as the database returns it: the order of rows created at the same
    instant is the database's choice. *)
Variable order_by_created_at_desc : list Reservation.t -> list Reservation.t.

(** [res.get_time_slot_display()]: [dict(choices).get(value, value)] *)
Definition get_time_slot_display (slot : Z) : SlotDisplay :=
  fold_left (fun acc kv => if fst kv =? slot then slot_name (snd kv) else acc)
    (TIME_SLOTS settings) (slot_value slot).

Definition init_group (res : Reservation.t) (slot_label : SlotDisplay)
    (can_cancel : bool) (cancel_deadline : option datetime) : Group :=
  mkGroup false false (Reservation.batch_id res) (Reservation.date res)
    (Reservation.time_slot res) slot_label (Reservation.classroom res) []
    (mkCounts 0 0 0 0 0) can_cancel cancel_deadline false.

(** The body of [if bid not in temp_groups]: an integer that is not zero
    has no [split]. *)
Definition new_group (res : Reservation.t) (now : datetime) : result Group :=
  let slot_label := get_time_slot_display (Reservation.time_slot res) in
  match slot_label with
  | slot_value 0 => Ok (init_group res slot_label false None)
  | slot_value _ => Raise AttributeError
  | slot_name EmptyString => Ok (init_group res slot_label false None)
  | slot_name label =>
      match start_hm label with
      | Some (h, m) =>
          let slot_start := combine (Reservation.date res) h m in
          let deadline := slot_start - timedelta_minutes (deadline_minutes settings) in
          Ok (init_group res slot_label (now <? deadline) (Some deadline))
      | None => Ok (init_group res slot_label false None)
      end
  end.

(** The entries a reservation adds to [seats]: one per item of
    [cancelled_seats_info] when there are any, else its own seat. *)
Definition seat_entries (res : Reservation.t) : list SeatEntry :=
  match Reservation.cancelled_seats_info res with
  | [] =>
      [mkSeatEntry (own_label (Reservation.seat_row res + 1)
                      (Reservation.seat_col res + 1))
         (Reservation.status res)]
  | seats_info =>
      map (fun seat_info =>
             mkSeatEntry (info_label (si_classroom seat_info)
                            (si_seat_row seat_info + 1) (si_seat_col seat_info + 1))
               (Reservation.status res))
          seats_info
  end.

(** The rest of the loop body, on [temp_groups[bid]]. *)
Definition add_row (res : Reservation.t) (g : Group) : Group :=
  let cancelled_by_admin :=
    is_admin_cancelled g
    || (has_status cancelled res && Reservation.is_admin_action res) in
  let created_by_admin :=
    is_admin_created g
    || (negb (has_status cancelled res) && Reservation.is_admin_action res) in
  let entries := seat_entries res in
  mkGroup (is_admin g || created_by_admin || cancelled_by_admin)
    cancelled_by_admin (group_batch_id g) (group_date g) (group_time_slot g)
    (time_slot_name g) (group_classroom g) (seats g ++ entries)
    (bump (Reservation.status res) (length entries) (status_counts g))
    (can_cancel g) (cancel_deadline g) created_by_admin.

(** [temp_groups] with [order_list]: the groups by batch, in the order
    in which the batches are met. *)
Definition has_group (bid : Z) (groups : list (Z * Group)) : bool :=
  existsb (fun e => fst e =? bid) groups.

Definition update_group (bid : Z) (f : Group -> Group) (groups : list (Z * Group))
    : list (Z * Group) :=
  map (fun e => if fst e =? bid then (fst e, f (snd e)) else e) groups.

(** One turn of [for res in raw_res]. *)
Definition group_step (now : datetime) (acc : result (list (Z * Group)))
    (res : Reservation.t) : result (list (Z * Group)) :=
  match acc with
  | Raise e => Raise e
  | Ok groups =>
      let bid := Reservation.batch_id res in
      if has_group bid groups
      then Ok (update_group bid (add_row res) groups)
      else match new_group res now with
           | Raise e => Raise e
           | Ok g => Ok (update_group bid (add_row res) (groups ++ [(bid, g)]))
           end
  end.

(** The second loop: the status of the whole batch. *)
Definition finalize (group : Group) : Booking :=
  let counts := status_counts group in
  let total := length (seats group) in
  if (0 <? count_approved counts)%nat then
    if (count_approved counts =? total)%nat
    then mkBooking group final_approved display_all_approved
    else mkBooking group final_warning
           (display_partly_approved (count_approved counts) total)
  else if (0 <? count_pending counts)%nat then
    mkBooking group final_pending display_pending
  else if (count_cancelled counts =? total)%nat && (0 <? total)%nat then
    mkBooking group final_cancelled
      (if is_admin_cancelled group then display_admin_cancelled
       else display_cancelled)
  else if (count_expired counts =? total)%nat && (0 <? total)%nat then
    mkBooking group final_expired display_expired
  else if (0 <? count_expired counts)%nat then
    mkBooking group final_expired display_expired
  else mkBooking group final_rejected display_all_failed.

Definition final_status_name (f : FinalStatus) : string :=
  match f with
  | final_approved => "approved"
  | final_warning => "warning"
  | final_pending => "pending"
  | final_cancelled => "cancelled"
  | final_expired => "expired"
  | final_rejected => "rejected"
  end.

(** [my_bookings]; [status_filter]: [request.GET.get('status', 'all')]. *)
Definition my_bookings (db : DB) (sid : option Z) (now : datetime)
    (status_filter : string) : BookingsResponse :=
  match sid with
  | None => bookings_redirect_index
  | Some sid =>
  match get_student db sid with
  | None => bookings_server_error DoesNotExist
  | Some student =>
      let raw_res :=
        order_by_created_at_desc
          (filter (fun r => Reservation.student r =? Student.id student)
             (reservations db)) in
      match fold_left (group_step now) raw_res (Ok []) with
      | Raise e => bookings_server_error e
      | Ok temp_groups =>
          let grouped_bookings := map (fun e => finalize (snd e)) temp_groups in
          bookings_page student
            (if String.eqb status_filter "all" then grouped_bookings
             else filter (fun g => String.eqb (final_status_name (final_status g))
                                     status_filter)
                    grouped_bookings)
            status_filter
      end
  end end.

End Bookings.


(** The reservations of a student in one batch. *)
Definition batch_rows (db : DB) (student : Z) (bid : Z) : list Reservation.t :=
  filter (fun r => (Reservation.student r =? student) && (Reservation.batch_id r =? bid))
    (reservations db).

(** The seats a list of reservations puts on the page, all of them and
    those of one status. *)
Definition seat_total (rows : list Reservation.t) : nat :=
  list_sum (map (fun r => length (seat_entries r)) rows).

Definition seat_count (s : Status) (rows : list Reservation.t) : nat :=
  seat_total (filter (has_status s) rows).

(** The rows of a batch added to its group, one after the other. *)
Definition add_rows (rows : list Reservation.t) (g0 : Group) : Group :=
  fold_left (fun g r => add_row r g) rows g0.

Definition of_batch (bid : Z) (r : Reservation.t) : bool :=
  Reservation.batch_id r =? bid.

(** For the runs: alice's page at noon, with the rows in the order of
    descending keys, and an installation in which alice holds a request
    for a slot that has since been removed. *)
Module BookingScenes.

Import Demo.

Definition newest_first : list Reservation.t -> list Reservation.t := @rev Reservation.t.

Definition alice_page : list Booking :=
  match my_bookings cfg newest_first db (Some 1) noon "all" with
  | bookings_page _ grouped_bookings _ => grouped_bookings
  | _ => []
  end.

Definition r6 : Reservation.t :=
  Reservation.mk 6 105 1 1 0 2 tomorrow 9 pending (combine today 9 30) false [].

Definition db_old_slot : DB :=
  {| students := [alice; bob];
     classrooms := [room];
     reservations := [r1; r6];
     access_codes := [];
     next_id := 7;
     next_student_id := 3;
     next_code_id := 1 |}.

End BookingScenes.

(** ** Basic facts *)

Lemma Status_eqb_eq a b : Status_eqb a b = true <-> a = b.
Proof. destruct a, b; simpl; split; congruence. Qed.

Lemma Status_eqb_refl a : Status_eqb a a = true.
Proof. now destruct a. Qed.

Lemma SeatKey_eqb_eq a b : SeatKey_eqb a b = true <-> a = b.
Proof.
  destruct a, b; unfold SeatKey_eqb; simpl.
  rewrite !andb_true_iff, !Z.eqb_eq. split.
  - intros [[[[-> ->] ->] ->] ->]. reflexivity.
  - intros H; injection H; auto.
Qed.

Lemma SeatKey_eqb_refl a : SeatKey_eqb a a = true.
Proof. now apply SeatKey_eqb_eq. Qed.

Lemma has_status_iff s r : has_status s r = true <-> Reservation.status r = s.
Proof. apply Status_eqb_eq. Qed.

Lemma seat_with_status_iff k s r :
  seat_with_status k s r = true <-> key_of r = k /\ Reservation.status r = s.
Proof.
  unfold seat_with_status. now rewrite andb_true_iff, SeatKey_eqb_eq, has_status_iff.
Qed.

Lemma key_of_set_status s r : key_of (Reservation.set_status s r) = key_of r.
Proof. reflexivity. Qed.

Lemma id_set_status s r : Reservation.id (Reservation.set_status s r) = Reservation.id r.
Proof. reflexivity. Qed.

Lemma status_set_status s r : Reservation.status (Reservation.set_status s r) = s.
Proof. reflexivity. Qed.

Lemma timedelta_minutes_30 : timedelta_minutes 30 = 1800000000.
Proof. reflexivity. Qed.

(** ** [submit] *)

Section SubmitFacts.

Variable settings : Settings.

Ltac submit_step :=
  match goal with
  | |- context [match ?x with _ => _ end] => destruct x eqn:?
  end.

Lemma booking_closed_some d slot now dl :
  booking_closed settings d slot now = Some dl <->
  slot_deadline settings d slot = Some dl /\ dl <= now.
Proof.
  unfold booking_closed. destruct (slot_deadline settings d slot) as [x|].
  - destruct (now >=? x) eqn:E.
    + apply Z.geb_le in E. split.
      * intros H; inversion H; subst; auto.
      * intros [H _]; exact H.
    + split; [discriminate|]. intros [H Hle]. inversion H; subst.
      rewrite Z.geb_leb in E. apply Z.leb_gt in E. lia.
  - split; [discriminate | intros [H _]; discriminate].
Qed.

Lemma slot_deadline_start d slot start :
  get_slot_start_time settings d slot = Some start ->
  slot_deadline settings d slot =
    Some (start - timedelta_minutes
                    (Py.getattr (RESERVATION_BOOKING_WINDOW_MINUTES settings) 30)).
Proof. unfold slot_deadline, deadline_minutes. now intros ->. Qed.

(** C4.  Booking window of [submit]: when the label of the requested slot
    gives a start time, a request made at or after that start minus
    RESERVATION_BOOKING_WINDOW_MINUTES (30 when the setting is absent) is
    answered with an error and leaves the database as it was (with the
    booking-closed message once the student and the date checks are
    passed); a request made strictly before is never answered with the
    booking-closed message. *)
Theorem submit_booking_window :
  forall db sid post env d slot_start,
    post_date post = Some d ->
    get_slot_start_time settings d (post_slot post) = Some slot_start ->
    let deadline :=
      slot_start - timedelta_minutes
                     (Py.getattr (RESERVATION_BOOKING_WINDOW_MINUTES settings) 30) in
    (deadline <= env_now env ->
       submit_db (submit settings db sid post env) = db
       /\ submit_type (submit settings db sid post env) = type_error
       /\ (forall student,
             get_student db sid = Some student ->
             env_today env <= d <= env_today env + max_ahead settings student ->
             submit_msg (submit settings db sid post env) = msg_booking_closed deadline))
    /\ (env_now env < deadline ->
        forall dl, submit_msg (submit settings db sid post env) <> msg_booking_closed dl).
Proof.
  intros db sid post env d slot_start Hd Hs deadline.
  pose proof (slot_deadline_start _ _ _ Hs) as Hdl. fold deadline in Hdl.
  split.
  - intros Hle.
    assert (Hc : booking_closed settings d (post_slot post) (env_now env) = Some deadline)
      by (apply booking_closed_some; auto).
    unfold submit, submit_db, submit_type, submit_msg.
    destruct (get_student db sid) as [student|]; [|simpl; intuition discriminate].
    rewrite Hd.
    destruct (d <? env_today env) eqn:E1.
    { simpl. repeat split; auto. intros st _ Hr. apply Z.ltb_lt in E1. lia. }
    destruct (d >? env_today env + max_ahead settings student) eqn:E2.
    { simpl. repeat split; auto. intros st Hst Hr. inversion Hst; subst.
      rewrite Z.gtb_ltb in E2. apply Z.ltb_lt in E2. lia. }
    rewrite Hc. simpl. repeat split; auto.
  - intros Hlt dl.
    assert (Hc : booking_closed settings d (post_slot post) (env_now env) = None).
    { destruct (booking_closed settings d (post_slot post) (env_now env)) eqn:E; auto.
      apply booking_closed_some in E. destruct E as [E1 E2].
      rewrite Hdl in E1. inversion E1; subst. lia. }
    unfold submit, submit_msg.
    destruct (get_student db sid) as [student|]; [|simpl; discriminate].
    rewrite Hd, Hc.
    repeat (submit_step; simpl; try discriminate).
Qed.

Lemma three_distinct_nodup (l : list Z) b1 b2 b3 :
  In b1 l -> In b2 l -> In b3 l -> b1 <> b2 -> b1 <> b3 -> b2 <> b3 ->
  (3 <= length (nodup Z.eq_dec l))%nat.
Proof.
  intros H1 H2 H3 N12 N13 N23.
  change 3%nat with (length [b1; b2; b3]).
  apply NoDup_incl_length.
  - repeat constructor; simpl; intuition congruence.
  - intros x [<-|[<-|[<-|[]]]]; now apply nodup_In.
Qed.

Lemma two_values_nodup (l : list Z) b1 b2 :
  (forall b, In b l -> b = b1 \/ b = b2) ->
  (length (nodup Z.eq_dec l) <= 2)%nat.
Proof.
  intros H. change 2%nat with (length [b1; b2]).
  apply NoDup_incl_length; [apply NoDup_nodup|].
  intros x Hx. apply nodup_In in Hx. destruct (H x Hx); subst; simpl; auto.
Qed.

(** The rows counted by the pending-batch query of [submit]. *)
Lemma pending_upcoming_in db student today r :
  In r (reservations db) ->
  Reservation.student r = Student.id student ->
  Reservation.status r = pending ->
  today <= Reservation.date r ->
  In (Reservation.batch_id r)
     (map Reservation.batch_id
        (filter (fun r => (Reservation.student r =? Student.id student)
                          && has_status pending r
                          && (Reservation.date r >=? today))
                (reservations db))).
Proof.
  intros Hin Hs Hp Hd. apply in_map, filter_In. split; auto.
  rewrite !andb_true_iff, Z.eqb_eq, has_status_iff, Z.geb_le. auto.
Qed.

(** C9.  Pending-batch limit of [submit]: a student who has pending
    reservations dated today or later in three pairwise different batches
    is refused and no reservation is created; the bound
    MAX_PENDING_BATCHES is 3 and it counts batch ids, not seats: a student
    whose pending reservations of today and later all lie in at most two
    batches is never answered with the limit message, however many rows
    those batches hold. *)
Theorem submit_pending_batch_limit :
  forall db sid post env student,
    get_student db sid = Some student ->
    let mine r :=
      In r (reservations db)
      /\ Reservation.student r = Student.id student
      /\ Reservation.status r = pending
      /\ env_today env <= Reservation.date r in
    MAX_PENDING_BATCHES = 3%nat
    /\ (forall r1 r2 r3,
          mine r1 -> mine r2 -> mine r3 ->
          Reservation.batch_id r1 <> Reservation.batch_id r2 ->
          Reservation.batch_id r1 <> Reservation.batch_id r3 ->
          Reservation.batch_id r2 <> Reservation.batch_id r3 ->
          submit_db (submit settings db sid post env) = db
          /\ submit_type (submit settings db sid post env) = type_error)
    /\ (forall b1 b2,
          (forall r, mine r -> Reservation.batch_id r = b1 \/ Reservation.batch_id r = b2) ->
          forall n, submit_msg (submit settings db sid post env) <> msg_pending_limit n).
Proof.
  intros db sid post env student Hst mine. split; [reflexivity|]. split.
  - intros r1 r2 r3 (I1 & S1 & P1 & D1) (I2 & S2 & P2 & D2) (I3 & S3 & P3 & D3) N12 N13 N23.
    assert (Hn : (3 <= current_pending_batches db student (env_today env))%nat).
    { unfold current_pending_batches.
      apply three_distinct_nodup with (b1 := Reservation.batch_id r1)
        (b2 := Reservation.batch_id r2) (b3 := Reservation.batch_id r3); auto;
        apply pending_upcoming_in; auto. }
    unfold submit, submit_db, submit_type. rewrite Hst.
    destruct (post_date post) as [d|]; [|simpl; auto].
    destruct (d <? env_today env); [simpl; auto|].
    destruct (d >? env_today env + max_ahead settings student); [simpl; auto|].
    destruct (booking_closed settings d (post_slot post) (env_now env)); [simpl; auto|].
    destruct (post_seats_list post) as [|s0 seats]; [simpl; auto|].
    assert (E : (MAX_PENDING_BATCHES <=? current_pending_batches db student (env_today env))%nat = true)
      by (apply Nat.leb_le; exact Hn).
    rewrite E. simpl. auto.
  - intros b1 b2 Hb n.
    assert (Hn : (current_pending_batches db student (env_today env) <= 2)%nat).
    { unfold current_pending_batches. apply two_values_nodup with (b1 := b1) (b2 := b2).
      intros b Hin. apply in_map_iff in Hin. destruct Hin as (r & <- & Hr).
      apply filter_In in Hr. destruct Hr as [Hin Hc].
      rewrite !andb_true_iff, Z.eqb_eq, has_status_iff, Z.geb_le in Hc.
      apply Hb. unfold mine. intuition. }
    assert (E : (MAX_PENDING_BATCHES <=? current_pending_batches db student (env_today env))%nat = false)
      by (apply Nat.leb_gt; unfold MAX_PENDING_BATCHES; lia).
    unfold submit, submit_msg. rewrite Hst.
    destruct (post_date post) as [d|]; [|simpl; discriminate].
    destruct (d <? env_today env); [simpl; discriminate|].
    destruct (d >? env_today env + max_ahead settings student); [simpl; discriminate|].
    destruct (booking_closed settings d (post_slot post) (env_now env)); [simpl; discriminate|].
    destruct (post_seats_list post) as [|s0 seats]; [simpl; discriminate|].
    rewrite E.
    repeat (submit_step; simpl; try discriminate).
Qed.

(** C10.  Restrictions on role [user] in [submit]: such a student is
    refused, and nothing is created, when the seat list has more than one
    entry, or when the student already holds a pending or approved
    reservation for the requested date and slot; a [manager] is never
    answered with either of the two refusals. *)
Theorem submit_normal_user_restrictions :
  forall db sid post env student,
    get_student db sid = Some student ->
    (Student.role student = user ->
     (1 < length (post_seats_list post))%nat ->
     submit_db (submit settings db sid post env) = db
     /\ submit_type (submit settings db sid post env) = type_error)
    /\ (Student.role student = user ->
        forall d r,
          post_date post = Some d ->
          In r (reservations db) ->
          Reservation.student r = Student.id student ->
          Reservation.date r = d ->
          Reservation.time_slot r = post_slot post ->
          Reservation.status r = pending \/ Reservation.status r = approved ->
          submit_db (submit settings db sid post env) = db
          /\ submit_type (submit settings db sid post env) = type_error)
    /\ (Student.role student = manager ->
        submit_msg (submit settings db sid post env) <> msg_user_single_seat
        /\ submit_msg (submit settings db sid post env) <> msg_user_has_booking).
Proof.
  intros db sid post env student Hst. split; [|split].
  - intros Hrole Hlen.
    unfold submit, submit_db, submit_type. rewrite Hst, Hrole.
    destruct (post_seats_list post) as [|s0 seats]; [simpl in Hlen; lia|].
    apply Nat.ltb_lt in Hlen. rewrite Hlen.
    repeat (submit_step; simpl; auto); simpl in *; discriminate.
  - intros Hrole d r Hd Hin Hs Hdate Hslot Hstatus.
    assert (Hb : has_booking db student d (post_slot post) = true).
    { apply existsb_exists. exists r. split; auto.
      rewrite !andb_true_iff, orb_true_iff, !Z.eqb_eq, !has_status_iff. intuition. }
    unfold submit, submit_db, submit_type. rewrite Hst, Hrole, Hd, Hb.
    repeat (submit_step; simpl; auto); simpl in *; discriminate.
  - intros Hrole. unfold submit, submit_msg. rewrite Hst, Hrole.
    split; repeat (submit_step; simpl; try discriminate).
Qed.

Lemma is_hard_locked_iff db k :
  is_hard_locked db k = true <->
  exists a, In a (reservations db) /\ key_of a = k /\ Reservation.status a = approved.
Proof.
  unfold is_hard_locked. rewrite existsb_exists.
  split; intros (a & Ha & H); exists a; split; auto; now apply seat_with_status_iff.
Qed.

Lemma is_hard_locked_create_pending db mk_row k :
  (forall pk, Reservation.status (mk_row pk) = pending) ->
  is_hard_locked (fst (create db mk_row)) k = is_hard_locked db k.
Proof.
  intros Hp. unfold is_hard_locked, create. simpl.
  rewrite existsb_app. simpl. unfold seat_with_status at 2, has_status.
  rewrite Hp. simpl. now rewrite andb_false_r, !orb_false_r.
Qed.

Lemma create_batch_ok stu cid d slot batch now seats :
  forall db acc db' news,
    create_batch db stu cid d slot batch now seats acc = Ok (db', news) ->
    exists created,
      news = acc ++ created
      /\ reservations db' = reservations db ++ created
      /\ classrooms db' = classrooms db
      /\ Forall2 (fun tok r =>
                    exists pk row col,
                      tok = Some (row, col)
                      /\ r = new_pending stu cid row col d slot batch now pk)
                 seats created.
Proof.
  induction seats as [|tok seats IH]; intros db acc db' news H; simpl in H.
  - inversion H; subst. exists []. rewrite !app_nil_r. auto.
  - destruct tok as [[r c]|]; [|discriminate].
    destruct (is_hard_locked db (mkKey cid r c d slot)); [discriminate|].
    apply IH in H. destruct H as (created & -> & Hres & Hcls & HF).
    exists (new_pending stu cid r c d slot batch now (next_id db) :: created).
    simpl in *. rewrite <- !app_assoc in *. simpl in *. repeat split; auto.
    constructor; auto. now exists (next_id db), r, c.
Qed.

Lemma create_batch_raise stu cid d slot batch now seats :
  forall db acc e,
    create_batch db stu cid d slot batch now seats acc = Raise e ->
    (e = ValueError_invalid_literal /\ In None seats)
    \/ (exists r c, e = ValueError_seat_taken r c /\ In (Some (r, c)) seats
                    /\ is_hard_locked db (mkKey cid r c d slot) = true).
Proof.
  induction seats as [|tok seats IH]; intros db acc e H; simpl in H; [discriminate|].
  destruct tok as [[r c]|].
  - destruct (is_hard_locked db (mkKey cid r c d slot)) eqn:E.
    + inversion H; subst. right. exists r, c. simpl; auto.
    + apply IH in H. destruct H as [[-> Hin]|(r' & c' & -> & Hin & Hl)].
      * left; simpl; auto.
      * right. exists r', c'. simpl. repeat split; auto.
        rewrite <- Hl. symmetry.
        apply (is_hard_locked_create_pending db
                 (new_pending stu cid r c d slot batch now)). reflexivity.
  - inversion H; subst. left; simpl; auto.
Qed.

Lemma create_batch_locked stu cid d slot batch now seats r c :
  forall db acc,
    In (Some (r, c)) seats ->
    is_hard_locked db (mkKey cid r c d slot) = true ->
    exists e, create_batch db stu cid d slot batch now seats acc = Raise e.
Proof.
  induction seats as [|tok seats IH]; intros db acc Hin Hl; [destruct Hin|].
  simpl. destruct tok as [[r' c']|]; [|eauto].
  destruct (is_hard_locked db (mkKey cid r' c' d slot)) eqn:E; [eauto|].
  destruct Hin as [Heq|Hin]; [inversion Heq; subst; congruence|].
  apply IH; auto.
  rewrite <- Hl.
  apply (is_hard_locked_create_pending db
           (new_pending stu cid r' c' d slot batch now)). reflexivity.
Qed.

(** [submit] either stops at a pre-check, or runs the transaction. *)
Lemma submit_cases db sid post env :
  let res := submit settings db sid post env in
  (exists m, res = (db, (m, type_error), [])
             /\ (precheck_refusal m = true \/ post_orm_date_ok post = false))
  \/ (exists student d,
        get_student db sid = Some student /\ post_date post = Some d
        /\ post_seats_list post <> []
        /\ post_orm_date_ok post = true
        /\ match commit_fk (post_cid post)
                   (create_batch db (Student.id student) (post_cid post) d
                      (post_slot post) (env_uuid4 env) (env_now env)
                      (post_seats_list post) []) with
           | Raise e => submit_db res = db /\ submit_type res = type_error
                        /\ (submit_msg res = msg_value_error e
                            \/ submit_msg res = msg_system_error e)
                        /\ e <> DoesNotExist
           | Ok (db', news) => submit_db res = db'
           end).
Proof.
  intros res. unfold res, submit.
  destruct (get_student db sid) as [student|];
    [|left; eexists; split; [reflexivity|left; reflexivity]].
  destruct (post_date post) as [d|];
    [|left; eexists; split; [reflexivity|left; reflexivity]].
  destruct (d <? env_today env);
    [left; eexists; split; [reflexivity|left; reflexivity]|].
  destruct (d >? env_today env + max_ahead settings student);
    [left; eexists; split; [reflexivity|left; reflexivity]|].
  destruct (booking_closed settings d (post_slot post) (env_now env));
    [left; eexists; split; [reflexivity|left; reflexivity]|].
  destruct (post_seats_list post) as [|s0 seats] eqn:Es;
    [left; eexists; split; [reflexivity|left; reflexivity]|].
  destruct (_ <=? _)%nat; [left; eexists; split; [reflexivity|left; reflexivity]|].
  destruct (Role_eqb _ _ && (_ <? _)%nat);
    [left; eexists; split; [reflexivity|left; reflexivity]|].
  destruct (post_orm_date_ok post) eqn:Eorm.
  2:{ left. unfold create_batch_str.
      destruct (Role_eqb (Student.role student) user && negb false);
        [eexists; split; [reflexivity|right; reflexivity]|].
      destruct (Role_eqb _ _ && has_booking _ _ _ _);
        [eexists; split; [reflexivity|right; reflexivity]|].
      destruct s0 as [[r c]|]; simpl;
        eexists; (split; [reflexivity|right; reflexivity]). }
  simpl negb. rewrite andb_false_r.
  destruct (Role_eqb _ _ && has_booking _ _ _ _);
    [left; eexists; split; [reflexivity|left; reflexivity]|].
  unfold create_batch_str.
  right. exists student, d. repeat split; auto; [discriminate|].
  destruct (commit_fk _ _) as [[db' news]|e] eqn:Ec.
  - destruct (env_send_mail env _); reflexivity.
  - assert (He : e <> DoesNotExist).
    { unfold commit_fk in Ec.
      destruct (create_batch _ _ _ _ _ _ _ _ _) as [[db1 n1]|e1] eqn:Eb.
      - destruct (classroom_exists db1 (post_cid post)); [discriminate|].
        inversion Ec; discriminate.
      - inversion Ec; subst. apply create_batch_raise in Eb.
        destruct Eb as [[-> _]|(r & c & -> & _)]; discriminate. }
    destruct e; simpl; auto; congruence.
Qed.

(** The hard lock in [submit]: a listed seat with an approved reservation
    makes the whole request fail. *)
Lemma submit_hard_lock db sid post env d r c a :
  post_date post = Some d ->
  In (Some (r, c)) (post_seats_list post) ->
  In a (reservations db) ->
  key_of a = mkKey (post_cid post) r c d (post_slot post) ->
  Reservation.status a = approved ->
  submit_db (submit settings db sid post env) = db
  /\ submit_type (submit settings db sid post env) = type_error.
Proof.
  intros Hd Hin Ha Hk Hs.
  destruct (submit_cases db sid post env)
    as [(m & -> & _)|(student & d' & Hst & Hd' & Hne & H)]; [auto|].
  rewrite Hd in Hd'. inversion Hd'; subst d'.
  assert (Hl : is_hard_locked db (mkKey (post_cid post) r c d (post_slot post)) = true)
    by (apply is_hard_locked_iff; eauto).
  destruct (create_batch_locked (Student.id student) (post_cid post) d (post_slot post)
              (env_uuid4 env) (env_now env) _ r c db [] Hin Hl) as [e He].
  rewrite He in H. simpl in H. tauto.
Qed.





End SubmitFacts.

(** ** [save], [update] and loops of [save] *)

Section OrmFacts.

Lemma same_id_eq a b : same_id a b = true <-> Reservation.id a = Reservation.id b.
Proof. apply Z.eqb_eq. Qed.

Lemma same_id_sym a b : same_id a b = same_id b a.
Proof. apply Z.eqb_sym. Qed.

Lemma unique_by_id rows a b :
  NoDup (map Reservation.id rows) ->
  In a rows -> In b rows -> Reservation.id a = Reservation.id b -> a = b.
Proof.
  induction rows as [|x rows IH]; simpl; intros Hnd Ha Hb Hid; [tauto|].
  inversion Hnd as [|? ? Hnot Hnd']; subst.
  destruct Ha as [->|Ha], Hb as [->|Hb]; auto.
  - exfalso. apply Hnot. rewrite Hid. now apply in_map.
  - exfalso. apply Hnot. rewrite <- Hid. now apply in_map.
Qed.

Lemma map_id_update (g : Reservation.t -> Reservation.t) rows :
  (forall x, Reservation.id (g x) = Reservation.id x) ->
  map Reservation.id (map g rows) = map Reservation.id rows.
Proof. intros H. rewrite map_map. apply map_ext. exact H. Qed.

Lemma map_ext_in_rows (g h : Reservation.t -> Reservation.t) rows :
  (forall x, In x rows -> g x = h x) -> map g rows = map h rows.
Proof. apply map_ext_in. Qed.

(** Saving an object whose row exists rewrites that row. *)
Lemma save_existing res rows :
  existsb (same_id res) rows = true ->
  save res rows = map (fun x => if same_id res x then res else x) rows.
Proof. unfold save. now intros ->. Qed.

Lemma existsb_same_id_in r rows :
  In r rows -> existsb (same_id r) rows = true.
Proof.
  intros H. apply existsb_exists. exists r. split; auto. now apply same_id_eq.
Qed.

(** A loop of [save] over a snapshot of rows of the table is one [map]. *)
Lemma save_each_map (f : Reservation.t -> Reservation.t) :
  (forall x, Reservation.id (f x) = Reservation.id x) ->
  forall qs rows,
    NoDup (map Reservation.id rows) ->
    NoDup (map Reservation.id qs) ->
    (forall r, In r qs -> In r rows) ->
    save_each f qs rows =
    map (fun x => if existsb (same_id x) qs then f x else x) rows.
Proof.
  intros Hf. induction qs as [|r rest IH]; intros rows Hnd Hq Hin.
  - simpl. symmetry. apply map_id.
  - unfold save_each in *. simpl.
    inversion Hq as [|? ? Hnot Hq']; subst.
    assert (Hs : save (f r) rows =
                 map (fun x => if same_id r x then f x else x) rows).
    { rewrite save_existing.
      - apply map_ext_in. intros x Hx. unfold same_id. rewrite Hf.
        destruct (Reservation.id r =? Reservation.id x) eqn:E; auto.
        apply Z.eqb_eq in E.
        now rewrite (unique_by_id rows r x Hnd (Hin r (or_introl eq_refl)) Hx E).
      - apply existsb_exists. exists r. split; [apply Hin; simpl; auto|].
        unfold same_id. rewrite Hf. apply Z.eqb_refl. }
    rewrite Hs, IH; auto.
    + rewrite map_map. apply map_ext_in. intros x Hx.
      destruct (same_id r x) eqn:E.
      * rewrite (same_id_sym x r), E. simpl.
        replace (existsb (same_id (f x)) rest) with false; auto.
        symmetry. apply not_true_is_false. intros Hex.
        apply existsb_exists in Hex. destruct Hex as (y & Hy & Hxy).
        apply Hnot. apply same_id_eq in E, Hxy. rewrite Hf in Hxy.
        rewrite E, Hxy. now apply in_map.
      * now rewrite (same_id_sym x r), E.
    + rewrite map_id_update; auto. intros x. destruct (same_id r x); auto.
    + intros r' Hr'. apply in_map_iff. exists r'. split; [|apply Hin; simpl; auto].
      destruct (same_id r r') eqn:E; auto.
      exfalso. apply Hnot. apply same_id_eq in E. rewrite E. now apply in_map.
Qed.

Lemma NoDup_map_filter (p : Reservation.t -> bool) rows :
  NoDup (map Reservation.id rows) -> NoDup (map Reservation.id (filter p rows)).
Proof.
  induction rows as [|x rows IH]; simpl; intros H; [constructor|].
  inversion H as [|? ? Hnot Hnd]; subst.
  destruct (p x); simpl; auto. constructor; auto.
  intros Hin. apply Hnot. apply in_map_iff in Hin. destruct Hin as (y & Hy & Hin).
  apply filter_In in Hin. rewrite <- Hy. apply in_map. tauto.
Qed.

Lemma existsb_same_id_filter (p : Reservation.t -> bool) rows x :
  NoDup (map Reservation.id rows) -> In x rows ->
  existsb (same_id x) (filter p rows) = p x.
Proof.
  intros Hnd Hx. destruct (p x) eqn:E.
  - apply existsb_exists. exists x. split; [now apply filter_In|now apply same_id_eq].
  - apply not_true_is_false. intros H. apply existsb_exists in H.
    destruct H as (y & Hy & Hxy). apply filter_In in Hy. destruct Hy as [Hy Hp].
    apply same_id_eq in Hxy.
    rewrite (unique_by_id rows x y Hnd Hx Hy Hxy) in E. congruence.
Qed.

(** Saving every row a query returned is the bulk update of that query. *)
Lemma save_each_filter (f : Reservation.t -> Reservation.t) p rows :
  (forall x, Reservation.id (f x) = Reservation.id x) ->
  NoDup (map Reservation.id rows) ->
  save_each f (filter p rows) rows = update_where p f rows.
Proof.
  intros Hf Hnd. rewrite save_each_map; auto.
  - apply map_ext_in. intros x Hx. now rewrite existsb_same_id_filter.
  - now apply NoDup_map_filter.
  - intros r Hr. apply filter_In in Hr. tauto.
Qed.

Lemma update_where_ids p f rows :
  (forall x, Reservation.id (f x) = Reservation.id x) ->
  map Reservation.id (update_where p f rows) = map Reservation.id rows.
Proof.
  intros Hf. apply map_id_update. intros x. destruct (p x); auto.
Qed.

Lemma filter_filter {A} (p q : A -> bool) l :
  filter q (filter p l) = filter (fun x => p x && q x) l.
Proof.
  induction l as [|x l IH]; simpl; auto.
  destruct (p x); simpl; [destruct (q x); simpl; congruence|auto].
Qed.

End OrmFacts.

(** ** The [cleanup] command *)

Section CleanupFacts.

Variable settings : Settings.

Lemma deadline_passed_iff d slot now :
  deadline_passed settings d slot now = true <->
  exists slot_start,
    get_slot_start_time settings d slot = Some slot_start
    /\ slot_start
         - timedelta_minutes (Py.getattr (RESERVATION_BOOKING_WINDOW_MINUTES settings) 30)
       <= now.
Proof.
  unfold deadline_passed, slot_deadline, deadline_minutes.
  destruct (get_slot_start_time settings d slot) as [s|].
  - rewrite Z.geb_le. split.
    + intros H. exists s. auto.
    + intros (s' & E & H). inversion E; subst. exact H.
  - split; [discriminate|]. intros (s' & E & _). discriminate.
Qed.

Lemma staleb_iff now today r :
  staleb settings now today r = true <-> stale settings now today r.
Proof.
  unfold staleb, stale, timeout_hours, expire_days.
  rewrite !orb_true_iff, andb_true_iff, Z.geb_le, Z.ltb_lt, Z.leb_le,
    deadline_passed_iff. tauto.
Qed.

Lemma expire_loop_fst now (l : list Reservation.t) :
  forall rows n,
    fst (fold_left
           (fun acc res =>
              if deadline_passed settings (Reservation.date res)
                   (Reservation.time_slot res) now
              then (save (Reservation.set_status expired res) (fst acc), S (snd acc))
              else acc)
           l (rows, n))
    = save_each (Reservation.set_status expired)
        (filter (fun res => deadline_passed settings (Reservation.date res)
                              (Reservation.time_slot res) now) l)
        rows.
Proof.
  induction l as [|r l IH]; intros rows n; simpl; auto.
  destruct (deadline_passed settings (Reservation.date r) (Reservation.time_slot r) now);
    simpl; apply IH.
Qed.

Lemma cleanup_rows db now today :
  NoDup (map Reservation.id (reservations db)) ->
  reservations (fst (cleanup settings db now today)) =
  map (fun r => if has_status pending r && staleb settings now today r
                then Reservation.set_status expired r else r)
      (reservations db).
Proof.
  intros Hnd. unfold cleanup.
  destruct (expire_past_deadline settings now today (reservations db))
    as [rows0 n0] eqn:E0.
  assert (H0 : rows0 =
    update_where
      (fun r => (has_status pending r && (Reservation.date r >=? today))
                && deadline_passed settings (Reservation.date r)
                     (Reservation.time_slot r) now)
      (Reservation.set_status expired) (reservations db)).
  { apply (f_equal fst) in E0. simpl in E0. rewrite <- E0.
    unfold expire_past_deadline. rewrite expire_loop_fst, filter_filter.
    apply save_each_filter; auto. }
  simpl. subst rows0. unfold update_where. rewrite !map_map.
  apply map_ext. intros r. unfold timed_out, date_passed, staleb, has_status.
  destruct (Reservation.status r) eqn:Es; simpl;
    try (repeat (rewrite Es; simpl); reflexivity).
  destruct (Reservation.date r >=? today); simpl;
    destruct (deadline_passed settings (Reservation.date r) (Reservation.time_slot r) now);
    simpl; repeat (rewrite Es; simpl); auto;
    destruct (Reservation.created_at r <? now - timedelta_hours (timeout_hours settings));
    simpl; repeat (rewrite Es; simpl); auto;
    destruct (Reservation.date r <=? today - expire_days settings);
    simpl; repeat (rewrite Es; simpl); auto.
Qed.

(** C6.  One run of [cleanup] on a table with unique primary keys expires
    exactly the stale pending reservations: row by row, a pending
    reservation that is stale by (a), (b) or (c) becomes the same row with
    status [expired], every other row (in particular every row that is
    not pending) is left as it was, and no pending stale row remains
    afterwards. *)
Theorem cleanup_expires_exactly_stale_pending :
  forall db now today,
    NoDup (map Reservation.id (reservations db)) ->
    let db' := fst (cleanup settings db now today) in
    Forall2 (cleaned settings now today) (reservations db) (reservations db')
    /\ (forall r, In r (reservations db) -> Reservation.status r <> pending ->
                  In r (reservations db'))
    /\ (forall r', In r' (reservations db') ->
                   ~ (Reservation.status r' = pending /\ stale settings now today r')).
Proof.
  intros db now today Hnd db'. unfold db'. rewrite cleanup_rows; auto.
  split; [|split].
  - clear Hnd db'. induction (reservations db) as [|r l IH]; simpl; constructor; auto.
    unfold cleaned. destruct (has_status pending r) eqn:Ep; simpl.
    + destruct (staleb settings now today r) eqn:Est.
      * left. apply has_status_iff in Ep. apply staleb_iff in Est. auto.
      * right. split; auto. intros [_ H]. apply staleb_iff in H. congruence.
    + right. split; auto. intros [H _]. apply has_status_iff in H. congruence.
  - intros r Hin Hs. apply in_map_iff. exists r. split; auto.
    destruct (has_status pending r) eqn:Ep; auto.
    apply has_status_iff in Ep. contradiction.
  - intros r' Hin [Hp Hst]. apply in_map_iff in Hin. destruct Hin as (r & Hr & _).
    destruct (has_status pending r && staleb settings now today r) eqn:E.
    + subst r'. discriminate.
    + subst r'. apply andb_false_iff in E. destruct E as [E|E].
      * apply has_status_iff in Hp. congruence.
      * apply staleb_iff in Hst. congruence.
Qed.

End CleanupFacts.

(** ** [cancel_booking] *)

Section CancelFacts.

Variable settings : Settings.

Lemma first_spec (l : list Reservation.t) :
  forall acc,
    match fold_left (fun acc r =>
                       match acc with
                       | None => Some r
                       | Some a => if Reservation.id r <? Reservation.id a
                                   then Some r else Some a
                       end) l acc with
    | Some x => acc = Some x \/ In x l
    | None => acc = None /\ l = []
    end.
Proof.
  induction l as [|r l IH]; intros acc; simpl.
  - destruct acc; auto.
  - specialize (IH (match acc with
                    | None => Some r
                    | Some a => if Reservation.id r <? Reservation.id a
                                then Some r else Some a
                    end)).
    destruct (fold_left _ l _) as [x|].
    + destruct IH as [H|H]; auto.
      destruct acc as [a|].
      * destruct (Reservation.id r <? Reservation.id a); inversion H; subst; auto.
      * inversion H; subst; auto.
    + destruct IH as [H _]. destruct acc as [a|];
        [destruct (Reservation.id r <? Reservation.id a)|]; discriminate.
Qed.

Lemma first_in qs x : first qs = Some x -> In x qs.
Proof.
  intros H. pose proof (first_spec qs None) as Hs. unfold first in H.
  rewrite H in Hs. destruct Hs as [Hs|Hs]; [discriminate|exact Hs].
Qed.

Lemma first_none qs : first qs = None -> qs = [].
Proof.
  intros H. pose proof (first_spec qs None) as Hs. unfold first in H.
  rewrite H in Hs. tauto.
Qed.

Lemma cancellable_iff batch_id student r :
  cancellable batch_id student r = true <-> in_batch batch_id student r.
Proof.
  unfold cancellable, in_batch.
  rewrite !andb_true_iff, orb_true_iff, !Z.eqb_eq, !has_status_iff. tauto.
Qed.

(** C5.  Cancellation window and atomicity of [cancel_booking].  Let the
    session's student own, in the batch, at least one pending or approved
    reservation, and let the slot of those reservations start at
    [slot_start].  Before [slot_start] minus the window every one of them
    becomes cancelled with [is_admin_action] cleared, and every other row
    is left as it was; at or after that deadline the answer is the error
    message and the database is the one before the call. *)
Theorem cancel_booking_window :
  forall db sid student batch_id now slot_start,
    NoDup (map Reservation.id (reservations db)) ->
    get_student db sid = Some student ->
    (exists r, In r (reservations db) /\ in_batch batch_id student r) ->
    (forall r, In r (reservations db) -> in_batch batch_id student r ->
               get_slot_start_time settings (Reservation.date r)
                 (Reservation.time_slot r) = Some slot_start) ->
    let deadline :=
      slot_start - timedelta_minutes
                     (Py.getattr (RESERVATION_BOOKING_WINDOW_MINUTES settings) 30) in
    let out := cancel_booking settings db (Some sid) true batch_id now in
    (now < deadline ->
       Forall2 (user_cancelled batch_id student)
               (reservations db) (reservations (fst out))
       /\ exists cnt, snd out = redirect_my_bookings [success_cancelled cnt])
    /\ (deadline <= now ->
        out = (db, redirect_my_bookings [error_cancel_closed deadline])).
Proof.
  intros db sid student batch_id now slot_start Hnd Hst (r0 & Hr0 & Hb0) Hslot deadline out.
  unfold out, cancel_booking. simpl. rewrite Hst.
  set (qs := filter (cancellable batch_id student) (reservations db)).
  assert (Hq0 : In r0 qs) by (apply filter_In; split; auto; now apply cancellable_iff).
  destruct (first qs) as [first_res|] eqn:Ef;
    [|apply first_none in Ef; rewrite Ef in Hq0; destruct Hq0].
  apply first_in in Ef. apply filter_In in Ef. destruct Ef as [Hin Hc].
  apply cancellable_iff in Hc.
  pose proof (Hslot _ Hin Hc) as Hs.
  assert (Hdl : slot_deadline settings (Reservation.date first_res)
                  (Reservation.time_slot first_res) = Some deadline).
  { unfold slot_deadline, deadline_minutes. now rewrite Hs. }
  unfold booking_closed. rewrite Hdl. split.
  - intros Hlt.
    assert (E : (now >=? deadline) = false)
      by (rewrite Z.geb_leb; apply Z.leb_gt; exact Hlt).
    rewrite E. simpl. split.
    + unfold qs. rewrite save_each_filter; auto.
      unfold update_where. clear. induction (reservations db) as [|r l IH]; simpl;
        constructor; auto.
      unfold user_cancelled, cancel_by_user.
      destruct (cancellable batch_id student r) eqn:Ec.
      * left. apply cancellable_iff in Ec. auto.
      * right. split; auto. intros H. apply cancellable_iff in H. congruence.
    + destruct qs; [destruct Hq0|]. simpl. eauto.
  - intros Hle.
    assert (E : (now >=? deadline) = true) by (apply Z.geb_le; exact Hle).
    rewrite E. reflexivity.
Qed.

End CancelFacts.

(** ** [admin_action] *)

Section AdminActionFacts.

Variable settings : Settings.

Lemma review_approve_rows valid_res :
  forall rows sc arc,
    fst (fst (review act_approve valid_res rows sc arc))
    = fold_left approve_turn valid_res rows.
Proof.
  induction valid_res as [|v rest IH]; intros rows sc arc; simpl; auto.
  unfold approve_turn at 2.
  destruct (existsb (seat_with_status (key_of v) approved) rows); apply IH.
Qed.

Lemma save_ids res rows :
  existsb (same_id res) rows = true ->
  map Reservation.id (save res rows) = map Reservation.id rows.
Proof.
  intros H. rewrite save_existing; auto. rewrite map_map. apply map_ext_in.
  intros x _. destruct (same_id res x) eqn:E; auto. now apply same_id_eq in E.
Qed.

(** A row other than the saved one survives a [save]. *)
Lemma save_other res rows x :
  In x rows -> Reservation.id x <> Reservation.id res -> In x (save res rows).
Proof.
  intros Hin Hne. unfold save. destruct (existsb (same_id res) rows).
  - apply in_map_iff. exists x. split; auto.
    destruct (same_id res x) eqn:E; auto. apply same_id_eq in E. congruence.
  - apply in_or_app. auto.
Qed.

Lemma save_in res rows : In res (save res rows).
Proof.
  unfold save. destruct (existsb (same_id res) rows) eqn:E.
  - apply existsb_exists in E. destruct E as (x & Hx & Hid).
    apply in_map_iff. exists x. now rewrite Hid.
  - apply in_or_app. right. simpl. auto.
Qed.

Lemma update_where_keep p f rows x :
  In x rows -> p x = false -> In x (update_where p f rows).
Proof.
  intros Hin Hp. apply in_map_iff. exists x. now rewrite Hp.
Qed.

Lemma update_where_hit p f rows x :
  In x rows -> p x = true -> In (f x) (update_where p f rows).
Proof.
  intros Hin Hp. apply in_map_iff. exists x. now rewrite Hp.
Qed.

Lemma competitors_not_pending res x :
  Reservation.status x <> pending -> competitors res x = false.
Proof.
  intros H. unfold competitors, seat_with_status.
  destruct (has_status pending x) eqn:E.
  - apply has_status_iff in E. contradiction.
  - now rewrite andb_false_r.
Qed.

(** Frame: a row that is not pending and is not the one being handled is
    left alone by a turn. *)
Lemma approve_turn_frame rows v x :
  In x rows -> Reservation.status x <> pending ->
  Reservation.id x <> Reservation.id v ->
  In x (approve_turn rows v).
Proof.
  intros Hin Hs Hid. unfold approve_turn.
  destruct (existsb (seat_with_status (key_of v) approved) rows).
  - apply save_other; auto.
  - apply update_where_keep; [apply save_other; auto|].
    now apply competitors_not_pending.
Qed.

Lemma approve_turn_ids rows v :
  In v rows \/ In (Reservation.set_status rejected v) rows ->
  map Reservation.id (approve_turn rows v) = map Reservation.id rows.
Proof.
  intros Hv.
  assert (He : forall s, existsb (same_id (Reservation.set_status s v)) rows = true).
  { intros s. apply existsb_exists. destruct Hv as [H|H]; eexists; split; eauto;
      apply same_id_eq; reflexivity. }
  unfold approve_turn.
  destruct (existsb (seat_with_status (key_of v) approved) rows).
  - now apply save_ids.
  - rewrite update_where_ids; auto. now apply save_ids.
Qed.

Lemma in_same_id rows a b :
  NoDup (map Reservation.id rows) -> In a rows -> In b rows ->
  Reservation.id a = Reservation.id b -> a = b.
Proof. apply unique_by_id. Qed.

Lemma set_status_pending_inj s a b :
  Reservation.status a = pending -> Reservation.status b = pending ->
  Reservation.set_status s a = Reservation.set_status s b -> a = b.
Proof.
  destruct a, b; unfold Reservation.set_status; simpl.
  intros -> -> H. inversion H; subst. reflexivity.
Qed.

(** The loop invariant is kept by a turn. *)
Lemma review_inv_step rows v rest :
  review_inv rows (v :: rest) -> review_inv (approve_turn rows v) rest.
Proof.
  intros (Hnd & Hv & Hall).
  inversion Hv as [|? ? Hnot Hrest]; subst.
  destruct (Hall v (or_introl eq_refl)) as [Hpv Hinv].
  split; [|split]; auto.
  - rewrite approve_turn_ids; auto.
  - intros w Hw. destruct (Hall w (or_intror Hw)) as [Hpw Hinw]. split; auto.
    assert (Hne : Reservation.id w <> Reservation.id v).
    { intros E. apply Hnot. rewrite <- E. now apply in_map. }
    destruct Hinw as [Hinw|Hinw].
    + unfold approve_turn.
      destruct (existsb (seat_with_status (key_of v) approved) rows).
      * left. apply save_other; auto.
      * destruct (competitors v w) eqn:Ec.
        -- right. apply (update_where_hit (competitors v)); auto.
           apply save_other; auto.
        -- left. apply update_where_keep; auto. apply save_other; auto.
    + right. apply approve_turn_frame; auto. simpl. discriminate.
Qed.

Lemma review_inv_fold valid_res :
  forall rows, review_inv rows valid_res ->
               NoDup (map Reservation.id (fold_left approve_turn valid_res rows)).
Proof.
  induction valid_res as [|v rest IH]; intros rows H; simpl.
  - apply H.
  - apply IH. now apply review_inv_step.
Qed.

(** Frame over the rest of the loop. *)
Lemma approve_fold_frame valid_res :
  forall rows x,
    In x rows -> Reservation.status x <> pending ->
    (forall v, In v valid_res -> Reservation.id v <> Reservation.id x) ->
    In x (fold_left approve_turn valid_res rows).
Proof.
  induction valid_res as [|v rest IH]; intros rows x Hin Hs Hid; simpl; auto.
  apply IH; [|auto|intros w Hw; apply Hid; simpl; auto].
  apply approve_turn_frame; auto. intros E. apply (Hid v); simpl; auto.
Qed.

Lemma count_filter_map (p q : Reservation.t -> bool) (g : Reservation.t -> Reservation.t) l :
  (forall x, In x l -> p (g x) = q x) ->
  length (filter p (map g l)) = length (filter q l).
Proof.
  induction l as [|x l IH]; simpl; intros H; auto.
  rewrite (H x (or_introl eq_refl)).
  destruct (q x); simpl; rewrite IH; auto; intros y Hy; apply H; auto.
Qed.

Lemma count_filter_none (p : Reservation.t -> bool) l :
  (forall x, In x l -> p x = false) -> length (filter p l) = 0%nat.
Proof.
  induction l as [|x l IH]; simpl; intros H; auto.
  rewrite (H x (or_introl eq_refl)). apply IH. intros y Hy. apply H; auto.
Qed.

Lemma count_same_id rows v x0 :
  NoDup (map Reservation.id rows) -> In x0 rows ->
  Reservation.id x0 = Reservation.id v ->
  length (filter (same_id v) rows) = 1%nat.
Proof.
  induction rows as [|x rows IH]; simpl; intros Hnd Hin Hid; [tauto|].
  inversion Hnd as [|? ? Hnot Hnd']; subst.
  destruct (same_id v x) eqn:E.
  - simpl. f_equal. apply count_filter_none. intros y Hy.
    apply not_true_is_false. intros Hy'. apply same_id_eq in E, Hy'.
    apply Hnot. rewrite <- E, Hy'. now apply in_map.
  - destruct Hin as [->|Hin].
    + apply not_true_iff_false in E. exfalso. apply E. apply same_id_eq. auto.
    + apply IH; auto.
Qed.

(** The row of the table that stands for [v]. *)
Lemma review_inv_row rows v rest x :
  review_inv rows (v :: rest) -> In x rows ->
  Reservation.id x = Reservation.id v ->
  x = v \/ x = Reservation.set_status rejected v.
Proof.
  intros (Hnd & _ & Hall) Hx Hid.
  destruct (Hall v (or_introl eq_refl)) as [_ [Hv|Hv]].
  - left. eapply unique_by_id; eauto.
  - right. eapply unique_by_id; eauto.
Qed.

(** No row still to be handled is approved in the table. *)
Lemma approved_not_in_valid rows valid_res a v :
  review_inv rows valid_res -> In a rows -> Reservation.status a = approved ->
  In v valid_res -> Reservation.id v <> Reservation.id a.
Proof.
  intros (Hnd & _ & Hall) Ha Hs Hv E.
  destruct (Hall v Hv) as [Hp [Hin|Hin]].
  - rewrite (unique_by_id rows v a Hnd Hin Ha E) in Hp. congruence.
  - assert (H : Reservation.set_status rejected v = a)
      by (eapply unique_by_id; eauto).
    rewrite <- H in Hs. discriminate.
Qed.

Lemma approve_turn_taken rows v :
  existsb (seat_with_status (key_of v) approved) rows = true ->
  approve_turn rows v = save (Reservation.set_status rejected v) rows.
Proof. unfold approve_turn. now intros ->. Qed.

Lemma approve_turn_free rows v :
  existsb (seat_with_status (key_of v) approved) rows = false ->
  approve_turn rows v =
  update_where (competitors v) (Reservation.set_status rejected)
    (save (Reservation.set_status approved v) rows).
Proof. unfold approve_turn. now intros ->. Qed.

Lemma is_taken_intro rows a k :
  In a rows -> Reservation.status a = approved -> key_of a = k ->
  existsb (seat_with_status k approved) rows = true.
Proof.
  intros Hin Hs Hk. apply existsb_exists. exists a. split; auto.
  now apply seat_with_status_iff.
Qed.

(** A request whose seat is taken ends rejected. *)
Lemma rejected_if_taken valid_res :
  forall rows r a,
    review_inv rows valid_res -> In r valid_res ->
    In a rows -> Reservation.status a = approved -> key_of a = key_of r ->
    In (Reservation.set_status rejected r) (fold_left approve_turn valid_res rows).
Proof.
  induction valid_res as [|v rest IH]; intros rows r a Hinv Hr Ha Hs Hk; [destruct Hr|].
  simpl.
  assert (Hav : Reservation.id a <> Reservation.id v).
  { intros E.
    apply (approved_not_in_valid rows (v :: rest) a v Hinv Ha Hs (or_introl eq_refl)).
    auto. }
  destruct Hr as [->|Hr].
  - rewrite approve_turn_taken by (eapply is_taken_intro; eauto).
    apply approve_fold_frame; [apply save_in|simpl; discriminate|].
    intros w Hw E. destruct Hinv as (_ & Hnd & _).
    inversion Hnd as [|? ? Hnot _]; subst. apply Hnot.
    simpl in E. rewrite <- E. now apply in_map.
  - eapply IH; eauto.
    + now apply review_inv_step.
    + apply approve_turn_frame; auto. rewrite Hs. discriminate.
Qed.

(** When the seat is free the turn approves the request: the seat then
    has one approved and no pending reservation. *)
Lemma approve_turn_approves rows v rest :
  review_inv rows (v :: rest) ->
  existsb (seat_with_status (key_of v) approved) rows = false ->
  approved_count (approve_turn rows v) (key_of v) = 1%nat
  /\ pending_count (approve_turn rows v) (key_of v) = 0%nat
  /\ In (Reservation.set_status approved v) (approve_turn rows v).
Proof.
  intros Hinv Hfree. pose proof Hinv as (Hnd & Hv & Hall).
  destruct (Hall v (or_introl eq_refl)) as [Hpv Hinv_v].
  assert (Hex : exists x0, In x0 rows /\ Reservation.id x0 = Reservation.id v).
  { destruct Hinv_v; eexists; split; eauto. }
  destruct Hex as (x0 & Hx0 & Hid0).
  assert (He : existsb (same_id (Reservation.set_status approved v)) rows = true).
  { apply existsb_exists. exists x0. split; auto. apply same_id_eq. simpl. auto. }
  rewrite approve_turn_free by auto. rewrite save_existing by auto.
  unfold update_where. rewrite map_map.
  assert (Hfree' : forall x, In x rows -> seat_with_status (key_of v) approved x = false).
  { intros x Hx. apply not_true_is_false. intros H.
    assert (existsb (seat_with_status (key_of v) approved) rows = true)
      by (apply existsb_exists; eauto). congruence. }
  assert (Hcv : competitors v (Reservation.set_status approved v) = false)
    by (apply competitors_not_pending; simpl; discriminate).
  split; [|split].
  - unfold approved_count.
    rewrite count_filter_map with (q := same_id v).
    + eapply count_same_id; eauto.
    + intros x Hx. change (same_id (Reservation.set_status approved v) x) with (same_id v x).
      destruct (same_id v x) eqn:E.
      * rewrite Hcv. unfold seat_with_status, has_status. simpl.
        now rewrite SeatKey_eqb_refl.
      * destruct (competitors v x).
        -- unfold seat_with_status, has_status. simpl. apply andb_false_r.
        -- now apply Hfree'.
  - unfold pending_count.
    rewrite count_filter_map with (q := fun _ => false).
    + clear. induction rows; simpl; auto.
    + intros x Hx. change (same_id (Reservation.set_status approved v) x) with (same_id v x).
      destruct (same_id v x) eqn:E.
      * rewrite Hcv. unfold seat_with_status, has_status. simpl. apply andb_false_r.
      * destruct (competitors v x) eqn:Ec.
        -- unfold seat_with_status, has_status. simpl. apply andb_false_r.
        -- unfold competitors in Ec. rewrite E in Ec. simpl in Ec.
           now rewrite andb_true_r in Ec.
  - apply in_map_iff. exists x0. split; auto.
    assert (E : same_id (Reservation.set_status approved v) x0 = true)
      by (apply same_id_eq; simpl; auto).
    now rewrite E, Hcv.
Qed.

(** A turn for another seat does not change the counts of this seat. *)
Lemma approve_turn_other_key rows v rest k s :
  review_inv rows (v :: rest) -> key_of v <> k ->
  length (filter (seat_with_status k s) (approve_turn rows v))
  = length (filter (seat_with_status k s) rows).
Proof.
  intros Hinv Hk. pose proof Hinv as (Hnd & Hv & Hall).
  destruct (Hall v (or_introl eq_refl)) as [Hpv Hinv_v].
  assert (He : forall st, existsb (same_id (Reservation.set_status st v)) rows = true).
  { intros st. apply existsb_exists. destruct Hinv_v as [H|H]; eexists; split; eauto;
      apply same_id_eq; reflexivity. }
  assert (Hoff : forall x, key_of x = key_of v -> seat_with_status k s x = false).
  { intros x Hx. unfold seat_with_status.
    destruct (SeatKey_eqb (key_of x) k) eqn:E; auto.
    apply SeatKey_eqb_eq in E. congruence. }
  assert (Hrow : forall x, In x rows -> same_id v x = true -> key_of x = key_of v).
  { intros x Hx E. apply same_id_eq in E.
    destruct (review_inv_row rows v rest x Hinv Hx (eq_sym E)) as [->| ->]; auto. }
  unfold approve_turn.
  destruct (existsb (seat_with_status (key_of v) approved) rows).
  - rewrite save_existing by auto. apply count_filter_map. intros x Hx.
    change (same_id (Reservation.set_status rejected v) x) with (same_id v x).
    destruct (same_id v x) eqn:E; auto.
    rewrite (Hoff x (Hrow x Hx E)). now apply Hoff.
  - rewrite save_existing by auto. unfold update_where. rewrite map_map.
    apply count_filter_map. intros x Hx.
    change (same_id (Reservation.set_status approved v) x) with (same_id v x).
    destruct (same_id v x) eqn:E.
    + rewrite (Hoff x (Hrow x Hx E)).
      destruct (competitors v (Reservation.set_status approved v)); now apply Hoff.
    + destruct (competitors v x) eqn:Ec; auto.
      unfold competitors in Ec. apply andb_true_iff in Ec. destruct Ec as [Ec _].
      apply seat_with_status_iff in Ec. destruct Ec as [Ec _].
      rewrite (Hoff x Ec). now apply Hoff.
Qed.

Lemma filter_one_witness (p : Reservation.t -> bool) l :
  length (filter p l) = 1%nat -> exists a, In a l /\ p a = true.
Proof.
  intros H. destruct (filter p l) as [|a t] eqn:E; [discriminate|].
  assert (Ha : In a (filter p l)) by (rewrite E; simpl; auto).
  apply filter_In in Ha. eauto.
Qed.

Lemma filter_none_all (p : Reservation.t -> bool) l x :
  length (filter p l) = 0%nat -> In x l -> p x = false.
Proof.
  intros H Hx. apply not_true_is_false. intros Hp.
  assert (Hin : In x (filter p l)) by (apply filter_In; auto).
  destruct (filter p l); [destruct Hin|discriminate].
Qed.

Lemma one_status rows s1 s2 r :
  NoDup (map Reservation.id rows) ->
  In (Reservation.set_status s1 r) rows -> In (Reservation.set_status s2 r) rows ->
  s1 = s2.
Proof.
  intros Hnd H1 H2.
  assert (E : Reservation.set_status s1 r = Reservation.set_status s2 r)
    by (eapply unique_by_id; eauto).
  apply (f_equal Reservation.status) in E. exact E.
Qed.

(** Once a seat has its approved reservation and no pending one, the
    turns that follow leave it so. *)
Lemma approve_turn_settled rows v rest k :
  review_inv rows (v :: rest) ->
  approved_count rows k = 1%nat -> pending_count rows k = 0%nat ->
  approved_count (approve_turn rows v) k = 1%nat
  /\ pending_count (approve_turn rows v) k = 0%nat.
Proof.
  intros Hinv Ha Hp. unfold approved_count, pending_count in *.
  destruct (SeatKey_eqb (key_of v) k) eqn:Ek.
  - apply SeatKey_eqb_eq in Ek. subst k.
    assert (Hsame : approve_turn rows v = rows).
    { destruct (filter_one_witness _ _ Ha) as (a & Hain & Hap).
      rewrite approve_turn_taken by (apply existsb_exists; eauto).
      pose proof Hinv as (Hnd & _ & Hall).
      destruct (Hall v (or_introl eq_refl)) as [Hpv [Hv|Hv]].
      - pose proof (filter_none_all _ _ v Hp Hv) as Hc.
        assert (seat_with_status (key_of v) pending v = true)
          by (apply seat_with_status_iff; auto). congruence.
      - rewrite save_existing by (apply existsb_same_id_in; auto).
        rewrite <- (map_id rows) at 2. apply map_ext_in. intros x Hx.
        destruct (same_id (Reservation.set_status rejected v) x) eqn:E; auto.
        apply same_id_eq in E. eapply unique_by_id; eauto. }
    rewrite Hsame. auto.
  - assert (Hk : key_of v <> k).
    { intros E. apply SeatKey_eqb_eq in E. congruence. }
    rewrite !(approve_turn_other_key rows v rest k) by auto. auto.
Qed.

Lemma approve_fold_settled valid_res k :
  forall rows,
    review_inv rows valid_res ->
    approved_count rows k = 1%nat -> pending_count rows k = 0%nat ->
    approved_count (fold_left approve_turn valid_res rows) k = 1%nat
    /\ pending_count (fold_left approve_turn valid_res rows) k = 0%nat.
Proof.
  induction valid_res as [|v rest IH]; intros rows Hinv Ha Hp; simpl; auto.
  destruct (approve_turn_settled rows v rest k Hinv Ha Hp) as [Ha' Hp'].
  apply IH; auto. now apply review_inv_step.
Qed.

(** A request that ends approved found its seat free. *)
Lemma approved_means_free rows r rest :
  review_inv rows (r :: rest) ->
  In (Reservation.set_status approved r) (fold_left approve_turn (r :: rest) rows) ->
  existsb (seat_with_status (key_of r) approved) rows = false.
Proof.
  intros Hinv Hfin. apply not_true_is_false. intros Htaken.
  apply existsb_exists in Htaken. destruct Htaken as (a & Ha & Hsw).
  apply seat_with_status_iff in Hsw. destruct Hsw as [Hk Hs].
  pose proof (rejected_if_taken (r :: rest) rows r a Hinv (or_introl eq_refl) Ha Hs Hk)
    as Hrej.
  pose proof (one_status _ _ _ _ (review_inv_fold _ _ Hinv) Hfin Hrej). discriminate.
Qed.

(** The seat of a request that ends approved has exactly one approved and
    no pending reservation when the loop is over. *)
Lemma approved_row_counts valid_res :
  forall rows r,
    review_inv rows valid_res -> In r valid_res ->
    In (Reservation.set_status approved r) (fold_left approve_turn valid_res rows) ->
    approved_count (fold_left approve_turn valid_res rows) (key_of r) = 1%nat
    /\ pending_count (fold_left approve_turn valid_res rows) (key_of r) = 0%nat.
Proof.
  induction valid_res as [|v rest IH]; intros rows r Hinv Hr Hfin; [destruct Hr|].
  destruct Hr as [->|Hr].
  - pose proof (approved_means_free rows r rest Hinv Hfin) as Hfree.
    destruct (approve_turn_approves rows r rest Hinv Hfree) as (Ha & Hp & _).
    simpl. apply approve_fold_settled; auto. now apply review_inv_step.
  - simpl in *. apply IH; auto. now apply review_inv_step.
Qed.

(** A rejected row of a taken seat stays rejected. *)
Lemma rejected_stays valid_res :
  forall rows c a,
    review_inv rows valid_res ->
    In a rows -> Reservation.status a = approved -> key_of a = key_of c ->
    In (Reservation.set_status rejected c) rows ->
    In (Reservation.set_status rejected c) (fold_left approve_turn valid_res rows).
Proof.
  induction valid_res as [|v rest IH]; intros rows c a Hinv Ha Hs Hk Hc; simpl; auto.
  assert (Hav : Reservation.id a <> Reservation.id v).
  { intros E.
    apply (approved_not_in_valid rows (v :: rest) a v Hinv Ha Hs (or_introl eq_refl)).
    auto. }
  assert (Ha' : In a (approve_turn rows v))
    by (apply approve_turn_frame; auto; rewrite Hs; discriminate).
  apply IH with (a := a); auto; [now apply review_inv_step|].
  destruct (Z.eq_dec (Reservation.id c) (Reservation.id v)) as [E|E].
  - destruct (review_inv_row rows v rest _ Hinv Hc E) as [H|H].
    + destruct Hinv as (_ & _ & Hall).
      destruct (Hall v (or_introl eq_refl)) as [Hpv _]. rewrite <- H in Hpv. discriminate.
    + assert (Hkv : key_of v = key_of c).
      { pose proof (f_equal key_of H) as Hkk.
        rewrite !key_of_set_status in Hkk. congruence. }
      rewrite approve_turn_taken
        by (apply (is_taken_intro rows a); auto; congruence).
      rewrite H. apply save_in.
  - apply approve_turn_frame; auto. simpl. discriminate.
Qed.

(** Every other pending request for the seat of a request that ends
    approved ends rejected. *)
Lemma competitors_rejected valid_res :
  forall rows r c,
    review_inv rows valid_res -> In r valid_res ->
    In (Reservation.set_status approved r) (fold_left approve_turn valid_res rows) ->
    In c rows -> Reservation.status c = pending -> key_of c = key_of r ->
    Reservation.id c <> Reservation.id r ->
    In (Reservation.set_status rejected c) (fold_left approve_turn valid_res rows).
Proof.
  induction valid_res as [|v rest IH]; intros rows r c Hinv Hr Hfin Hc Hpc Hk Hid;
    [destruct Hr|].
  pose proof (review_inv_step _ _ _ Hinv) as Hinv'.
  pose proof (review_inv_fold _ _ Hinv) as Hndf.
  destruct Hr as [->|Hr].
  - (* the turn of [r] itself *)
    pose proof (approved_means_free rows r rest Hinv Hfin) as Hfree.
    destruct (approve_turn_approves rows r rest Hinv Hfree) as (_ & _ & Happ).
    simpl. apply rejected_stays with (a := Reservation.set_status approved r); auto.
    rewrite approve_turn_free by auto.
    apply (update_where_hit (competitors r)).
    + apply save_other; auto.
    + unfold competitors. rewrite andb_true_iff, negb_true_iff. split.
      * now apply seat_with_status_iff.
      * apply not_true_is_false. intros E. apply same_id_eq in E. congruence.
  - (* a turn before that of [r] *)
    assert (Hcontra : forall a, In a (approve_turn rows v) ->
                                Reservation.status a = approved ->
                                key_of a = key_of r -> False).
    { intros a Ha Hs Hka.
      pose proof (rejected_if_taken rest _ r a Hinv' Hr Ha Hs Hka) as Hrej.
      simpl in Hfin. pose proof (one_status _ _ _ _ Hndf Hfin Hrej). discriminate. }
    simpl in *.
    destruct (Z.eq_dec (Reservation.id c) (Reservation.id v)) as [E|E].
    + exfalso.
      assert (c = v).
      { destruct (review_inv_row rows v rest c Hinv Hc E) as [H|H]; auto.
        rewrite H in Hpc. discriminate. }
      subst c.
      destruct (existsb (seat_with_status (key_of v) approved) rows) eqn:Et.
      * apply existsb_exists in Et. destruct Et as (a & Ha & Hsw).
        apply seat_with_status_iff in Hsw. destruct Hsw as [Hka Hs].
        apply (Hcontra a); [|auto|congruence].
        apply approve_turn_frame; auto; [rewrite Hs; discriminate|].
        intros E'.
        apply (approved_not_in_valid rows (v :: rest) a v Hinv Ha Hs (or_introl eq_refl)).
        auto.
      * destruct (approve_turn_approves rows v rest Hinv Et) as (_ & _ & Happ).
        apply (Hcontra _ Happ); auto.
    + apply IH with (r := r); auto.
      unfold approve_turn.
      destruct (existsb (seat_with_status (key_of v) approved) rows) eqn:Et.
      * apply save_other; auto.
      * destruct (competitors v c) eqn:Ec.
        -- exfalso.
           destruct (approve_turn_approves rows v rest Hinv Et) as (_ & _ & Happ).
           apply (Hcontra _ Happ); auto.
           unfold competitors in Ec. apply andb_true_iff in Ec. destruct Ec as [Ec _].
           apply seat_with_status_iff in Ec. destruct Ec as [Ec _].
           rewrite key_of_set_status. congruence.
        -- apply update_where_keep; auto. apply save_other; auto.
Qed.

(** A row that is not among those to be handled is left as it is, or is
    rejected as a competitor. *)
Lemma untargeted_row valid_res :
  forall rows x,
    In x rows ->
    (forall v, In v valid_res -> Reservation.id v <> Reservation.id x) ->
    In x (fold_left approve_turn valid_res rows)
    \/ In (Reservation.set_status rejected x) (fold_left approve_turn valid_res rows).
Proof.
  induction valid_res as [|v rest IH]; intros rows x Hx Hid; simpl; auto.
  assert (Hne : Reservation.id x <> Reservation.id v).
  { intros E. apply (Hid v); simpl; auto. }
  assert (Hrest : forall w, In w rest -> Reservation.id w <> Reservation.id x).
  { intros w Hw. apply Hid. simpl; auto. }
  unfold approve_turn.
  destruct (existsb (seat_with_status (key_of v) approved) rows).
  - apply IH; auto. apply save_other; auto.
  - destruct (competitors v x) eqn:Ec.
    + right. apply approve_fold_frame; [|simpl; discriminate|auto].
      apply (update_where_hit (competitors v)); auto. apply save_other; auto.
    + apply IH; auto. apply update_where_keep; auto. apply save_other; auto.
Qed.

(** The deadline loop: the overdue requests are saved as expired, the
    others are kept for the review. *)
Lemma expire_overdue_spec now target_res :
  forall rows valid_res n,
    expire_overdue settings now target_res rows valid_res n
    = (save_each (Reservation.set_status expired)
         (filter (fun r => deadline_passed settings (Reservation.date r)
                             (Reservation.time_slot r) now) target_res) rows,
       valid_res ++
       filter (fun r => negb (deadline_passed settings (Reservation.date r)
                                (Reservation.time_slot r) now)) target_res,
       (n + length (filter (fun r => deadline_passed settings (Reservation.date r)
                                       (Reservation.time_slot r) now) target_res))%nat).
Proof.
  induction target_res as [|r l IH]; intros rows valid_res n; simpl.
  - now rewrite app_nil_r, Nat.add_0_r.
  - destruct (deadline_passed settings (Reservation.date r) (Reservation.time_slot r) now);
      simpl; rewrite IH; unfold save_each; simpl.
    + f_equal. lia.
    + now rewrite <- app_assoc.
Qed.

Lemma review_nil action rows sc arc :
  fst (fst (review action [] rows sc arc)) = rows.
Proof. destruct action; reflexivity. Qed.

(** [admin_action] on the table: the overdue targeted rows are expired,
    then the remaining targeted rows are reviewed. *)
Lemma admin_action_rows db ids action now :
  NoDup (map Reservation.id (reservations db)) ->
  let rows1 :=
    update_where (fun r => targeted ids r && overdue settings now r)
      (Reservation.set_status expired) (reservations db) in
  let valid_res :=
    filter (fun r => targeted ids r && negb (overdue settings now r))
      (reservations db) in
  reservations (fst (admin_action settings db (Some (ids, action)) now))
  = fst (fst (review action valid_res rows1 0 0))
  /\ review_inv rows1 valid_res.
Proof.
  intros Hnd rows1 valid_res.
  assert (Hinv : review_inv rows1 valid_res).
  { split; [|split].
    - unfold rows1. rewrite update_where_ids; auto.
    - unfold valid_res. now apply NoDup_map_filter.
    - intros v Hv. apply filter_In in Hv. destruct Hv as [Hv Hc].
      apply andb_true_iff in Hc. destruct Hc as [Ht Ho].
      unfold targeted in Ht. apply andb_true_iff in Ht. destruct Ht as [_ Hp].
      apply has_status_iff in Hp. split; auto. left.
      apply update_where_keep; auto. apply negb_true_iff in Ho. rewrite Ho.
      apply andb_false_r. }
  split; auto.
  unfold admin_action. cbv zeta. rewrite !filter_filter.
  fold (targeted ids).
  change (fun x => existsb (Z.eqb (Reservation.id x)) ids && has_status pending x)
    with (targeted ids).
  destruct (filter (targeted ids) (reservations db)) as [|t0 tl] eqn:Et.
  - assert (Hnone : forall x, In x (reservations db) -> targeted ids x = false).
    { intros x Hx. apply not_true_is_false. intros H.
      assert (In x (filter (targeted ids) (reservations db))) by (apply filter_In; auto).
      rewrite Et in *. contradiction. }
    assert (Hv : valid_res = []).
    { unfold valid_res. apply length_zero_iff_nil. apply count_filter_none.
      intros x Hx. now rewrite (Hnone x Hx). }
    assert (Hr : rows1 = reservations db).
    { unfold rows1, update_where. rewrite <- (map_id (reservations db)) at 2.
      apply map_ext_in. intros x Hx. now rewrite (Hnone x Hx). }
    rewrite Hv, Hr, review_nil.
    repeat match goal with
           | |- context [if ?b then _ else _] => destruct b
           | |- context [match ?l with [] => _ | _ :: _ => _ end] => destruct l
           end; reflexivity.
  - rewrite <- Et. rewrite expire_overdue_spec. rewrite !filter_filter.
    rewrite save_each_filter; auto. simpl app.
    change (fun x => targeted ids x
                     && deadline_passed settings (Reservation.date x)
                          (Reservation.time_slot x) now)
      with (fun r => targeted ids r && overdue settings now r).
    change (fun x => targeted ids x
                     && negb (deadline_passed settings (Reservation.date x)
                                (Reservation.time_slot x) now))
      with (fun r => targeted ids r && negb (overdue settings now r)).
    fold rows1. fold valid_res.
    destruct valid_res as [|v0 vl] eqn:Ev.
    + rewrite review_nil.
      repeat match goal with
             | |- context [if ?b then _ else _] => destruct b
             end; reflexivity.
    + destruct (review action (v0 :: vl) rows1 0 0) as [[rows2 sc] arc]. reflexivity.
Qed.

Lemma save_inv res rows y :
  In y (save res rows) -> y = res \/ In y rows.
Proof.
  unfold save. destruct (existsb (same_id res) rows).
  - intros H. apply in_map_iff in H. destruct H as (x & Hx & Hin).
    destruct (same_id res x); subst; auto.
  - intros H. apply in_app_or in H. destruct H as [H|[H|[]]]; auto.
Qed.

(** Only the approval loop approves. *)
Lemma review_no_approval action valid_res :
  action <> act_approve ->
  forall rows sc arc y,
    In y (fst (fst (review action valid_res rows sc arc))) ->
    Reservation.status y = approved -> In y rows.
Proof.
  intros Hact. induction valid_res as [|v rest IH]; intros rows sc arc y Hy Hs.
  - now rewrite review_nil in Hy.
  - destruct action; [congruence| |]; simpl in Hy.
    + apply IH in Hy; auto. apply save_inv in Hy. destruct Hy as [->|Hy]; auto.
      discriminate.
    + apply IH in Hy; auto.
Qed.

Lemma expired_rows_approved p rows y :
  In y (update_where p (Reservation.set_status expired) rows) ->
  Reservation.status y = approved -> In y rows.
Proof.
  intros H Hs. apply in_map_iff in H. destruct H as (x & Hx & Hin).
  destruct (p x); subst; auto. discriminate.
Qed.

Lemma overdue_same_key now a b :
  key_of a = key_of b -> overdue settings now a = overdue settings now b.
Proof.
  intros H. unfold overdue.
  assert (Reservation.date a = Reservation.date b) by (apply (f_equal k_date) in H; exact H).
  assert (Reservation.time_slot a = Reservation.time_slot b)
    by (apply (f_equal k_slot) in H; exact H).
  congruence.
Qed.

(** C2.  Approval preempts competitors.  Take a table with unique primary
    keys and a reservation [r] that is pending before [admin_action] runs
    and approved afterwards.  Then, after the call, the seat, date and
    slot of [r] has exactly one approved reservation and no pending one,
    and every other reservation that was pending for that seat, date and
    slot has been rejected. *)
Theorem admin_action_approval_preempts :
  forall db token now r,
    NoDup (map Reservation.id (reservations db)) ->
    In r (reservations db) ->
    Reservation.status r = pending ->
    let rows' := reservations (fst (admin_action settings db token now)) in
    In (Reservation.set_status approved r) rows' ->
    approved_count rows' (key_of r) = 1%nat
    /\ pending_count rows' (key_of r) = 0%nat
    /\ (forall c,
          In c (reservations db) ->
          Reservation.status c = pending ->
          key_of c = key_of r ->
          Reservation.id c <> Reservation.id r ->
          In (Reservation.set_status rejected c) rows').
Proof.
  intros db token now r Hnd Hr Hp rows' Hfin.
  assert (Hnot : ~ In (Reservation.set_status approved r) (reservations db)).
  { intros H. pose proof (unique_by_id _ _ _ Hnd H Hr eq_refl) as E.
    apply (f_equal Reservation.status) in E. simpl in E. congruence. }
  destruct token as [[ids action]|]; [|unfold rows' in Hfin; simpl in Hfin; contradiction].
  destruct (admin_action_rows db ids action now Hnd) as [Hrows Hinv].
  set (rows1 := update_where (fun r => targeted ids r && overdue settings now r)
                  (Reservation.set_status expired) (reservations db)) in *.
  set (valid_res := filter (fun r => targeted ids r && negb (overdue settings now r))
                      (reservations db)) in *.
  unfold rows' in *. rewrite Hrows in *. clear rows' Hrows.
  assert (Hact : action = act_approve).
  { destruct action; auto; exfalso; apply Hnot;
      (eapply expired_rows_approved; [|reflexivity]);
      (eapply review_no_approval; [|exact Hfin|reflexivity]); discriminate. }
  subst action. rewrite review_approve_rows in *.
  pose proof (review_inv_fold _ _ Hinv) as Hndf.
  (* [r] is among the reviewed rows *)
  assert (Hrv : In r valid_res).
  { destruct (in_dec (fun a b => Z.eq_dec a b) (Reservation.id r)
                (map Reservation.id valid_res)) as [Hi|Hi].
    - apply in_map_iff in Hi. destruct Hi as (v & Hid & Hv).
      assert (In v (reservations db)) by (apply filter_In in Hv; tauto).
      now rewrite <- (unique_by_id _ _ _ Hnd H Hr Hid).
    - exfalso.
      assert (Hx : exists x, In x rows1 /\ Reservation.id x = Reservation.id r
                             /\ Reservation.status x <> approved).
      { destruct (targeted ids r && overdue settings now r) eqn:E.
        - exists (Reservation.set_status expired r). repeat split; try discriminate.
          apply (update_where_hit (fun r => targeted ids r && overdue settings now r));
            auto.
        - exists r. repeat split; [|congruence].
          apply update_where_keep; auto. }
      destruct Hx as (x & Hx & Hid & Hsx).
      assert (Hout : forall v, In v valid_res -> Reservation.id v <> Reservation.id x).
      { intros v Hv E. apply Hi. rewrite <- Hid, <- E. now apply in_map. }
      destruct (untargeted_row valid_res rows1 x Hx Hout) as [H|H].
      + pose proof (unique_by_id _ _ _ Hndf H Hfin Hid) as E. subst x.
        apply Hsx. reflexivity.
      + pose proof (unique_by_id _ _ _ Hndf H Hfin Hid) as E.
        apply (f_equal Reservation.status) in E. discriminate. }
  destruct (approved_row_counts valid_res rows1 r Hinv Hrv Hfin) as [Ha Hpe].
  repeat split; auto.
  intros c Hc Hpc Hk Hid.
  apply competitors_rejected with (r := r); auto.
  apply update_where_keep; auto.
  apply filter_In in Hrv. destruct Hrv as [_ Hrv].
  apply andb_true_iff in Hrv. destruct Hrv as [_ Ho]. apply negb_true_iff in Ho.
  rewrite (overdue_same_key now c r Hk), Ho. apply andb_false_r.
Qed.

End AdminActionFacts.

(** ** The hard lock: at most one approved reservation per seat *)

Section LockFacts.

Variable settings : Settings.

Lemma count_le_map (p q : Reservation.t -> bool) (g : Reservation.t -> Reservation.t) l :
  (forall x, In x l -> p (g x) = true -> q x = true) ->
  (length (filter p (map g l)) <= length (filter q l))%nat.
Proof.
  induction l as [|x l IH]; simpl; intros H; auto.
  assert (IH' : (length (filter p (map g l)) <= length (filter q l))%nat)
    by (apply IH; intros y Hy; apply H; auto).
  destruct (p (g x)) eqn:E.
  - rewrite (H x (or_introl eq_refl) E). simpl. lia.
  - destruct (q x); simpl; lia.
Qed.

Lemma rows_inv_mono n n' rows : n <= n' -> rows_inv n rows -> rows_inv n' rows.
Proof.
  intros Hle (Hnd & Hlt & Hu). repeat split; auto.
  eapply Forall_impl; [|exact Hlt]. simpl. intros; lia.
Qed.

Lemma rows_inv_filter n rows p :
  rows_inv n rows -> Forall (fun r => Reservation.id r < n) (filter p rows).
Proof.
  intros (_ & Hlt & _). apply Forall_forall. intros x Hx.
  apply filter_In in Hx. rewrite Forall_forall in Hlt. apply Hlt. tauto.
Qed.

Lemma count_same_id_le rows v :
  NoDup (map Reservation.id rows) ->
  (length (filter (same_id v) rows) <= 1)%nat.
Proof.
  intros Hnd. destruct (filter (same_id v) rows) as [|x0 t] eqn:E; [simpl; lia|].
  assert (Hx : In x0 (filter (same_id v) rows)) by (rewrite E; simpl; auto).
  apply filter_In in Hx. destruct Hx as [Hx Hid]. apply same_id_eq in Hid.
  rewrite <- E. rewrite (count_same_id rows v x0); auto.
Qed.

(** Saving an object is safe for the lock when no row other than its own
    holds an approved reservation for its seat. *)
Lemma save_guarded n rows res :
  rows_inv n rows -> Reservation.id res < n ->
  (forall x, In x rows -> seat_with_status (key_of res) approved x = true ->
             same_id res x = true) ->
  rows_inv n (save res rows).
Proof.
  intros (Hnd & Hlt & Hu) Hid Hguard. unfold save.
  destruct (existsb (same_id res) rows) eqn:Ee.
  - split; [|split].
    + rewrite map_map.
      replace (map (fun x => Reservation.id (if same_id res x then res else x)) rows)
        with (map Reservation.id rows); auto.
      apply map_ext_in. intros x _. destruct (same_id res x) eqn:E; auto.
      apply same_id_eq in E. auto.
    + apply Forall_forall. intros y Hy. apply in_map_iff in Hy.
      destruct Hy as (x & Hx & Hin). rewrite Forall_forall in Hlt.
      destruct (same_id res x); subst; auto.
    + intros k. unfold approved_count.
      destruct (SeatKey_eqb (key_of res) k) eqn:Ek.
      * apply SeatKey_eqb_eq in Ek. subst k.
        etransitivity; [|apply (count_same_id_le rows res Hnd)].
        apply count_le_map. intros x Hx.
        destruct (same_id res x) eqn:E; auto. intros H. rewrite <- E. auto.
      * etransitivity; [|apply (Hu k)]. unfold approved_count.
        apply count_le_map. intros x Hx.
        destruct (same_id res x); auto.
        unfold seat_with_status. rewrite Ek. simpl. discriminate.
  - assert (Hfresh : ~ In (Reservation.id res) (map Reservation.id rows)).
    { intros H. apply in_map_iff in H. destruct H as (x & Hx & Hin).
      assert (existsb (same_id res) rows = true).
      { apply existsb_exists. exists x. split; auto. apply same_id_eq. auto. }
      congruence. }
    split; [|split].
    + rewrite map_app. simpl. apply NoDup_app; auto.
      * repeat constructor. simpl. tauto.
      * intros a Ha [<-|[]]. contradiction.
    + apply Forall_app. split; auto.
    + intros k. unfold approved_count. rewrite filter_app, length_app. simpl.
      destruct (seat_with_status k approved res) eqn:Ep; simpl.
      * apply seat_with_status_iff in Ep. destruct Ep as [<- _].
        rewrite count_filter_none; [lia|].
        intros x Hx. apply not_true_is_false. intros H.
        pose proof (Hguard x Hx H) as Hs.
        assert (existsb (same_id res) rows = true)
          by (apply existsb_exists; eauto). congruence.
      * specialize (Hu k). unfold approved_count in Hu. lia.
Qed.

Lemma not_approved_count k res :
  Reservation.status res <> approved -> seat_with_status k approved res = false.
Proof.
  intros H. unfold seat_with_status. destruct (has_status approved res) eqn:E.
  - apply has_status_iff in E. contradiction.
  - apply andb_false_r.
Qed.

(** Saving an object that is not approved never adds a lock. *)
Lemma save_quiet n rows res :
  rows_inv n rows -> Reservation.id res < n ->
  Reservation.status res <> approved ->
  rows_inv n (save res rows).
Proof.
  intros Hinv Hid Hs.
  destruct (existsb (seat_with_status (key_of res) approved) rows) eqn:Et.
  - pose proof Hinv as (Hnd & Hlt & Hu). unfold save.
    destruct (existsb (same_id res) rows) eqn:Ee.
    + split; [|split].
      * rewrite map_map.
        replace (map (fun x => Reservation.id (if same_id res x then res else x)) rows)
          with (map Reservation.id rows); auto.
        apply map_ext_in. intros x _. destruct (same_id res x) eqn:E; auto.
        apply same_id_eq in E. auto.
      * apply Forall_forall. intros y Hy. apply in_map_iff in Hy.
        destruct Hy as (x & Hx & Hin). rewrite Forall_forall in Hlt.
        destruct (same_id res x); subst; auto.
      * intros k. etransitivity; [|apply (Hu k)]. unfold approved_count.
        apply count_le_map. intros x Hx. destruct (same_id res x); auto.
        rewrite not_approved_count; auto. discriminate.
    + assert (Hfresh : ~ In (Reservation.id res) (map Reservation.id rows)).
      { intros H. apply in_map_iff in H. destruct H as (x & Hx & Hin).
        assert (existsb (same_id res) rows = true).
        { apply existsb_exists. exists x. split; auto. apply same_id_eq. auto. }
        congruence. }
      split; [|split].
      * rewrite map_app. simpl. apply NoDup_app; auto.
        -- repeat constructor. simpl. tauto.
        -- intros a Ha [<-|[]]. contradiction.
      * apply Forall_app. split; auto.
      * intros k. unfold approved_count. rewrite filter_app, length_app. simpl.
        rewrite not_approved_count; auto. simpl.
        specialize (Hu k). unfold approved_count in Hu. lia.
  - apply save_guarded; auto. intros x Hx H.
    assert (existsb (seat_with_status (key_of res) approved) rows = true)
      by (apply existsb_exists; eauto). congruence.
Qed.

(** A bulk update to a status other than approved never adds a lock. *)
Lemma update_quiet n rows p f :
  rows_inv n rows ->
  (forall x, Reservation.id (f x) = Reservation.id x) ->
  (forall x, Reservation.status (f x) <> approved) ->
  rows_inv n (update_where p f rows).
Proof.
  intros (Hnd & Hlt & Hu) Hid Hs. split; [|split].
  - rewrite update_where_ids; auto.
  - apply Forall_forall. intros y Hy. apply in_map_iff in Hy.
    destruct Hy as (x & Hx & Hin). rewrite Forall_forall in Hlt.
    destruct (p x); subst; auto. rewrite Hid. auto.
  - intros k. etransitivity; [|apply (Hu k)]. unfold approved_count, update_where.
    apply count_le_map. intros x Hx. destruct (p x); auto.
    rewrite not_approved_count; auto. discriminate.
Qed.

(** A created row takes the next key; an approved one needs a free seat. *)
Lemma append_guarded n rows res :
  rows_inv n rows -> Reservation.id res = n ->
  (Reservation.status res = approved ->
   existsb (seat_with_status (key_of res) approved) rows = false) ->
  rows_inv (n + 1) (rows ++ [res]).
Proof.
  intros (Hnd & Hlt & Hu) Hid Hfree. rewrite Forall_forall in Hlt. split; [|split].
  - rewrite map_app. simpl. apply NoDup_app; auto.
    + repeat constructor. simpl. tauto.
    + intros a Ha [<-|[]]. apply in_map_iff in Ha. destruct Ha as (x & Hx & Hin).
      specialize (Hlt x Hin). lia.
  - apply Forall_app. split.
    + apply Forall_forall. intros x Hx. specialize (Hlt x Hx). lia.
    + repeat constructor. lia.
  - intros k. unfold approved_count. rewrite filter_app, length_app. simpl.
    destruct (seat_with_status k approved res) eqn:Ep; simpl.
    + apply seat_with_status_iff in Ep. destruct Ep as [<- Hs].
      rewrite count_filter_none; [lia|].
      intros x Hx. apply not_true_is_false. intros H.
      assert (existsb (seat_with_status (key_of res) approved) rows = true)
        by (apply existsb_exists; eauto).
      rewrite (Hfree Hs) in *. discriminate.
    + specialize (Hu k). unfold approved_count in Hu. lia.
Qed.

Lemma create_inv db mk_row :
  lock_inv db ->
  Reservation.id (mk_row (next_id db)) = next_id db ->
  (Reservation.status (mk_row (next_id db)) = approved ->
   existsb (seat_with_status (key_of (mk_row (next_id db))) approved)
     (reservations db) = false) ->
  lock_inv (fst (create db mk_row)).
Proof. intros. unfold lock_inv, create. simpl. now apply append_guarded. Qed.

Lemma save_each_quiet n f qs :
  (forall x, Reservation.id (f x) = Reservation.id x) ->
  (forall x, Reservation.status (f x) <> approved) ->
  Forall (fun r => Reservation.id r < n) qs ->
  forall rows, rows_inv n rows -> rows_inv n (save_each f qs rows).
Proof.
  intros Hid Hs. induction qs as [|r qs IH]; intros Hq rows Hinv; simpl; auto.
  inversion Hq; subst. unfold save_each in *. simpl. apply IH; auto.
  apply save_quiet; auto. now rewrite Hid.
Qed.

Lemma with_reservations_inv db rows :
  rows_inv (next_id db) rows -> lock_inv (with_reservations db rows).
Proof. auto. Qed.

Lemma with_reservations_same db : with_reservations db (reservations db) = db.
Proof. destruct db; reflexivity. Qed.

(** [submit] *)
Lemma create_batch_inv stu cid d slot batch now seats :
  forall db acc db' news,
    lock_inv db ->
    create_batch db stu cid d slot batch now seats acc = Ok (db', news) ->
    lock_inv db'.
Proof.
  induction seats as [|tok seats IH]; intros db acc db' news Hinv H; simpl in H.
  - inversion H; subst; auto.
  - destruct tok as [[r c]|]; [|discriminate].
    destruct (is_hard_locked db (mkKey cid r c d slot)); [discriminate|].
    eapply IH; [|exact H].
    apply (create_inv db (new_pending stu cid r c d slot batch now)); auto.
    simpl. discriminate.
Qed.

Lemma submit_inv db sid post env :
  lock_inv db -> lock_inv (submit_db (submit settings db sid post env)).
Proof.
  intros Hinv.
  destruct (submit_cases settings db sid post env)
    as [(m & -> & _)|(student & d & _ & _ & _ & _ & H)]; auto.
  unfold commit_fk in H.
  destruct (create_batch _ _ _ _ _ _ _ _ _) as [[db1 n1]|e1] eqn:Eb.
  - destruct (classroom_exists db1 (post_cid post)).
    + rewrite H. eapply create_batch_inv; eauto.
    + destruct H as [-> _]. auto.
  - destruct H as [-> _]. auto.
Qed.

(** [cancel_booking] *)
Lemma cancel_booking_inv db sid is_post batch_id now :
  lock_inv db -> lock_inv (fst (cancel_booking settings db sid is_post batch_id now)).
Proof.
  intros Hinv. unfold cancel_booking.
  destruct sid as [sid|]; auto. destruct is_post; simpl; auto.
  destruct (get_student db sid) as [student|]; auto.
  destruct (first _); auto. destruct (booking_closed _ _ _ _); auto.
  simpl. apply with_reservations_inv. apply save_each_quiet; auto.
  - intros x. simpl. discriminate.
  - now apply rows_inv_filter.
Qed.

(** [cleanup] *)
Lemma cleanup_inv db now today :
  lock_inv db -> lock_inv (fst (cleanup settings db now today)).
Proof.
  intros Hinv.
  assert (Hr : reservations (fst (cleanup settings db now today)) =
               update_where (fun r => has_status pending r && staleb settings now today r)
                 (Reservation.set_status expired) (reservations db))
    by (apply cleanup_rows; apply Hinv).
  assert (Hn : next_id (fst (cleanup settings db now today)) = next_id db).
  { unfold cleanup. destruct (expire_past_deadline _ _ _ _). reflexivity. }
  unfold lock_inv. rewrite Hr, Hn. apply update_quiet; auto. simpl. discriminate.
Qed.

(** [admin_action] *)
Lemma review_rows_inv n action valid_res :
  Forall (fun r => Reservation.id r < n) valid_res ->
  forall rows sc arc,
    rows_inv n rows ->
    rows_inv n (fst (fst (review action valid_res rows sc arc))).
Proof.
  induction valid_res as [|v rest IH]; intros Hv rows sc arc Hinv.
  - now rewrite review_nil.
  - inversion Hv; subst. destruct action; simpl.
    + destruct (existsb (seat_with_status (key_of v) approved) rows) eqn:Et.
      * apply IH; auto. apply save_quiet; auto. simpl. discriminate.
      * apply IH; auto. apply update_quiet; auto; [|simpl; discriminate].
        apply save_guarded; auto. intros x Hx H'.
        assert (existsb (seat_with_status (key_of v) approved) rows = true)
          by (apply existsb_exists; eauto). congruence.
    + apply IH; auto. apply save_quiet; auto. simpl. discriminate.
    + apply IH; auto.
Qed.

Lemma admin_action_only_rows db token now :
  fst (admin_action settings db token now)
  = with_reservations db (reservations (fst (admin_action settings db token now))).
Proof.
  unfold admin_action. destruct token as [[ids action]|];
    [|simpl; now rewrite with_reservations_same].
  cbv zeta.
  repeat match goal with
         | |- context [match ?x with _ => _ end] =>
             destruct x; simpl; try now rewrite with_reservations_same
         end; reflexivity.
Qed.

Lemma admin_action_inv db token now :
  lock_inv db -> lock_inv (fst (admin_action settings db token now)).
Proof.
  intros Hinv. rewrite admin_action_only_rows. apply with_reservations_inv.
  destruct token as [[ids action]|]; [|exact Hinv].
  destruct (admin_action_rows settings db ids action now) as [-> _]; [apply Hinv|].
  apply review_rows_inv.
  - now apply rows_inv_filter.
  - apply update_quiet; auto. simpl. discriminate.
Qed.

(** [admin_booking_view] *)
Lemma still_free_after_reject k p rows :
  existsb (seat_with_status k approved) rows = false ->
  existsb (seat_with_status k approved)
    (update_where p (Reservation.set_status rejected) rows) = false.
Proof.
  intros H. apply not_true_is_false. intros H'. apply existsb_exists in H'.
  destruct H' as (y & Hy & Hp). apply in_map_iff in Hy. destruct Hy as (x & Hx & Hin).
  destruct (p x); subst.
  - apply seat_with_status_iff in Hp. destruct Hp as [_ Hp]. discriminate.
  - assert (existsb (seat_with_status k approved) rows = true)
      by (apply existsb_exists; eauto). congruence.
Qed.

Lemma book_seats_inv stu cid d slot batch now seats :
  forall db cnt db' cnt',
    lock_inv db ->
    book_seats db stu cid d slot batch now seats cnt = Ok (db', cnt') ->
    lock_inv db'.
Proof.
  induction seats as [|tok seats IH]; intros db cnt db' cnt' Hinv H; simpl in H.
  - inversion H; subst; auto.
  - destruct tok as [[r c]|]; [|discriminate].
    destruct d as [d'|]; [|discriminate].
    destruct (existsb (seat_with_status (mkKey cid r c d' slot) approved)
                (reservations db)) eqn:Et.
    + eapply IH; eauto.
    + eapply IH; [|exact H].
      apply (create_inv
               (with_reservations db
                  (update_where (seat_with_status (mkKey cid r c d' slot) pending)
                     (Reservation.set_status rejected) (reservations db)))
               (new_approved stu cid r c d' slot batch now)); auto.
      * apply with_reservations_inv. apply update_quiet; auto. simpl. discriminate.
      * intros _. simpl. now apply still_free_after_reject.
Qed.

Lemma get_or_create_student_inv db target_sid :
  lock_inv db -> lock_inv (fst (fst (get_or_create_student db target_sid))).
Proof.
  intros H. unfold get_or_create_student. destruct (find _ _); simpl; auto.
Qed.

Lemma admin_booking_view_inv db is_staff q target seats env :
  lock_inv db ->
  lock_inv (fst (admin_booking_view settings db is_staff q target seats env)).
Proof.
  intros Hinv. unfold admin_booking_view.
  destruct is_staff; simpl; auto.
  destruct (choose_slot _ _ _ _ _) as [slot_id|]; auto.
  destruct (filter Classroom.is_active (classrooms db)); auto.
  destruct (current_classroom db (get_classroom_id q)) as [cls|]; auto.
  destruct (booking_closed _ _ _ _); auto.
  destruct target as [[|ch target_sid]|]; auto.
  pose proof (get_or_create_student_inv db (String ch target_sid) Hinv) as H0.
  destruct (get_or_create_student db (String ch target_sid)) as [[db0 stu] created].
  simpl in H0.
  destruct (Student.status stu); destruct seats as [seats|]; simpl; auto;
    destruct (book_seats _ _ _ _ _ _ _ _ _) as [[db1 cnt]|e] eqn:Eb; simpl; auto;
    eapply book_seats_inv; eauto.
Qed.

(** [admin_cancel_view] and the admin action [cancel_reservations] *)
Lemma cancel_competing_inv n keys :
  forall rows cnt,
    rows_inv n rows ->
    rows_inv n (fst (fold_left
      (fun acc k =>
         let competing_reservations :=
           filter (seat_with_status k pending) (fst acc) in
         (save_each (Reservation.set_status cancelled) competing_reservations (fst acc),
          (snd acc + length competing_reservations)%nat))
      keys (rows, cnt))).
Proof.
  induction keys as [|k keys IH]; intros rows cnt Hinv; simpl; auto.
  apply IH. apply save_each_quiet; auto.
  - simpl. discriminate.
  - now apply rows_inv_filter.
Qed.

Lemma cancel_for_student_inv env n0 acc group :
  lock_inv (acc_db acc) -> n0 <= next_id (acc_db acc) ->
  Forall (fun r => Reservation.id r < n0) (snd group) ->
  lock_inv (acc_db (cancel_for_student env acc group))
  /\ n0 <= next_id (acc_db (cancel_for_student env acc group)).
Proof.
  intros Hinv Hn Hg. destruct group as [stu rs]. simpl in Hg. unfold cancel_for_student.
  destruct rs as [|first_res rest]; auto.
  set (rows := save_each (Reservation.set_status cancelled) (first_res :: rest)
                 (reservations (acc_db acc))).
  assert (Hrows : rows_inv (next_id (acc_db acc)) rows).
  { apply save_each_quiet; auto.
    - simpl. discriminate.
    - eapply Forall_impl; [|exact Hg]. simpl. intros; lia. }
  set (mk_row := cancel_record first_res stu (adm_uuid4 env stu)
                   (map seat_info (first_res :: rest)) (adm_now env)).
  assert (Hc : lock_inv (fst (create (with_reservations (acc_db acc) rows) mk_row))).
  { apply create_inv; auto. simpl. discriminate. }
  destruct (create (with_reservations (acc_db acc) rows) mk_row) as [db' r'] eqn:Ec.
  assert (Hn' : n0 <= next_id db').
  { unfold create in Ec. inversion Ec; subst. simpl. lia. }
  simpl in Hc. destruct (adm_send_mail env _); simpl; auto.
Qed.

Lemma cancel_groups_inv env n0 groups :
  forall acc,
    lock_inv (acc_db acc) -> n0 <= next_id (acc_db acc) ->
    Forall (fun g => Forall (fun r => Reservation.id r < n0) (snd g)) groups ->
    lock_inv (acc_db (fold_left (cancel_for_student env) groups acc)).
Proof.
  induction groups as [|g groups IH]; intros acc Hinv Hn Hg; simpl; auto.
  inversion Hg as [|? ? Hg1 Hg2]; subst.
  destruct (cancel_for_student_inv env n0 acc g Hinv Hn Hg1) as [Hi Hm]; auto.
Qed.

Lemma group_add_elems (P : Reservation.t -> Prop) res groups :
  P res -> Forall (fun g => Forall P (snd g)) groups ->
  Forall (fun g => Forall P (snd g)) (group_add res groups).
Proof.
  intros Hr. induction groups as [|[stu rs] groups IH]; intros Hg; simpl.
  - repeat constructor; auto.
  - inversion Hg; subst. destruct (stu =? Reservation.student res).
    + constructor; auto. simpl in *. apply Forall_app. auto.
    + constructor; auto.
Qed.

Lemma group_by_student_elems (P : Reservation.t -> Prop) l :
  Forall P l -> Forall (fun g => Forall P (snd g)) (group_by_student l).
Proof.
  unfold group_by_student.
  assert (H : forall groups, Forall (fun g => Forall P (snd g)) groups -> Forall P l ->
                Forall (fun g => Forall P (snd g))
                  (fold_left (fun groups res => group_add res groups) l groups)).
  { induction l as [|r l IH]; intros groups Hg Hl; simpl; auto.
    inversion Hl; subst. apply IH; auto. now apply group_add_elems. }
  intros Hl. apply H; auto.
Qed.

Lemma cancel_groups_from_table env db rows1 l :
  lock_inv db -> rows_inv (next_id db) rows1 ->
  (forall r, In r l -> In r (reservations db)) ->
  lock_inv (acc_db (fold_left (cancel_for_student env) (group_by_student l)
                      (Build_CancelAcc (with_reservations db rows1) 0 0 [] []))).
Proof.
  intros Hinv Hrows Hl.
  apply cancel_groups_inv with (n0 := next_id db); simpl; auto; [lia|].
  apply group_by_student_elems. apply Forall_forall. intros r Hr.
  destruct Hinv as (_ & Hlt & _). rewrite Forall_forall in Hlt. auto.
Qed.

Lemma admin_cancel_view_inv db is_staff q ids env :
  lock_inv db ->
  lock_inv (fst (fst (admin_cancel_view settings db is_staff q ids env))).
Proof.
  intros Hinv. unfold admin_cancel_view.
  destruct is_staff; simpl; auto.
  destruct (choose_slot _ _ _ _ _) as [slot_id|]; auto.
  destruct (filter Classroom.is_active (classrooms db)); auto.
  destruct (current_classroom db (get_classroom_id q)) as [cls|]; auto.
  destruct ids as [res_ids|]; auto.
  destruct (filter _ (reservations db)) as [|r0 rl] eqn:Ef; auto.
  rewrite <- Ef.
  unfold cancel_competing.
  match goal with
  | |- context [fold_left ?f ?keys (reservations db, 0%nat)] =>
      pose proof (cancel_competing_inv (next_id db) keys (reservations db) 0%nat Hinv)
        as Hc;
      destruct (fold_left f keys (reservations db, 0%nat)) as [rows1 pc]
  end.
  simpl in Hc. simpl.
  apply cancel_groups_from_table; auto.
  intros r Hr. apply filter_In in Hr. destruct Hr as [Hr _].
  apply filter_In in Hr. tauto.
Qed.

Lemma cancel_reservations_inv db selected env :
  lock_inv db ->
  lock_inv (fst (fst (cancel_reservations settings db selected env))).
Proof.
  intros Hinv. unfold cancel_reservations.
  match goal with
  | |- context [rev (filter ?p (reservations db))] =>
      assert (Hv : forall r, In r (rev (filter p (reservations db))) ->
                             In r (reservations db))
        by (intros r Hr; rewrite <- in_rev in Hr; apply filter_In in Hr; tauto);
      generalize dependent (rev (filter p (reservations db)))
  end.
  intros valid Hv.
  destruct valid as [|r0 rl]; [auto|]. cbv beta iota.
  remember (r0 :: rl) as valid eqn:Ev. clear Ev r0 rl.
  unfold cancel_competing.
  match goal with
  | |- context [fold_left ?f ?keys (reservations db, 0%nat)] =>
      pose proof (cancel_competing_inv (next_id db) keys (reservations db) 0%nat Hinv)
        as Hc;
      destruct (fold_left f keys (reservations db, 0%nat)) as [rows1 pc]
  end.
  simpl in Hc.
  match goal with
  | |- context [match ?l with [] => _ | _ :: _ => _ end] =>
      destruct l as [|a0 al] eqn:Ea
  end; simpl; auto.
  rewrite <- Ea.
  apply cancel_groups_from_table; auto.
  intros r Hr. apply filter_In in Hr. destruct Hr as [Hr _]. auto.
Qed.

(** The admin form *)
Lemma clean_guard db instance f seat :
  clean settings db instance f = inr seat ->
  forall x, In x (reservations db) ->
    seat_with_status
      (mkKey (f_classroom f) (fst seat) (snd seat) (f_date f) (f_time_slot f))
      approved x = true ->
    same_id instance x = true.
Proof.
  unfold clean. intros H x Hx Hsw.
  destruct (find _ (classrooms db)); [|discriminate].
  destruct (get_student db (f_student f)); [|discriminate].
  destruct (_ || _); [discriminate|].
  destruct (nth_error _ _); [|discriminate].
  destruct (string_in_range _ _); [|discriminate].
  destruct (Ascii.eqb _ _); [discriminate|].
  match type of H with
  | (if existsb ?p _ then _ else _) = _ =>
      destruct (existsb p (reservations db)) eqn:Ee; [discriminate|];
      assert (Hp : p x = false)
  end.
  { apply not_true_is_false. intros Hp.
    rewrite (proj2 (existsb_exists _ _) (ex_intro _ x (conj Hx Hp))) in Ee.
    discriminate. }
  inversion H; subst seat. simpl in *.
  unfold seat_with_status in Hsw. apply andb_true_iff in Hsw. destruct Hsw as [Hk Hs].
  rewrite Hk, Hs in Hp. simpl in Hp.
  destruct (same_id instance x); auto.
Qed.

Lemma admin_change_inv db pk f commit :
  lock_inv db -> lock_inv (fst (admin_change settings db pk f commit)).
Proof.
  intros Hinv. unfold admin_change.
  destruct (find _ (reservations db)) as [instance|] eqn:Ef; auto.
  apply find_some in Ef. destruct Ef as [Hin _].
  destruct (clean settings db instance f) as [e|seat] eqn:Ec; auto.
  pose proof (clean_guard db instance f seat Ec) as Hg.
  assert (Hs : rows_inv (next_id db)
                 (save (form_instance instance f seat) (reservations db))).
  { apply save_guarded; auto.
    simpl. destruct Hinv as (_ & Hlt & _). rewrite Forall_forall in Hlt. auto. }
  unfold form_save. destruct commit; simpl; auto.
  apply with_reservations_inv. apply update_quiet; auto. simpl. discriminate.
Qed.

(** [send_access_codes] leaves the reservation table alone. *)
Lemma notify_classroom_rows env today slot_id acc c :
  reservations (na_db (notify_classroom settings env today slot_id acc c))
  = reservations (na_db acc)
  /\ next_id (na_db (notify_classroom settings env today slot_id acc c))
     = next_id (na_db acc)
  /\ classrooms (na_db (notify_classroom settings env today slot_id acc c))
     = classrooms (na_db acc).
Proof.
  unfold notify_classroom, get_or_create_code.
  destruct (find _ (access_codes (na_db acc))); simpl;
    repeat match goal with
           | |- context [if ?b then _ else _] => destruct b; simpl
           | |- context [match ?l with [] => _ | _ :: _ => _ end] => destruct l; simpl
           end; auto.
Qed.

Lemma notify_classrooms_rows env today slot_id cls :
  forall acc,
    reservations (na_db (fold_left (notify_classroom settings env today slot_id) cls acc))
    = reservations (na_db acc)
    /\ next_id (na_db (fold_left (notify_classroom settings env today slot_id) cls acc))
       = next_id (na_db acc)
    /\ classrooms (na_db (fold_left (notify_classroom settings env today slot_id) cls acc))
       = classrooms (na_db acc).
Proof.
  induction cls as [|c cls IH]; intros acc; simpl; auto.
  destruct (IH (notify_classroom settings env today slot_id acc c)) as (-> & -> & ->).
  apply notify_classroom_rows.
Qed.

Lemma notify_slot_rows env today acc sl :
  reservations (na_db (notify_slot settings env today acc sl)) = reservations (na_db acc)
  /\ next_id (na_db (notify_slot settings env today acc sl)) = next_id (na_db acc)
  /\ classrooms (na_db (notify_slot settings env today acc sl)) = classrooms (na_db acc).
Proof.
  unfold notify_slot. destruct (get_slot_start_time _ _ _); auto.
  destruct (_ && _); auto. apply notify_classrooms_rows.
Qed.

Lemma send_access_codes_rows db env :
  reservations (na_db (send_access_codes settings db env)) = reservations db
  /\ next_id (na_db (send_access_codes settings db env)) = next_id db
  /\ classrooms (na_db (send_access_codes settings db env)) = classrooms db.
Proof.
  unfold send_access_codes.
  assert (H : forall slots acc,
            reservations (na_db (fold_left (notify_slot settings env (date_of (ne_now env)))
                                   slots acc)) = reservations (na_db acc)
            /\ next_id (na_db (fold_left (notify_slot settings env (date_of (ne_now env)))
                                 slots acc)) = next_id (na_db acc)
            /\ classrooms (na_db (fold_left (notify_slot settings env (date_of (ne_now env)))
                                    slots acc)) = classrooms (na_db acc)).
  { induction slots as [|sl slots IH]; intros acc; simpl; auto.
    destruct (IH (notify_slot settings env (date_of (ne_now env)) acc sl)) as (-> & -> & ->).
    apply notify_slot_rows. }
  apply (H (TIME_SLOTS settings) (Build_NotifyAcc db [] 0)).
Qed.

(** Every request and every command run keeps the invariant. *)
Lemma step_inv db db' : lock_inv db -> step settings db db' -> lock_inv db'.
Proof.
  intros Hinv Hstep. destruct Hstep.
  - now apply submit_inv.
  - now apply admin_action_inv.
  - now apply admin_booking_view_inv.
  - now apply admin_cancel_view_inv.
  - now apply cancel_booking_inv.
  - now apply cleanup_inv.
  - now apply cancel_reservations_inv.
  - now apply admin_change_inv.
  - unfold lock_inv. destruct (send_access_codes_rows db env) as (-> & -> & _). exact Hinv.
Qed.

Lemma reachable_inv db : reachable settings db -> lock_inv db.
Proof.
  induction 1 as [db H|db db' _ IH Hstep].
  - unfold lock_inv, rows_inv, hard_lock_unique, approved_count. rewrite H. simpl.
    repeat split; auto; constructor.
  - eapply step_inv; eauto.
Qed.

(** The hard lock in [admin_action]: a request for a seat that already
    has an approved reservation is not approved; it is rejected, or
    expired when its deadline has passed, and the approved one stays. *)
Lemma admin_action_blocked db ids now a c :
  NoDup (map Reservation.id (reservations db)) ->
  In a (reservations db) -> Reservation.status a = approved ->
  In c (reservations db) -> Reservation.status c = pending ->
  key_of c = key_of a -> In (Reservation.id c) ids ->
  let rows' := reservations (fst (admin_action settings db (Some (ids, act_approve)) now)) in
  In a rows'
  /\ (overdue settings now c = false -> In (Reservation.set_status rejected c) rows')
  /\ (overdue settings now c = true -> In (Reservation.set_status expired c) rows').
Proof.
  intros Hnd Ha Hsa Hc Hsc Hk Hid rows'.
  destruct (admin_action_rows settings db ids act_approve now Hnd) as [Hrows Hinv].
  set (rows1 := update_where (fun r => targeted ids r && overdue settings now r)
                  (Reservation.set_status expired) (reservations db)) in *.
  set (valid_res := filter (fun r => targeted ids r && negb (overdue settings now r))
                      (reservations db)) in *.
  unfold rows'. rewrite Hrows, review_approve_rows. clear rows' Hrows.
  assert (Ha1 : In a rows1).
  { apply update_where_keep; auto. unfold targeted, has_status. rewrite Hsa. simpl.
    now rewrite andb_false_r. }
  assert (Htc : targeted ids c = true).
  { unfold targeted. rewrite andb_true_iff, has_status_iff. split; auto.
    apply existsb_exists. exists (Reservation.id c). split; auto. apply Z.eqb_refl. }
  split; [|split].
  - apply approve_fold_frame; auto; [rewrite Hsa; discriminate|].
    intros v Hv. eapply approved_not_in_valid; eauto.
  - intros Ho. apply rejected_if_taken with (a := a); auto.
    apply filter_In. split; auto. now rewrite Htc, Ho.
  - intros Ho. apply approve_fold_frame; [|simpl; discriminate|].
    + apply (update_where_hit (fun r => targeted ids r && overdue settings now r)); auto.
      now rewrite Htc, Ho.
    + intros v Hv E. apply filter_In in Hv. destruct Hv as [Hv Hcond].
      simpl in E. rewrite (unique_by_id _ _ _ Hnd Hv Hc E) in Hcond.
      rewrite Ho in Hcond. simpl in Hcond. now rewrite andb_false_r in Hcond.
Qed.

(** The hard lock in [admin_booking_view]: the rows of a seat that has an
    approved reservation are neither changed nor added to. *)
Lemma book_seats_skips stu cid d slot batch now a seats :
  forall db cnt db' cnt',
    In a (reservations db) -> Reservation.status a = approved ->
    book_seats db stu cid d slot batch now seats cnt = Ok (db', cnt') ->
    forall x, key_of x = key_of a ->
              (In x (reservations db') <-> In x (reservations db)).
Proof.
  induction seats as [|tok seats IH]; intros db cnt db' cnt' Ha Hs H x Hx; simpl in H.
  - inversion H; subst. tauto.
  - destruct tok as [[r c]|]; [|discriminate].
    destruct d as [d'|]; [|discriminate].
    set (k := mkKey cid r c d' slot) in *.
    destruct (existsb (seat_with_status k approved) (reservations db)) eqn:Et.
    + eapply IH; eauto.
    + assert (Hk : key_of a <> k).
      { intros E.
        rewrite (is_taken_intro (reservations db) a k Ha Hs E) in Et. discriminate. }
      assert (Ha' : In a (update_where (seat_with_status k pending)
                            (Reservation.set_status rejected) (reservations db)
                          ++ [new_approved stu cid r c d' slot batch now (next_id db)])).
      { apply in_or_app. left. apply update_where_keep; auto.
        unfold seat_with_status, has_status. rewrite Hs. simpl. apply andb_false_r. }
      match type of H with
      | book_seats ?db2 _ _ _ _ _ _ _ _ = _ => rewrite (IH db2 _ _ _ Ha' Hs H x Hx)
      end.
      simpl. rewrite in_app_iff. simpl. split.
      * intros [Hin|[<-|[]]].
        -- apply in_map_iff in Hin. destruct Hin as (y & Hy & Hin).
           destruct (seat_with_status k pending y) eqn:Ey; [|now subst].
           apply seat_with_status_iff in Ey. destruct Ey as [Ey _].
           subst x. rewrite key_of_set_status in Hx. congruence.
        -- exfalso. apply Hk. rewrite <- Hx. reflexivity.
      * intros Hin. left. apply update_where_keep; auto.
        unfold seat_with_status.
        destruct (SeatKey_eqb (key_of x) k) eqn:E; auto.
        apply SeatKey_eqb_eq in E. congruence.
Qed.

Lemma admin_booking_view_skips db is_staff q target seats env a :
  In a (reservations db) -> Reservation.status a = approved ->
  forall x, key_of x = key_of a ->
    (In x (reservations (fst (admin_booking_view settings db is_staff q target seats env)))
     <-> In x (reservations db)).
Proof.
  intros Ha Hs x Hx. unfold admin_booking_view.
  destruct is_staff; simpl; [|tauto].
  destruct (choose_slot _ _ _ _ _) as [slot_id|]; [|tauto].
  destruct (filter Classroom.is_active (classrooms db)); [tauto|].
  destruct (current_classroom db (get_classroom_id q)) as [cls|]; [|tauto].
  destruct (booking_closed _ _ _ _); [tauto|].
  destruct target as [[|ch target_sid]|]; try tauto.
  assert (H0 : reservations (fst (fst (get_or_create_student db (String ch target_sid))))
               = reservations db).
  { unfold get_or_create_student. destruct (find _ _); reflexivity. }
  destruct (get_or_create_student db (String ch target_sid)) as [[db0 stu] created].
  simpl in H0.
  destruct (Student.status stu); destruct seats as [seats|]; simpl;
    try (rewrite H0; tauto);
    destruct (book_seats _ _ _ _ _ _ _ _ _) as [[db1 cnt]|e] eqn:Eb; simpl;
    try (rewrite H0; tauto);
    rewrite <- H0; eapply book_seats_skips; eauto; rewrite H0; auto.
Qed.

(** C1 (as amended).  On every database with well-formed keys, each
    request and each command run keeps "at most one approved reservation
    per classroom, seat, date and slot", so the property holds in every
    database reachable from an empty reservation table.  An approved
    reservation blocks the seat: [submit] with that seat in its list
    creates nothing and answers with an error; [admin_action], asked to
    approve a pending request for it, keeps the approved reservation and
    marks the request rejected, or expired when the request's booking
    deadline has passed; [admin_booking_view] neither changes nor adds a
    reservation for that seat. *)
Theorem hard_lock_blocks_every_request :
  (forall db db', lock_inv db -> step settings db db' -> lock_inv db')
  /\ (forall db, reachable settings db -> hard_lock_unique (reservations db))
  /\ (forall db sid post env d r c a,
        post_date post = Some d ->
        In (Some (r, c)) (post_seats_list post) ->
        In a (reservations db) ->
        key_of a = mkKey (post_cid post) r c d (post_slot post) ->
        Reservation.status a = approved ->
        submit_db (submit settings db sid post env) = db
        /\ submit_type (submit settings db sid post env) = type_error)
  /\ (forall db ids now a c,
        NoDup (map Reservation.id (reservations db)) ->
        In a (reservations db) -> Reservation.status a = approved ->
        In c (reservations db) -> Reservation.status c = pending ->
        key_of c = key_of a -> In (Reservation.id c) ids ->
        let rows' :=
          reservations (fst (admin_action settings db (Some (ids, act_approve)) now)) in
        In a rows'
        /\ (overdue settings now c = false ->
            In (Reservation.set_status rejected c) rows')
        /\ (overdue settings now c = true ->
            In (Reservation.set_status expired c) rows'))
  /\ (forall db is_staff q target seats env a,
        In a (reservations db) -> Reservation.status a = approved ->
        forall x, key_of x = key_of a ->
          (In x (reservations
                   (fst (admin_booking_view settings db is_staff q target seats env)))
           <-> In x (reservations db))).
Proof.
  split; [|split; [|split; [|split]]].
  - apply step_inv.
  - intros db H. apply reachable_inv in H. apply H.
  - intros. eapply submit_hard_lock; eauto.
  - intros. apply admin_action_blocked; auto.
  - intros db is_staff q target seats env a Ha Hs x Hx.
    now apply admin_booking_view_skips with (a := a).
Qed.

End LockFacts.

(** ** [admin_cancel_view]: a failing notification *)

Section MailFailureFacts.

Variable settings : Settings.

Lemma save_keeps res rows y :
  In y rows -> (Reservation.id res = Reservation.id y -> res = y) -> In y (save res rows).
Proof.
  intros Hy H. destruct (Z.eq_dec (Reservation.id res) (Reservation.id y)) as [E|E].
  - rewrite <- (H E). apply save_in.
  - apply save_other; auto.
Qed.

Lemma save_each_keeps f qs :
  forall rows y,
    In y rows ->
    (forall r', In r' qs -> Reservation.id (f r') = Reservation.id y -> f r' = y) ->
    In y (save_each f qs rows).
Proof.
  induction qs as [|q qs IH]; intros rows y Hy H; simpl; auto.
  unfold save_each in *. simpl. apply IH.
  - apply save_keeps; auto. apply H. simpl; auto.
  - intros r' Hr'. apply H. simpl; auto.
Qed.

Lemma save_each_contains f qs :
  forall rows r,
    In r qs ->
    (forall r', In r' qs -> Reservation.id (f r') = Reservation.id (f r) -> f r' = f r) ->
    In (f r) (save_each f qs rows).
Proof.
  induction qs as [|q qs IH]; intros rows r Hr H; [destruct Hr|].
  unfold save_each in *. simpl. destruct Hr as [->|Hr].
  - apply (save_each_keeps f qs); [apply save_in|].
    intros r' Hr'. apply H. simpl; auto.
  - apply IH; auto. intros r' Hr'. apply H. simpl; auto.
Qed.

Lemma cancelled_inj_id (r r' : Reservation.t) :
  (Reservation.id r' = Reservation.id r -> r' = r) ->
  Reservation.id (Reservation.set_status cancelled r')
    = Reservation.id (Reservation.set_status cancelled r) ->
  Reservation.set_status cancelled r' = Reservation.set_status cancelled r.
Proof. simpl. intros H E. now rewrite (H E). Qed.

(** One student of the loop: the outbox grows by the notice, a failure
    adds its message, and the rows of the group are cancelled in the
    table whether the mail went out or not. *)
Lemma cancel_for_student_spec env acc g :
  snd g <> [] ->
  let acc' := cancel_for_student env acc g in
  acc_outbox acc' = acc_outbox acc ++ [notice g]
  /\ (forall m, In m (acc_messages acc) -> In m (acc_messages acc'))
  /\ (adm_send_mail env (notice g) = false ->
      In (error_mail_failed (fst g)) (acc_messages acc'))
  /\ (forall r,
        (forall r', In r' (snd g) -> Reservation.id r' = Reservation.id r -> r' = r) ->
        In (Reservation.set_status cancelled r) (reservations (acc_db acc))
        \/ In r (snd g) ->
        In (Reservation.set_status cancelled r) (reservations (acc_db acc'))).
Proof.
  destruct g as [stu rs]. simpl. intros Hne.
  destruct rs as [|first_res rest]; [congruence|].
  unfold cancel_for_student, notice. simpl fst. simpl snd.
  set (rs := first_res :: rest).
  assert (Hrows : forall r,
            (forall r', In r' rs -> Reservation.id r' = Reservation.id r -> r' = r) ->
            In (Reservation.set_status cancelled r) (reservations (acc_db acc))
            \/ In r rs ->
            In (Reservation.set_status cancelled r)
               (save_each (Reservation.set_status cancelled) rs
                  (reservations (acc_db acc)) ++
                [cancel_record first_res stu (adm_uuid4 env stu) (map seat_info rs)
                   (adm_now env) (next_id (acc_db acc))])).
  { intros r Hu [Hin|Hin]; apply in_or_app; left.
    - apply save_each_keeps; auto.
      intros r' Hr'. apply cancelled_inj_id. auto.
    - apply save_each_contains; auto.
      intros r' Hr'. apply cancelled_inj_id. auto. }
  unfold create. cbv beta iota zeta.
  destruct (adm_send_mail env (mail_cancel_notice stu (map seat_info rs))) eqn:Em;
    simpl; (split; [reflexivity|split; [|split]]); auto; try discriminate.
  - intros m Hm. apply in_or_app. auto.
  - intros _. apply in_or_app. right. simpl. auto.
Qed.

Lemma cancel_groups_spec env groups :
  forall acc,
    Forall (fun g => snd g <> []) groups ->
    let acc' := fold_left (cancel_for_student env) groups acc in
    acc_outbox acc' = acc_outbox acc ++ map notice groups
    /\ (forall m, In m (acc_messages acc) -> In m (acc_messages acc'))
    /\ (forall g, In g groups -> adm_send_mail env (notice g) = false ->
                  In (error_mail_failed (fst g)) (acc_messages acc'))
    /\ (forall r,
          (forall g r', In g groups -> In r' (snd g) ->
                        Reservation.id r' = Reservation.id r -> r' = r) ->
          In (Reservation.set_status cancelled r) (reservations (acc_db acc))
          \/ (exists g, In g groups /\ In r (snd g)) ->
          In (Reservation.set_status cancelled r) (reservations (acc_db acc'))).
Proof.
  induction groups as [|g groups IH]; intros acc Hne; simpl.
  - rewrite app_nil_r. repeat split; auto.
    + intros g [].
    + intros r _ [H|(g & [] & _)]. exact H.
  - inversion Hne as [|? ? Hg Hrest]; subst.
    destruct (cancel_for_student_spec env acc g Hg) as (Ho & Hm & Hf & Hr).
    destruct (IH (cancel_for_student env acc g) Hrest) as (Ho' & Hm' & Hf' & Hr').
    split; [|split; [|split]].
    + rewrite Ho', Ho, <- app_assoc. reflexivity.
    + auto.
    + intros g' [<-|Hin] Hfail; auto.
    + intros r Hu Hcase. apply Hr'.
      * intros g' r' Hg' Hin. apply (Hu g' r'); simpl; auto.
      * destruct Hcase as [H|(g' & [<-|Hg'] & Hin)].
        -- left. apply Hr; auto. intros r' Hin. apply (Hu g r'); simpl; auto.
        -- left. apply Hr; auto. intros r' Hin'. apply (Hu g r'); simpl; auto.
        -- right. eauto.
Qed.

Lemma group_add_fst res groups s :
  In s (map fst (group_add res groups)) ->
  s = Reservation.student res \/ In s (map fst groups).
Proof.
  induction groups as [|[stu rs] groups IH]; simpl.
  - intros [<-|[]]. auto.
  - destruct (stu =? Reservation.student res); simpl; intros [<-|H]; auto.
    destruct (IH H); auto.
Qed.

Lemma group_add_keys res groups :
  NoDup (map fst groups) -> NoDup (map fst (group_add res groups)).
Proof.
  induction groups as [|[stu rs] groups IH]; simpl; intros Hnd.
  - repeat constructor. simpl. tauto.
  - inversion Hnd as [|? ? Hnot Hnd']; subst.
    destruct (stu =? Reservation.student res) eqn:E; simpl; constructor; auto.
    intros H. apply group_add_fst in H. apply Z.eqb_neq in E. destruct H; auto.
Qed.

Lemma group_add_nonempty res groups :
  Forall (fun g => snd g <> []) groups ->
  Forall (fun g => snd g <> []) (group_add res groups).
Proof.
  induction groups as [|[stu rs] groups IH]; simpl; intros H.
  - repeat constructor. simpl. discriminate.
  - inversion H; subst. destruct (stu =? Reservation.student res); constructor; auto.
    simpl. destruct rs; discriminate.
Qed.

Lemma group_add_last res groups :
  exists g, In g (group_add res groups) /\ In res (snd g).
Proof.
  induction groups as [|[s1 r1] groups IH]; simpl.
  - eexists. split; [left; reflexivity|simpl; auto].
  - destruct (s1 =? Reservation.student res).
    + eexists. split; [left; reflexivity|]. simpl. apply in_or_app. simpl. auto.
    + destruct IH as (g & Hg & Hr). exists g. split; auto. right. auto.
Qed.

Lemma group_add_old res groups g r :
  In g groups -> In r (snd g) ->
  exists g', In g' (group_add res groups) /\ In r (snd g').
Proof.
  induction groups as [|[s1 r1] groups IH]; simpl; intros Hg Hr; [destruct Hg|].
  destruct (s1 =? Reservation.student res).
  - destruct Hg as [<-|Hg].
    + eexists. split; [left; reflexivity|]. simpl. apply in_or_app. auto.
    + exists g. split; auto. right. auto.
  - destruct Hg as [<-|Hg].
    + eexists. split; [left; reflexivity|]. auto.
    + destruct (IH Hg Hr) as (g' & Hg' & Hr'). exists g'. split; auto. right. auto.
Qed.

(** What [group_by_student] yields: one non-empty group per student, made
    of the given rows, and every given row is in a group. *)
Lemma group_by_student_spec l :
  NoDup (map fst (group_by_student l))
  /\ Forall (fun g => snd g <> []) (group_by_student l)
  /\ (forall g r, In g (group_by_student l) -> In r (snd g) -> In r l)
  /\ (forall r, In r l -> exists g, In g (group_by_student l) /\ In r (snd g)).
Proof.
  unfold group_by_student.
  assert (H : forall groups,
            NoDup (map fst groups) ->
            Forall (fun g => snd g <> []) groups ->
            let out := fold_left (fun groups res => group_add res groups) l groups in
            NoDup (map fst out)
            /\ Forall (fun g => snd g <> []) out
            /\ (forall r, In r l \/ (exists g, In g groups /\ In r (snd g)) ->
                          exists g, In g out /\ In r (snd g))).
  { induction l as [|x l IH]; intros groups Hnd Hne; simpl.
    - repeat split; auto. intros r [[]|H]; auto.
    - destruct (IH (group_add x groups) (group_add_keys x groups Hnd)
                  (group_add_nonempty x groups Hne)) as (H1 & H2 & H3).
      repeat split; auto. intros r [[<-|Hr]|(g & Hg & Hr)]; apply H3; auto.
      + right. apply group_add_last.
      + right. eapply group_add_old; eauto. }
  destruct (H [] (NoDup_nil _) (Forall_nil _)) as (H1 & H2 & H3).
  repeat split; auto.
  pose proof (group_by_student_elems (fun r => In r l) l) as He.
  unfold group_by_student in He. intros g r Hg Hr.
  assert (Hall : Forall (fun r => In r l) l) by (apply Forall_forall; auto).
  specialize (He Hall). rewrite Forall_forall in He. specialize (He g Hg).
  rewrite Forall_forall in He. auto.
Qed.

Lemma not_retried_nodup outbox :
  NoDup (map recipient outbox) -> forall mail, ~ retried outbox mail.
Proof.
  intros Hnd mail (i & j & Hij & Hi & Hj). apply Hij.
  assert (Hlen : (i < length (map recipient outbox))%nat).
  { rewrite length_map. apply nth_error_Some. congruence. }
  apply (proj1 (NoDup_nth_error _) Hnd i j Hlen).
  now rewrite !nth_error_map, Hi, Hj.
Qed.

(** C8 (as amended).  A failing notification in [admin_cancel_view]: no
    mail is handed to [send_mail] twice, so a delivery that fails is not
    tried again; the failure is reported as an error message of the
    response; and the approved reservations of that student that were
    selected are cancelled in the resulting database all the same. *)
Theorem admin_cancel_mail_failure :
  forall db is_staff q reservation_ids env,
    NoDup (map Reservation.id (reservations db)) ->
    let out := admin_cancel_view settings db is_staff q reservation_ids env in
    let db' := fst (fst out) in
    let response := snd (fst out) in
    let outbox := snd out in
    (forall mail, ~ retried outbox mail)
    /\ (forall mail,
          In mail outbox -> adm_send_mail env mail = false ->
          In (error_mail_failed (recipient mail)) (flash_messages response)
          /\ (forall r res_ids,
                reservation_ids = Some res_ids ->
                In r (reservations db) ->
                Reservation.status r = approved ->
                In (Reservation.id r) res_ids ->
                Reservation.student r = recipient mail ->
                In (Reservation.set_status cancelled r) (reservations db'))).
Proof.
  intros db is_staff q reservation_ids env Hnd out db' response outbox.
  assert (Hnone : snd out = [] ->
            (forall mail, ~ retried outbox mail)
            /\ (forall mail, In mail outbox -> adm_send_mail env mail = false ->
                 In (error_mail_failed (recipient mail)) (flash_messages response)
                 /\ (forall r res_ids,
                       reservation_ids = Some res_ids ->
                       In r (reservations db) ->
                       Reservation.status r = approved ->
                       In (Reservation.id r) res_ids ->
                       Reservation.student r = recipient mail ->
                       In (Reservation.set_status cancelled r) (reservations db')))).
  { intros E. unfold outbox. rewrite E. split.
    - intros mail (i & j & _ & Hi & _). destruct i; discriminate.
    - intros mail []. }
  unfold out, admin_cancel_view in *.
  destruct is_staff; [|apply Hnone; reflexivity]. simpl negb in *. cbv iota in *.
  destruct (choose_slot _ _ _ _ _) as [slot_id|]; [|apply Hnone; reflexivity].
  destruct (filter Classroom.is_active (classrooms db)); [apply Hnone; reflexivity|].
  destruct (current_classroom db (get_classroom_id q)) as [cls|];
    [|apply Hnone; reflexivity].
  destruct reservation_ids as [res_ids|]; [|apply Hnone; reflexivity].
  cbv zeta in *.
  set (can_cancel := negb (deadline_passed settings
                             (req_date_of (get_date q) (adm_today env)) slot_id
                             (adm_now env))) in *.
  remember (filter (fun r => existsb (Z.eqb (Reservation.id r)) res_ids
                             && (has_status pending r || has_status approved r))
              (reservations db)) as rtc eqn:Ertc.
  destruct rtc as [|r0 rl]; [apply Hnone; reflexivity|].
  clear Hnone.
  set (approved_list :=
         filter (fun r => has_status approved r && can_cancel) (r0 :: rl)) in *.
  destruct (cancel_competing _ (reservations db)) as [rows1 pc].
  destruct (group_by_student_spec approved_list) as (Hkeys & Hne & Hel & Hin).
  destruct (cancel_groups_spec env (group_by_student approved_list)
              (Build_CancelAcc (with_reservations db rows1) 0 0 [] []) Hne)
    as (Ho & _ & Hf & Hr).
  simpl in Ho.
  unfold outbox, response, db'. cbn [fst snd flash_messages]. rewrite Ho. split.
  - apply not_retried_nodup. rewrite map_map. exact Hkeys.
  - intros mail Hmail Hfail. apply in_map_iff in Hmail.
    destruct Hmail as (g & <- & Hg). split.
    + apply in_or_app. left. apply Hf; auto.
    + intros r ids' Hids Hrin Hs Hid Hstu. inversion Hids; subst ids'.
      assert (Hcc : can_cancel = true).
      { rewrite Forall_forall in Hne. specialize (Hne g Hg).
        destruct (snd g) as [|x xs] eqn:Eg; [congruence|].
        assert (Hx : In x approved_list) by (apply (Hel g x); auto; rewrite Eg; simpl; auto).
        apply filter_In in Hx. destruct Hx as [_ Hx]. apply andb_true_iff in Hx. tauto. }
      assert (Hra : In r approved_list).
      { apply filter_In. split.
        - rewrite Ertc. apply filter_In. split; auto.
          rewrite andb_true_iff, orb_true_iff, !has_status_iff. split; auto.
          apply existsb_exists. exists (Reservation.id r). split; auto. apply Z.eqb_refl.
        - rewrite Hcc, andb_true_r. now apply has_status_iff. }
      apply Hr.
      * intros g' r' Hg' Hr' E.
        assert (Hr'a : In r' approved_list) by (apply (Hel g' r'); auto).
        apply filter_In in Hr'a. destruct Hr'a as [Hr'a _].
        rewrite Ertc in Hr'a. apply filter_In in Hr'a. destruct Hr'a as [Hr'a _].
        eapply unique_by_id; eauto.
      * right. apply Hin; auto.
Qed.

End MailFailureFacts.

(** ** The [send_access_codes] command *)

Section AccessCodeFacts.

Variable settings : Settings.

Lemma in_windowb_iff now slot_id :
  in_windowb settings now slot_id = true <-> in_window settings now slot_id.
Proof.
  unfold in_windowb, in_window, notify_minutes.
  destruct (get_slot_start_time settings (date_of now) slot_id) as [s|].
  - rewrite andb_true_iff, Z.leb_le, Z.ltb_lt. split.
    + intros H. exists s. tauto.
    + intros (s' & E & H). inversion E; subst. tauto.
  - split; [discriminate|]. intros (s' & E & _). discriminate.
Qed.

(** The run is one loop over the jobs. *)
Lemma send_access_codes_jobs db env :
  send_access_codes settings db env
  = fold_left (notify_job settings env (date_of (ne_now env)))
      (jobs settings db (ne_now env)) (Build_NotifyAcc db [] 0).
Proof.
  unfold send_access_codes, jobs.
  assert (H : forall slots acc,
            classrooms (na_db acc) = classrooms db ->
            fold_left (notify_slot settings env (date_of (ne_now env))) slots acc
            = fold_left (notify_job settings env (date_of (ne_now env)))
                (flat_map
                   (fun sl => if in_windowb settings (ne_now env) (fst sl)
                              then map (pair (fst sl))
                                     (filter Classroom.is_active (classrooms db))
                              else []) slots) acc).
  { induction slots as [|sl slots IH]; intros acc Hc; simpl; auto.
    rewrite fold_left_app.
    assert (Hs : notify_slot settings env (date_of (ne_now env)) acc sl
                 = fold_left (notify_job settings env (date_of (ne_now env)))
                     (if in_windowb settings (ne_now env) (fst sl)
                      then map (pair (fst sl))
                             (filter Classroom.is_active (classrooms db))
                      else []) acc).
    { unfold notify_slot, in_windowb.
      destruct (get_slot_start_time settings (date_of (ne_now env)) (fst sl)); auto.
      destruct (_ && _); auto. rewrite Hc.
      generalize (filter Classroom.is_active (classrooms db)). clear.
      intros l. revert acc. induction l as [|c l IH]; intros acc; simpl; auto. }
    rewrite <- Hs. apply IH.
    destruct (notify_slot_rows settings env (date_of (ne_now env)) acc sl)
      as (_ & _ & ->). exact Hc. }
  apply H. reflexivity.
Qed.

Lemma jobs_in db now slot_id c :
  In (slot_id, c) (jobs settings db now) <->
  (exists label, In (slot_id, label) (TIME_SLOTS settings))
  /\ in_window settings now slot_id
  /\ In c (classrooms db) /\ Classroom.is_active c = true.
Proof.
  unfold jobs. rewrite in_flat_map. split.
  - intros ([s label] & Hsl & Hin). simpl in Hin.
    destruct (in_windowb settings now s) eqn:Ew; [|destruct Hin].
    apply in_map_iff in Hin. destruct Hin as (c' & E & Hc). inversion E; subst.
    apply filter_In in Hc. apply in_windowb_iff in Ew. split; eauto.
  - intros ((label & Hsl) & Hw & Hc & Ha). exists (slot_id, label). split; auto.
    simpl. apply in_windowb_iff in Hw. rewrite Hw.
    apply in_map. apply filter_In. auto.
Qed.

Lemma code_for_iff c d s a :
  code_for c d s a = true <-> triple_of a = (c, d, s).
Proof.
  unfold code_for, triple_of. rewrite !andb_true_iff, !Z.eqb_eq. split.
  - intros [[-> ->] ->]. reflexivity.
  - intros H. inversion H. auto.
Qed.

Lemma find_map_in {A} (p : A -> bool) (g : A -> A) l :
  (forall x, In x l -> p (g x) = p x) ->
  find p (map g l) = option_map g (find p l).
Proof.
  induction l as [|x l IH]; simpl; intros H; auto.
  rewrite (H x (or_introl eq_refl)). destruct (p x); simpl; auto.
Qed.

Lemma find_app_none {A} (p : A -> bool) l x :
  find p l = None -> find p (l ++ [x]) = if p x then Some x else None.
Proof.
  induction l as [|y l IH]; simpl; auto. destruct (p y); [discriminate|auto].
Qed.

Lemma find_app_some {A} (p : A -> bool) l l' y :
  find p l = Some y -> find p (l ++ l') = Some y.
Proof.
  induction l as [|z l IH]; simpl; [discriminate|]. destruct (p z); auto.
Qed.

Lemma codes_unique_by_id (codes : list AccessCode.t) a b :
  NoDup (map AccessCode.id codes) -> In a codes -> In b codes ->
  AccessCode.id a = AccessCode.id b -> a = b.
Proof.
  induction codes as [|x codes IH]; simpl; intros Hnd Ha Hb Hid; [tauto|].
  inversion Hnd as [|? ? Hnot Hnd']; subst.
  destruct Ha as [->|Ha], Hb as [->|Hb]; auto.
  - exfalso. apply Hnot. rewrite Hid. now apply in_map.
  - exfalso. apply Hnot. rewrite <- Hid. now apply in_map.
Qed.

(** [mark_notified] touches the row of the object only. *)
Lemma mark_notified_row (codes : list AccessCode.t) a x :
  NoDup (map AccessCode.id codes) -> In a codes -> In x codes ->
  (if AccessCode.id x =? AccessCode.id a then AccessCode.set_notified true a else x)
  = (if AccessCode.id x =? AccessCode.id a then AccessCode.set_notified true x else x).
Proof.
  intros Hnd Ha Hx. destruct (AccessCode.id x =? AccessCode.id a) eqn:E; auto.
  apply Z.eqb_eq in E. now rewrite (codes_unique_by_id codes x a Hnd Hx Ha E).
Qed.

Lemma mark_notified_wf db a :
  codes_wf db -> In a (access_codes db) -> codes_wf (mark_notified db a).
Proof.
  intros (Hid & Hlt & Htr) Ha. unfold codes_wf, mark_notified. simpl.
  assert (Hi : map AccessCode.id
                 (map (fun x => if AccessCode.id x =? AccessCode.id a
                                then AccessCode.set_notified true a else x)
                      (access_codes db))
               = map AccessCode.id (access_codes db)).
  { rewrite map_map. apply map_ext_in. intros x Hx.
    rewrite (mark_notified_row _ a x Hid Ha Hx).
    destruct (AccessCode.id x =? AccessCode.id a); reflexivity. }
  assert (Ht : map triple_of
                 (map (fun x => if AccessCode.id x =? AccessCode.id a
                                then AccessCode.set_notified true a else x)
                      (access_codes db))
               = map triple_of (access_codes db)).
  { rewrite map_map. apply map_ext_in. intros x Hx.
    rewrite (mark_notified_row _ a x Hid Ha Hx).
    destruct (AccessCode.id x =? AccessCode.id a); reflexivity. }
  rewrite Hi, Ht. repeat split; auto.
  rewrite Forall_forall in *. intros y Hy. apply in_map_iff in Hy.
  destruct Hy as (x & <- & Hx). rewrite (mark_notified_row _ a x Hid Ha Hx).
  destruct (AccessCode.id x =? AccessCode.id a); simpl; auto.
Qed.

Lemma mark_notified_find db a c d s :
  codes_wf db -> In a (access_codes db) ->
  find (code_for c d s) (access_codes (mark_notified db a))
  = option_map (fun x => if AccessCode.id x =? AccessCode.id a
                         then AccessCode.set_notified true x else x)
      (find (code_for c d s) (access_codes db)).
Proof.
  intros (Hid & _ & _) Ha. unfold mark_notified. simpl.
  rewrite <- find_map_in.
  - f_equal. apply map_ext_in. intros x Hx.
    now apply (mark_notified_row (access_codes db)).
  - intros x Hx. destruct (AccessCode.id x =? AccessCode.id a); reflexivity.
Qed.

Lemma get_or_create_code_spec db c d s code :
  codes_wf db ->
  let out := get_or_create_code db c d s code in
  codes_wf (fst out)
  /\ In (snd out) (access_codes (fst out))
  /\ find (code_for c d s) (access_codes (fst out)) = Some (snd out)
  /\ reservations (fst out) = reservations db
  /\ (notifiedb db c d s = AccessCode.notified (snd out))
  /\ (forall c' s', (c', s') <> (c, s) ->
        find (code_for c' d s') (access_codes (fst out))
        = find (code_for c' d s') (access_codes db))
  /\ (forall a0, find (code_for c d s) (access_codes db) = Some a0 -> snd out = a0).
Proof.
  intros (Hid & Hlt & Htr). unfold get_or_create_code, notifiedb.
  destruct (find (code_for c d s) (access_codes db)) as [a|] eqn:Ef; simpl.
  - repeat split; auto. apply find_some in Ef. tauto. intros a0 E. congruence.
  - set (a := AccessCode.mk (next_code_id db) c d s code false).
    assert (Hfresh : forall x, In x (access_codes db) -> code_for c d s x = false).
    { intros x Hx. apply (find_none _ _ Ef x Hx). }
    split; [|split; [|split; [|split; [|split; [|split]]]]]; auto.
    + unfold codes_wf. simpl. rewrite !map_app. simpl.
      rewrite Forall_forall in Hlt. split; [|split].
      * apply NoDup_app; auto.
        -- repeat constructor. simpl; tauto.
        -- intros i Hi [<-|[]]. apply in_map_iff in Hi. destruct Hi as (x & E & Hx).
           specialize (Hlt x Hx). lia.
      * apply Forall_app. split.
        -- apply Forall_forall. intros x Hx. specialize (Hlt x Hx). lia.
        -- repeat constructor. simpl. lia.
      * apply NoDup_app; auto.
        -- repeat constructor. simpl; tauto.
        -- intros t Ht [<-|[]]. apply in_map_iff in Ht. destruct Ht as (x & E & Hx).
           assert (E' : code_for c d s x = true) by (apply code_for_iff; exact E).
           rewrite (Hfresh x Hx) in E'. discriminate.
    + apply in_or_app. simpl. auto.
    + rewrite find_app_none; auto.
      assert (E : code_for c d s a = true) by (apply code_for_iff; reflexivity).
      now rewrite E.
    + intros c' s' Hne.
      destruct (find (code_for c' d s') (access_codes db)) as [b|] eqn:Eb.
      * now apply find_app_some.
      * rewrite find_app_none; auto.
        destruct (code_for c' d s' a) eqn:E; auto.
        apply code_for_iff in E. inversion E; subst. congruence.
    + discriminate.
Qed.

(** One classroom and slot of the run, without [--dry-run]: afterwards
    the code of the triple is marked as notified; the outbox grows by one
    mail per student with an approved reservation when the code had not
    been notified, and by nothing otherwise; the codes of the other
    triples are untouched. *)
Lemma notify_job_spec env today acc j :
  ne_dry_run env = false ->
  codes_wf (na_db acc) ->
  let c := Classroom.id (snd j) in
  let s := fst j in
  let acc' := notify_job settings env today acc j in
  codes_wf (na_db acc')
  /\ reservations (na_db acc') = reservations (na_db acc)
  /\ (exists a',
        find (code_for c today s) (access_codes (na_db acc')) = Some a'
        /\ AccessCode.notified a' = true
        /\ na_outbox acc'
           = na_outbox acc ++
             (if notifiedb (na_db acc) c today s then []
              else map (fun stu => mail_access_code stu c today s (AccessCode.code a'))
                     (student_seats (na_db acc) c today s))
        /\ (forall a0, find (code_for c today s) (access_codes (na_db acc)) = Some a0 ->
                       AccessCode.code a' = AccessCode.code a0))
  /\ (forall c' s', (c', s') <> (c, s) ->
        find (code_for c' today s') (access_codes (na_db acc'))
        = find (code_for c' today s') (access_codes (na_db acc))).
Proof.
  intros Hdry Hwf c s acc'. unfold acc', notify_job, notify_classroom.
  fold c. fold s.
  destruct (get_or_create_code_spec (na_db acc) c today s
              (generate_access_code settings (ne_random env c s)) Hwf)
    as (Hwf1 & Hin1 & Hf1 & Hr1 & Hn1 & Ho1 & Hsame1).
  destruct (get_or_create_code (na_db acc) c today s
              (generate_access_code settings (ne_random env c s))) as [db1 a].
  simpl in *. rewrite Hn1.
  destruct (AccessCode.notified a) eqn:En.
  - simpl. split; [|split; [|split]]; auto.
    exists a. rewrite app_nil_r. repeat split; auto.
    intros a0 E. now rewrite (Hsame1 a0 E).
  - assert (Hmark : find (code_for c today s) (access_codes (mark_notified db1 a))
                    = Some (AccessCode.set_notified true a)).
    { rewrite mark_notified_find; auto. rewrite Hf1. simpl. now rewrite Z.eqb_refl. }
    assert (Hother : forall c' s', (c', s') <> (c, s) ->
              find (code_for c' today s') (access_codes (mark_notified db1 a))
              = find (code_for c' today s') (access_codes (na_db acc))).
    { intros c' s' Hne. rewrite mark_notified_find; auto. rewrite (Ho1 c' s' Hne).
      destruct (find (code_for c' today s') (access_codes (na_db acc))) as [b|] eqn:Eb;
        auto.
      simpl. destruct (AccessCode.id b =? AccessCode.id a) eqn:E; auto.
      exfalso. apply Z.eqb_eq in E.
      rewrite <- (Ho1 c' s' Hne) in Eb. apply find_some in Eb. destruct Eb as [Hb Hcb].
      destruct Hwf1 as (Hid1 & _ & _).
      rewrite (codes_unique_by_id _ b a Hid1 Hb Hin1 E) in Hcb.
      apply find_some in Hf1. destruct Hf1 as [_ Hca].
      apply code_for_iff in Hcb, Hca. rewrite Hca in Hcb. inversion Hcb; subst.
      now apply Hne. }
    assert (Hcode : forall a0,
              find (code_for c today s) (access_codes (na_db acc)) = Some a0 ->
              AccessCode.code (AccessCode.set_notified true a) = AccessCode.code a0).
    { intros a0 E. now rewrite (Hsame1 a0 E). }
    unfold student_seats. rewrite <- Hr1.
    destruct (filter (approved_for c today s) (reservations db1)) as [|r0 rl] eqn:Ef.
    + simpl. split; [|split; [|split]]; auto.
      * now apply mark_notified_wf.
      * exists (AccessCode.set_notified true a). rewrite app_nil_r. repeat split; auto.
    + rewrite Hdry. simpl na_db. simpl na_outbox.
      split; [|split; [|split]]; auto.
      * now apply mark_notified_wf.
      * exists (AccessCode.set_notified true a). repeat split; auto.
Qed.

Lemma pair_eq_dec (a b : Z * Z) : {a = b} + {a <> b}.
Proof. decide equality; apply Z.eq_dec. Qed.

Lemma student_seats_rows db db' c d s :
  reservations db' = reservations db -> student_seats db' c d s = student_seats db c d s.
Proof. unfold student_seats. now intros ->. Qed.

Lemma notifiedb_find db c d s a :
  find (code_for c d s) (access_codes db) = Some a ->
  notifiedb db c d s = AccessCode.notified a.
Proof. unfold notifiedb. now intros ->. Qed.

Lemma notify_fold_wf env today js :
  ne_dry_run env = false ->
  forall acc,
    codes_wf (na_db acc) ->
    codes_wf (na_db (fold_left (notify_job settings env today) js acc))
    /\ reservations (na_db (fold_left (notify_job settings env today) js acc))
       = reservations (na_db acc).
Proof.
  intros Hdry. induction js as [|j js IH]; intros acc Hwf; simpl; auto.
  destruct (notify_job_spec env today acc j Hdry Hwf) as (Hwf1 & Hr1 & _).
  destruct (IH _ Hwf1) as [H1 H2]. split; auto. congruence.
Qed.

(** Later jobs keep the code of a triple, keep it notified, and keep the
    mails already in the outbox. *)
Lemma notify_fold_mono env today js :
  ne_dry_run env = false ->
  forall acc c s a,
    codes_wf (na_db acc) ->
    find (code_for c today s) (access_codes (na_db acc)) = Some a ->
    (exists a',
        find (code_for c today s)
          (access_codes (na_db (fold_left (notify_job settings env today) js acc)))
        = Some a'
        /\ AccessCode.code a' = AccessCode.code a
        /\ (AccessCode.notified a = true -> AccessCode.notified a' = true))
    /\ (forall m, In m (na_outbox acc) ->
                  In m (na_outbox (fold_left (notify_job settings env today) js acc))).
Proof.
  intros Hdry. induction js as [|j js IH]; intros acc c s a Hwf Hf; simpl.
  - split; eauto.
  - destruct (notify_job_spec env today acc j Hdry Hwf)
      as (Hwf1 & Hr1 & (a1 & Hf1 & Hn1 & Ho1 & Hc1) & Hoth).
    assert (Hstep : exists a2,
              find (code_for c today s)
                (access_codes (na_db (notify_job settings env today acc j))) = Some a2
              /\ AccessCode.code a2 = AccessCode.code a
              /\ (AccessCode.notified a = true -> AccessCode.notified a2 = true)).
    { destruct (pair_eq_dec (c, s) (Classroom.id (snd j), fst j)) as [E|E].
      - inversion E; subst. exists a1. repeat split; auto.
      - exists a. rewrite (Hoth c s E). auto. }
    destruct Hstep as (a2 & Hf2 & Hc2 & Hn2).
    destruct (IH _ c s a2 Hwf1 Hf2) as ((a' & Hf' & Hc' & Hn') & Hout).
    split.
    + exists a'. repeat split; auto; congruence.
    + intros m Hm. apply Hout. rewrite Ho1. apply in_or_app. auto.
Qed.

(** Completeness: a job of the run ends with its code notified, and, when
    the code had not been notified before, with a mail to every student
    of [student_seats] in the outbox. *)
Lemma notify_fold_sends env today js :
  ne_dry_run env = false ->
  forall acc j,
    codes_wf (na_db acc) -> In j js ->
    let c := Classroom.id (snd j) in
    let s := fst j in
    exists a',
      find (code_for c today s)
        (access_codes (na_db (fold_left (notify_job settings env today) js acc)))
      = Some a'
      /\ AccessCode.notified a' = true
      /\ (notifiedb (na_db acc) c today s = false ->
          forall stu, In stu (student_seats (na_db acc) c today s) ->
            In (mail_access_code stu c today s (AccessCode.code a'))
               (na_outbox (fold_left (notify_job settings env today) js acc))).
Proof.
  intros Hdry. induction js as [|j0 js IH]; intros acc j Hwf Hj c s; [destruct Hj|].
  simpl.
  destruct (notify_job_spec env today acc j0 Hdry Hwf)
    as (Hwf1 & Hr1 & (a1 & Hf1 & Hn1 & Ho1 & Hc1) & Hoth).
  destruct (pair_eq_dec (c, s) (Classroom.id (snd j0), fst j0)) as [E|E].
  - inversion E as [[Ec Es]]. rewrite <- Ec, <- Es in *.
    destruct (notify_fold_mono env today js Hdry _ c s a1 Hwf1 Hf1)
      as ((a' & Hf' & Hc' & Hn') & Hout).
    exists a'. repeat split; auto.
    intros Hnot stu Hstu. apply Hout. rewrite Ho1, Hnot. apply in_or_app. right.
    rewrite Hc'. apply in_map_iff. eauto.
  - assert (Hj' : In j js).
    { destruct Hj as [<-|Hj]; auto. exfalso. apply E. reflexivity. }
    destruct (IH _ j Hwf1 Hj') as (a' & Hf' & Hn' & Hm').
    exists a'. repeat split; auto.
    intros Hnot stu Hstu. apply Hm'.
    + unfold notifiedb in *. fold c. fold s. now rewrite (Hoth c s E).
    + fold c. fold s. now rewrite (student_seats_rows _ _ c today s Hr1).
Qed.

(** Soundness: every mail of the run comes from a job whose code had not
    been notified, and goes to a student of [student_seats]. *)
Lemma notify_fold_only env today js :
  ne_dry_run env = false ->
  forall acc m,
    codes_wf (na_db acc) ->
    In m (na_outbox (fold_left (notify_job settings env today) js acc)) ->
    In m (na_outbox acc)
    \/ exists j stu code,
         In j js
         /\ m = mail_access_code stu (Classroom.id (snd j)) today (fst j) code
         /\ notifiedb (na_db acc) (Classroom.id (snd j)) today (fst j) = false
         /\ In stu (student_seats (na_db acc) (Classroom.id (snd j)) today (fst j)).
Proof.
  intros Hdry. induction js as [|j0 js IH]; intros acc m Hwf Hm; simpl in *; auto.
  destruct (notify_job_spec env today acc j0 Hdry Hwf)
    as (Hwf1 & Hr1 & (a1 & Hf1 & Hn1 & Ho1 & Hc1) & Hoth).
  destruct (IH _ m Hwf1 Hm) as [Hold|(j & stu & code & Hj & -> & Hnot & Hstu)].
  - rewrite Ho1 in Hold. apply in_app_or in Hold. destruct Hold as [Hold|Hnew]; auto.
    right. destruct (notifiedb (na_db acc) (Classroom.id (snd j0)) today (fst j0)) eqn:En;
      [destruct Hnew|].
    apply in_map_iff in Hnew. destruct Hnew as (stu & <- & Hstu).
    exists j0, stu, (AccessCode.code a1). auto.
  - right. exists j, stu, code. repeat split; auto.
    + destruct (pair_eq_dec (Classroom.id (snd j), fst j)
                  (Classroom.id (snd j0), fst j0)) as [E|E].
      * inversion E as [[Ec Es]]. rewrite Ec, Es in Hnot.
        rewrite (notifiedb_find _ _ _ _ _ Hf1) in Hnot. congruence.
      * unfold notifiedb in *. now rewrite <- (Hoth _ _ E).
    + now rewrite <- (student_seats_rows _ _ _ today _ Hr1).
Qed.

Lemma add_student_in stu l x : In x (add_student stu l) <-> x = stu \/ In x l.
Proof.
  induction l as [|y l IH]; simpl.
  - intuition.
  - destruct (y =? stu) eqn:E; simpl.
    + apply Z.eqb_eq in E. subst. intuition.
    + rewrite IH. intuition.
Qed.

Lemma add_student_nodup stu l : NoDup l -> NoDup (add_student stu l).
Proof.
  induction l as [|y l IH]; simpl; intros H.
  - repeat constructor. simpl; tauto.
  - inversion H; subst. destruct (y =? stu) eqn:E; auto.
    constructor; auto. rewrite add_student_in. apply Z.eqb_neq in E.
    intros [->|Hin]; auto.
Qed.

Lemma student_seats_spec db c d s :
  NoDup (student_seats db c d s)
  /\ forall stu,
       In stu (student_seats db c d s) <->
       exists r, In r (reservations db) /\ approved_for c d s r = true
                 /\ Reservation.student r = stu.
Proof.
  unfold student_seats.
  assert (H : forall rs l,
            NoDup l ->
            NoDup (fold_left (fun l r => add_student (Reservation.student r) l) rs l)
            /\ forall stu,
                 In stu (fold_left (fun l r => add_student (Reservation.student r) l) rs l)
                 <-> In stu l \/ exists r, In r rs /\ Reservation.student r = stu).
  { induction rs as [|r rs IH]; intros l Hl; simpl.
    - split; auto. intros stu. split; auto. intros [H|(r & [] & _)]; auto.
    - destruct (IH _ (add_student_nodup (Reservation.student r) l Hl)) as [H1 H2].
      split; auto. intros stu. rewrite H2, add_student_in. split.
      + intros [[->|H]|(r' & Hr' & E)]; eauto.
      + intros [H|(r' & [<-|Hr'] & E)]; eauto. }
  destruct (H (filter (approved_for c d s) (reservations db)) [] (NoDup_nil _))
    as [H1 H2].
  split; auto. intros stu. rewrite H2. split.
  - intros [[]|(r & Hr & E)]. apply filter_In in Hr. exists r. tauto.
  - intros (r & Hr & Ha & E). right. exists r. split; auto. apply filter_In. auto.
Qed.

Lemma NoDup_map_mail (f : Z -> Mail) l :
  (forall x y, f x = f y -> x = y) -> NoDup l -> NoDup (map f l).
Proof.
  intros Hinj. induction l as [|x l IH]; simpl; intros H; [constructor|].
  inversion H; subst. constructor; auto.
  intros Hin. apply in_map_iff in Hin. destruct Hin as (y & E & Hy).
  apply Hinj in E. subst. contradiction.
Qed.

Lemma notify_job_outbox_inv env today acc j :
  ne_dry_run env = false -> codes_wf (na_db acc) ->
  outbox_inv today acc -> outbox_inv today (notify_job settings env today acc j).
Proof.
  intros Hdry Hwf [Hnd Hall].
  destruct (notify_job_spec env today acc j Hdry Hwf)
    as (Hwf1 & Hr1 & (a1 & Hf1 & Hn1 & Ho1 & Hc1) & Hoth).
  set (c0 := Classroom.id (snd j)) in *. set (s0 := fst j) in *.
  assert (Hkeep : forall c s, notifiedb (na_db acc) c today s = true ->
                    notifiedb (na_db (notify_job settings env today acc j)) c today s
                    = true).
  { intros c s H. destruct (pair_eq_dec (c, s) (c0, s0)) as [E|E].
    - inversion E; subst. now rewrite (notifiedb_find _ _ _ _ _ Hf1).
    - unfold notifiedb in *. now rewrite (Hoth c s E). }
  split.
  - rewrite Ho1. destruct (notifiedb (na_db acc) c0 today s0) eqn:En.
    + now rewrite app_nil_r.
    + apply NoDup_app; auto.
      * apply NoDup_map_mail; [|apply student_seats_spec].
        intros x y E. now inversion E.
      * intros m Hm Hnew. apply in_map_iff in Hnew. destruct Hnew as (stu & <- & _).
        destruct (Hall _ Hm) as (stu' & c & s & code & E & Hn).
        inversion E; subst. congruence.
  - intros m Hm. rewrite Ho1 in Hm. apply in_app_or in Hm. destruct Hm as [Hm|Hm].
    + destruct (Hall m Hm) as (stu & c & s & code & E & Hn).
      exists stu, c, s, code. split; auto.
    + destruct (notifiedb (na_db acc) c0 today s0); [destruct Hm|].
      apply in_map_iff in Hm. destruct Hm as (stu & <- & _).
      exists stu, c0, s0, (AccessCode.code a1). split; auto.
      now rewrite (notifiedb_find _ _ _ _ _ Hf1).
Qed.

Lemma notify_fold_outbox_inv env today js :
  ne_dry_run env = false ->
  forall acc, codes_wf (na_db acc) -> outbox_inv today acc ->
              outbox_inv today (fold_left (notify_job settings env today) js acc).
Proof.
  intros Hdry. induction js as [|j js IH]; intros acc Hwf Hinv; simpl; auto.
  apply IH.
  - apply (notify_job_spec env today acc j Hdry Hwf).
  - now apply notify_job_outbox_inv.
Qed.

Lemma unique_by_triple (codes : list AccessCode.t) a b :
  NoDup (map triple_of codes) -> In a codes -> In b codes ->
  triple_of a = triple_of b -> a = b.
Proof.
  induction codes as [|x codes IH]; simpl; intros Hnd Ha Hb Hid; [tauto|].
  inversion Hnd as [|? ? Hnot Hnd']; subst.
  destruct Ha as [->|Ha], Hb as [->|Hb]; auto.
  - exfalso. apply Hnot. rewrite Hid. now apply in_map.
  - exfalso. apply Hnot. rewrite <- Hid. now apply in_map.
Qed.

Lemma notifiedb_false db c d s :
  codes_wf db ->
  (notifiedb db c d s = false <->
   forall a0, In a0 (access_codes db) -> triple_of a0 = (c, d, s) ->
              AccessCode.notified a0 = false).
Proof.
  intros (_ & _ & Htr). unfold notifiedb.
  destruct (find (code_for c d s) (access_codes db)) as [a|] eqn:Ef.
  - apply find_some in Ef. destruct Ef as [Ha Hc]. apply code_for_iff in Hc. split.
    + intros Hn a0 Ha0 Ht.
      rewrite (unique_by_triple _ a0 a Htr Ha0 Ha); auto. congruence.
    + intros H. apply H; auto.
  - split; auto. intros _ a0 Ha0 Ht. apply code_for_iff in Ht.
    rewrite (find_none _ _ Ef a0 Ha0) in Ht. discriminate.
Qed.

Lemma approved_for_iff c d s r :
  approved_for c d s r = true <->
  Reservation.classroom r = c /\ Reservation.date r = d
  /\ Reservation.time_slot r = s /\ Reservation.status r = approved.
Proof.
  unfold approved_for. rewrite !andb_true_iff, !Z.eqb_eq, has_status_iff. tauto.
Qed.

(** C7.  One run of [send_access_codes] without [--dry-run] (the way the
    scheduler calls it), on an access-code table that respects its
    uniqueness constraint.  For every active classroom and every slot of
    TIME_SLOTS whose notification window [start - ACCESS_CODE_NOTIFY_MINUTES,
    start) contains the current time, the run leaves exactly one access
    code for (classroom, today, slot), marked as notified, and, unless a
    code of that triple was marked before the run, has handed to
    [send_mail] a mail with that code for every student holding an
    approved reservation for the triple.  Every mail of the run is such a
    mail: it is for an active classroom, a slot inside its window, a
    triple not marked before the run, and a student with an approved
    reservation; and no mail is sent twice. *)
Theorem send_access_codes_once :
  forall db env,
    codes_wf db ->
    ne_dry_run env = false ->
    let acc := send_access_codes settings db env in
    let today := date_of (ne_now env) in
    (forall slot_id label c,
        In (slot_id, label) (TIME_SLOTS settings) ->
        in_window settings (ne_now env) slot_id ->
        In c (classrooms db) -> Classroom.is_active c = true ->
        exists a,
          In a (access_codes (na_db acc))
          /\ triple_of a = (Classroom.id c, today, slot_id)
          /\ (forall b, In b (access_codes (na_db acc)) ->
                        triple_of b = triple_of a -> b = a)
          /\ AccessCode.notified a = true
          /\ ((forall a0, In a0 (access_codes db) ->
                          triple_of a0 = (Classroom.id c, today, slot_id) ->
                          AccessCode.notified a0 = false) ->
              forall r,
                In r (reservations db) ->
                Reservation.status r = approved ->
                Reservation.classroom r = Classroom.id c ->
                Reservation.date r = today ->
                Reservation.time_slot r = slot_id ->
                In (mail_access_code (Reservation.student r) (Classroom.id c) today
                      slot_id (AccessCode.code a))
                   (na_outbox acc)))
    /\ (forall m,
          In m (na_outbox acc) ->
          exists stu c slot_id code,
            m = mail_access_code stu (Classroom.id c) today slot_id code
            /\ In c (classrooms db) /\ Classroom.is_active c = true
            /\ in_window settings (ne_now env) slot_id
            /\ (forall a0, In a0 (access_codes db) ->
                           triple_of a0 = (Classroom.id c, today, slot_id) ->
                           AccessCode.notified a0 = false)
            /\ exists r,
                 In r (reservations db)
                 /\ Reservation.status r = approved
                 /\ Reservation.classroom r = Classroom.id c
                 /\ Reservation.date r = today
                 /\ Reservation.time_slot r = slot_id
                 /\ Reservation.student r = stu)
    /\ NoDup (na_outbox acc).
Proof.
  intros db env Hwf Hdry acc today. unfold acc. rewrite send_access_codes_jobs.
  fold today.
  set (acc0 := Build_NotifyAcc db [] 0).
  assert (Hwf0 : codes_wf (na_db acc0)) by exact Hwf.
  split; [|split].
  - intros slot_id label c Hsl Hw Hc Hact.
    assert (Hj : In (slot_id, c) (jobs settings db (ne_now env)))
      by (apply jobs_in; eauto).
    destruct (notify_fold_sends env today _ Hdry acc0 (slot_id, c) Hwf0 Hj)
      as (a & Hf & Hn & Hm).
    simpl in Hf, Hm.
    destruct (notify_fold_wf env today (jobs settings db (ne_now env)) Hdry acc0 Hwf0)
      as [(_ & _ & Htr) _].
    pose proof (find_some _ _ Hf) as [Ha Hca]. apply code_for_iff in Hca.
    exists a. repeat split; auto.
    + intros b Hb E. eapply unique_by_triple; eauto.
    + intros Hnot r Hr Hs Hcl Hd Hslot. apply Hm.
      * apply notifiedb_false; auto.
      * apply student_seats_spec. exists r. repeat split; auto.
        apply approved_for_iff. auto.
  - intros m Hm.
    destruct (notify_fold_only env today _ Hdry acc0 m Hwf0 Hm)
      as [[]|([s c] & stu & code & Hj & -> & Hnot & Hstu)].
    simpl in *. apply jobs_in in Hj. destruct Hj as (_ & Hw & Hc & Hact).
    exists stu, c, s, code. repeat split; auto.
    + apply notifiedb_false; auto.
    + apply student_seats_spec in Hstu. destruct Hstu as (r & Hr & Ha & E).
      apply approved_for_iff in Ha. exists r. tauto.
  - apply (notify_fold_outbox_inv env today _ Hdry acc0 Hwf0).
    split; [constructor|intros m []].
Qed.

End AccessCodeFacts.

(** ** The theorems at work on the demo installation *)

Section Runs.

Import Demo.

Ltac in_rows := simpl; tauto.
Ltac by_run := vm_compute; first [reflexivity | tauto | discriminate].

Lemma demo_keys : NoDup (map Reservation.id (reservations db)).
Proof. repeat constructor; simpl; intuition discriminate. Defined.

Lemma demo_codes : codes_wf db.
Proof. unfold codes_wf. simpl. repeat split; constructor. Defined.

(** The request of bob for alice's seat, reviewed after its deadline, is
    expired, not rejected. *)
Lemma hard_lock_overdue_request_expires :
  In r1 (reservations db) /\ Reservation.status r1 = approved
  /\ In r2 (reservations db) /\ Reservation.status r2 = pending
  /\ key_of r2 = key_of r1 /\ In (Reservation.id r2) [2]
  /\ ~ In (Reservation.set_status rejected r2)
         (reservations (fst (admin_action cfg db (Some ([2], act_approve)) late)))
  /\ In (Reservation.set_status expired r2)
        (reservations (fst (admin_action cfg db (Some ([2], act_approve)) late))).
Proof.
  split; [in_rows|]. split; [reflexivity|]. split; [in_rows|].
  split; [reflexivity|]. split; [reflexivity|]. split; [in_rows|]. split.
  - vm_compute. intuition discriminate.
  - by_run.
Defined.

Lemma hard_lock_blocks_every_request_witness :
  NoDup (map Reservation.id (reservations db))
  /\ In (Reservation.set_status expired r2)
        (reservations (fst (admin_action cfg db (Some ([2], act_approve)) late)))
  /\ In (Reservation.set_status rejected r2)
        (reservations (fst (admin_action cfg db (Some ([2], act_approve)) noon))).
Proof.
  pose proof (proj1 (proj2 (proj2 (proj2 (hard_lock_blocks_every_request cfg))))) as H.
  assert (H1 : In r1 (reservations db)) by in_rows.
  assert (H2 : In r2 (reservations db)) by in_rows.
  assert (H3 : In (Reservation.id r2) [2]) by in_rows.
  split; [exact demo_keys|]. split.
  - destruct (H db [2] late r1 r2 demo_keys H1 eq_refl H2 eq_refl eq_refl H3)
      as (_ & _ & Hexp).
    apply Hexp. by_run.
  - destruct (H db [2] noon r1 r2 demo_keys H1 eq_refl H2 eq_refl eq_refl H3)
      as (_ & Hrej & _).
    apply Hrej. by_run.
Defined.

Lemma admin_action_approval_preempts_witness :
  NoDup (map Reservation.id (reservations db))
  /\ In r3 (reservations db)
  /\ Reservation.status r3 = pending
  /\ In (Reservation.set_status approved r3)
        (reservations (fst (admin_action cfg db (Some ([2; 3], act_approve)) noon)))
  /\ approved_count
        (reservations (fst (admin_action cfg db (Some ([2; 3], act_approve)) noon)))
        (key_of r3) = 1%nat
  /\ In (Reservation.set_status rejected r4)
        (reservations (fst (admin_action cfg db (Some ([2; 3], act_approve)) noon))).
Proof.
  assert (H1 : In r3 (reservations db)) by in_rows.
  assert (H2 : Reservation.status r3 = pending) by reflexivity.
  assert (H3 : In (Reservation.set_status approved r3)
                 (reservations (fst (admin_action cfg db (Some ([2; 3], act_approve)) noon))))
    by by_run.
  assert (H4 : In r4 (reservations db)) by in_rows.
  assert (H5 : Reservation.id r4 <> Reservation.id r3) by (vm_compute; discriminate).
  destruct (admin_action_approval_preempts cfg db (Some ([2; 3], act_approve)) noon r3
              demo_keys H1 H2 H3) as (Ha & _ & Hc).
  split; [exact demo_keys|]. split; [exact H1|]. split; [exact H2|].
  split; [exact H3|]. split; [exact Ha|].
  exact (Hc r4 H4 eq_refl eq_refl H5).
Defined.


Lemma submit_booking_window_witness :
  post_date post_locked_seat = Some tomorrow
  /\ get_slot_start_time cfg tomorrow (post_slot post_locked_seat)
     = Some (combine tomorrow 8 0)
  /\ submit_db (submit cfg db 2 post_locked_seat (submit_env late)) = db
  /\ submit_type (submit cfg db 2 post_locked_seat (submit_env late)) = type_error.
Proof.
  assert (H1 : post_date post_locked_seat = Some tomorrow) by reflexivity.
  assert (H2 : get_slot_start_time cfg tomorrow (post_slot post_locked_seat)
               = Some (combine tomorrow 8 0)) by by_run.
  assert (Hlate : combine tomorrow 8 0
                  - timedelta_minutes
                      (Py.getattr (RESERVATION_BOOKING_WINDOW_MINUTES cfg) 30)
                  <= env_now (submit_env late))
    by (vm_compute; discriminate).
  destruct (proj1 (submit_booking_window cfg db 2 post_locked_seat (submit_env late)
                     tomorrow (combine tomorrow 8 0) H1 H2) Hlate) as (Hdb & Hty & _).
  split; [exact H1|]. split; [exact H2|]. split; [exact Hdb|exact Hty].
Defined.

Lemma cancel_booking_window_witness :
  NoDup (map Reservation.id (reservations db))
  /\ get_student db 2 = Some bob
  /\ (exists r, In r (reservations db) /\ in_batch 102 bob r)
  /\ (forall r, In r (reservations db) -> in_batch 102 bob r ->
                get_slot_start_time cfg (Reservation.date r) (Reservation.time_slot r)
                = Some (combine tomorrow 8 0))
  /\ (exists cnt,
        snd (cancel_booking cfg db (Some 2) true 102 noon)
        = redirect_my_bookings [success_cancelled cnt])
  /\ cancel_booking cfg db (Some 2) true 102 late
     = (db, redirect_my_bookings
              [error_cancel_closed
                 (combine tomorrow 8 0
                  - timedelta_minutes
                      (Py.getattr (RESERVATION_BOOKING_WINDOW_MINUTES cfg) 30))]).
Proof.
  assert (H1 : get_student db 2 = Some bob) by reflexivity.
  assert (H2 : exists r, In r (reservations db) /\ in_batch 102 bob r).
  { exists r3. split; [in_rows|]. unfold in_batch. simpl. auto. }
  assert (H3 : forall r, In r (reservations db) -> in_batch 102 bob r ->
                 get_slot_start_time cfg (Reservation.date r) (Reservation.time_slot r)
                 = Some (combine tomorrow 8 0)).
  { intros r [<-|[<-|[<-|[<-|[]]]]] _; by_run. }
  assert (Hearly : noon < combine tomorrow 8 0
                          - timedelta_minutes
                              (Py.getattr (RESERVATION_BOOKING_WINDOW_MINUTES cfg) 30))
    by by_run.
  assert (Hlate : combine tomorrow 8 0
                  - timedelta_minutes
                      (Py.getattr (RESERVATION_BOOKING_WINDOW_MINUTES cfg) 30)
                  <= late)
    by (vm_compute; discriminate).
  split; [exact demo_keys|]. split; [exact H1|]. split; [exact H2|]. split; [exact H3|].
  split.
  - exact (proj2 (proj1 (cancel_booking_window cfg db 2 bob 102 noon
                           (combine tomorrow 8 0) demo_keys H1 H2 H3) Hearly)).
  - exact (proj2 (cancel_booking_window cfg db 2 bob 102 late (combine tomorrow 8 0)
                    demo_keys H1 H2 H3) Hlate).
Defined.

Lemma cleanup_expires_exactly_stale_pending_witness :
  NoDup (map Reservation.id (reservations db))
  /\ Forall2 (cleaned cfg late tomorrow) (reservations db)
       (reservations (fst (cleanup cfg db late tomorrow)))
  /\ In r1 (reservations (fst (cleanup cfg db late tomorrow))).
Proof.
  assert (H0 : In r1 (reservations db)) by in_rows.
  assert (Hs : Reservation.status r1 <> pending) by (vm_compute; discriminate).
  destruct (cleanup_expires_exactly_stale_pending cfg db late tomorrow demo_keys)
    as (H1 & H2 & _).
  split; [exact demo_keys|]. split; [exact H1|]. exact (H2 r1 H0 Hs).
Defined.

Lemma send_access_codes_once_witness :
  codes_wf db
  /\ ne_dry_run notify_env = false
  /\ NoDup (na_outbox (send_access_codes cfg db notify_env)).
Proof.
  destruct (send_access_codes_once cfg db notify_env demo_codes eq_refl)
    as (_ & _ & Hnd).
  split; [exact demo_codes|]. split; [reflexivity|exact Hnd].
Defined.

(** Cancelling alice's approved seat while the mail server is down: the
    notice is handed to [send_mail] once, and never again. *)
Lemma failed_notice_is_not_retried :
  In (mail_cancel_notice 1 [mkSeatInfo 1 tomorrow 1 0 0])
     (snd (admin_cancel_view cfg db true page (Some [1]) (admin_env noon)))
  /\ adm_send_mail (admin_env noon) (mail_cancel_notice 1 [mkSeatInfo 1 tomorrow 1 0 0])
     = false
  /\ ~ retried (snd (admin_cancel_view cfg db true page (Some [1]) (admin_env noon)))
         (mail_cancel_notice 1 [mkSeatInfo 1 tomorrow 1 0 0]).
Proof.
  assert (E : snd (admin_cancel_view cfg db true page (Some [1]) (admin_env noon))
              = [mail_cancel_notice 1 [mkSeatInfo 1 tomorrow 1 0 0]]) by by_run.
  rewrite E. split; [left; reflexivity|]. split; [reflexivity|].
  intros (i & j & Hij & Hi & Hj).
  destruct i as [|[|i]]; destruct j as [|[|j]]; simpl in Hi, Hj;
    try discriminate; congruence.
Defined.

Lemma admin_cancel_mail_failure_witness :
  NoDup (map Reservation.id (reservations db))
  /\ In (error_mail_failed 1)
        (flash_messages
           (snd (fst (admin_cancel_view cfg db true page (Some [1]) (admin_env noon)))))
  /\ In (Reservation.set_status cancelled r1)
        (reservations
           (fst (fst (admin_cancel_view cfg db true page (Some [1]) (admin_env noon))))).
Proof.
  assert (Hin : In (mail_cancel_notice 1 [mkSeatInfo 1 tomorrow 1 0 0])
                  (snd (admin_cancel_view cfg db true page (Some [1]) (admin_env noon))))
    by by_run.
  assert (H1 : In r1 (reservations db)) by in_rows.
  assert (H2 : In (Reservation.id r1) [1]) by in_rows.
  destruct (proj2 (admin_cancel_mail_failure cfg db true page (Some [1]) (admin_env noon)
                     demo_keys) _ Hin eq_refl) as [Hmsg Hrows].
  split; [exact demo_keys|]. split; [exact Hmsg|].
  exact (Hrows r1 [1] eq_refl H1 eq_refl H2 eq_refl).
Defined.

Lemma submit_pending_batch_limit_witness :
  get_student db_three_batches 2 = Some bob
  /\ submit_db (submit cfg db_three_batches 2 post_two_seats (submit_env noon))
     = db_three_batches
  /\ submit_type (submit cfg db_three_batches 2 post_two_seats (submit_env noon))
     = type_error.
Proof.
  assert (H1 : get_student db_three_batches 2 = Some bob) by reflexivity.
  assert (M2 : In r2 (reservations db_three_batches)
               /\ Reservation.student r2 = Student.id bob
               /\ Reservation.status r2 = pending
               /\ env_today (submit_env noon) <= Reservation.date r2)
    by (split; [in_rows|]; split; [reflexivity|]; split; [reflexivity|];
        vm_compute; discriminate).
  assert (M3 : In r3 (reservations db_three_batches)
               /\ Reservation.student r3 = Student.id bob
               /\ Reservation.status r3 = pending
               /\ env_today (submit_env noon) <= Reservation.date r3)
    by (split; [in_rows|]; split; [reflexivity|]; split; [reflexivity|];
        vm_compute; discriminate).
  assert (M5 : In r5 (reservations db_three_batches)
               /\ Reservation.student r5 = Student.id bob
               /\ Reservation.status r5 = pending
               /\ env_today (submit_env noon) <= Reservation.date r5)
    by (split; [in_rows|]; split; [reflexivity|]; split; [reflexivity|];
        vm_compute; discriminate).
  assert (N23 : Reservation.batch_id r2 <> Reservation.batch_id r3)
    by (vm_compute; discriminate).
  assert (N25 : Reservation.batch_id r2 <> Reservation.batch_id r5)
    by (vm_compute; discriminate).
  assert (N35 : Reservation.batch_id r3 <> Reservation.batch_id r5)
    by (vm_compute; discriminate).
  destruct (proj1 (proj2 (submit_pending_batch_limit cfg db_three_batches 2
                            post_two_seats (submit_env noon) bob H1))
              r2 r3 r5 M2 M3 M5 N23 N25 N35) as [Hdb Hty].
  split; [exact H1|]. split; [exact Hdb|exact Hty].
Defined.

Lemma submit_normal_user_restrictions_witness :
  get_student db 1 = Some alice
  /\ submit_db (submit cfg db 1 post_two_seats (submit_env noon)) = db
  /\ submit_type (submit cfg db 1 post_two_seats (submit_env noon)) = type_error.
Proof.
  assert (H1 : get_student db 1 = Some alice) by reflexivity.
  assert (H2 : (1 < length (post_seats_list post_two_seats))%nat)
    by (vm_compute; constructor).
  destruct (proj1 (submit_normal_user_restrictions cfg db 1 post_two_seats
                     (submit_env noon) alice H1) eq_refl H2) as [Hdb Hty].
  split; [exact H1|]. split; [exact Hdb|exact Hty].
Defined.

End Runs.

(** ** More theorems at work on the demo installation *)

Section MoreRuns.

Import Demo.

Lemma demo_lock : lock_inv db.
Proof.
  split; [exact demo_keys|split].
  - repeat constructor.
  - intros k. unfold approved_count. simpl filter.
    assert (E : forall x, Reservation.status x = pending ->
                          seat_with_status k approved x = false).
    { intros x Hx. unfold seat_with_status, has_status. rewrite Hx. apply andb_false_r. }
    rewrite (E r2), (E r3), (E r4) by reflexivity.
    destruct (seat_with_status k approved r1); simpl; lia.
Defined.

End MoreRuns.

(** ** The life cycle of a reservation *)

Section LifecycleFacts.

Variable settings : Settings.

Lemma lifecycle_refl s : lifecycle s s.
Proof. now left. Qed.

Lemma lifecycle_trans a b c : lifecycle a b -> lifecycle b c -> lifecycle a c.
Proof.
  unfold lifecycle. intros [->|[->|[-> ->]]] H; auto.
  destruct H as [->|[H|[H _]]]; auto; discriminate.
Qed.

Lemma lifecycle_pending s : lifecycle pending s.
Proof. right; now left. Qed.

Lemma lifecycle_to_pending s : lifecycle s pending -> s = pending.
Proof. intros [H|[H|[_ H]]]; auto; discriminate. Qed.

Lemma same_request_refl r : same_request r r.
Proof. unfold same_request. tauto. Qed.

Lemma same_request_trans a b c :
  same_request a b -> same_request b c -> same_request a c.
Proof. unfold same_request. intuition congruence. Qed.

Lemma same_request_set_status s r : same_request r (Reservation.set_status s r).
Proof. unfold same_request. simpl. tauto. Qed.

Lemma same_request_cancel_by_user r : same_request r (cancel_by_user r).
Proof. unfold same_request. simpl. tauto. Qed.

Lemma evolves_refl rows : evolves rows rows.
Proof.
  intros r Hr. exists r. split; [auto|split; [apply same_request_refl|apply lifecycle_refl]].
Qed.

Lemma evolves_trans a b c : evolves a b -> evolves b c -> evolves a c.
Proof.
  intros Hab Hbc r Hr.
  destruct (Hab r Hr) as (r1 & H1 & Hs1 & Hl1).
  destruct (Hbc r1 H1) as (r2 & H2 & Hs2 & Hl2).
  exists r2. split; [auto|split].
  - eapply same_request_trans; eauto.
  - eapply lifecycle_trans; eauto.
Qed.

Lemma evolves_app rows l : evolves rows (rows ++ l).
Proof.
  intros r Hr. exists r.
  split; [apply in_or_app; auto|split; [apply same_request_refl|apply lifecycle_refl]].
Qed.

(** Saving the in-memory object [res] keeps the table on its life cycle
    when [res] is a legal successor of the row it was loaded from. *)
Lemma evolves_save rows0 rows res :
  evolves rows0 rows ->
  (forall r0, In r0 rows0 -> Reservation.id r0 = Reservation.id res ->
              same_request r0 res
              /\ lifecycle (Reservation.status r0) (Reservation.status res)) ->
  evolves rows0 (save res rows).
Proof.
  intros Hev Hres r0 Hr0.
  destruct (Hev r0 Hr0) as (r1 & H1 & Hs1 & Hl1).
  destruct (Z.eq_dec (Reservation.id r1) (Reservation.id res)) as [E|E].
  - exists res. split; [apply save_in|].
    apply Hres; auto. destruct Hs1 as (Hid & _). congruence.
  - exists r1. split; [now apply save_other|auto].
Qed.

(** A bulk update of pending rows. *)
Lemma evolves_update_pending rows0 rows p s :
  (forall x, p x = true -> Reservation.status x = pending) ->
  evolves rows0 rows ->
  evolves rows0 (update_where p (Reservation.set_status s) rows).
Proof.
  intros Hp Hev r0 Hr0.
  destruct (Hev r0 Hr0) as (r1 & H1 & Hs1 & Hl1).
  destruct (p r1) eqn:E.
  - exists (Reservation.set_status s r1).
    split; [now apply update_where_hit|split].
    + eapply same_request_trans; [exact Hs1|apply same_request_set_status].
    + apply Hp in E. rewrite E in Hl1. apply lifecycle_to_pending in Hl1.
      rewrite Hl1. apply lifecycle_pending.
  - exists r1. split; [now apply update_where_keep|auto].
Qed.

(** A loop of saves over objects loaded from the table [rows0]. *)
Lemma evolves_save_each rows0 (f : Reservation.t -> Reservation.t) qs :
  NoDup (map Reservation.id rows0) ->
  (forall r, In r qs ->
             In r rows0 /\ same_request r (f r)
             /\ lifecycle (Reservation.status r) (Reservation.status (f r))) ->
  forall rows, evolves rows0 rows -> evolves rows0 (save_each f qs rows).
Proof.
  intros Hnd. unfold save_each.
  induction qs as [|q qs IH]; intros Hq rows Hev; simpl; auto.
  apply IH; [intros r Hr; apply Hq; simpl; auto|].
  destruct (Hq q (or_introl eq_refl)) as (Hin & Hs & Hl).
  apply evolves_save; auto.
  intros r0 Hr0 Hid.
  assert (r0 = q).
  { apply (unique_by_id rows0); auto. destruct Hs as (Hi & _). congruence. }
  subst r0. auto.
Qed.

Lemma submit_evolves db sid post env :
  evolves (reservations db) (reservations (submit_db (submit settings db sid post env))).
Proof.
  destruct (submit_cases settings db sid post env)
    as [(m & -> & _)|(student & d & _ & _ & _ & _ & H)]; [apply evolves_refl|].
  unfold commit_fk in H.
  destruct (create_batch _ _ _ _ _ _ _ _ _) as [[db1 n1]|e1] eqn:Eb.
  - destruct (classroom_exists db1 (post_cid post)).
    + apply create_batch_ok in Eb. destruct Eb as (created & _ & Hres & _).
      rewrite H, Hres. apply evolves_app.
    + destruct H as [-> _]. apply evolves_refl.
  - destruct H as [-> _]. apply evolves_refl.
Qed.

Lemma cancel_booking_evolves db sid is_post batch_id now :
  NoDup (map Reservation.id (reservations db)) ->
  evolves (reservations db)
          (reservations (fst (cancel_booking settings db sid is_post batch_id now))).
Proof.
  intros Hnd. unfold cancel_booking.
  destruct sid as [sid|]; [|apply evolves_refl].
  destruct is_post; simpl; [|apply evolves_refl].
  destruct (get_student db sid) as [student|]; [|apply evolves_refl].
  destruct (first _); [|apply evolves_refl].
  destruct (booking_closed _ _ _ _); [apply evolves_refl|]. simpl.
  apply evolves_save_each; auto; [|apply evolves_refl].
  intros r Hr. apply filter_In in Hr. destruct Hr as [Hin Hc].
  split; [auto|split; [apply same_request_cancel_by_user|]].
  unfold cancellable in Hc. rewrite !andb_true_iff, orb_true_iff in Hc.
  destruct Hc as [_ [Hp|Ha]]; apply has_status_iff in Hp || apply has_status_iff in Ha.
  - rewrite Hp. apply lifecycle_pending.
  - rewrite Ha. right; right. simpl. auto.
Qed.

Lemma expire_loop_evolves rows0 now (l : list Reservation.t) :
  NoDup (map Reservation.id rows0) ->
  (forall r, In r l -> In r rows0 /\ Reservation.status r = pending) ->
  forall rows n,
    evolves rows0 rows ->
    evolves rows0
      (fst (fold_left
              (fun acc res =>
                 if deadline_passed settings (Reservation.date res)
                      (Reservation.time_slot res) now
                 then (save (Reservation.set_status expired res) (fst acc), S (snd acc))
                 else acc) l (rows, n))).
Proof.
  intros Hnd. induction l as [|x l IH]; intros Hl rows n Hev; simpl; auto.
  destruct (Hl x (or_introl eq_refl)) as [Hin Hp].
  destruct (deadline_passed _ _ _ _); simpl.
  - apply IH; [intros r Hr; apply Hl; simpl; auto|].
    apply evolves_save; auto. intros r0 Hr0 Hid.
    assert (r0 = x) by (apply (unique_by_id rows0); auto). subst r0.
    split; [apply same_request_set_status|]. rewrite Hp. apply lifecycle_pending.
  - apply IH; auto. intros r Hr; apply Hl; simpl; auto.
Qed.

Lemma cleanup_evolves db now today :
  NoDup (map Reservation.id (reservations db)) ->
  evolves (reservations db) (reservations (fst (cleanup settings db now today))).
Proof.
  intros Hnd. unfold cleanup, expire_past_deadline.
  match goal with
  | |- context [fold_left ?f ?l ?a] =>
      pose proof (expire_loop_evolves (reservations db) now l Hnd) as H;
      destruct (fold_left f l a) as [rows0 n0] eqn:Ef
  end.
  simpl.
  apply evolves_update_pending.
  { intros x Hx. unfold date_passed in Hx. apply andb_true_iff in Hx.
    now apply has_status_iff. }
  apply evolves_update_pending.
  { intros x Hx. unfold timed_out in Hx. apply andb_true_iff in Hx.
    now apply has_status_iff. }
  specialize (H ltac:(intros r Hr; apply filter_In in Hr; destruct Hr as [Hin Hc];
                      apply andb_true_iff in Hc; split; [auto|now apply has_status_iff])
                (reservations db) 0%nat (evolves_refl _)).
  rewrite Ef in H. exact H.
Qed.

Lemma expire_overdue_evolves rows0 now target_res :
  NoDup (map Reservation.id rows0) ->
  forall rows valid_res n,
    (forall r, In r target_res -> In r rows0 /\ Reservation.status r = pending) ->
    (forall r, In r valid_res -> In r rows0 /\ Reservation.status r = pending) ->
    evolves rows0 rows ->
    evolves rows0 (fst (fst (expire_overdue settings now target_res rows valid_res n)))
    /\ (forall r, In r (snd (fst (expire_overdue settings now target_res rows valid_res n))) ->
                  In r rows0 /\ Reservation.status r = pending).
Proof.
  intros Hnd. induction target_res as [|x l IH]; intros rows valid n Ht Hv Hev; simpl; auto.
  destruct (Ht x (or_introl eq_refl)) as [Hin Hp].
  destruct (deadline_passed _ _ _ _).
  - apply IH; auto; [intros r Hr; apply Ht; simpl; auto|].
    apply evolves_save; auto. intros r0 Hr0 Hid.
    assert (r0 = x) by (apply (unique_by_id rows0); auto). subst r0.
    split; [apply same_request_set_status|]. rewrite Hp. apply lifecycle_pending.
  - apply IH; auto; [intros r Hr; apply Ht; simpl; auto|].
    intros r Hr. apply in_app_or in Hr. destruct Hr as [Hr|[<-|[]]]; auto.
Qed.

Lemma review_evolves rows0 action valid_res :
  NoDup (map Reservation.id rows0) ->
  (forall r, In r valid_res -> In r rows0 /\ Reservation.status r = pending) ->
  forall rows sc arc,
    evolves rows0 rows ->
    evolves rows0 (fst (fst (review action valid_res rows sc arc))).
Proof.
  intros Hnd. induction valid_res as [|x l IH]; intros Hv rows sc arc Hev.
  - now destruct action.
  - destruct (Hv x (or_introl eq_refl)) as [Hin Hp].
    assert (Hl : forall r, In r l -> In r rows0 /\ Reservation.status r = pending)
      by (intros r Hr; apply Hv; simpl; auto).
    assert (Hsave : forall s, evolves rows0 (save (Reservation.set_status s x) rows)).
    { intros s. apply evolves_save; auto. intros r0 Hr0 Hid.
      assert (r0 = x) by (apply (unique_by_id rows0); auto). subst r0.
      split; [apply same_request_set_status|]. rewrite Hp. apply lifecycle_pending. }
    destruct action; simpl.
    + destruct (existsb _ rows); apply IH; auto.
      apply evolves_update_pending; auto.
      intros y Hy. unfold competitors in Hy. apply andb_true_iff in Hy.
      destruct Hy as [Hy _]. now apply seat_with_status_iff in Hy.
    + apply IH; auto.
    + apply IH; auto.
Qed.

Lemma admin_action_evolves db token now :
  NoDup (map Reservation.id (reservations db)) ->
  evolves (reservations db) (reservations (fst (admin_action settings db token now))).
Proof.
  intros Hnd. unfold admin_action.
  destruct token as [[ids action]|]; [|apply evolves_refl].
  set (target := filter (has_status pending) _).
  assert (Ht : forall r, In r target ->
                         In r (reservations db) /\ Reservation.status r = pending).
  { intros r Hr. apply filter_In in Hr. destruct Hr as [Hr Hp].
    apply filter_In in Hr. split; [tauto|now apply has_status_iff]. }
  destruct target as [|t0 tl] eqn:Et.
  { simpl. destruct (_ <? _)%nat; [apply evolves_refl|].
    destruct (filter (has_status expired) _); apply evolves_refl. }
  rewrite <- Et in *. clear Et.
  destruct (expire_overdue_evolves (reservations db) now target Hnd
              (reservations db) [] 0%nat Ht ltac:(intros r [])
              (evolves_refl _)) as [H1 H2].
  destruct (expire_overdue settings now target (reservations db) [] 0)
    as [[rows1 valid] n] eqn:Ee. simpl in H1, H2.
  destruct target; [destruct valid|].
  - simpl. destruct (_ <? _)%nat; simpl; auto.
    destruct (_ <? _)%nat; simpl; auto.
  - pose proof (review_evolves (reservations db) action (t :: valid) Hnd H2
                  rows1 0%nat 0%nat H1) as H3.
    destruct (review action (t :: valid) rows1 0 0) as [[rows2 sc] arc]. exact H3.
  - destruct valid as [|v valid].
    + destruct (_ <? _)%nat; simpl; auto. destruct (_ <? _)%nat; simpl; auto.
    + pose proof (review_evolves (reservations db) action (v :: valid) Hnd H2
                    rows1 0%nat 0%nat H1) as H3.
      destruct (review action (v :: valid) rows1 0 0) as [[rows2 sc] arc]. exact H3.
Qed.

Lemma book_seats_evolves stu cid d slot batch now seats :
  forall db cnt db' cnt',
    book_seats db stu cid d slot batch now seats cnt = Ok (db', cnt') ->
    evolves (reservations db) (reservations db').
Proof.
  induction seats as [|tok seats IH]; intros db cnt db' cnt' H; simpl in H.
  - inversion H; subst. apply evolves_refl.
  - destruct tok as [[r c]|]; [|discriminate].
    destruct d as [d'|]; [|discriminate].
    destruct (existsb _ (reservations db)); [eauto|].
    apply IH in H. eapply evolves_trans; [|exact H]. simpl.
    eapply evolves_trans; [|apply evolves_app].
    apply evolves_update_pending; [|apply evolves_refl].
    intros y Hy. now apply seat_with_status_iff in Hy.
Qed.

Lemma admin_booking_view_evolves db is_staff q target seats env :
  evolves (reservations db)
    (reservations (fst (admin_booking_view settings db is_staff q target seats env))).
Proof.
  unfold admin_booking_view.
  destruct is_staff; simpl; [|apply evolves_refl].
  destruct (choose_slot _ _ _ _ _); [|apply evolves_refl].
  destruct (filter Classroom.is_active (classrooms db)); [apply evolves_refl|].
  destruct (current_classroom db _); [|apply evolves_refl].
  destruct (booking_closed _ _ _ _); [apply evolves_refl|].
  destruct target as [[|c0 s0]|]; try apply evolves_refl.
  assert (Hg : reservations (fst (fst (get_or_create_student db (String c0 s0))))
               = reservations db).
  { unfold get_or_create_student. destruct (find _ _); reflexivity. }
  destruct (get_or_create_student db (String c0 s0)) as [[db0 stu] created].
  simpl in Hg.
  destruct (Student.status stu); simpl; try (rewrite Hg; apply evolves_refl);
    (destruct seats as [seats|]; simpl; [|rewrite Hg; apply evolves_refl];
     destruct (book_seats _ _ _ _ _ _ _ _ _) as [[db1 cnt]|e] eqn:Eb; simpl;
     [|rewrite Hg; apply evolves_refl];
     rewrite <- Hg; eapply book_seats_evolves; eauto).
Qed.

Lemma cancel_competing_evolves keys :
  forall rows cnt,
    NoDup (map Reservation.id rows) ->
    evolves rows (fst (fold_left
      (fun acc k =>
         let competing_reservations := filter (seat_with_status k pending) (fst acc) in
         (save_each (Reservation.set_status cancelled) competing_reservations (fst acc),
          (snd acc + length competing_reservations)%nat))
      keys (rows, cnt)))
    /\ NoDup (map Reservation.id (fst (fold_left
      (fun acc k =>
         let competing_reservations := filter (seat_with_status k pending) (fst acc) in
         (save_each (Reservation.set_status cancelled) competing_reservations (fst acc),
          (snd acc + length competing_reservations)%nat))
      keys (rows, cnt)))).
Proof.
  induction keys as [|k keys IH]; intros rows cnt Hnd; simpl.
  - split; [apply evolves_refl|auto].
  - rewrite save_each_filter; auto.
    destruct (IH (update_where (seat_with_status k pending)
                    (Reservation.set_status cancelled) rows)
                 (cnt + length (filter (seat_with_status k pending) rows))%nat)
      as [H1 H2].
    { rewrite update_where_ids; auto. }
    split; auto. eapply evolves_trans; [|exact H1].
    apply evolves_update_pending; [|apply evolves_refl].
    intros y Hy. now apply seat_with_status_iff in Hy.
Qed.

Lemma cancel_for_student_evolves rows0 env acc group :
  NoDup (map Reservation.id rows0) ->
  (forall r, In r (snd group) -> In r rows0 /\ Reservation.status r = approved) ->
  evolves rows0 (reservations (acc_db acc)) ->
  evolves rows0 (reservations (acc_db (cancel_for_student env acc group))).
Proof.
  intros Hnd Hg Hev. destruct group as [stu rs]. simpl in Hg.
  unfold cancel_for_student. destruct rs as [|r0 rs']; auto.
  set (rs := r0 :: rs') in *.
  assert (H : evolves rows0
                (save_each (Reservation.set_status cancelled) rs
                   (reservations (acc_db acc)))).
  { apply evolves_save_each; auto. intros r Hr. destruct (Hg r Hr) as [Hin Ha].
    split; [auto|split; [apply same_request_set_status|]].
    rewrite Ha. right; right. simpl. auto. }
  unfold create. cbv beta iota zeta.
  destruct (adm_send_mail env _); simpl;
    (eapply evolves_trans; [exact H|apply evolves_app]).
Qed.

Lemma cancel_groups_evolves rows0 env groups :
  NoDup (map Reservation.id rows0) ->
  Forall (fun g => Forall (fun r => In r rows0 /\ Reservation.status r = approved)
                          (snd g)) groups ->
  forall acc,
    evolves rows0 (reservations (acc_db acc)) ->
    evolves rows0
      (reservations (acc_db (fold_left (cancel_for_student env) groups acc))).
Proof.
  intros Hnd. induction groups as [|g groups IH]; intros HF acc Hev; simpl; auto.
  inversion HF as [|? ? Hg HF']; subst.
  apply IH; auto. apply cancel_for_student_evolves; auto.
  intros r Hr. rewrite Forall_forall in Hg. auto.
Qed.

Lemma admin_cancel_view_evolves db is_staff q ids env :
  NoDup (map Reservation.id (reservations db)) ->
  evolves (reservations db)
    (reservations (fst (fst (admin_cancel_view settings db is_staff q ids env)))).
Proof.
  intros Hnd. unfold admin_cancel_view.
  destruct is_staff; simpl; [|apply evolves_refl].
  destruct (choose_slot _ _ _ _ _); [|apply evolves_refl].
  destruct (filter Classroom.is_active (classrooms db)); [apply evolves_refl|].
  destruct (current_classroom db _); [|apply evolves_refl].
  destruct ids as [res_ids|]; [|apply evolves_refl].
  match goal with
  | |- context [match ?l with [] => _ | _ :: _ => _ end] =>
      set (to_cancel := l); destruct to_cancel eqn:Et; [apply evolves_refl|]
  end.
  rewrite <- Et. clear Et.
  unfold cancel_competing.
  match goal with
  | |- context [fold_left ?f ?keys (reservations db, 0%nat)] =>
      destruct (cancel_competing_evolves keys (reservations db) 0%nat Hnd) as [H1 _];
      destruct (fold_left f keys (reservations db, 0%nat)) as [rows1 pc] eqn:Ef
  end.
  simpl in H1. simpl.
  apply cancel_groups_evolves; auto.
  apply group_by_student_elems. apply Forall_forall. intros r Hr.
  apply filter_In in Hr. destruct Hr as [Hr Ha].
  apply filter_In in Hr. apply andb_true_iff in Ha.
  split; [tauto|]. now apply has_status_iff.
Qed.

Lemma cancel_reservations_evolves db selected env :
  NoDup (map Reservation.id (reservations db)) ->
  evolves (reservations db)
    (reservations (fst (fst (cancel_reservations settings db selected env)))).
Proof.
  intros Hnd. unfold cancel_reservations.
  match goal with
  | |- context [match ?l with [] => _ | _ :: _ => _ end] =>
      set (valid := l); destruct valid eqn:Et; [apply evolves_refl|]
  end.
  rewrite <- Et. clear Et.
  unfold cancel_competing.
  match goal with
  | |- context [fold_left ?f ?keys (reservations db, 0%nat)] =>
      destruct (cancel_competing_evolves keys (reservations db) 0%nat Hnd) as [H1 _];
      destruct (fold_left f keys (reservations db, 0%nat)) as [rows1 pc] eqn:Ef
  end.
  simpl in H1.
  match goal with
  | |- context [match ?l with [] => _ | _ :: _ => _ end] =>
      set (can := l); destruct can eqn:Ec; [exact H1|]
  end.
  rewrite <- Ec. clear Ec. simpl.
  apply cancel_groups_evolves; auto.
  apply group_by_student_elems. apply Forall_forall. intros r Hr.
  apply filter_In in Hr. destruct Hr as [Hr Ha].
  unfold valid in Hr. rewrite <- in_rev in Hr.
  apply filter_In in Hr. apply andb_true_iff in Ha.
  split; [tauto|]. apply has_status_iff. tauto.
Qed.

(** X1.  The life cycle of a reservation.  Whatever a student, the
    administrator who follows a signed link, a staff page, the admin
    action or a command does, every reservation of the table is still
    there afterwards as the same request (same key, batch, student, seat,
    date, slot, creation time), and its status has either not moved, or
    was pending, or went from approved to cancelled: rejected, expired and
    cancelled are final, and an approved reservation is never rejected,
    expired or put back to pending.  (Only the change form of the admin
    site can set a status freely.) *)
Theorem reservation_lifecycle :
  forall db,
    NoDup (map Reservation.id (reservations db)) ->
    (forall sid post env,
        evolves (reservations db)
                (reservations (submit_db (submit settings db sid post env))))
    /\ (forall token now,
          evolves (reservations db)
                  (reservations (fst (admin_action settings db token now))))
    /\ (forall is_staff q target seats env,
          evolves (reservations db)
                  (reservations
                     (fst (admin_booking_view settings db is_staff q target seats env))))
    /\ (forall is_staff q ids env,
          evolves (reservations db)
                  (reservations
                     (fst (fst (admin_cancel_view settings db is_staff q ids env)))))
    /\ (forall sid is_post batch_id now,
          evolves (reservations db)
                  (reservations
                     (fst (cancel_booking settings db sid is_post batch_id now))))
    /\ (forall now today,
          evolves (reservations db)
                  (reservations (fst (cleanup settings db now today))))
    /\ (forall selected env,
          evolves (reservations db)
                  (reservations
                     (fst (fst (cancel_reservations settings db selected env)))))
    /\ (forall env,
          evolves (reservations db)
                  (reservations (na_db (send_access_codes settings db env)))).
Proof.
  intros db Hnd. repeat split; intros.
  - apply submit_evolves.
  - now apply admin_action_evolves.
  - apply admin_booking_view_evolves.
  - now apply admin_cancel_view_evolves.
  - now apply cancel_booking_evolves.
  - now apply cleanup_evolves.
  - now apply cancel_reservations_evolves.
  - destruct (send_access_codes_rows settings db env) as [-> _]. apply evolves_refl.
Qed.

End LifecycleFacts.

Section LifecycleRuns.

Import Demo.

Lemma reservation_lifecycle_witness :
  NoDup (map Reservation.id (reservations db))
  /\ evolves (reservations db) (reservations (fst (cleanup cfg db late tomorrow))).
Proof.
  split; [exact demo_keys|].
  destruct (reservation_lifecycle cfg db demo_keys) as (_ & _ & _ & _ & _ & H & _).
  exact (H late tomorrow).
Defined.

End LifecycleRuns.

(** ** Slot labels and the default slot *)

Section SlotFacts.

Variable settings : Settings.

Lemma dict_get_spec {V : Type} (pairs : list (Z * V)) k d :
  (Py.dict_get pairs k d = d /\ forall v, ~ In (k, v) pairs)
  \/ In (k, Py.dict_get pairs k d) pairs.
Proof.
  unfold Py.dict_get. revert d.
  induction pairs as [|[k' v'] pairs IH] using rev_ind; intros d.
  - left. simpl. split; auto.
  - rewrite fold_left_app. simpl.
    destruct (k' =? k) eqn:E.
    + right. apply Z.eqb_eq in E. subst. apply in_or_app. right. simpl. auto.
    + destruct (IH d) as [[H1 H2]|H].
      * left. split; auto. intros v Hv. apply in_app_or in Hv.
        destruct Hv as [Hv|[Hv|[]]]; [now apply (H2 v)|].
        inversion Hv; subst. rewrite Z.eqb_refl in E. discriminate.
      * right. apply in_or_app. auto.
Qed.

Lemma start_hm_bounds label h m :
  start_hm label = Some (h, m) -> 0 <= h <= 23 /\ 0 <= m <= 59.
Proof.
  unfold start_hm.
  destruct (Py.split "-" label) as [|first rest]; [discriminate|].
  destruct (Py.split ":" (Py.strip first)) as [|hs [|ms [|x l]]]; try discriminate.
  destruct (Py.int hs) as [h'|]; [|discriminate].
  destruct (Py.int ms) as [m'|]; [|discriminate].
  destruct ((0 <=? h') && (h' <=? 23) && (0 <=? m') && (m' <=? 59)) eqn:E;
    [|discriminate].
  intros H. inversion H; subst.
  rewrite !andb_true_iff, !Z.leb_le in E. lia.
Qed.

Lemma date_of_combine d h m :
  0 <= h <= 23 -> 0 <= m <= 59 -> date_of (combine d h m) = d.
Proof.
  intros Hh Hm.
  unfold date_of, combine, timedelta_days_us, timedelta_minutes, US_PER_MINUTE.
  symmetry. apply Z.div_unique with (r := (h * 60 + m) * 60000000); lia.
Qed.

(** X2.  The start of a slot.  A slot id that [TIME_SLOTS] does not list has no
    start; a start that is found comes from a label of that id whose first
    half reads as hour and minute of a day, and lies on the day asked
    for. *)
Theorem get_slot_start_time_on_date :
  forall d slot_id,
    ((forall label, ~ In (slot_id, label) (TIME_SLOTS settings)) ->
     get_slot_start_time settings d slot_id = None)
    /\ (forall t,
          get_slot_start_time settings d slot_id = Some t ->
          date_of t = d
          /\ exists label h m,
               In (slot_id, label) (TIME_SLOTS settings)
               /\ start_hm label = Some (h, m)
               /\ 0 <= h <= 23 /\ 0 <= m <= 59
               /\ t = combine d h m).
Proof.
  intros d slot_id. unfold get_slot_start_time, slot_label.
  destruct (dict_get_spec (TIME_SLOTS settings) slot_id EmptyString) as [[He Hno]|Hin].
  - rewrite He. split; [reflexivity|discriminate].
  - split.
    + intros Hno. exfalso. exact (Hno _ Hin).
    + intros t Ht.
      destruct (Py.dict_get (TIME_SLOTS settings) slot_id EmptyString) as [|c s] eqn:El;
        [discriminate|].
      destruct (start_hm (String c s)) as [[h m]|] eqn:Eh; [|discriminate].
      inversion Ht; subst t.
      destruct (start_hm_bounds _ _ _ Eh) as [Hh Hm].
      split; [now apply date_of_combine|].
      exists (String c s), h, m. auto.
Qed.

Lemma find_first {A} (p : A -> bool) before x after :
  (forall y, In y before -> p y = false) -> p x = true ->
  find p (before ++ x :: after) = Some x.
Proof.
  intros Hb Hx. induction before as [|b before IH]; simpl.
  - now rewrite Hx.
  - rewrite (Hb b) by (simpl; auto). apply IH. intros y Hy. apply Hb. simpl; auto.
Qed.

Lemma find_all_false {A} (p : A -> bool) l :
  (forall y, In y l -> p y = false) -> find p l = None.
Proof.
  intros H. induction l as [|x l IH]; simpl; auto.
  rewrite (H x) by (simpl; auto). apply IH. intros y Hy. apply H. simpl; auto.
Qed.

(** X3.  The slot a grid page shows.  A slot given in the query string is taken
    as it is.  Without one, a page for today shows the first slot of
    [TIME_SLOTS] that starts after the current time, or the last slot when
    none does; a page for another day shows the first slot; and an empty
    [TIME_SLOTS] makes the page fail with [IndexError]. *)
Theorem choose_slot_default :
  forall req_date today now,
    (forall slot_id,
        choose_slot settings (Some slot_id) req_date today now = Ok slot_id)
    /\ (TIME_SLOTS settings = [] ->
        choose_slot settings None req_date today now = Raise IndexError)
    /\ (forall sl rest,
          req_date <> today -> TIME_SLOTS settings = sl :: rest ->
          choose_slot settings None req_date today now = Ok (fst sl))
    /\ (forall before sl after,
          req_date = today ->
          TIME_SLOTS settings = before ++ sl :: after ->
          (forall x, In x before -> starts_after today now x = false) ->
          starts_after today now sl = true ->
          choose_slot settings None req_date today now = Ok (fst sl))
    /\ (forall before sl,
          req_date = today ->
          TIME_SLOTS settings = before ++ [sl] ->
          (forall x, In x (before ++ [sl]) -> starts_after today now x = false) ->
          choose_slot settings None req_date today now = Ok (fst sl)).
Proof.
  intros req_date today now. unfold choose_slot.
  split; [reflexivity|split; [|split; [|split]]].
  - intros ->. destruct (req_date =? today); reflexivity.
  - intros sl rest Hne ->.
    destruct (req_date =? today) eqn:E; [apply Z.eqb_eq in E; contradiction|reflexivity].
  - intros before sl after -> -> Hb Hs. rewrite Z.eqb_refl.
    now rewrite (find_first _ before sl after Hb Hs).
  - intros before sl -> -> Hall. rewrite Z.eqb_refl.
    rewrite (find_all_false _ _ Hall). rewrite rev_app_distr. reflexivity.
Qed.

End SlotFacts.

Section SlotRuns.

Import Demo.

Lemma get_slot_start_time_on_date_witness :
  get_slot_start_time cfg tomorrow 9 = None
  /\ date_of (combine tomorrow 8 0) = tomorrow.
Proof.
  destruct (get_slot_start_time_on_date cfg tomorrow 9) as [H _].
  destruct (get_slot_start_time_on_date cfg tomorrow 1) as [_ H'].
  split.
  - apply H. intros label Hin. vm_compute in Hin.
    destruct Hin as [E|[E|[E|[]]]]; discriminate.
  - destruct (H' (combine tomorrow 8 0) eq_refl) as [Hd _]. exact Hd.
Defined.

Lemma choose_slot_default_witness :
  choose_slot cfg None today today noon = Ok 3
  /\ choose_slot cfg None tomorrow today noon = Ok 1.
Proof.
  destruct (choose_slot_default cfg today today noon) as (_ & _ & _ & H & _).
  destruct (choose_slot_default cfg tomorrow today noon) as (_ & _ & H' & _).
  split.
  - apply (H [(1, "08:00 - 10:00"%string); (2, "10:00 - 12:00"%string)]
             (3, "14:00 - 16:00"%string) []); try reflexivity.
    intros x [<-|[<-|[]]]; reflexivity.
  - apply (H' (1, "08:00 - 10:00"%string)
              [(2, "10:00 - 12:00"%string); (3, "14:00 - 16:00"%string)]);
      [discriminate|reflexivity].
Defined.

End SlotRuns.

(** ** [cleanup]: the counters and a second run *)

Section CleanupRunFacts.

Variable settings : Settings.

Lemma expire_loop_snd now (l : list Reservation.t) :
  forall rows n,
    snd (fold_left
           (fun acc res =>
              if deadline_passed settings (Reservation.date res)
                   (Reservation.time_slot res) now
              then (save (Reservation.set_status expired res) (fst acc), S (snd acc))
              else acc)
           l (rows, n))
    = (n + length (filter (fun res => deadline_passed settings (Reservation.date res)
                                        (Reservation.time_slot res) now) l))%nat.
Proof.
  induction l as [|r l IH]; intros rows n; simpl; [lia|].
  destruct (deadline_passed settings (Reservation.date r) (Reservation.time_slot r) now);
    simpl; rewrite IH; simpl; lia.
Qed.

(** The three steps of [cleanup] as bulk updates, with their counters. *)
Lemma cleanup_steps db now today :
  NoDup (map Reservation.id (reservations db)) ->
  let p0 := fun r => (has_status pending r && (Reservation.date r >=? today))
                     && deadline_passed settings (Reservation.date r)
                          (Reservation.time_slot r) now in
  let rows0 := update_where p0 (Reservation.set_status expired) (reservations db) in
  let rows1 := update_where (timed_out settings now) (Reservation.set_status expired) rows0 in
  let rows2 := update_where (date_passed settings today)
                 (Reservation.set_status expired) rows1 in
  cleanup settings db now today
  = (with_reservations db rows2,
     (length (filter p0 (reservations db)),
      length (filter (timed_out settings now) rows0),
      length (filter (date_passed settings today) rows1))).
Proof.
  intros Hnd p0 rows0 rows1 rows2. unfold cleanup.
  destruct (expire_past_deadline settings now today (reservations db))
    as [r0 n0] eqn:E0.
  assert (H0 : r0 = rows0).
  { apply (f_equal fst) in E0. simpl in E0. rewrite <- E0.
    unfold expire_past_deadline. rewrite expire_loop_fst, filter_filter.
    apply save_each_filter; auto. }
  assert (H1 : n0 = length (filter p0 (reservations db))).
  { apply (f_equal snd) in E0. simpl in E0. rewrite <- E0.
    unfold expire_past_deadline. rewrite expire_loop_snd, filter_filter. reflexivity. }
  subst r0 n0. reflexivity.
Qed.

Lemma cleanup_counts_rows now today (l : list Reservation.t) :
  let p0 := fun r => (has_status pending r && (Reservation.date r >=? today))
                     && deadline_passed settings (Reservation.date r)
                          (Reservation.time_slot r) now in
  let rows0 := update_where p0 (Reservation.set_status expired) l in
  let rows1 := update_where (timed_out settings now) (Reservation.set_status expired) rows0 in
  (length (filter p0 l)
   + length (filter (timed_out settings now) rows0)
   + length (filter (date_passed settings today) rows1))%nat
  = length (filter (fun r => has_status pending r && staleb settings now today r) l).
Proof.
  cbv zeta. induction l as [|r l IH]; [reflexivity|].
  unfold update_where in *. simpl map. 
  unfold timed_out, date_passed, staleb, has_status in *.
  destruct (Reservation.status r) eqn:Es; simpl; rewrite ?Es; simpl; rewrite ?Es; simpl;
    try exact IH.
  destruct (Reservation.date r >=? today); simpl;
    destruct (deadline_passed settings (Reservation.date r) (Reservation.time_slot r) now);
    simpl; rewrite ?Es; simpl;
    destruct (Reservation.created_at r <? now - timedelta_hours (timeout_hours settings));
    simpl; rewrite ?Es; simpl;
    destruct (Reservation.date r <=? today - expire_days settings);
    simpl; rewrite ?Es; simpl; lia.
Qed.

Lemma expired_after_map now today (l : list Reservation.t) :
  length (filter (has_status expired)
            (map (fun r => if has_status pending r && staleb settings now today r
                           then Reservation.set_status expired r else r) l))
  = (length (filter (has_status expired) l)
     + length (filter (fun r => has_status pending r && staleb settings now today r) l))%nat.
Proof.
  induction l as [|r l IH]; [reflexivity|].
  destruct (has_status pending r) eqn:Ep.
  - assert (Hne : has_status expired r = false).
    { unfold has_status in *. destruct (Reservation.status r); simpl in *; congruence. }
    destruct (staleb settings now today r) eqn:Est;
      simpl; rewrite ?Ep, ?Est, ?Hne; simpl; rewrite ?Hne, ?IH; simpl; lia.
  - simpl. rewrite Ep. simpl.
    destruct (has_status expired r); simpl; rewrite IH; lia.
Qed.

(** X4.  The counters of [cleanup].  The three numbers the command prints add
    up to the number of reservations it has expired: the pending
    reservations that were stale before the run, none counted twice. *)
Theorem cleanup_counts :
  forall db now today,
    NoDup (map Reservation.id (reservations db)) ->
    let out := cleanup settings db now today in
    let deadline_expired := fst (fst (snd out)) in
    let expired_pending := snd (fst (snd out)) in
    let expired_date := snd (snd out) in
    (deadline_expired + expired_pending + expired_date)%nat
    = length (filter (fun r => has_status pending r && staleb settings now today r)
                (reservations db))
    /\ length (filter (has_status expired) (reservations (fst out)))
       = (length (filter (has_status expired) (reservations db))
          + (deadline_expired + expired_pending + expired_date))%nat.
Proof.
  intros db now today Hnd out.
  assert (Hsum : (fst (fst (snd out)) + snd (fst (snd out)) + snd (snd out))%nat
                 = length (filter (fun r => has_status pending r
                                            && staleb settings now today r)
                             (reservations db))).
  { unfold out. rewrite cleanup_steps; auto. simpl. apply cleanup_counts_rows. }
  cbv zeta. split; [exact Hsum|]. rewrite Hsum.
  unfold out. rewrite cleanup_rows; auto. apply expired_after_map.
Qed.

(** A table without stale pending reservations is left alone. *)
Lemma cleanup_quiet db now today :
  NoDup (map Reservation.id (reservations db)) ->
  (forall r, In r (reservations db) ->
             has_status pending r && staleb settings now today r = false) ->
  cleanup settings db now today = (db, (0, 0, 0)%nat).
Proof.
  intros Hnd Hq.
  assert (Hrows : reservations (fst (cleanup settings db now today)) = reservations db).
  { rewrite cleanup_rows; auto. rewrite <- (map_id (reservations db)) at 2.
    apply map_ext_in. intros r Hr. now rewrite (Hq r Hr). }
  assert (Hz : length (filter (fun r => has_status pending r
                                        && staleb settings now today r)
                         (reservations db)) = 0%nat).
  { apply count_filter_none. exact Hq. }
  pose proof (cleanup_counts_rows now today (reservations db)) as Hc.
  cbv zeta in Hc. rewrite Hz in Hc.
  pose proof (cleanup_steps db now today Hnd) as Hs. cbv zeta in Hs.
  rewrite Hs in *. simpl in Hrows. f_equal.
  - rewrite Hrows. apply with_reservations_same.
  - repeat f_equal; lia.
Qed.

(** X5.  A second run of [cleanup] at the same time changes nothing and counts
    nothing: each stale pending reservation is expired by the first run
    already. *)
Theorem cleanup_twice :
  forall db now today,
    NoDup (map Reservation.id (reservations db)) ->
    cleanup settings (fst (cleanup settings db now today)) now today
    = (fst (cleanup settings db now today), (0, 0, 0)%nat).
Proof.
  intros db now today Hnd.
  assert (Hrows := cleanup_rows settings db now today Hnd).
  apply cleanup_quiet.
  - rewrite Hrows. rewrite map_id_update; auto.
    intros x. destruct (_ && _); reflexivity.
  - intros r Hr. rewrite Hrows in Hr. apply in_map_iff in Hr.
    destruct Hr as (x & <- & _).
    destruct (has_status pending x && staleb settings now today x) eqn:E; auto.
Qed.

End CleanupRunFacts.

Section CleanupRuns.

Import Demo.

Lemma cleanup_counts_witness :
  NoDup (map Reservation.id (reservations db))
  /\ snd (cleanup cfg db late tomorrow) = (3, 0, 0)%nat
  /\ length (filter (has_status expired)
               (reservations (fst (cleanup cfg db late tomorrow)))) = 3%nat.
Proof.
  assert (E : snd (cleanup cfg db late tomorrow) = (3, 0, 0)%nat) by (vm_compute; reflexivity).
  split; [exact demo_keys|split; [exact E|]].
  destruct (cleanup_counts cfg db late tomorrow demo_keys) as [_ H].
  rewrite H, E. reflexivity.
Defined.

Lemma cleanup_twice_witness :
  NoDup (map Reservation.id (reservations db))
  /\ snd (cleanup cfg (fst (cleanup cfg db late tomorrow)) late tomorrow) = (0, 0, 0)%nat.
Proof.
  split; [exact demo_keys|].
  rewrite (cleanup_twice cfg db late tomorrow demo_keys). reflexivity.
Defined.

End CleanupRuns.

(** ** [admin_action]: the reject link and a link used twice *)

Section ReviewFacts.

Variable settings : Settings.

Lemma save_inv_other res rows y :
  In y (save res rows) -> y = res \/ (In y rows /\ Reservation.id y <> Reservation.id res).
Proof.
  unfold save. destruct (existsb (same_id res) rows) eqn:E.
  - intros H. apply in_map_iff in H. destruct H as (x & Hx & Hin).
    destruct (same_id res x) eqn:Es; [left; auto|right].
    subst y. split; auto. intros Hid.
    assert (same_id res x = true) by (apply same_id_eq; auto). congruence.
  - intros H. apply in_app_or in H. destruct H as [H|[H|[]]]; [right|left; auto].
    split; auto. intros Hid.
    assert (existsb (same_id res) rows = true).
    { apply existsb_exists. exists y. split; auto. apply same_id_eq. auto. }
    congruence.
Qed.

(** After the review, a row that is still pending was pending before and
    is none of the reviewed requests. *)
Lemma review_settles action valid_res :
  action <> act_other ->
  forall rows sc arc y,
    In y (fst (fst (review action valid_res rows sc arc))) ->
    Reservation.status y = pending ->
    In y rows /\ forall v, In v valid_res -> Reservation.id v <> Reservation.id y.
Proof.
  intros Hact. induction valid_res as [|v rest IH]; intros rows sc arc y Hy Hp.
  - rewrite review_nil in Hy. split; [auto|intros v []].
  - assert (Hrej : forall sc' arc',
                In y (fst (fst (review action rest
                                  (save (Reservation.set_status rejected v) rows)
                                  sc' arc'))) ->
                In y rows /\ forall w, In w (v :: rest) ->
                                       Reservation.id w <> Reservation.id y).
    { intros sc' arc' H. destruct (IH _ _ _ _ H Hp) as [Hin Hrest].
      apply save_inv_other in Hin. destruct Hin as [->|[Hin Hid]]; [discriminate|].
      split; auto; intros w [<-|Hw]; auto; simpl in Hid; congruence. }
    destruct action; simpl in Hy; [|eauto|contradiction].
    destruct (existsb _ rows); [eauto|].
    destruct (IH _ _ _ _ Hy Hp) as [Hin Hrest].
    unfold update_where in Hin. apply in_map_iff in Hin.
    destruct Hin as (x & Hx & Hin).
    destruct (competitors v x); [subst y; discriminate|]. subst x.
    apply save_inv_other in Hin. destruct Hin as [->|[Hin Hid]]; [discriminate|].
    split; auto; intros w [<-|Hw]; auto; simpl in Hid; congruence.
Qed.

(** After an approve or reject link has been handled, none of the
    requests it names is pending. *)
Lemma admin_action_settles db ids action now y :
  NoDup (map Reservation.id (reservations db)) ->
  action <> act_other ->
  In y (reservations (fst (admin_action settings db (Some (ids, action)) now))) ->
  targeted ids y = false.
Proof.
  intros Hnd Hact Hy.
  destruct (admin_action_rows settings db ids action now Hnd) as [Hrows _].
  cbv zeta in Hrows. rewrite Hrows in Hy.
  destruct (targeted ids y) eqn:Et; auto. exfalso.
  assert (Hp : Reservation.status y = pending).
  { unfold targeted in Et. apply andb_true_iff in Et. now apply has_status_iff. }
  destruct (review_settles action _ Hact _ _ _ _ Hy Hp) as [Hin Hv].
  unfold update_where in Hin. apply in_map_iff in Hin. destruct Hin as (x & Hx & Hin).
  destruct (targeted ids x && overdue settings now x) eqn:E; [subst y; discriminate|].
  subst x. rewrite Et in E. simpl in E.
  apply (Hv y); auto. apply filter_In. split; auto. now rewrite Et, E.
Qed.

(** A link without a pending request behind it changes nothing. *)
Lemma admin_action_no_target db ids action now :
  (forall y, In y (reservations db) -> targeted ids y = false) ->
  fst (admin_action settings db (Some (ids, action)) now) = db.
Proof.
  intros Hnone. unfold admin_action. rewrite filter_filter.
  change (fun x => existsb (Z.eqb (Reservation.id x)) ids && has_status pending x)
    with (targeted ids).
  assert (E : filter (targeted ids) (reservations db) = []).
  { apply length_zero_iff_nil. now apply count_filter_none. }
  rewrite E. destruct (_ <? _)%nat; [reflexivity|].
  destruct (filter (has_status expired) _); reflexivity.
Qed.

(** X6.  A signed link used twice.  Once [admin_action] has handled an approve
    or a reject link, handling a link for the same requests again, with
    either action and at any later time, leaves the database as it is:
    the second click neither approves, rejects nor expires anything. *)
Theorem admin_action_replay :
  forall db ids action now,
    NoDup (map Reservation.id (reservations db)) ->
    action <> act_other ->
    let db' := fst (admin_action settings db (Some (ids, action)) now) in
    forall action' now',
      fst (admin_action settings db' (Some (ids, action')) now') = db'.
Proof.
  intros db ids action now Hnd Hact db' action' now'.
  apply admin_action_no_target. intros y Hy.
  now apply (admin_action_settles db ids action now).
Qed.

Lemma review_reject_rows valid_res :
  forall rows sc arc,
    fst (fst (review act_reject valid_res rows sc arc))
    = save_each (Reservation.set_status rejected) valid_res rows.
Proof.
  induction valid_res as [|v rest IH]; intros rows sc arc; simpl; auto.
Qed.

(** X7.  The reject link.  [admin_action] with a reject link marks every
    request it names that is pending as rejected, or as expired when its
    booking deadline has passed, and leaves every other reservation as it
    is; in particular it approves nothing and rejects no competitor. *)
Theorem admin_action_reject :
  forall db ids now,
    NoDup (map Reservation.id (reservations db)) ->
    reservations (fst (admin_action settings db (Some (ids, act_reject)) now))
    = map (fun r => if targeted ids r
                    then if overdue settings now r
                         then Reservation.set_status expired r
                         else Reservation.set_status rejected r
                    else r)
          (reservations db).
Proof.
  intros db ids now Hnd.
  destruct (admin_action_rows settings db ids act_reject now Hnd) as [Hrows Hinv].
  cbv zeta in Hrows, Hinv. rewrite Hrows, review_reject_rows.
  assert (Hnd1 : NoDup (map Reservation.id
                          (update_where (fun r => targeted ids r && overdue settings now r)
                             (Reservation.set_status expired) (reservations db))))
    by (rewrite update_where_ids; auto).
  rewrite save_each_map; auto.
  - unfold update_where. rewrite map_map. apply map_ext_in. intros x Hx.
    destruct (targeted ids x) eqn:Et; simpl.
    + destruct (overdue settings now x) eqn:Eo; simpl.
      * replace (existsb _ _) with false; auto. symmetry.
        apply not_true_is_false. intros H. apply existsb_exists in H.
        destruct H as (v & Hv & Hid). apply filter_In in Hv. destruct Hv as [Hv Hc].
        apply same_id_eq in Hid. simpl in Hid.
        rewrite (unique_by_id _ x v Hnd Hx Hv Hid) in Eo.
        apply andb_true_iff in Hc. destruct Hc as [_ Hc]. rewrite Eo in Hc. discriminate.
      * replace (existsb _ _) with true; auto. symmetry.
        apply existsb_exists. exists x. split; [|apply same_id_eq; reflexivity].
        apply filter_In. split; auto. now rewrite Et, Eo.
    + replace (existsb _ _) with false; auto. symmetry.
      apply not_true_is_false. intros H. apply existsb_exists in H.
      destruct H as (v & Hv & Hid). apply filter_In in Hv. destruct Hv as [Hv Hc].
      apply same_id_eq in Hid.
      rewrite (unique_by_id _ x v Hnd Hx Hv Hid) in Et.
      apply andb_true_iff in Hc. destruct Hc as [Hc _]. congruence.
  - apply NoDup_map_filter; auto.
  - intros r Hr. destruct Hinv as (_ & _ & Hall). destruct (Hall r Hr) as [Hp [H|H]]; auto.
    exfalso. unfold update_where in H. apply in_map_iff in H.
    destruct H as (x & Hx & Hin).
    destruct (targeted ids x && overdue settings now x); 
      [apply (f_equal Reservation.status) in Hx; discriminate|].
    subst x. apply filter_In in Hr. destruct Hr as [Hr _].
    assert (Reservation.set_status rejected r = r).
    { apply (unique_by_id (reservations db)); auto. }
    apply (f_equal Reservation.status) in H. simpl in H. congruence.
Qed.

End ReviewFacts.

Section ReviewRuns.

Import Demo.

Lemma admin_action_replay_witness :
  NoDup (map Reservation.id (reservations db))
  /\ fst (admin_action cfg (fst (admin_action cfg db (Some ([3; 4], act_approve)) noon))
            (Some ([3; 4], act_reject)) late)
     = fst (admin_action cfg db (Some ([3; 4], act_approve)) noon).
Proof.
  split; [exact demo_keys|].
  apply (admin_action_replay cfg db [3; 4] act_approve noon demo_keys); discriminate.
Defined.

Lemma admin_action_reject_witness :
  NoDup (map Reservation.id (reservations db))
  /\ map Reservation.status
       (reservations (fst (admin_action cfg db (Some ([2; 3], act_reject)) noon)))
     = [approved; rejected; rejected; pending].
Proof.
  split; [exact demo_keys|].
  rewrite (admin_action_reject cfg db [2; 3] noon demo_keys). vm_compute. reflexivity.
Defined.

End ReviewRuns.

(** ** Cancelling as staff: [admin_cancel_view] and [cancel_reservations] *)

Section StaffCancelFacts.

Variable settings : Settings.

Lemma add_key_in k k' keys : In k' (add_key k keys) <-> k' = k \/ In k' keys.
Proof.
  induction keys as [|x keys IH]; simpl.
  - intuition.
  - destruct (SeatKey_eqb x k) eqn:E.
    + apply SeatKey_eqb_eq in E. subst x. simpl. intuition.
    + simpl. rewrite IH. intuition.
Qed.

Lemma add_keys_in (l : list Reservation.t) :
  forall keys k,
    In k (fold_left (fun keys res => add_key (key_of res) keys) l keys)
    <-> (exists r, In r l /\ key_of r = k) \/ In k keys.
Proof.
  induction l as [|x l IH]; intros keys k; simpl.
  - split; auto. intros [(r & [] & _)|H]; auto.
  - rewrite IH, add_key_in. split.
    + intros [(r & Hr & Hk)|[->|H]]; eauto.
    + intros [(r & [<-|Hr] & Hk)|H]; eauto.
Qed.

Lemma swept_update k p rows :
  swept k rows -> swept k (update_where p (Reservation.set_status cancelled) rows).
Proof.
  intros H y Hy. unfold update_where in Hy. apply in_map_iff in Hy.
  destruct Hy as (x & <- & Hx). destruct (p x); auto.
  unfold seat_with_status, has_status. simpl. apply andb_false_r.
Qed.

Lemma swept_now k rows :
  swept k (update_where (seat_with_status k pending)
             (Reservation.set_status cancelled) rows).
Proof.
  intros y Hy. unfold update_where in Hy. apply in_map_iff in Hy.
  destruct Hy as (x & <- & Hx). destruct (seat_with_status k pending x) eqn:E; auto.
  unfold seat_with_status, has_status. simpl. apply andb_false_r.
Qed.

Lemma cancel_competing_spec keys :
  forall rows cnt,
    NoDup (map Reservation.id rows) ->
    let rows1 := fst (fold_left
      (fun acc k =>
         let competing_reservations := filter (seat_with_status k pending) (fst acc) in
         (save_each (Reservation.set_status cancelled) competing_reservations (fst acc),
          (snd acc + length competing_reservations)%nat))
      keys (rows, cnt)) in
    (forall k, In k keys \/ swept k rows -> swept k rows1)
    /\ (forall a, In a rows -> Reservation.status a <> pending -> In a rows1).
Proof.
  induction keys as [|k0 keys IH]; intros rows cnt Hnd; simpl.
  - split; auto. intros k [[]|H]; auto.
  - rewrite save_each_filter; auto.
    destruct (IH (update_where (seat_with_status k0 pending)
                    (Reservation.set_status cancelled) rows)
                 (cnt + length (filter (seat_with_status k0 pending) rows))%nat)
      as [H1 H2].
    { rewrite update_where_ids; auto. }
    split.
    + intros k [[->|Hk]|Hs]; apply H1; auto.
      * right. apply swept_now.
      * right. now apply swept_update.
    + intros a Ha Hp. apply H2; auto. apply update_where_keep; auto.
      unfold seat_with_status, has_status.
      destruct (Reservation.status a); try contradiction; apply andb_false_r.
Qed.

Lemma save_each_inv f qs :
  forall rows y,
    In y (save_each f qs rows) -> In y rows \/ exists q, In q qs /\ y = f q.
Proof.
  unfold save_each. induction qs as [|q qs IH]; intros rows y Hy; simpl in Hy; auto.
  apply IH in Hy. destruct Hy as [Hy|(q' & Hq' & ->)].
  - apply save_inv in Hy. destruct Hy as [->|Hy]; auto.
    right. exists q. simpl. auto.
  - right. exists q'. simpl. auto.
Qed.

Lemma cancel_for_student_rows env acc g :
  reservations (acc_db (cancel_for_student env acc g))
  = match snd g with
    | [] => reservations (acc_db acc)
    | first_res :: _ =>
        save_each (Reservation.set_status cancelled) (snd g) (reservations (acc_db acc))
        ++ [cancel_record first_res (fst g) (adm_uuid4 env (fst g))
              (map seat_info (snd g)) (adm_now env) (next_id (acc_db acc))]
    end.
Proof.
  destruct g as [stu rs]. unfold cancel_for_student. simpl fst. simpl snd.
  destruct rs as [|r0 rs']; auto.
  unfold create. cbv beta iota zeta.
  destruct (adm_send_mail env _); reflexivity.
Qed.

Lemma cancel_groups_sweep env groups k :
  forall acc,
    swept k (reservations (acc_db acc)) ->
    swept k (reservations (acc_db (fold_left (cancel_for_student env) groups acc))).
Proof.
  induction groups as [|g groups IH]; intros acc Hs; simpl; auto.
  apply IH. rewrite cancel_for_student_rows.
  destruct (snd g) as [|r0 rs'] eqn:Eg; auto.
  intros y Hy. apply in_app_or in Hy. destruct Hy as [Hy|[<-|[]]].
  - apply save_each_inv in Hy. destruct Hy as [Hy|(q & _ & ->)]; auto.
    unfold seat_with_status, has_status. simpl. apply andb_false_r.
  - unfold seat_with_status, has_status. simpl. apply andb_false_r.
Qed.

Lemma cancel_groups_keep rows0 env groups a :
  NoDup (map Reservation.id rows0) ->
  In a rows0 ->
  (forall g r, In g groups -> In r (snd g) -> In r rows0 /\ r <> a) ->
  forall acc,
    In a (reservations (acc_db acc)) ->
    In a (reservations (acc_db (fold_left (cancel_for_student env) groups acc))).
Proof.
  intros Hnd Ha. induction groups as [|g groups IH]; intros Hg acc Hin; simpl; auto.
  apply IH; [intros g' r Hg' Hr; apply (Hg g' r); simpl; auto|].
  rewrite cancel_for_student_rows.
  destruct (snd g) as [|r0 rs'] eqn:Eg; auto.
  apply in_or_app. left. apply save_each_keeps; auto.
  intros r' Hr' Hid. exfalso.
  destruct (Hg g r' (or_introl eq_refl)) as [Hr0 Hne]; [rewrite Eg; exact Hr'|].
  apply Hne. apply (unique_by_id rows0); auto.
Qed.

(** What the two staff cancellations share: the pending requests of the
    listed seats are swept, the approved reservations handed over are
    cancelled, and nothing else that is not pending is touched. *)
Lemma staff_cancel_core env db0 (pending_list approved_list : list Reservation.t) :
  let rows0 := reservations db0 in
  NoDup (map Reservation.id rows0) ->
  (forall r, In r approved_list -> In r rows0) ->
  let keys := fold_left (fun keys res => add_key (key_of res) keys) pending_list [] in
  let rows1 := fst (cancel_competing keys rows0) in
  forall n1 n2 m o,
  let acc' := fold_left (cancel_for_student env) (group_by_student approved_list)
                (Build_CancelAcc (with_reservations db0 rows1) n1 n2 m o) in
  let rows' := reservations (acc_db acc') in
  (forall r, In r pending_list -> pending_count rows' (key_of r) = 0%nat)
  /\ (forall a, In a rows0 -> Reservation.status a <> pending ->
                ~ In a approved_list -> In a rows')
  /\ (forall a, In a approved_list -> In (Reservation.set_status cancelled a) rows').
Proof.
  intros rows0 Hnd Happ keys rows1 n1 n2 m o acc' rows'.
  destruct (cancel_competing_spec keys rows0 0%nat Hnd) as [Hsw Hkeep].
  fold (cancel_competing keys rows0) in Hsw, Hkeep. fold rows1 in Hsw, Hkeep.
  destruct (group_by_student_spec approved_list) as (Hkeys & Hne & Hel & Hin).
  split; [|split].
  - intros r Hr. apply count_filter_none.
    apply cancel_groups_sweep. simpl. apply Hsw. left.
    apply add_keys_in. left. eauto.
  - intros a Ha Hp Hnot. apply (cancel_groups_keep rows0); auto.
    intros g r Hg Hr. split; [apply Happ; eapply Hel; eauto|].
    intros ->. apply Hnot. eapply Hel; eauto.
  - intros a Ha.
    destruct (cancel_groups_spec env (group_by_student approved_list)
                (Build_CancelAcc (with_reservations db0 rows1) n1 n2 m o) Hne)
      as (_ & _ & _ & Hr).
    apply Hr.
    + intros g r' Hg Hr' E. apply (unique_by_id rows0); auto.
      apply Happ. eapply Hel; eauto.
    + right. apply Hin; auto.
Qed.

Lemma in_selected (selected : list Z) (r : Reservation.t) :
  existsb (Z.eqb (Reservation.id r)) selected = true <-> In (Reservation.id r) selected.
Proof.
  rewrite existsb_exists. split.
  - intros (x & Hx & E). apply Z.eqb_eq in E. now rewrite E.
  - intros H. exists (Reservation.id r). split; auto. apply Z.eqb_refl.
Qed.

Lemma list_nil_dec {A} (l : list A) : l = [] \/ l <> [].
Proof. destruct l; [left|right]; congruence. Qed.

Lemma cancel_reservations_rows db selected env :
  reservations (fst (fst (cancel_reservations settings db selected env)))
  = match rev (filter (fun r => existsb (Z.eqb (Reservation.id r)) selected
                                && (has_status pending r || has_status approved r))
                 (reservations db)) with
    | [] => reservations db
    | v0 :: vl =>
        reservations (acc_db
          (fold_left (cancel_for_student env)
             (group_by_student
                (filter (fun r => has_status approved r
                                  && negb (deadline_passed settings (Reservation.date r)
                                             (Reservation.time_slot r) (adm_now env)))
                   (v0 :: vl)))
             (Build_CancelAcc
                (with_reservations db
                   (fst (cancel_competing
                           (fold_left (fun keys res => add_key (key_of res) keys)
                              (filter (has_status pending) (v0 :: vl)) [])
                           (reservations db)))) 0 0 [] [])))
    end.
Proof.
  unfold cancel_reservations.
  destruct (rev (filter _ (reservations db))) as [|v0 vl]; [reflexivity|].
  remember (v0 :: vl) as valid eqn:Ev. cbv zeta.
  destruct (cancel_competing _ (reservations db)) as [rows1 pc].
  destruct (filter (fun r => has_status approved r && negb _) valid);
    rewrite Ev; reflexivity.
Qed.

Lemma admin_cancel_view_run db q res_ids env slot_id curr_cls :
  choose_slot settings (get_slot q) (req_date_of (get_date q) (adm_today env))
    (adm_today env) (adm_now env) = Ok slot_id ->
  filter Classroom.is_active (classrooms db) <> [] ->
  current_classroom db (get_classroom_id q) = Some curr_cls ->
  let out := admin_cancel_view settings db true q (Some res_ids) env in
  let late := deadline_passed settings (req_date_of (get_date q) (adm_today env))
                slot_id (adm_now env) in
  match filter (fun r => existsb (Z.eqb (Reservation.id r)) res_ids
                         && (has_status pending r || has_status approved r))
          (reservations db) with
  | [] => reservations (fst (fst out)) = reservations db /\ snd out = []
  | v0 :: vl =>
      let acc :=
        fold_left (cancel_for_student env)
          (group_by_student
             (filter (fun r => has_status approved r && negb late) (v0 :: vl)))
          (Build_CancelAcc
             (with_reservations db
                (fst (cancel_competing
                        (fold_left (fun keys res => add_key (key_of res) keys)
                           (filter (has_status pending) (v0 :: vl)) [])
                        (reservations db)))) 0 0 [] []) in
      reservations (fst (fst out)) = reservations (acc_db acc)
      /\ snd out = acc_outbox acc
  end.
Proof.
  intros Hslot Hact Hcls. cbv zeta. unfold admin_cancel_view. simpl negb. cbv iota.
  rewrite Hslot.
  destruct (filter Classroom.is_active (classrooms db)); [congruence|].
  rewrite Hcls. cbv zeta.
  destruct (filter _ (reservations db)) as [|v0 vl]; [split; reflexivity|].
  remember (v0 :: vl) as valid eqn:Ev.
  destruct (cancel_competing _ (reservations db)) as [rows1 pc].
  rewrite Ev. split; reflexivity.
Qed.

(** X8.  The admin action "cancel the selected reservations".  For every
    selected pending request, no pending request at all is left for its
    seat, date and slot (its competitors are cancelled with it).  A
    selected approved reservation is cancelled when the booking deadline of
    its own slot has not passed, and is left as it is when it has.
    Nothing else that is not pending is touched. *)
Theorem cancel_reservations_effect :
  forall db selected env,
    NoDup (map Reservation.id (reservations db)) ->
    let rows' := reservations (fst (fst (cancel_reservations settings db selected env))) in
    let late a := deadline_passed settings (Reservation.date a)
                    (Reservation.time_slot a) (adm_now env) in
    (forall r, In r (reservations db) -> In (Reservation.id r) selected ->
               Reservation.status r = pending ->
               pending_count rows' (key_of r) = 0%nat)
    /\ (forall a, In a (reservations db) -> In (Reservation.id a) selected ->
                  Reservation.status a = approved -> late a = false ->
                  In (Reservation.set_status cancelled a) rows')
    /\ (forall a, In a (reservations db) -> Reservation.status a <> pending ->
                  (Reservation.status a <> approved
                   \/ ~ In (Reservation.id a) selected \/ late a = true) ->
                  In a rows').
Proof.
  intros db selected env Hnd rows' late.
  remember (rev (filter (fun r => existsb (Z.eqb (Reservation.id r)) selected
                                  && (has_status pending r || has_status approved r))
                   (reservations db))) as valid eqn:Ev.
  assert (Hvalid : forall r, In r valid <->
                     In r (reservations db) /\ In (Reservation.id r) selected
                     /\ (Reservation.status r = pending \/ Reservation.status r = approved)).
  { intros r. rewrite Ev, <- in_rev, filter_In, andb_true_iff, orb_true_iff,
      in_selected, !has_status_iff. tauto. }
  assert (Happ : forall r,
            In r (filter (fun r => has_status approved r && negb (late r)) valid) ->
            In r (reservations db)).
  { intros r Hr. apply filter_In in Hr. destruct Hr as [Hr _]. apply Hvalid in Hr. tauto. }
  destruct (staff_cancel_core env db (filter (has_status pending) valid)
              (filter (fun r => has_status approved r && negb (late r)) valid)
              Hnd Happ 0%nat 0%nat [] []) as (H1 & H2 & H3).
  assert (Hrows : valid = [] /\ rows' = reservations db
                  \/ rows' = reservations (acc_db
                       (fold_left (cancel_for_student env)
                          (group_by_student
                             (filter (fun r => has_status approved r && negb (late r))
                                valid))
                          (Build_CancelAcc
                             (with_reservations db
                                (fst (cancel_competing
                                        (fold_left
                                           (fun keys res => add_key (key_of res) keys)
                                           (filter (has_status pending) valid) [])
                                        (reservations db)))) 0 0 [] [])))).
  { unfold rows'. rewrite cancel_reservations_rows. rewrite <- Ev.
    destruct valid; [left; auto|right; reflexivity]. }
  destruct Hrows as [[Hnil Hrows]|Hrows]; rewrite Hrows.
  - split; [|split]; auto.
    + intros r Hr Hs Hp. exfalso.
      assert (In r valid) by (apply Hvalid; auto). rewrite Hnil in *. contradiction.
    + intros a Ha Hs Hap Hl. exfalso.
      assert (In a valid) by (apply Hvalid; auto). rewrite Hnil in *. contradiction.
  - split; [|split].
    + intros r Hr Hs Hp. apply H1. apply filter_In. split.
      * apply Hvalid. auto.
      * now apply has_status_iff.
    + intros a Ha Hs Hap Hl. apply H3. apply filter_In. split.
      * apply Hvalid. auto.
      * rewrite Hl, andb_true_r. now apply has_status_iff.
    + intros a Ha Hp Hcase. apply H2; auto. intros Hin. apply filter_In in Hin.
      destruct Hin as [Hv Hc]. apply Hvalid in Hv. apply andb_true_iff in Hc.
      destruct Hc as [Hc1 Hc2]. apply has_status_iff in Hc1.
      apply negb_true_iff in Hc2. destruct Hcase as [Hc|[Hc|Hc]].
      * contradiction.
      * tauto.
      * congruence.
Qed.

(** X9.  The staff page for cancelling.  When the page is shown for a slot
    ([slot_id], of the date in the query string), and reservation ids are
    posted: for every posted pending request, no pending request is left
    for its seat, date and slot; a posted approved reservation is cancelled
    when the deadline of the slot of the page has not passed (whatever its
    own date and slot are); when that deadline has passed, no mail is sent
    and no reservation other than a pending one is touched. *)
Theorem admin_cancel_view_effect :
  forall db q res_ids env slot_id curr_cls,
    NoDup (map Reservation.id (reservations db)) ->
    choose_slot settings (get_slot q) (req_date_of (get_date q) (adm_today env))
      (adm_today env) (adm_now env) = Ok slot_id ->
    filter Classroom.is_active (classrooms db) <> [] ->
    current_classroom db (get_classroom_id q) = Some curr_cls ->
    let out := admin_cancel_view settings db true q (Some res_ids) env in
    let rows' := reservations (fst (fst out)) in
    let late := deadline_passed settings (req_date_of (get_date q) (adm_today env))
                  slot_id (adm_now env) in
    (forall r, In r (reservations db) -> In (Reservation.id r) res_ids ->
               Reservation.status r = pending ->
               pending_count rows' (key_of r) = 0%nat)
    /\ (forall a, In a (reservations db) -> In (Reservation.id a) res_ids ->
                  Reservation.status a = approved -> late = false ->
                  In (Reservation.set_status cancelled a) rows')
    /\ (forall a, In a (reservations db) -> Reservation.status a <> pending ->
                  (Reservation.status a <> approved
                   \/ ~ In (Reservation.id a) res_ids \/ late = true) ->
                  In a rows')
    /\ (late = true -> snd out = []).
Proof.
  intros db q res_ids env slot_id curr_cls Hnd Hslot Hact Hcls out rows' late.
  pose proof (admin_cancel_view_run db q res_ids env slot_id curr_cls Hslot Hact Hcls)
    as Hrun. cbv zeta in Hrun. fold out in Hrun. fold late in Hrun. fold rows' in Hrun.
  remember (filter (fun r => existsb (Z.eqb (Reservation.id r)) res_ids
                             && (has_status pending r || has_status approved r))
              (reservations db)) as valid eqn:Ev.
  assert (Hvalid : forall r, In r valid <->
                     In r (reservations db) /\ In (Reservation.id r) res_ids
                     /\ (Reservation.status r = pending \/ Reservation.status r = approved)).
  { intros r. rewrite Ev, filter_In, andb_true_iff, orb_true_iff,
      in_selected, !has_status_iff. tauto. }
  assert (Happ : forall r,
            In r (filter (fun r => has_status approved r && negb late) valid) ->
            In r (reservations db)).
  { intros r Hr. apply filter_In in Hr. destruct Hr as [Hr _]. apply Hvalid in Hr. tauto. }
  destruct (staff_cancel_core env db (filter (has_status pending) valid)
              (filter (fun r => has_status approved r && negb late) valid)
              Hnd Happ 0%nat 0%nat [] []) as (H1 & H2 & H3).
  destruct (group_by_student_spec
              (filter (fun r => has_status approved r && negb late) valid))
    as (_ & Hne & _ & _).
  destruct (cancel_groups_spec env
              (group_by_student (filter (fun r => has_status approved r && negb late) valid))
              (Build_CancelAcc
                 (with_reservations db
                    (fst (cancel_competing
                            (fold_left (fun keys res => add_key (key_of res) keys)
                               (filter (has_status pending) valid) [])
                            (reservations db)))) 0 0 [] []) Hne) as (Hout & _).
  simpl in Hout.
  destruct (list_nil_dec valid) as [Hnil|Hsome].
  - rewrite Hnil in Hrun. destruct Hrun as [Hrows Hmail]. rewrite Hrows.
    split; [|split; [|split]]; auto.
    + intros r Hr Hs Hp. exfalso.
      assert (In r valid) by (apply Hvalid; auto). rewrite Hnil in *. contradiction.
    + intros a Ha Hs Hap Hl. exfalso.
      assert (In a valid) by (apply Hvalid; auto). rewrite Hnil in *. contradiction.
  - assert (Hrun' : rows' = reservations (acc_db
                       (fold_left (cancel_for_student env)
                          (group_by_student
                             (filter (fun r => has_status approved r && negb late) valid))
                          (Build_CancelAcc
                             (with_reservations db
                                (fst (cancel_competing
                                        (fold_left
                                           (fun keys res => add_key (key_of res) keys)
                                           (filter (has_status pending) valid) [])
                                        (reservations db)))) 0 0 [] [])))
                     /\ snd out = map notice
                          (group_by_student
                             (filter (fun r => has_status approved r && negb late) valid))).
    { destruct valid; [congruence|]. destruct Hrun as [Hr Hm]. split; auto.
      rewrite Hm. exact Hout. }
    destruct Hrun' as [Hrows Hmail]. rewrite Hrows. split; [|split; [|split]].
    + intros r Hr Hs Hp. apply H1. apply filter_In. split.
      * apply Hvalid. auto.
      * now apply has_status_iff.
    + intros a Ha Hs Hap Hl. apply H3. apply filter_In. split.
      * apply Hvalid. auto.
      * rewrite Hl, andb_true_r. now apply has_status_iff.
    + intros a Ha Hp Hcase. apply H2; auto. intros Hin. apply filter_In in Hin.
      destruct Hin as [Hv Hc]. apply Hvalid in Hv. apply andb_true_iff in Hc.
      destruct Hc as [Hc1 Hc2]. apply has_status_iff in Hc1.
      apply negb_true_iff in Hc2. destruct Hcase as [Hc|[Hc|Hc]].
      * contradiction.
      * tauto.
      * congruence.
    + intros Hl. rewrite Hmail.
      assert (E : filter (fun r => has_status approved r && negb late) valid = []).
      { apply length_zero_iff_nil. apply count_filter_none. intros x _.
        rewrite Hl. apply andb_false_r. }
      rewrite E. reflexivity.
Qed.

End StaffCancelFacts.

Section StaffCancelRuns.

Import Demo.

Lemma cancel_reservations_effect_witness :
  NoDup (map Reservation.id (reservations db))
  /\ pending_count
       (reservations (fst (fst (cancel_reservations cfg db [3] (admin_env noon)))))
       (key_of r3) = 0%nat.
Proof.
  split; [exact demo_keys|].
  destruct (cancel_reservations_effect cfg db [3] (admin_env noon) demo_keys)
    as (H & _).
  apply H; [right; right; left; reflexivity|left; reflexivity|reflexivity].
Defined.

Lemma admin_cancel_view_effect_witness :
  NoDup (map Reservation.id (reservations db))
  /\ In r1 (reservations (fst (fst (admin_cancel_view cfg db true page (Some [1])
                                      (admin_env late)))))
  /\ snd (admin_cancel_view cfg db true page (Some [1]) (admin_env late)) = [].
Proof.
  split; [exact demo_keys|].
  destruct (admin_cancel_view_effect cfg db page [1] (admin_env late) 1 room demo_keys)
    as (_ & _ & H & Hm); try reflexivity; [discriminate|].
  split.
  - apply H; [left; reflexivity|discriminate|right; right; reflexivity].
  - apply Hm. reflexivity.
Defined.

End StaffCancelRuns.

(** ** The seat grid of [booking_view] *)

Section GridFacts.

Variable settings : Settings.

Lemma seat_eqb_eq a b : seat_eqb a b = true <-> a = b.
Proof.
  destruct a as [a1 a2], b as [b1 b2]. unfold seat_eqb. simpl.
  rewrite andb_true_iff, !Z.eqb_eq. split; [intros [-> ->]; auto|].
  intros H; inversion H; auto.
Qed.

Lemma seat_eqb_refl a : seat_eqb a a = true.
Proof. now apply seat_eqb_eq. Qed.

Lemma cell_map_get_set m k d k' :
  cell_map_get (cell_map_set m k d) k'
  = if seat_eqb k k' then Some d else cell_map_get m k'.
Proof.
  induction m as [|[k0 d0] m IH]; simpl.
  - reflexivity.
  - destruct (seat_eqb k0 k) eqn:E0; simpl.
    + apply seat_eqb_eq in E0. subst k0. destruct (seat_eqb k k'); reflexivity.
    + destruct (seat_eqb k0 k') eqn:E1.
      * destruct (seat_eqb k k') eqn:E2; auto.
        apply seat_eqb_eq in E1, E2. subst. rewrite seat_eqb_refl in E0. discriminate.
      * apply IH.
Qed.

(** The loop over the records builds, for every seat, the data that can
    be read off the records: the order of the records does not matter. *)
Lemma cell_map_fold student records :
  forall key,
    cell_map_get (fold_left (cell_map_add student) records []) key
    = cell_data_of student records key.
Proof.
  induction records as [|r l IH] using rev_ind; intros key; [reflexivity|].
  rewrite fold_left_app. simpl fold_left.
  set (m := fold_left (cell_map_add student) l []) in *.
  unfold cell_map_add. rewrite cell_map_get_set.
  unfold cell_data_of. cbv zeta. rewrite filter_app. simpl filter.
  destruct (seat_eqb (Reservation.seat_row r, Reservation.seat_col r) key) eqn:E.
  - apply seat_eqb_eq in E. rewrite E. rewrite IH. unfold cell_data_of. cbv zeta.
    set (H := filter (fun r0 => seat_eqb (Reservation.seat_row r0, Reservation.seat_col r0)
                                  key) l).
    assert (Hm : match match H with [] => None | _ :: _ => Some (cell_data student H) end
                 with
                 | Some data => data
                 | None => mkCellData false None false
                 end = cell_data student H)
      by (destruct H; reflexivity).
    rewrite Hm. clear Hm.
    assert (Hne : H ++ [r] <> []) by (destruct H; discriminate).
    assert (Hs : match H ++ [r] with
                 | [] => None
                 | _ :: _ => Some (cell_data student (H ++ [r]))
                 end = Some (cell_data student (H ++ [r])))
      by (destruct (H ++ [r]); congruence).
    rewrite Hs. f_equal. unfold cell_data.
    rewrite !existsb_app. simpl existsb. rewrite !orb_false_r.
    simpl approved_by_other. simpl mine. simpl other_pending.
    unfold has_status.
    destruct (existsb (fun r => Status_eqb (Reservation.status r) approved
                                && negb (own student r)) H);
    destruct (existsb (fun r => Status_eqb (Reservation.status r) approved
                                && own student r) H);
    destruct (existsb (fun r => Status_eqb (Reservation.status r) pending
                                && own student r) H);
    destruct (existsb (fun r => Status_eqb (Reservation.status r) pending
                                && negb (own student r)) H);
    fold (own student r);
    destruct (Reservation.status r); destruct (own student r); reflexivity.
  - rewrite app_nil_r. apply IH.
Qed.

Lemma nth_error_enumerate_from {A} (l : list A) :
  forall i n,
    nth_error (enumerate_from i l) n
    = option_map (fun x => (i + Z.of_nat n, x)) (nth_error l n).
Proof.
  induction l as [|x l IH]; intros i n; destruct n; simpl; auto.
  - now rewrite Z.add_0_r.
  - rewrite IH. destruct (nth_error l n); simpl; auto. f_equal. f_equal. lia.
Qed.

Lemma nth_error_chars s :
  forall n, nth_error (list_ascii_of_string s) n = String.get n s.
Proof.
  induction s as [|c s IH]; intros n; destruct n; simpl; auto.
Qed.

(** The matrix has the shape of the layout, and each cell sits at its own
    coordinates. *)
Lemma matrix_cell_spec layout cell_map r c :
  matrix_cell (booking_matrix (Py.split "010" (Py.strip layout)) cell_map) r c
  = option_map (booking_cell cell_map r c) (layout_cell layout r c).
Proof.
  unfold matrix_cell, layout_cell, booking_matrix, enumerate, string_in_range.
  destruct (r <? 0) eqn:Er; simpl; [reflexivity|].
  apply Z.ltb_ge in Er.
  rewrite nth_error_map, nth_error_enumerate_from.
  destruct (nth_error (Py.split "010" (Py.strip layout)) (Z.to_nat r)) as [line|]; simpl.
  - destruct (c <? 0) eqn:Ec; [reflexivity|]. apply Z.ltb_ge in Ec.
    rewrite nth_error_map, nth_error_enumerate_from, nth_error_chars.
    destruct (String.get (Z.to_nat c) (Py.strip line)); simpl; auto.
    rewrite !Z2Nat.id by lia. reflexivity.
  - destruct (c <? 0); reflexivity.
Qed.

Lemma existsb_filter {A} (p q : A -> bool) l :
  existsb p (filter q l) = existsb (fun x => q x && p x) l.
Proof.
  induction l as [|x l IH]; simpl; auto.
  destruct (q x); simpl; rewrite IH; reflexivity.
Qed.

Lemma existsb_ext {A} (p q : A -> bool) l :
  (forall x, p x = q x) -> existsb p l = existsb q l.
Proof. intros H. induction l as [|x l IH]; simpl; auto. now rewrite H, IH. Qed.

(** The records of the grid that sit on one seat, seen from the table. *)
Lemma requested_here db curr_cls d slot_id student r c s o :
  s = approved \/ s = pending ->
  existsb (fun x => has_status s x && Bool.eqb (own student x) o)
    (filter (fun x => seat_eqb (Reservation.seat_row x, Reservation.seat_col x) (r, c))
       (grid_records db curr_cls d slot_id))
  = requested db (mkKey (Classroom.id curr_cls) r c d slot_id) s o student.
Proof.
  intros Hs. unfold grid_records, requested. rewrite !existsb_filter.
  apply existsb_ext. intros x.
  unfold seat_with_status, SeatKey_eqb, seat_eqb, has_status, own. simpl.
  destruct (Reservation.classroom x =? Classroom.id curr_cls);
    destruct (Reservation.date x =? d);
    destruct (Reservation.time_slot x =? slot_id);
    destruct (Reservation.seat_row x =? r);
    destruct (Reservation.seat_col x =? c); simpl; auto;
    rewrite ?andb_false_r; auto;
    destruct Hs as [-> | ->]; destruct (Reservation.status x); simpl; auto.
Qed.

Lemma negb_eqb_false b : negb b = Bool.eqb b false.
Proof. now destruct b. Qed.

Lemma id_eqb_true b : b = Bool.eqb b true.
Proof. now destruct b. Qed.

Lemma booking_cell_shown db curr_cls d slot_id student r c ch :
  Ascii.eqb ch "0" = false ->
  booking_cell (fold_left (cell_map_add student) (grid_records db curr_cls d slot_id) [])
    r c ch
  = seat_shown db (mkKey (Classroom.id curr_cls) r c d slot_id) student.
Proof.
  intros Hch. unfold booking_cell. rewrite Hch, cell_map_fold.
  unfold cell_data_of, seat_shown. cbv zeta. simpl k_row. simpl k_col.
  rewrite <- !(requested_here db curr_cls d slot_id student r c) by auto.
  remember (filter (fun x => seat_eqb (Reservation.seat_row x, Reservation.seat_col x)
                               (r, c))
              (grid_records db curr_cls d slot_id)) as H eqn:EH.
  clear EH.
  assert (Ea : forall s o,
            existsb (fun x => has_status s x && Bool.eqb (own student x) o) H
            = existsb (fun x => has_status s x
                                && (if o then own student x else negb (own student x))) H).
  { intros s o. apply existsb_ext. intros x.
    destruct o; destruct (own student x); reflexivity. }
  rewrite !Ea. clear Ea.
  transitivity
    ((fun data =>
        if approved_by_other data
        then mkCell r c cell_seat (cell_status_of approved) false None
        else match mine data with
             | Some s => mkCell r c cell_seat (cell_status_of s) true
                           (Some (other_pending data))
             | None => if other_pending data
                       then mkCell r c cell_seat cell_other_pending false None
                       else mkCell r c cell_seat cell_free false None
             end) (cell_data student H)).
  { destruct H; reflexivity. }
  unfold cell_data. cbv beta.
  cbn [approved_by_other mine other_pending].
  destruct (existsb (fun x => has_status approved x && negb (own student x)) H);
    [reflexivity|].
  destruct (existsb (fun x => has_status approved x && own student x) H);
    [reflexivity|].
  destruct (existsb (fun x => has_status pending x && own student x) H);
    [reflexivity|].
  destruct (existsb (fun x => has_status pending x && negb (own student x)) H);
    reflexivity.
Qed.

(** Cell by cell, the matrix drawn from the layout and the records. *)
Lemma matrix_cell_shown db curr_cls d slot_id student r c :
  matrix_cell
    (booking_matrix (Py.split "010" (Py.strip (Classroom.layout curr_cls)))
       (fold_left (cell_map_add student) (grid_records db curr_cls d slot_id) []))
    r c
  = match layout_cell (Classroom.layout curr_cls) r c with
    | None => None
    | Some ch =>
        Some (if Ascii.eqb ch "0"
              then mkCell r c cell_aisle cell_free false None
              else seat_shown db (mkKey (Classroom.id curr_cls) r c d slot_id) student)
    end.
Proof.
  rewrite matrix_cell_spec.
  destruct (layout_cell (Classroom.layout curr_cls) r c) as [ch|]; [|reflexivity].
  simpl. f_equal.
  destruct (Ascii.eqb ch "0") eqn:E.
  - unfold booking_cell. now rewrite E.
  - now apply booking_cell_shown.
Qed.

(** X10.  The grid of [booking_view].  The matrix has the shape of the layout
    of the classroom (one row per line, one cell per character of the
    stripped line, nothing outside), an aisle is a free cell, and a seat
    shows what the table holds for it on the date and slot of the page,
    in this order: locked when another student's reservation is
    approved; else the student's own approved, else own pending request,
    with the flag that others ask for it too; else that somebody else is
    asking; else free.  The order of the rows of the table plays no
    role. *)
Theorem booking_view_grid :
  forall db sid q today now student curr_cls matrix slot_id max_date,
    booking_view settings db (Some sid) q today now
    = booking_page student curr_cls matrix slot_id max_date ->
    forall r c,
      matrix_cell matrix r c
      = match layout_cell (Classroom.layout curr_cls) r c with
        | None => None
        | Some ch =>
            Some (if Ascii.eqb ch "0"
                  then mkCell r c cell_aisle cell_free false None
                  else seat_shown db
                         (mkKey (Classroom.id curr_cls) r c
                            (req_date_of (get_date q) today) slot_id)
                         student)
        end.
Proof.
  intros db sid q today now student curr_cls matrix slot_id max_date H r c.
  unfold booking_view in H.
  destruct (get_student db sid) as [st|]; [|discriminate].
  destruct (choose_slot _ _ _ _ _) as [sl|]; [|discriminate].
  destruct (filter Classroom.is_active (classrooms db)); [discriminate|].
  destruct (current_classroom db (get_classroom_id q)) as [cls|]; [|discriminate].
  cbv zeta in H. inversion H; subst. clear H.
  apply matrix_cell_shown.
Qed.

Lemma is_hard_locked_requested db k student :
  is_hard_locked db k
  = requested db k approved false student || requested db k approved true student.
Proof.
  unfold is_hard_locked, requested.
  induction (reservations db) as [|x l IH]; simpl; auto.
  rewrite IH. destruct (seat_with_status k approved x); simpl; auto.
  destruct (Reservation.student x =? Student.id student); simpl; auto.
  now rewrite orb_true_r.
Qed.

(** X11.  The grid and [submit] agree on the hard lock.  A seat of the grid is
    shown as approved exactly when the table holds an approved
    reservation for it on the date and slot of the page; a request that
    lists such a seat for that classroom, date and slot is refused by
    [submit] as a whole, and a seat shown otherwise is not locked. *)
Theorem booking_view_shows_lock :
  forall db sid q today now student curr_cls matrix slot_id max_date r c cell,
    booking_view settings db (Some sid) q today now
    = booking_page student curr_cls matrix slot_id max_date ->
    matrix_cell matrix r c = Some cell ->
    cell_type cell = cell_seat ->
    let k := mkKey (Classroom.id curr_cls) r c (req_date_of (get_date q) today) slot_id in
    (cell_status cell = cell_status_of approved <-> is_hard_locked db k = true)
    /\ (cell_status cell = cell_status_of approved ->
        forall sid' post env,
          post_cid post = Classroom.id curr_cls ->
          post_date post = Some (req_date_of (get_date q) today) ->
          post_slot post = slot_id ->
          In (Some (r, c)) (post_seats_list post) ->
          submit_db (submit settings db sid' post env) = db
          /\ submit_type (submit settings db sid' post env) = type_error).
Proof.
  intros db sid q today now student curr_cls matrix slot_id max_date r c cell H Hc Ht k.
  assert (Hm : matrix
               = booking_matrix (Py.split "010" (Py.strip (Classroom.layout curr_cls)))
                   (fold_left (cell_map_add student)
                      (grid_records db curr_cls (req_date_of (get_date q) today) slot_id)
                      [])).
  { unfold booking_view in H.
    destruct (get_student db sid) as [st|]; [|discriminate].
    destruct (choose_slot _ _ _ _ _) as [sl|]; [|discriminate].
    destruct (filter Classroom.is_active (classrooms db)); [discriminate|].
    destruct (current_classroom db (get_classroom_id q)) as [cls|]; [|discriminate].
    cbv zeta in H. inversion H; subst. reflexivity. }
  rewrite Hm, matrix_cell_shown in Hc. clear Hm.
  assert (Hiff : cell_status cell = cell_status_of approved <-> is_hard_locked db k = true).
  { destruct (layout_cell (Classroom.layout curr_cls) r c) as [ch|]; [|discriminate].
    unfold k. clear k.
    rewrite (is_hard_locked_requested db _ student).
    destruct (Ascii.eqb ch "0"); inversion Hc as [Hcell]; clear Hc;
      [subst cell; discriminate|].
    clear Ht. subst cell. unfold seat_shown.
    destruct (requested db _ approved false student);
      [simpl; split; intros; reflexivity|].
    destruct (requested db _ approved true student);
      [simpl; split; intros; reflexivity|].
    destruct (requested db _ pending true student);
      [simpl; split; intros; discriminate|].
    destruct (requested db _ pending false student);
      simpl; split; intros; discriminate. }
  split; [exact Hiff|].
  intros Hs sid' post env Hcid Hd Hslot Hin.
  apply Hiff in Hs. apply is_hard_locked_iff in Hs. destruct Hs as (a & Ha & Hk & Hst).
  apply (submit_hard_lock settings db sid' post env
           (req_date_of (get_date q) today) r c a); auto.
  rewrite Hk, Hcid, Hslot. reflexivity.
Qed.

(** X12.  The last day the page lets the student pick is the last day [submit]
    accepts: a request for a later day is refused without any change, and
    a request for a day from today to that day is not refused for its
    date. *)
Theorem booking_view_max_date :
  forall db sid q today now student curr_cls matrix slot_id max_date,
    booking_view settings db (Some sid) q today now
    = booking_page student curr_cls matrix slot_id max_date ->
    forall post env d,
      env_today env = today ->
      post_date post = Some d ->
      today <= d ->
      (max_date < d ->
       submit settings db sid post env
       = (db, (msg_date_too_far (max_date - today), type_error), []))
      /\ (d <= max_date ->
          submit_msg (submit settings db sid post env) <> msg_date_in_past
          /\ forall n, submit_msg (submit settings db sid post env) <> msg_date_too_far n).
Proof.
  intros db sid q today now student curr_cls matrix slot_id max_date H post env d Ht Hd Hle.
  unfold booking_view in H.
  destruct (get_student db sid) as [st|] eqn:Es; [|discriminate].
  destruct (choose_slot _ _ _ _ _) as [sl|]; [|discriminate].
  destruct (filter Classroom.is_active (classrooms db)); [discriminate|].
  destruct (current_classroom db (get_classroom_id q)) as [cls|]; [|discriminate].
  cbv zeta in H. inversion H; subst. clear H.
  unfold submit. rewrite Es, Hd. cbv zeta.
  assert (E1 : (d <? env_today env) = false) by (apply Z.ltb_ge; exact Hle).
  rewrite E1. rewrite Z.gtb_ltb. split.
  - intros Hlt.
    assert (E2 : (env_today env + max_ahead settings student <? d) = true)
      by (apply Z.ltb_lt; exact Hlt).
    rewrite E2. repeat f_equal. lia.
  - intros Hmax.
    assert (E2 : (env_today env + max_ahead settings student <? d) = false)
      by (apply Z.ltb_ge; exact Hmax).
    rewrite E2. unfold submit_msg.
    repeat match goal with
           | |- context [match ?x with _ => _ end] => destruct x
           end; simpl; split; intros; discriminate.
Qed.

End GridFacts.

Section GridRuns.

Import Demo.

(** The grid bob sees for tomorrow's first slot. *)
Lemma demo_grid :
  booking_view cfg db (Some 2) page today noon
  = booking_page bob room
      [[mkCell 0 0 cell_seat (cell_status_of approved) false None;
        mkCell 0 1 cell_seat (cell_status_of pending) true (Some true);
        mkCell 0 2 cell_seat cell_free false None]]
      1 (today + 7).
Proof. vm_compute. reflexivity. Defined.

Lemma booking_view_grid_witness :
  matrix_cell [[mkCell 0 0 cell_seat (cell_status_of approved) false None;
                mkCell 0 1 cell_seat (cell_status_of pending) true (Some true);
                mkCell 0 2 cell_seat cell_free false None]] 0 1
  = Some (seat_shown db (mkKey 1 0 1 tomorrow 1) bob).
Proof.
  rewrite (booking_view_grid cfg db 2 page today noon bob room _ 1 (today + 7)
             demo_grid 0 1).
  reflexivity.
Defined.

Lemma booking_view_shows_lock_witness :
  is_hard_locked db (mkKey 1 0 0 tomorrow 1) = true.
Proof.
  destruct (booking_view_shows_lock cfg db 2 page today noon bob room _ 1 (today + 7) 0 0
              (mkCell 0 0 cell_seat (cell_status_of approved) false None)
              demo_grid eq_refl eq_refl) as [H _].
  apply H. reflexivity.
Defined.

Lemma booking_view_max_date_witness :
  submit cfg db 2
    {| post_cid := 1; post_date := Some (today + 8); post_orm_date_ok := true;
       post_slot := 1;
       post_seats_list := [Some (0, 2)] |} (submit_env noon)
  = (db, (msg_date_too_far 7, type_error), []).
Proof.
  destruct (booking_view_max_date cfg db 2 page today noon bob room _ 1 (today + 7)
              demo_grid
              {| post_cid := 1; post_date := Some (today + 8); post_orm_date_ok := true;
       post_slot := 1;
                 post_seats_list := [Some (0, 2)] |} (submit_env noon) (today + 8)
              eq_refl eq_refl) as [H _]; [vm_compute; discriminate|].
  apply H. reflexivity.
Defined.

End GridRuns.

(** ** The change form of the admin site *)

Section FormFacts.

Variable settings : Settings.

(** X13.  A change accepted by the admin form.  The reservation ends on the
    0-based seat [(row_input - 1, col_input - 1)], which is a position of
    the layout of the classroom that is not an aisle; it keeps its key,
    batch and creation time and is marked as an admin action; no other
    reservation was approved for that seat, date and slot; and with
    [commit] every other pending request for it is rejected. *)
Theorem admin_change_accepts :
  forall db pk f commit db',
    admin_change settings db pk f commit = (db', None) ->
    exists instance classroom ch,
      row (reservations db) pk = Some instance
      /\ find (fun c => Classroom.id c =? f_classroom f) (classrooms db) = Some classroom
      /\ 1 <= f_row_input f /\ 1 <= f_col_input f
      /\ layout_cell (Classroom.layout classroom)
           (f_row_input f - 1) (f_col_input f - 1) = Some ch
      /\ ch <> "0"%char
      /\ let saved :=
           form_instance instance f (f_row_input f - 1, f_col_input f - 1) in
         In saved (reservations db')
         /\ (forall x, In x (reservations db) -> key_of x = key_of saved ->
                       Reservation.status x = approved -> Reservation.id x = pk)
         /\ (commit = true ->
             forall x, In x (reservations db) -> key_of x = key_of saved ->
                       Reservation.status x = pending -> Reservation.id x <> pk ->
                       In (Reservation.set_status rejected x) (reservations db')).
Proof.
  intros db pk f commit db' H. unfold admin_change in H.
  destruct (find (fun r => Reservation.id r =? pk) (reservations db))
    as [instance|] eqn:Ef; [|discriminate].
  destruct (clean settings db instance f) as [e|seat] eqn:Ec; [discriminate|].
  pose proof (clean_guard settings db instance f seat Ec) as Hg.
  apply find_some in Ef as Hf. destruct Hf as [Hin Hid]. apply Z.eqb_eq in Hid.
  unfold clean in Ec.
  destruct (find (fun c => Classroom.id c =? f_classroom f) (classrooms db))
    as [classroom|] eqn:Ecl; [|discriminate].
  destruct (get_student db (f_student f)); [|discriminate].
  destruct ((f_row_input f <? 1) || (f_col_input f <? 1) || _) eqn:Eb; [discriminate|].
  rewrite !orb_false_iff, !Z.ltb_ge in Eb. destruct Eb as [[Hr Hc] _].
  destruct (nth_error _ _) as [line|] eqn:En; [|discriminate].
  destruct (string_in_range _ _) as [ch|] eqn:Es; [|discriminate].
  destruct (Ascii.eqb ch "0") eqn:Ea; [discriminate|].
  destruct (existsb _ (reservations db)); [discriminate|].
  inversion Ec; subst seat. clear Ec.
  exists instance, classroom, ch.
  split; [exact Ef|]. split; [reflexivity|]. split; [lia|]. split; [lia|].
  split.
  { unfold layout_cell.
    replace (f_row_input f - 1 <? 0) with false by (symmetry; apply Z.ltb_ge; lia).
    now rewrite En. }
  split.
  { intros ->. rewrite Ascii.eqb_refl in Ea. discriminate. }
  cbv zeta.
  set (saved := form_instance instance f (f_row_input f - 1, f_col_input f - 1)) in *.
  assert (Hsid : Reservation.id saved = pk) by (simpl; exact Hid).
  split; [|split].
  - unfold form_save in H. fold saved in H. destruct commit.
    + inversion H; subst db'. simpl. apply update_where_keep; [apply save_in|].
      replace (same_id instance saved) with true
        by (symmetry; apply same_id_eq; simpl; reflexivity).
      simpl. now rewrite andb_false_r.
    + inversion H; subst db'. simpl. apply save_in.
  - intros x Hx Hk Hs.
    assert (Hsame : same_id instance x = true).
    { apply Hg; auto. apply seat_with_status_iff. split; auto. }
    apply same_id_eq in Hsame. congruence.
  - intros -> x Hx Hk Hs Hne.
    unfold form_save in H. fold saved in H. inversion H; subst db'. simpl.
    apply (update_where_hit _ (Reservation.set_status rejected)).
    + apply save_other; auto. congruence.
    + replace (SeatKey_eqb (key_of x) _) with true
        by (symmetry; apply SeatKey_eqb_eq; exact Hk).
      unfold has_status. rewrite Hs. simpl.
      replace (same_id instance x) with false; auto.
      symmetry. apply not_true_is_false. intros E. apply same_id_eq in E. congruence.
Qed.

End FormFacts.

Section FormRuns.

Import Demo Scenes.

Lemma admin_change_accepts_witness :
  exists db', admin_change cfg db 3 demo_form true = (db', None)
              /\ In (Reservation.set_status rejected r4) (reservations db').
Proof.
  exists (fst (admin_change cfg db 3 demo_form true)).
  assert (E : admin_change cfg db 3 demo_form true
              = (fst (admin_change cfg db 3 demo_form true), None))
    by (vm_compute; reflexivity).
  split; [exact E|].
  destruct (admin_change_accepts cfg db 3 demo_form true _ E)
    as (instance & classroom & ch & _ & _ & _ & _ & _ & _ & _ & _ & Hrej).
  apply (Hrej eq_refl r4); try reflexivity; [|discriminate].
  right; right; right; left; reflexivity.
Defined.

End FormRuns.

(** ** Booking as staff: [admin_booking_view] *)

Section StaffBookingFacts.

Variable settings : Settings.

Lemma swept_reject k p rows :
  swept k rows -> swept k (update_where p (Reservation.set_status rejected) rows).
Proof.
  intros H y Hy. unfold update_where in Hy. apply in_map_iff in Hy.
  destruct Hy as (x & <- & Hx). destruct (p x); auto.
  unfold seat_with_status, has_status. simpl. apply andb_false_r.
Qed.

Lemma swept_reject_now k rows :
  swept k (update_where (seat_with_status k pending)
             (Reservation.set_status rejected) rows).
Proof.
  intros y Hy. unfold update_where in Hy. apply in_map_iff in Hy.
  destruct Hy as (x & <- & Hx). destruct (seat_with_status k pending x) eqn:E; auto.
  unfold seat_with_status, has_status. simpl. apply andb_false_r.
Qed.

Lemma swept_app k rows x :
  swept k rows -> Reservation.status x <> pending -> swept k (rows ++ [x]).
Proof.
  intros H Hx y Hy. apply in_app_or in Hy. destruct Hy as [Hy|[<-|[]]]; auto.
  unfold seat_with_status, has_status.
  destruct (Reservation.status x); try contradiction; apply andb_false_r.
Qed.

Lemma existsb_locked_book rows k0 k a0 :
  key_of a0 = k0 -> k <> k0 ->
  existsb (seat_with_status k approved)
    (update_where (seat_with_status k0 pending) (Reservation.set_status rejected) rows
     ++ [a0])
  = existsb (seat_with_status k approved) rows.
Proof.
  intros Ha Hk. rewrite existsb_app. simpl.
  replace (seat_with_status k approved a0) with false.
  - rewrite !orb_false_r. unfold update_where.
    induction rows as [|x rows IH]; simpl; auto. rewrite IH. f_equal.
    destruct (seat_with_status k0 pending x) eqn:Ex; auto.
    apply seat_with_status_iff in Ex. destruct Ex as [_ Ex].
    unfold seat_with_status, has_status. simpl. rewrite Ex. simpl.
    now rewrite !andb_false_r.
  - symmetry. apply not_true_is_false. intros E. apply seat_with_status_iff in E.
    destruct E as [E _]. congruence.
Qed.

Lemma book_seats_spec stu cid d slot batch now seats :
  forall db cnt db' cnt',
    book_seats db stu cid (Some d) slot batch now seats cnt = Ok (db', cnt') ->
    (forall a, In a (reservations db) -> Reservation.status a = approved ->
               In a (reservations db'))
    /\ (forall k, swept k (reservations db) -> swept k (reservations db'))
    /\ (length (reservations db') = length (reservations db) + (cnt' - cnt))%nat
    /\ (cnt <= cnt')%nat
    /\ students db' = students db
    /\ forall r c,
         In (Some (r, c)) seats ->
         let k := mkKey cid r c d slot in
         (exists a, In a (reservations db') /\ key_of a = k
                    /\ Reservation.status a = approved)
         /\ (is_hard_locked db k = false ->
             swept k (reservations db')
             /\ exists pk, In (new_approved stu cid r c d slot batch now pk)
                              (reservations db')).
Proof.
  induction seats as [|tok seats IH]; intros db cnt db' cnt' H; simpl in H.
  - inversion H; subst.
    split; [auto|split; [auto|split; [lia|split; [lia|split; [auto|intros r c []]]]]].
  - destruct tok as [[r0 c0]|]; [|discriminate].
    set (k0 := mkKey cid r0 c0 d slot) in *.
    destruct (existsb (seat_with_status k0 approved) (reservations db)) eqn:Et.
    + destruct (IH _ _ _ _ H) as (Hap & Hsw & Hlen & Hle & Hst & Hseats).
      split; [auto|split; [auto|split; [auto|split; [auto|split; [auto|]]]]].
      intros r c [E|Hin]; [|apply Hseats; auto].
      inversion E; subst r c. cbv zeta. fold k0. split.
      * apply existsb_exists in Et.
        destruct Et as (a & Ha & Hs). apply seat_with_status_iff in Hs.
        exists a. split; [apply Hap; tauto|tauto].
      * unfold is_hard_locked. congruence.
    + set (rows1 := update_where (seat_with_status k0 pending)
                      (Reservation.set_status rejected) (reservations db)) in *.
      set (a0 := new_approved stu cid r0 c0 d slot batch now (next_id db)) in *.
      destruct (IH _ _ _ _ H) as (Hap & Hsw & Hlen & Hle & Hst & Hseats).
      simpl in Hap, Hsw, Hlen, Hst, Hseats.
      fold rows1 in Hap, Hsw, Hlen, Hseats. fold a0 in Hap, Hsw, Hlen, Hseats.
      assert (Ha0 : In a0 (reservations db')).
      { apply Hap; [apply in_or_app; right; simpl; auto|reflexivity]. }
      assert (Hsw0 : swept k0 (reservations db')).
      { apply Hsw. apply swept_app; [apply swept_reject_now|discriminate]. }
      split; [|split; [|split; [|split; [|split]]]].
      * intros a Ha Hs. apply Hap; auto. apply in_or_app. left.
        apply update_where_keep; auto.
        unfold seat_with_status, has_status. rewrite Hs. apply andb_false_r.
      * intros k Hk. apply Hsw. apply swept_app; [|discriminate].
        now apply swept_reject.
      * rewrite Hlen, length_app. unfold rows1, update_where. rewrite length_map.
        simpl. lia.
      * lia.
      * exact Hst.
      * intros r c [E|Hin].
        -- inversion E; subst r c. cbv zeta. fold k0. split; [|intros _; split; eauto].
           exists a0. repeat split; auto.
        -- cbv zeta. destruct (Hseats r c Hin) as [Hex Hfree]. split; [exact Hex|].
           intros Hl.
           destruct (SeatKey_eqb (mkKey cid r c d slot) k0) eqn:Ek.
           ++ apply SeatKey_eqb_eq in Ek. rewrite Ek. split; auto.
              inversion Ek; subst r c. eauto.
           ++ apply Hfree. unfold is_hard_locked in *. cbn [reservations].
              unfold rows1. rewrite existsb_locked_book; auto.
              intros E. rewrite E, SeatKey_eqb_refl in Ek. discriminate.
Qed.

Lemma count_in (p : Reservation.t -> bool) l a :
  In a l -> p a = true -> (1 <= length (filter p l))%nat.
Proof.
  intros Ha Hp. assert (H : In a (filter p l)) by (apply filter_In; auto).
  destruct (filter p l); [destruct H|simpl; lia].
Qed.

Lemma get_or_create_student_spec db target_sid :
  let out := get_or_create_student db target_sid in
  reservations (fst (fst out)) = reservations db
  /\ next_id (fst (fst out)) = next_id db
  /\ In (snd (fst out)) (students (fst (fst out)))
  /\ Student.student_id (snd (fst out)) = target_sid.
Proof.
  unfold get_or_create_student.
  destruct (find _ (students db)) as [s|] eqn:Ef; simpl.
  - apply find_some in Ef. destruct Ef as [Hin He]. apply String.eqb_eq in He. auto.
  - repeat split; auto. apply in_or_app. right. simpl. auto.
Qed.

(** X14.  Booking as staff.  When [admin_booking_view] has gone through the
    seat list, the table has grown by as many rows as the message counts,
    and every listed seat is locked: exactly one approved reservation
    holds it on the date and slot of the page.  If the seat was not
    locked before, that reservation is a new one of the named student,
    marked as an admin action, and no pending request for the seat is
    left (the competitors are rejected). *)
Theorem admin_booking_view_books :
  forall db q target_sid seats_list env slot_id curr_cls d db' msgs created_count,
    lock_inv db ->
    choose_slot settings (get_slot q) (req_date_of (get_date q) (adm_today env))
      (adm_today env) (adm_now env) = Ok slot_id ->
    current_classroom db (get_classroom_id q) = Some curr_cls ->
    orm_date (get_date q) (adm_today env) = Some d ->
    admin_booking_view settings db true q (Some target_sid) (Some seats_list) env
    = (db', admin_redirect msgs) ->
    In (success_booked created_count) msgs
    \/ (In warning_none_booked msgs /\ created_count = 0%nat) ->
    length (reservations db') = (length (reservations db) + created_count)%nat
    /\ forall r c,
         In (Some (r, c)) seats_list ->
         let k := mkKey (Classroom.id curr_cls) r c d slot_id in
         approved_count (reservations db') k = 1%nat
         /\ (is_hard_locked db k = false ->
             pending_count (reservations db') k = 0%nat
             /\ exists a stu,
                  In a (reservations db') /\ key_of a = k
                  /\ Reservation.status a = approved
                  /\ Reservation.is_admin_action a = true
                  /\ In stu (students db')
                  /\ Student.student_id stu = target_sid
                  /\ Reservation.student a = Student.id stu).
Proof.
  intros db q target_sid seats_list env slot_id curr_cls d db' msgs created_count
    Hinv Hslot Hcls Hd H Hmsg.
  unfold admin_booking_view in H. simpl negb in H. cbv iota in H.
  cbv zeta in H. rewrite Hslot in H.
  destruct (filter Classroom.is_active (classrooms db)).
  { inversion H. }
  rewrite Hcls in H.
  destruct (booking_closed _ _ _ _).
  { inversion H; subst. destruct Hmsg as [[E|[]]|[[E|[]] _]]; discriminate. }
  destruct target_sid as [|c0 s0].
  { inversion H; subst. destruct Hmsg as [[E|[]]|[[E|[]] _]]; discriminate. }
  destruct (get_or_create_student_spec db (String c0 s0)) as (Hrows & Hnext & Hstu & Hsid).
  pose proof (get_or_create_student_inv db (String c0 s0) Hinv) as Hinv0.
  destruct (get_or_create_student db (String c0 s0)) as [[db0 stu] created].
  simpl in Hrows, Hnext, Hstu, Hsid, Hinv0.
  assert (Hcm : forall m, In m (if created then [warning_account_created (String c0 s0)]
                                else []) ->
                          m = warning_account_created (String c0 s0)).
  { intros m Hm. destruct created; [destruct Hm as [<-|[]]; auto|destruct Hm]. }
  assert (Hblack : forall (R : DB * AdminResponse),
            R = (db0, admin_redirect
                        ((if created then [warning_account_created (String c0 s0)] else [])
                         ++ [error_blacklisted (String c0 s0)])) ->
            R = (db', admin_redirect msgs) -> False).
  { intros R -> E. inversion E; subst.
    destruct Hmsg as [Hm|[Hm _]]; apply in_app_or in Hm;
      destruct Hm as [Hm|[Hm|[]]]; try discriminate; apply Hcm in Hm; discriminate. }
  rewrite Hd in H.
  assert (Hbook : match book_seats db0 (Student.id stu) (Classroom.id curr_cls) (Some d)
                          slot_id (adm_uuid4 env (Student.id stu)) (adm_now env)
                          seats_list 0 with
                  | Raise e =>
                      (db0, render_after_failure (get_date q) (adm_today env)
                              ((if created then [warning_account_created (String c0 s0)]
                                else []) ++ [error_failed e]))
                  | Ok (db1, cnt) =>
                      (db1, admin_redirect
                              ((if created then [warning_account_created (String c0 s0)]
                                else []) ++
                               [if (0 <? cnt)%nat then success_booked cnt
                                else warning_none_booked]))
                  end = (db', admin_redirect msgs)).
  { destruct (Student.status stu); auto. exfalso. eapply Hblack; eauto. }
  clear H Hblack.
  destruct (book_seats _ _ _ _ _ _ _ _ _) as [[db1 cnt]|e] eqn:Eb;
    [|unfold render_after_failure in Hbook; rewrite Hd in Hbook; discriminate].
  inversion Hbook; subst db' msgs. clear Hbook.
  assert (Hcnt : cnt = created_count).
  { destruct Hmsg as [Hm|[Hm ->]]; apply in_app_or in Hm;
      destruct Hm as [Hm|[Hm|[]]]; try (apply Hcm in Hm; discriminate).
    - destruct (0 <? cnt)%nat; [inversion Hm; auto|discriminate].
    - destruct (0 <? cnt)%nat eqn:E; [discriminate|]. apply Nat.ltb_ge in E. lia. }
  subst created_count.
  pose proof (book_seats_inv _ _ _ _ _ _ _ _ _ _ _ Hinv0 Eb) as Hinv1.
  destruct (book_seats_spec _ _ _ _ _ _ _ _ _ _ _ Eb)
    as (Hap & Hsw & Hlen & Hle & Hst & Hseats).
  split; [rewrite Hlen, Hrows; lia|].
  intros r c Hin k.
  destruct (Hseats r c Hin) as [(a & Ha & Hk & Hs) Hfree]. fold k in Hk, Hfree.
  split.
  - destruct Hinv1 as (_ & _ & Hu). specialize (Hu k).
    assert (1 <= approved_count (reservations db1) k)%nat.
    { apply (count_in _ _ a); auto. apply seat_with_status_iff. auto. }
    lia.
  - intros Hl.
    assert (Hl0 : is_hard_locked db0 k = false)
      by (unfold is_hard_locked in *; now rewrite Hrows).
    destruct (Hfree Hl0) as [Hswept (pk & Hnew)].
    split; [apply count_filter_none; exact Hswept|].
    exists (new_approved (Student.id stu) (Classroom.id curr_cls) r c d slot_id
              (adm_uuid4 env (Student.id stu)) (adm_now env) pk), stu.
    repeat split; auto. now rewrite Hst.
Qed.

End StaffBookingFacts.

Section StaffBookingRuns.

Import Demo.

Lemma admin_booking_view_books_witness :
  approved_count
    (reservations
       (fst (admin_booking_view cfg db true page (Some "U202400003"%string)
               (Some [Some (0, 1)]) (admin_env noon))))
    (mkKey 1 0 1 tomorrow 1) = 1%nat.
Proof.
  assert (E : admin_booking_view cfg db true page (Some "U202400003"%string)
                (Some [Some (0, 1)]) (admin_env noon)
              = (fst (admin_booking_view cfg db true page (Some "U202400003"%string)
                        (Some [Some (0, 1)]) (admin_env noon)),
                 admin_redirect [warning_account_created "U202400003"%string;
                                 success_booked 1]))
    by (vm_compute; reflexivity).
  destruct (admin_booking_view_books cfg db page "U202400003"%string [Some (0, 1)]
              (admin_env noon) 1 room tomorrow _ _ 1%nat demo_lock
              eq_refl eq_refl eq_refl E) as [_ H].
  - left. right. left. reflexivity.
  - destruct (H 0 1 (or_introl eq_refl)) as [H1 _]. exact H1.
Defined.

End StaffBookingRuns.

(** ** [submit]: the application mail, and the approve link *)

Section ApplicationFacts.

Variable settings : Settings.

Lemma fresh_ids_S n len : fresh_ids n (S len) = n :: fresh_ids (n + 1) len.
Proof.
  unfold fresh_ids. simpl. rewrite Z.add_0_r. f_equal.
  rewrite <- seq_shift, map_map. apply map_ext. intros i. lia.
Qed.



Lemma create_batch_created stu cid d slot batch now seats :
  forall db acc db' news,
    create_batch db stu cid d slot batch now seats acc = Ok (db', news) ->
    exists created,
      news = acc ++ created
      /\ reservations db' = reservations db ++ created
      /\ next_id db' = next_id db + Z.of_nat (length seats)
      /\ map Reservation.id created = fresh_ids (next_id db) (length seats)
      /\ Forall2 (fun tok r =>
                    exists row col,
                      tok = Some (row, col)
                      /\ key_of r = mkKey cid row col d slot
                      /\ Reservation.status r = pending)
                 seats created
      /\ Forall (fun r => is_hard_locked db (key_of r) = false) created.
Proof.
  induction seats as [|tok seats IH]; intros db acc db' news H; simpl in H.
  - inversion H; subst. exists []. rewrite !app_nil_r. simpl.
    repeat split; auto. lia.
  - destruct tok as [[r c]|]; [|discriminate].
    destruct (is_hard_locked db (mkKey cid r c d slot)) eqn:El; [discriminate|].
    apply IH in H. destruct H as (created & -> & Hres & Hn & Hids & HF & Hl).
    exists (new_pending stu cid r c d slot batch now (next_id db) :: created).
    simpl in Hres, Hn, Hids. rewrite <- !app_assoc in *. simpl.
    split; [reflexivity|]. split; [exact Hres|]. split; [lia|].
    split; [rewrite fresh_ids_S, Hids; reflexivity|]. split.
    + constructor; auto. exists r, c. auto.
    + constructor; [exact El|].
      eapply Forall_impl; [|exact Hl]. intros x Hx. rewrite <- Hx. symmetry.
      apply (is_hard_locked_create_pending db
               (new_pending stu cid r c d slot batch now)). reflexivity.
Qed.

(** The two ways [submit] ends. *)
Lemma submit_outcome db sid post env :
  let out := submit settings db sid post env in
  (submit_db out = db /\ snd out = [] /\ submit_type out = type_error)
  \/ exists student d created,
       get_student db sid = Some student
       /\ post_date post = Some d
       /\ reservations (submit_db out) = reservations db ++ created
       /\ next_id (submit_db out) = next_id db + Z.of_nat (length (post_seats_list post))
       /\ post_seats_list post <> []
       /\ map Reservation.id created
          = fresh_ids (next_id db) (length (post_seats_list post))
       /\ Forall2 (fun tok r =>
                     exists row col,
                       tok = Some (row, col)
                       /\ key_of r = mkKey (post_cid post) row col d (post_slot post)
                       /\ Reservation.status r = pending)
                  (post_seats_list post) created
       /\ Forall (fun r => is_hard_locked db (key_of r) = false) created
       /\ snd out = [mail_application (Student.id student) (map Reservation.id created)]
       /\ (if env_send_mail env
                (mail_application (Student.id student) (map Reservation.id created))
           then snd (fst out) = (msg_submitted (length created), type_success)
           else snd (fst out) = (msg_system_error SMTPException, type_error)).
Proof.
  cbv zeta. unfold submit.
  destruct (get_student db sid) as [student|]; [|left; auto].
  destruct (post_date post) as [d|]; [|left; auto].
  destruct (d <? env_today env); [left; auto|].
  destruct (d >? env_today env + max_ahead settings student); [left; auto|].
  destruct (booking_closed settings d (post_slot post) (env_now env)); [left; auto|].
  destruct (post_seats_list post) as [|s0 seats] eqn:Es; [left; auto|].
  destruct (_ <=? _)%nat; [left; auto|].
  destruct (Role_eqb _ _ && (_ <? _)%nat); [left; auto|].
  destruct (post_orm_date_ok post) eqn:Eorm.
  2:{ left. unfold create_batch_str.
      destruct (Role_eqb (Student.role student) user && negb false); [auto|].
      destruct (Role_eqb _ _ && has_booking _ _ _ _); [auto|].
      destruct s0 as [[r c]|]; simpl; auto. }
  simpl negb. rewrite andb_false_r.
  destruct (Role_eqb _ _ && has_booking _ _ _ _); [left; auto|].
  unfold create_batch_str, commit_fk.
  destruct (create_batch _ _ _ _ _ _ _ _ _) as [[db1 news]|e] eqn:Eb.
  - destruct (classroom_exists db1 (post_cid post)); [|left; auto].
    right. apply create_batch_created in Eb.
    destruct Eb as (created & Hn & Hres & Hnext & Hids & HF & Hl).
    simpl in Hn. subst news.
    exists student, d, created.
    destruct (env_send_mail env _) eqn:Em; simpl; rewrite ?Em;
      repeat split; auto; discriminate.
  - left. destruct e; auto.
Qed.

(** X15.  The application mail.  Either [submit] creates nothing and sends
    nothing, or it sends exactly one mail, which names the rows it has
    created: their keys are the next free keys of the table, one per
    listed seat, in the order of the list.  The rows stay in the table
    also when that mail cannot be sent; the student is then shown an
    error instead of the success message. *)
Theorem submit_mail :
  forall db sid post env,
    let out := submit settings db sid post env in
    (submit_db out = db /\ snd out = [] /\ submit_type out = type_error)
    \/ exists student created,
         get_student db sid = Some student
         /\ reservations (submit_db out) = reservations db ++ created
         /\ length created = length (post_seats_list post)
         /\ created <> []
         /\ map Reservation.id created
            = fresh_ids (next_id db) (length (post_seats_list post))
         /\ snd out = [mail_application (Student.id student) (map Reservation.id created)]
         /\ (env_send_mail env
               (mail_application (Student.id student) (map Reservation.id created)) = true ->
             snd (fst out) = (msg_submitted (length created), type_success))
         /\ (env_send_mail env
               (mail_application (Student.id student) (map Reservation.id created)) = false ->
             snd (fst out) = (msg_system_error SMTPException, type_error)).
Proof.
  intros db sid post env out.
  destruct (submit_outcome db sid post env)
    as [H|(student & d & created & Hst & Hd & Hres & Hn & Hne & Hids & HF & Hl & Hm & Hr)];
    [left; exact H|right].
  fold out in Hres, Hm, Hr.
  exists student, created.
  assert (Hlen : length created = length (post_seats_list post))
    by (symmetry; eapply Forall2_length; eauto).
  repeat split; auto.
  - intros ->. destruct (post_seats_list post); [congruence|discriminate].
  - intros E. now rewrite E in Hr.
  - intros E. now rewrite E in Hr.
Qed.








End ApplicationFacts.

Section ApplicationRuns.

Import Demo.

Lemma submit_mail_witness :
  snd (submit cfg db 2 post_two_seats (submit_env noon)) = [mail_application 2 [5; 6]].
Proof.
  destruct (submit_mail cfg db 2 post_two_seats (submit_env noon))
    as [(_ & H & _)|(student & created & Hst & _ & _ & _ & Hids & Hm & _)].
  - vm_compute in H. discriminate.
  - inversion Hst; subst student. rewrite Hm, Hids. reflexivity.
Defined.


End ApplicationRuns.

(** ** [str] and [int], [join] and [split] *)

Section TextFacts.

Import PyText.

Lemma digit_of_digit_char d :
  0 <= d <= 9 -> Py.digit_of (digit_char d) = Some d.
Proof.
  intros H.
  assert (E : d = 0 \/ d = 1 \/ d = 2 \/ d = 3 \/ d = 4 \/ d = 5 \/ d = 6 \/ d = 7
              \/ d = 8 \/ d = 9) by lia.
  repeat (destruct E as [->|E]; [reflexivity|]). subst. reflexivity.
Qed.

Lemma is_digit_digit_char d : 0 <= d <= 9 -> is_digit (digit_char d) = true.
Proof. intros H. unfold is_digit. now rewrite digit_of_digit_char. Qed.

Lemma digits_cons d s acc b :
  0 <= d <= 9 ->
  Py.digits (String (digit_char d) s) acc b = Py.digits s (10 * acc + d) true.
Proof.
  intros H.
  change (Py.digits (String (digit_char d) s) acc b)
    with (match Py.digit_of (digit_char d) with
          | Some d0 => Py.digits s (10 * acc + d0) true
          | None => if Ascii.eqb (digit_char d) "_" && b then Py.digits s acc false
                    else None
          end).
  now rewrite digit_of_digit_char.
Qed.

Lemma all_chars_cons p c s : all_chars p (String c s) = p c && all_chars p s.
Proof. reflexivity. Qed.

(** Reading back the digits that [str_digits] wrote. *)
Lemma digits_str_digits fuel :
  forall n acc,
    0 <= n < 2 ^ (Z.of_nat fuel + 1) ->
    exists k, 0 <= k
      /\ forall a b, 0 <= a ->
           Py.digits (str_digits fuel n acc) a b = Py.digits acc (a * 10 ^ k + n) true.
Proof.
  induction fuel as [|fuel IH]; intros n acc Hn.
  - simpl in Hn. exists 1. split; [lia|]. intros a b Ha. simpl str_digits.
    rewrite Z.mod_small by lia. rewrite digits_cons by lia. f_equal. lia.
  - simpl str_digits. destruct (n <? 10) eqn:E.
    + apply Z.ltb_lt in E. exists 1. split; [lia|]. intros a b Ha.
      rewrite Z.mod_small by lia. rewrite digits_cons by lia. f_equal. lia.
    + apply Z.ltb_ge in E.
      assert (Hdiv : 0 <= n / 10 < 2 ^ (Z.of_nat fuel + 1)).
      { split; [apply Z.div_pos; lia|].
        apply Z.div_lt_upper_bound; [lia|].
        replace (Z.of_nat (S fuel) + 1) with (Z.succ (Z.of_nat fuel + 1)) in Hn by lia.
        rewrite Z.pow_succ_r in Hn by lia. lia. }
      destruct (IH (n / 10) (String (digit_char (n mod 10)) acc) Hdiv) as (k & Hk & H).
      exists (k + 1). split; [lia|]. intros a b Ha.
      rewrite H by lia.
      rewrite digits_cons by (pose proof (Z.mod_pos_bound n 10); lia).
      f_equal. rewrite Z.pow_add_r by lia.
      pose proof (Z.div_mod n 10 ltac:(lia)). lia.
Qed.

Lemma str_digits_chars fuel :
  forall n acc,
    0 <= n -> all_chars is_digit acc = true ->
    all_chars is_digit (str_digits fuel n acc) = true.
Proof.
  induction fuel as [|fuel IH]; intros n acc Hn Hacc; simpl str_digits.
  - rewrite all_chars_cons, is_digit_digit_char by (pose proof (Z.mod_pos_bound n 10); lia).
    exact Hacc.
  - destruct (n <? 10).
    + rewrite all_chars_cons, is_digit_digit_char by (pose proof (Z.mod_pos_bound n 10); lia).
      exact Hacc.
    + apply IH; [apply Z.div_pos; lia|].
      rewrite all_chars_cons, is_digit_digit_char by (pose proof (Z.mod_pos_bound n 10); lia).
      exact Hacc.
Qed.

Lemma str_digits_nonempty fuel :
  forall n acc, str_digits fuel n acc <> EmptyString.
Proof.
  induction fuel as [|fuel IH]; intros n acc; simpl str_digits; [discriminate|].
  destruct (n <? 10); [discriminate|apply IH].
Qed.

Lemma log2_fuel n : 0 <= n -> 0 <= n < 2 ^ (Z.of_nat (Z.to_nat (Z.log2 n)) + 1).
Proof.
  intros Hn. rewrite Z2Nat.id by apply Z.log2_nonneg.
  destruct (Z.eq_dec n 0) as [->|Hz]; [simpl; lia|].
  pose proof (Z.log2_spec n ltac:(lia)) as [_ H].
  unfold Z.succ in H. lia.
Qed.

Lemma digit_not_space c : is_digit c = true -> Py.is_space c = false.
Proof.
  unfold is_digit, Py.digit_of, Py.is_space.
  destruct ((48 <=? nat_of_ascii c)%nat && (nat_of_ascii c <=? 57)%nat) eqn:E;
    [|discriminate].
  intros _. apply andb_true_iff in E. destruct E as [E1 E2].
  apply Nat.leb_le in E1, E2.
  apply orb_false_iff. split; apply andb_false_iff.
  - right. apply Nat.leb_gt. lia.
  - right. apply Nat.leb_gt. lia.
Qed.

Lemma rstrip_id (p : ascii -> bool) s :
  (forall c, p c = true -> Py.is_space c = false) ->
  all_chars p s = true -> Py.rstrip s = s.
Proof.
  intros Hp. induction s as [|c s IH]; simpl; auto.
  intros H. apply andb_true_iff in H. destruct H as [Hc Hs].
  rewrite (IH Hs). destruct s; [now rewrite (Hp c Hc)|reflexivity].
Qed.

Lemma strip_id (p : ascii -> bool) s :
  (forall c, p c = true -> Py.is_space c = false) ->
  all_chars p s = true -> Py.strip s = s.
Proof.
  intros Hp H. unfold Py.strip.
  assert (Py.lstrip s = s).
  { destruct s as [|c s]; auto. simpl in *. apply andb_true_iff in H.
    destruct H as [Hc _]. now rewrite (Hp c Hc). }
  rewrite H0. eapply rstrip_id; eauto.
Qed.

Lemma all_chars_impl (p q : ascii -> bool) s :
  (forall c, p c = true -> q c = true) -> all_chars p s = true -> all_chars q s = true.
Proof.
  intros H. induction s as [|c s IH]; simpl; auto.
  intros Hs. apply andb_true_iff in Hs. destruct Hs as [Hc Hs].
  now rewrite (H c Hc), IH.
Qed.

Lemma str_chars n : all_chars digit_or_minus (str n) = true.
Proof.
  unfold str. destruct (n <? 0) eqn:E.
  - apply Z.ltb_lt in E. simpl. 
    apply (all_chars_impl is_digit); [intros c Hc; unfold digit_or_minus; now rewrite Hc|].
    apply str_digits_chars; [lia|reflexivity].
  - apply Z.ltb_ge in E.
    apply (all_chars_impl is_digit); [intros c Hc; unfold digit_or_minus; now rewrite Hc|].
    apply str_digits_chars; [lia|reflexivity].
Qed.

Lemma digit_or_minus_not_space c : digit_or_minus c = true -> Py.is_space c = false.
Proof.
  unfold digit_or_minus. intros H. apply orb_true_iff in H. destruct H as [H|H].
  - now apply digit_not_space.
  - apply Ascii.eqb_eq in H. subst. reflexivity.
Qed.

(** [int(str(n)) == n] *)
Lemma int_str n : Py.int (str n) = Some n.
Proof.
  unfold Py.int. rewrite (strip_id digit_or_minus);
    [|apply digit_or_minus_not_space|apply str_chars].
  unfold str. destruct (n <? 0) eqn:E.
  - apply Z.ltb_lt in E.
    destruct (digits_str_digits (Z.to_nat (Z.log2 (- n))) (- n) EmptyString
                (log2_fuel (- n) ltac:(lia))) as (k & Hk & H).
    rewrite (H 0 false) by lia. simpl. f_equal. lia.
  - apply Z.ltb_ge in E.
    destruct (digits_str_digits (Z.to_nat (Z.log2 n)) n EmptyString
                (log2_fuel n E)) as (k & Hk & H).
    pose proof (str_digits_chars (Z.to_nat (Z.log2 n)) n EmptyString E eq_refl) as Hc.
    pose proof (str_digits_nonempty (Z.to_nat (Z.log2 n)) n EmptyString) as Hne.
    destruct (str_digits (Z.to_nat (Z.log2 n)) n EmptyString) as [|c s] eqn:Es;
      [congruence|].
    simpl in Hc. apply andb_true_iff in Hc. destruct Hc as [Hc _].
    assert (Hm : c <> "-"%char) by (intros ->; discriminate).
    assert (Hp : c <> "+"%char) by (intros ->; discriminate).
    assert (Hgen : match String c s with
                   | String "-"%char s' => option_map Z.opp (Py.digits s' 0 false)
                   | String "+"%char s' => Py.digits s' 0 false
                   | s' => Py.digits s' 0 false
                   end = Py.digits (String c s) 0 false).
    { clear - Hm Hp.
      destruct c as [[] [] [] [] [] [] [] []]; try reflexivity; congruence. }
    rewrite Hgen. rewrite (H 0 false) by lia. simpl; f_equal; lia.
Qed.

Lemma split_nonempty sep s : Py.split sep s <> [].
Proof.
  induction s as [|c s IH]; simpl; [discriminate|].
  destruct (Ascii.eqb c sep); [discriminate|].
  destruct (Py.split sep s); discriminate.
Qed.

Lemma split_no_sep sep s : all_chars (is_not sep) s = true -> Py.split sep s = [s].
Proof.
  induction s as [|c s IH]; simpl; auto.
  intros H. apply andb_true_iff in H. destruct H as [Hc Hs].
  unfold is_not in Hc. apply negb_true_iff in Hc. rewrite Hc, (IH Hs). reflexivity.
Qed.

Lemma split_app sep s t :
  all_chars (is_not sep) s = true ->
  Py.split sep (s ++ String sep t) = s :: Py.split sep t.
Proof.
  induction s as [|c s IH]; simpl.
  - intros _. now rewrite Ascii.eqb_refl.
  - intros H. apply andb_true_iff in H. destruct H as [Hc Hs].
    unfold is_not in Hc. apply negb_true_iff in Hc. rewrite Hc, (IH Hs). reflexivity.
Qed.

Lemma split_max_app sep s t n :
  all_chars (is_not sep) s = true ->
  split_max sep (s ++ String sep t) (S n) = s :: split_max sep t n.
Proof.
  induction s as [|c s IH]; simpl.
  - intros _. now rewrite Ascii.eqb_refl.
  - intros H. apply andb_true_iff in H. destruct H as [Hc Hs].
    unfold is_not in Hc. apply negb_true_iff in Hc. rewrite Hc.
    change (split_max sep (s ++ String sep t) (S n)) with
      (split_max sep (s ++ String sep t) (S n)).
    rewrite (IH Hs). reflexivity.
Qed.

Lemma split_max_zero sep s : split_max sep s 0 = [s].
Proof. destruct s; reflexivity. Qed.

Lemma str_no (sep : ascii) n :
  digit_or_minus sep = false -> all_chars (is_not sep) (str n) = true.
Proof.
  intros Hsep. apply (all_chars_impl digit_or_minus); [|apply str_chars].
  intros c Hc. unfold is_not. apply negb_true_iff. apply not_true_is_false.
  intros E. apply Ascii.eqb_eq in E. subst. congruence.
Qed.

Lemma all_chars_app p s t :
  all_chars p (s ++ t) = all_chars p s && all_chars p t.
Proof.
  induction s as [|c s IH]; simpl; auto. now rewrite IH, andb_assoc.
Qed.

(** [",".join(l).split(",")] gives [l] back when no item holds a comma
    and [l] is not empty. *)
Lemma split_join sep (l : list string) :
  l <> [] ->
  Forall (fun s => all_chars (is_not sep) s = true) l ->
  Py.split sep (join (String sep EmptyString) l) = l.
Proof.
  induction l as [|x l IH]; [congruence|]. intros _ HF.
  inversion HF as [|? ? Hx Hl]; subst.
  destruct l as [|y l]; [simpl; now apply split_no_sep|].
  change (join (String sep EmptyString) (x :: y :: l))
    with (x ++ String sep (join (String sep EmptyString) (y :: l)))%string.
  rewrite split_app by exact Hx. f_equal. apply IH; [discriminate|exact Hl].
Qed.

Lemma ids_of_str ids : ids_of (map str ids) = Some ids.
Proof.
  induction ids as [|n ids IH]; simpl; auto. now rewrite int_str, IH.
Qed.

(** The ids of a link survive the trip through the string. *)
Lemma ids_round_trip ids :
  ids <> [] -> ids_of (Py.split "," (res_ids_str ids)) = Some ids.
Proof.
  intros Hne. unfold res_ids_str. rewrite split_join.
  - apply ids_of_str.
  - destruct ids; [congruence|discriminate].
  - apply Forall_forall. intros s Hs. apply in_map_iff in Hs.
    destruct Hs as (n & <- & _). now apply str_no.
Qed.

Lemma res_ids_str_no_colon ids : all_chars (is_not ":") (res_ids_str ids) = true.
Proof.
  unfold res_ids_str. induction ids as [|n ids IH]; [reflexivity|].
  destruct ids as [|m ids]; [simpl; now apply str_no|].
  change (join "," (map str (n :: m :: ids)))
    with (str n ++ String "," (join "," (map str (m :: ids))))%string.
  rewrite all_chars_app. rewrite str_no by reflexivity. simpl. exact IH.
Qed.

Lemma action_parts_data id_val action type_code :
  all_chars (is_not ":") type_code = true ->
  all_chars (is_not ":") id_val = true ->
  all_chars (is_not ":") action = true ->
  action_parts (action_data id_val action type_code) = Some (type_code, id_val, action).
Proof.
  intros Ht Hi Ha. unfold action_parts, action_data.
  change (type_code ++ ":" ++ id_val ++ ":" ++ action)%string
    with (type_code ++ String ":" (id_val ++ String ":" action))%string.
  rewrite split_app by exact Ht. rewrite split_app by exact Hi.
  rewrite split_no_sep by exact Ha. reflexivity.
Qed.

End TextFacts.

(** ** Signed links *)

Section LinkFacts.

Local Open Scope string_scope.
Local Open Scope Z_scope.

Variable settings : Settings.

Import PyText.

Lemma admin_action_link_res site ids action now remote_user :
  ids <> [] ->
  all_chars (is_not ":") action = true ->
  admin_action_link settings site
    (Some (action_data (res_ids_str ids) action "res")) now remote_user
  = (with_db site
       (fst (admin_action settings (site_db site) (Some (ids, action_of action)) now)),
     action_reviewed
       (snd (admin_action settings (site_db site) (Some (ids, action_of action)) now)),
     []).
Proof.
  intros Hne Ha. unfold admin_action_link.
  rewrite action_parts_data; auto; [|apply res_ids_str_no_colon].
  simpl String.eqb. cbv iota. rewrite ids_round_trip by exact Hne.
  destruct (admin_action settings (site_db site) _ now); reflexivity.
Qed.

(** X17.  The links of the application mail.  The approve link and the reject
    link that [submit] builds for the reservations with the keys [ids]
    are read back by [admin_action] as exactly these keys and that
    action: following the link is the review of these reservations. *)
Theorem application_links_round_trip :
  forall site ids now remote_user,
    ids <> [] ->
    admin_action_link settings site (Some (approve_data ids)) now remote_user
    = (with_db site
         (fst (admin_action settings (site_db site) (Some (ids, act_approve)) now)),
       action_reviewed
         (snd (admin_action settings (site_db site) (Some (ids, act_approve)) now)),
       [])
    /\ admin_action_link settings site (Some (reject_data ids)) now remote_user
       = (with_db site
            (fst (admin_action settings (site_db site) (Some (ids, act_reject)) now)),
          action_reviewed
            (snd (admin_action settings (site_db site) (Some (ids, act_reject)) now)),
          []).
Proof.
  intros site ids now remote_user Hne. unfold approve_data, reject_data. split.
  - rewrite admin_action_link_res; auto.
  - rewrite admin_action_link_res; auto.
Qed.

End LinkFacts.

Section LinkRuns.

Local Open Scope string_scope.
Local Open Scope Z_scope.

Import Demo.

Lemma application_links_round_trip_witness :
  approve_data [5; 6] = "res:5,6:approve"
  /\ fst (admin_action_link cfg (mkSite db [] 1 []) (Some "res:5,6:approve") noon
            EmptyString)
     = (with_db (mkSite db [] 1 [])
          (fst (admin_action cfg db (Some ([5; 6], act_approve)) noon)),
        action_reviewed (snd (admin_action cfg db (Some ([5; 6], act_approve)) noon))).
Proof.
  assert (E : approve_data [5; 6] = "res:5,6:approve") by (vm_compute; reflexivity).
  split; [exact E|]. rewrite <- E.
  destruct (application_links_round_trip cfg (mkSite db [] 1 []) [5; 6] noon EmptyString)
    as [H _]; [discriminate|].
  rewrite H. reflexivity.
Defined.

End LinkRuns.

(** ** Promotion requests *)

Section PromotionFacts.

Local Open Scope string_scope.
Local Open Scope Z_scope.

Variable settings : Settings.

Import PyText.

Lemma get_student_id db pk stu : get_student db pk = Some stu -> Student.id stu = pk.
Proof.
  unfold get_student. intros H. apply find_some in H. destruct H as [_ H].
  now apply Z.eqb_eq in H.
Qed.

Lemma get_student_exists db pk stu :
  get_student db pk = Some stu ->
  existsb (fun x => Student.id x =? pk) (students db) = true.
Proof.
  unfold get_student. intros H. apply find_some in H. destruct H as [Hin H].
  apply existsb_exists. now exists stu.
Qed.

Lemma save_student_found stu' l pk :
  existsb (fun x => Student.id x =? pk) l = true ->
  Student.id stu' = pk ->
  find (fun s => Student.id s =? pk) (save_student stu' l) = Some stu'.
Proof.
  intros Hex Hid. unfold save_student. rewrite Hid, Hex.
  induction l as [|x l IH]; [discriminate|].
  simpl in Hex. simpl. destruct (Student.id x =? pk) eqn:E.
  - rewrite Hid, Z.eqb_refl. reflexivity.
  - rewrite E. apply IH. exact Hex.
Qed.

Lemma has_request_open site stu :
  has_request site stu promo_pending = false
  <-> open_requests site (Student.id stu) = [].
Proof.
  unfold has_request, open_requests.
  induction (promotion_requests site) as [|p l IH]; simpl; [tauto|].
  destruct (PromotionRequest.student p =? Student.id stu);
    destruct (PromotionRequest.status p); simpl; try exact IH;
    split; discriminate.
Qed.

Lemma open_after_review stu s now who l :
  s <> promo_pending ->
  filter (fun p => (PromotionRequest.student p =? Student.id stu)
                   && match PromotionRequest.status p with
                      | promo_pending => true | _ => false end)
         (review_pending stu s now who l) = [].
Proof.
  intros Hs. induction l as [|p l IH]; simpl; auto.
  destruct (PromotionRequest.student p =? Student.id stu) eqn:E;
    destruct (PromotionRequest.status p) eqn:Ep; simpl;
    rewrite ?E, ?Ep; simpl; auto.
  destruct s; simpl; auto. congruence.
Qed.

Lemma open_review_le stu s now who l pk :
  (length (open_requests (mkSite (mkDB [] [] [] [] 0 0 0)
                            (review_pending stu s now who l) 0 []) pk)
   <= length (open_requests (mkSite (mkDB [] [] [] [] 0 0 0) l 0 []) pk))%nat.
Proof.
  unfold open_requests. simpl promotion_requests.
  induction l as [|p l IH]; simpl; auto.
  destruct (PromotionRequest.student p =? Student.id stu) eqn:E;
    destruct (PromotionRequest.student p =? pk) eqn:E';
    destruct (PromotionRequest.status p) eqn:Ep; simpl;
    rewrite ?E, ?E', ?Ep; simpl; try lia;
    destruct s; simpl; lia.
Qed.

Lemma reviewed_last stu s now who l pr :
  PromotionRequest.student pr = Student.id stu ->
  PromotionRequest.status pr = promo_pending ->
  has_request
    (mkSite (mkDB [] [] [] [] 0 0 0) (review_pending stu s now who (l ++ [pr])) 0 [])
    stu s = true.
Proof.
  intros Hstu Hst. unfold has_request, review_pending. simpl promotion_requests.
  rewrite map_app, existsb_app. apply orb_true_iff. right. simpl.
  rewrite Hstu, Z.eqb_refl, Hst. simpl. rewrite Hstu, Z.eqb_refl.
  destruct s; reflexivity.
Qed.

Lemma admin_action_link_stu site pk action now remote_user :
  all_chars (is_not ":") action = true ->
  admin_action_link settings site (Some (action_data (str pk) action "stu"))
    now remote_user
  = match get_student (site_db site) pk with
    | None => (site, action_no_student, [])
    | Some stu =>
        if String.eqb action "promote" then
          (mkSite (with_students (site_db site)
                     (save_student (set_role manager stu) (students (site_db site))))
             (review_pending stu promo_approved now remote_user
                (promotion_requests site))
             (next_request_id site) (passwords site),
           action_promoted pk, [mail_promotion_approved pk])
        else if String.eqb action "reject" then
          (mkSite (site_db site)
             (review_pending stu promo_rejected now remote_user
                (promotion_requests site))
             (next_request_id site) (passwords site),
           action_rejected pk, [mail_promotion_rejected pk])
        else (site, action_unknown, [])
    end.
Proof.
  intros Ha. unfold admin_action_link.
  rewrite action_parts_data; auto; [|now apply str_no].
  simpl String.eqb. cbv iota. rewrite int_str. reflexivity.
Qed.

(** X18.  A promotion request from the application to the answer.  When a
    student with the role [user] who has no rejected and no open request
    applies and the mail to the admin goes out, one open request of the
    student is stored and the mail carries two links.  Following the
    first makes the student a manager, closes the request as approved,
    and a later application is answered "already a manager"; following
    the second leaves the students as they are, closes the request as
    rejected, and every later application is refused. *)
Theorem promotion_round_trip :
  forall site sid stu now later remote_user (send_mail : PromoMail -> bool),
    get_student (site_db site) sid = Some stu ->
    Student.role stu = user ->
    has_request site stu promo_rejected = false ->
    has_request site stu promo_pending = false ->
    (forall m, send_mail m = true) ->
    exists site1 promote reject,
      apply_promotion site (Some sid) now send_mail
      = (site1, promo_submitted, [mail_promotion_request sid promote reject])
      /\ open_requests site1 sid
         = [PromotionRequest.mk (next_request_id site) sid promo_pending now None
              EmptyString]
      /\ (exists site2,
            admin_action_link settings site1 (Some promote) later remote_user
            = (site2, action_promoted sid, [mail_promotion_approved sid])
            /\ get_student (site_db site2) sid = Some (set_role manager stu)
            /\ open_requests site2 sid = []
            /\ has_request site2 stu promo_approved = true
            /\ forall t sm,
                 apply_promotion site2 (Some sid) t sm
                 = (site2, promo_already_manager, []))
      /\ (exists site3,
            admin_action_link settings site1 (Some reject) later remote_user
            = (site3, action_rejected sid, [mail_promotion_rejected sid])
            /\ site_db site3 = site_db site
            /\ open_requests site3 sid = []
            /\ forall t sm,
                 apply_promotion site3 (Some sid) t sm
                 = (site3, promo_was_rejected, [])).
Proof.
  intros site sid stu now later remote_user send_mail Hget Hrole Hrej Hpend Hmail.
  pose proof (get_student_id _ _ _ Hget) as Hid.
  pose proof (get_student_exists _ _ _ Hget) as Hex.
  unfold apply_promotion at 1. rewrite Hget, Hrole, Hrej, Hpend. cbv zeta.
  rewrite Hmail, Hid.
  eexists. eexists. eexists. split; [reflexivity|].
  split.
  { unfold open_requests. simpl promotion_requests. rewrite filter_app.
    apply has_request_open in Hpend. unfold open_requests in Hpend.
    rewrite Hid in Hpend. rewrite Hpend. simpl. rewrite Z.eqb_refl. reflexivity. }
  split.
  - rewrite admin_action_link_stu by reflexivity. simpl site_db. rewrite Hget.
    simpl String.eqb. cbv iota.
    eexists. split; [reflexivity|].
    assert (Hget2 : get_student
                      (with_students (site_db site)
                         (save_student (set_role manager stu) (students (site_db site))))
                      sid = Some (set_role manager stu)).
    { unfold get_student, with_students. simpl students.
      apply save_student_found; [exact Hex|exact Hid]. }
    split; [exact Hget2|]. split.
    { unfold open_requests. simpl promotion_requests. rewrite <- Hid.
      apply open_after_review. discriminate. }
    split.
    { unfold has_request. simpl promotion_requests.
      pose proof (reviewed_last stu promo_approved later remote_user
                    (promotion_requests site)
                    (PromotionRequest.mk (next_request_id site) sid promo_pending now
                       None EmptyString) (eq_sym Hid) eq_refl) as H.
      exact H. }
    intros t sm. unfold apply_promotion. simpl site_db. rewrite Hget2. reflexivity.
  - rewrite admin_action_link_stu by reflexivity. simpl site_db. rewrite Hget.
    simpl String.eqb. cbv iota.
    eexists. split; [reflexivity|]. split; [reflexivity|]. split.
    { unfold open_requests. simpl promotion_requests. rewrite <- Hid.
      apply open_after_review. discriminate. }
    intros t sm. unfold apply_promotion. simpl site_db. rewrite Hget, Hrole.
    match goal with
    | |- context [has_request ?s stu promo_rejected] =>
        replace (has_request s stu promo_rejected) with true
    end; [reflexivity|].
    symmetry.
    exact (reviewed_last stu promo_rejected later remote_user
             (promotion_requests site)
             (PromotionRequest.mk (next_request_id site) sid promo_pending now
                None EmptyString) (eq_sym Hid) eq_refl).
Qed.

(** X19.  At most one open request per student.  When no student has
    more than one open promotion request, this is still so after
    [apply_promotion], whatever the session and the mail server do, and
    after [admin_action], whatever the link holds. *)
Theorem open_request_unique :
  forall site,
    (forall pk, (length (open_requests site pk) <= 1)%nat) ->
    (forall sid now send_mail pk,
        (length (open_requests (fst (fst (apply_promotion site sid now send_mail))) pk)
         <= 1)%nat)
    /\ (forall unsigned now remote_user pk,
          (length (open_requests
                     (fst (fst (admin_action_link settings site unsigned now
                                  remote_user))) pk)
           <= 1)%nat).
Proof.
  intros site Hinv. split.
  - intros sid now send_mail pk. unfold apply_promotion.
    destruct sid as [sid|]; [|apply Hinv].
    destruct (get_student (site_db site) sid) as [stu|]; [|apply Hinv].
    destruct (Student.role stu); [|apply Hinv].
    destruct (has_request site stu promo_rejected); [apply Hinv|].
    destruct (has_request site stu promo_pending) eqn:Hp; [apply Hinv|].
    cbv zeta.
    assert (H : (length (open_requests
                   (mkSite (site_db site)
                      (promotion_requests site ++
                       [PromotionRequest.mk (next_request_id site) (Student.id stu)
                          promo_pending now None EmptyString])
                      (next_request_id site + 1) (passwords site)) pk) <= 1)%nat).
    { unfold open_requests. simpl promotion_requests. rewrite filter_app, length_app.
      simpl. destruct (Student.id stu =? pk) eqn:E; simpl.
      - apply Z.eqb_eq in E. subst pk. apply has_request_open in Hp.
        unfold open_requests in Hp. rewrite Hp. simpl. lia.
      - specialize (Hinv pk). unfold open_requests in Hinv. lia. }
    destruct (send_mail _); exact H.
  - intros unsigned now remote_user pk. unfold admin_action_link.
    destruct unsigned as [data|]; [|apply Hinv].
    destruct (action_parts data) as [[[type_code id_vals_str] action]|]; [|apply Hinv].
    destruct (String.eqb type_code "res").
    { destruct (ids_of _); [|apply Hinv].
      destruct (admin_action settings (site_db site) _ now). apply Hinv. }
    destruct (String.eqb type_code "stu"); [|apply Hinv].
    destruct (Py.int id_vals_str) as [k|]; [|apply Hinv].
    destruct (get_student (site_db site) k) as [stu|]; [|apply Hinv].
    destruct (String.eqb action "promote").
    { simpl fst. unfold open_requests. simpl promotion_requests.
      eapply Nat.le_trans; [apply (open_review_le stu)|apply Hinv]. }
    destruct (String.eqb action "reject"); [|apply Hinv].
    simpl fst. unfold open_requests. simpl promotion_requests.
    eapply Nat.le_trans; [apply (open_review_le stu)|apply Hinv].
Qed.

(** X20.  The links of one kind do nothing in the handler of the other.
    The data of a password-reset link is answered "unknown operation" by
    [admin_action], and the data of a review link or of a promotion link
    is an invalid link for [reset_confirm]; neither changes anything. *)
Theorem links_do_not_cross :
  forall (make_password : string -> string) site pk new_password id_val action
         now remote_user,
    admin_action_link settings site (Some (reset_data pk new_password)) now
      remote_user
    = (site, action_unknown, [])
    /\ reset_confirm make_password site (Some (action_data id_val action "res"))
       = (site, confirm_invalid_link)
    /\ reset_confirm make_password site (Some (action_data id_val action "stu"))
       = (site, confirm_invalid_link).
Proof.
  intros make_password site pk new_password id_val action now remote_user.
  split; [|split].
  - unfold admin_action_link, action_parts, reset_data.
    change ("reset:" ++ str pk ++ ":" ++ new_password)%string
      with ("reset" ++ String ":" (str pk ++ String ":" new_password))%string.
    rewrite split_app by reflexivity.
    rewrite split_app by (now apply str_no).
    pose proof (split_nonempty ":" new_password) as Hne.
    destruct (Py.split ":" new_password) as [|a l]; [congruence|].
    reflexivity.
  - unfold reset_confirm, action_data.
    change ("res" ++ ":" ++ id_val ++ ":" ++ action)%string
      with ("res" ++ String ":" (id_val ++ ":" ++ action))%string.
    rewrite split_max_app by reflexivity.
    destruct (split_max ":" (id_val ++ ":" ++ action) 1) as [|a [|b [|c l]]];
      reflexivity.
  - unfold reset_confirm, action_data.
    change ("stu" ++ ":" ++ id_val ++ ":" ++ action)%string
      with ("stu" ++ String ":" (id_val ++ ":" ++ action))%string.
    rewrite split_max_app by reflexivity.
    destruct (split_max ":" (id_val ++ ":" ++ action) 1) as [|a [|b [|c l]]];
      reflexivity.
Qed.

End PromotionFacts.

Section PromotionRuns.

Local Open Scope string_scope.
Local Open Scope Z_scope.

Import Demo Scenes.

Lemma promotion_round_trip_witness :
  get_student (site_db demo_site) 1 = Some alice
  /\ exists site1 promote,
       fst (apply_promotion demo_site (Some 1) noon (fun _ => true))
       = (site1, promo_submitted)
       /\ promote = "stu:1:promote"
       /\ get_student
            (site_db (fst (fst (admin_action_link cfg site1 (Some promote) late
                                  EmptyString)))) 1
          = Some (set_role manager alice).
Proof.
  assert (Hget : get_student (site_db demo_site) 1 = Some alice) by reflexivity.
  split; [exact Hget|].
  destruct (promotion_round_trip cfg demo_site 1 alice noon late EmptyString
              (fun _ => true) Hget eq_refl eq_refl eq_refl (fun _ => eq_refl))
    as (site1 & promote & reject & Happly & _ & (site2 & Hlink & Hs & _) & _).
  exists site1, promote. rewrite Happly. split; [reflexivity|].
  assert (Hp : promote = "stu:1:promote").
  { assert (E : snd (apply_promotion demo_site (Some 1) noon (fun _ => true))
                = [mail_promotion_request 1 "stu:1:promote" "stu:1:reject"])
      by (vm_compute; reflexivity).
    rewrite Happly in E. simpl in E. congruence. }
  split; [exact Hp|]. rewrite Hlink. exact Hs.
Defined.

Lemma open_request_unique_witness :
  (forall pk, (length (open_requests demo_site pk) <= 1)%nat)
  /\ (length (open_requests
                (fst (fst (apply_promotion demo_site (Some 1%Z) noon (fun _ => true))))
                1%Z) <= 1)%nat.
Proof.
  assert (H : forall pk, (length (open_requests demo_site pk) <= 1)%nat)
    by (intros pk; simpl; lia).
  split; [exact H|].
  destruct (open_request_unique cfg demo_site H) as [Ha _].
  apply Ha.
Defined.

End PromotionRuns.

(** ** Passwords: logging in, and the reset link *)

Section AccountFacts.

Local Open Scope string_scope.
Local Open Scope Z_scope.

Variable make_password : string -> string.
Variable check_password : string -> string -> bool.

(** The hasher does its work: an encoded password is not empty, and it
    is matched by the raw password it was made from and by no other. *)
Hypothesis make_nonempty : forall raw, make_password raw <> EmptyString.
Hypothesis check_make :
  forall raw typed, check_password typed (make_password raw) = String.eqb typed raw.

Import PyText.

Lemma password_of_store db rq n l pk raw :
  password_of (mkSite db rq n (store_password make_password pk raw l)) pk
  = make_password raw.
Proof.
  unfold password_of, store_password. simpl passwords.
  destruct (existsb (fun e => fst e =? pk) l) eqn:Hex.
  - induction l as [|e l IH]; [discriminate|].
    simpl in Hex. simpl. destruct (fst e =? pk) eqn:E.
    + simpl. rewrite Z.eqb_refl. reflexivity.
    + rewrite E. apply IH. exact Hex.
  - induction l as [|e l IH]; simpl.
    + rewrite Z.eqb_refl. reflexivity.
    + simpl in Hex. apply orb_false_iff in Hex. destruct Hex as [E Hex].
      rewrite E. apply IH. exact Hex.
Qed.

Lemma password_of_store_other db rq n l pk raw pk' :
  pk' <> pk ->
  password_of (mkSite db rq n (store_password make_password pk raw l)) pk'
  = password_of (mkSite db rq n l) pk'.
Proof.
  intros Hne. unfold password_of, store_password. simpl passwords.
  assert (Hmap : find (fun e => fst e =? pk')
                   (map (fun e => if fst e =? pk then (pk, make_password raw) else e) l)
                 = find (fun e => fst e =? pk') l).
  { induction l as [|e l IH]; simpl; auto.
    destruct (fst e =? pk) eqn:E.
    - apply Z.eqb_eq in E. simpl.
      replace (pk =? pk') with false by (symmetry; apply Z.eqb_neq; lia).
      replace (fst e =? pk') with false by (symmetry; apply Z.eqb_neq; lia).
      exact IH.
    - destruct (fst e =? pk'); [reflexivity|exact IH]. }
  destruct (existsb (fun e => fst e =? pk) l).
  - now rewrite Hmap.
  - destruct (find (fun e => fst e =? pk') l) as [e|] eqn:F.
    + now rewrite (find_app_some _ _ _ _ F).
    + rewrite (find_app_none _ _ _ F). simpl.
      replace (pk =? pk') with false by (symmetry; apply Z.eqb_neq; lia).
      reflexivity.
Qed.

Lemma check_after_store db rq n l stu raw typed :
  student_check_password check_password
    (mkSite db rq n (store_password make_password (Student.id stu) raw l)) stu typed
  = String.eqb typed raw.
Proof.
  unfold student_check_password. rewrite password_of_store.
  pose proof (make_nonempty raw) as Hne. pose proof (check_make raw typed) as Hc.
  destruct (make_password raw); [congruence|exact Hc].
Qed.

Lemma check_stored site stu raw typed :
  password_of site (Student.id stu) = make_password raw ->
  student_check_password check_password site stu typed = String.eqb typed raw.
Proof.
  intros H. unfold student_check_password. rewrite H.
  pose proof (make_nonempty raw) as Hne. pose proof (check_make raw typed) as Hc.
  destruct (make_password raw); [congruence|exact Hc].
Qed.

Lemma find_sid_save sid l stu stu' :
  find (fun s => String.eqb (Student.student_id s) sid) l = Some stu ->
  Student.id stu' = Student.id stu ->
  Student.student_id stu' = sid ->
  find (fun s => String.eqb (Student.student_id s) sid) (save_student stu' l)
  = Some stu'.
Proof.
  intros Hf Hid Hsid. unfold save_student.
  assert (Hex : existsb (fun x => Student.id x =? Student.id stu') l = true).
  { apply find_some in Hf. destruct Hf as [Hin _]. apply existsb_exists.
    exists stu. split; [exact Hin|]. rewrite Hid. apply Z.eqb_refl. }
  rewrite Hex. clear Hex.
  induction l as [|x l IH]; [discriminate|].
  simpl in Hf. simpl.
  destruct (String.eqb (Student.student_id x) sid) eqn:E.
  - injection Hf as ->. rewrite Hid, Z.eqb_refl. simpl.
    rewrite Hsid, String.eqb_refl. reflexivity.
  - destruct (Student.id x =? Student.id stu'); simpl.
    + rewrite Hsid, String.eqb_refl. reflexivity.
    + rewrite E. apply IH. exact Hf.
Qed.

Lemma save_student_same l stu :
  NoDup (map Student.id l) -> In stu l -> save_student stu l = l.
Proof.
  intros Hnd Hin. unfold save_student.
  replace (existsb (fun x => Student.id x =? Student.id stu) l) with true
    by (symmetry; apply existsb_exists; exists stu; split; [exact Hin|apply Z.eqb_refl]).
  rewrite <- (map_id l) at 2. apply map_ext_in. intros x Hx.
  destruct (Student.id x =? Student.id stu) eqn:E; [|reflexivity].
  apply Z.eqb_eq in E. symmetry.
  clear - Hnd Hin Hx E. induction l as [|y l IH]; [contradiction|].
  simpl in Hnd. inversion Hnd as [|? ? Hy Hl]; subst.
  destruct Hin as [->|Hin], Hx as [->|Hx]; auto.
  - exfalso. apply Hy. rewrite <- E. now apply in_map.
  - exfalso. apply Hy. rewrite E. now apply in_map.
Qed.

Lemma with_students_same db : with_students db (students db) = db.
Proof. destruct db; reflexivity. Qed.

Lemma get_student_unique db stu :
  NoDup (map Student.id (students db)) -> In stu (students db) ->
  get_student db (Student.id stu) = Some stu.
Proof.
  unfold get_student. induction (students db) as [|x l IH]; [contradiction|].
  intros Hnd Hin. simpl in Hnd. inversion Hnd as [|? ? Hx Hl]; subst. simpl.
  destruct Hin as [->|Hin]; [now rewrite Z.eqb_refl|].
  destruct (Student.id x =? Student.id stu) eqn:E; [|now apply IH].
  apply Z.eqb_eq in E. exfalso. apply Hx. rewrite E. now apply in_map.
Qed.

(** Logging in to an account that has a password. *)
Lemma index_login site sid typed stu raw :
  sid <> EmptyString -> raw <> EmptyString ->
  find (fun s => String.eqb (Student.student_id s) sid) (students (site_db site))
  = Some stu ->
  Student.is_auto_created stu = false ->
  Student.status stu <> blacklist ->
  password_of site (Student.id stu) = make_password raw ->
  login_session (index make_password check_password site sid typed)
  = if String.eqb typed raw then Some (Student.id stu) else None.
Proof.
  intros Hsid Hraw Hf Hauto Hst Hpw. unfold index.
  destruct sid as [|a sid0]; [congruence|].
  destruct typed as [|b t0].
  { destruct raw; [congruence|reflexivity]. }
  cbv iota. set (sid := String a sid0) in *. set (typed := String b t0).
  clearbody sid typed.
  rewrite Hf, Hauto. rewrite (check_stored _ _ raw) by exact Hpw.
  destruct (String.eqb typed raw); simpl; [|reflexivity].
  destruct (Student.status stu); [reflexivity|congruence|reflexivity].
Qed.

(** The first login to a student number with no account, or with an
    account the staff created. *)
Lemma index_first site sid password :
  sid <> EmptyString -> password <> EmptyString ->
  (find (fun s => String.eqb (Student.student_id s) sid) (students (site_db site))
   = None
   \/ exists stu,
        find (fun s => String.eqb (Student.student_id s) sid)
          (students (site_db site)) = Some stu
        /\ Student.is_auto_created stu = true
        /\ Student.status stu <> blacklist) ->
  exists site' stu' msgs,
    index make_password check_password site sid password
    = mkLogin site' (Some (Student.id stu')) msgs redirect_booking
    /\ find (fun s => String.eqb (Student.student_id s) sid) (students (site_db site'))
       = Some stu'
    /\ Student.is_auto_created stu' = false
    /\ Student.status stu' <> blacklist
    /\ password_of site' (Student.id stu') = make_password password.
Proof.
  intros Hsid Hpw Hcase. unfold index.
  destruct sid as [|a sid0]; [congruence|].
  destruct password as [|b pw0]; [congruence|].
  cbv iota. set (sid := String a sid0) in *. set (password := String b pw0) in *.
  clearbody sid password.
  destruct Hcase as [Hf|(stu & Hf & Hauto & Hst)]; rewrite Hf.
  - eexists. exists (Student.mk (next_student_id (site_db site)) sid normal user false).
    eexists. split; [reflexivity|]. simpl site_db. simpl students.
    split.
    { rewrite (find_app_none _ _ _ Hf). cbn [Student.student_id].
      rewrite String.eqb_refl. reflexivity. }
    split; [reflexivity|]. split; [discriminate|]. apply password_of_store.
  - rewrite Hauto.
    assert (Hs : Student.student_id stu = sid).
    { apply find_some in Hf. destruct Hf as [_ Hf]. now apply String.eqb_eq in Hf. }
    assert (Hfound : find (fun s => String.eqb (Student.student_id s) sid)
                       (save_student (set_auto_created false stu)
                          (students (site_db site)))
                     = Some (set_auto_created false stu)).
    { apply (find_sid_save sid _ stu); auto. }
    destruct (Student.status stu) eqn:Est; [|congruence|].
    + eexists. exists (set_auto_created false stu). eexists.
      split; [reflexivity|]. split; [exact Hfound|]. split; [reflexivity|].
      split; [simpl; rewrite Est; discriminate|]. apply password_of_store.
    + eexists. exists (set_auto_created false stu). eexists.
      split; [reflexivity|]. split; [exact Hfound|]. split; [reflexivity|].
      split; [simpl; rewrite Est; discriminate|]. apply password_of_store.
Qed.

Lemma reset_confirm_data site pk new_password :
  reset_confirm make_password site (Some (reset_data pk new_password))
  = match get_student (site_db site) pk with
    | None => (site, confirm_invalid_link)
    | Some student =>
        (mkSite (with_students (site_db site)
                   (save_student student (students (site_db site))))
           (promotion_requests site) (next_request_id site)
           (store_password make_password pk new_password (passwords site)),
         confirm_done pk)
    end.
Proof.
  unfold reset_confirm, reset_data.
  change ("reset:" ++ str pk ++ ":" ++ new_password)%string
    with ("reset" ++ String ":" (str pk ++ String ":" new_password))%string.
  rewrite split_max_app by reflexivity.
  rewrite split_max_app by (now apply str_no).
  rewrite split_max_zero. simpl String.eqb. simpl negb. cbv iota.
  rewrite int_str. reflexivity.
Qed.

(** X21.  Who gets a session.  When [index] opens a session, it is the
    session of the account with the student number that was typed; that
    account is not blacklisted and no longer auto-created, and its stored
    password is the one that was typed. *)
Theorem index_session_sound :
  forall site sid password pk,
    login_session (index make_password check_password site sid password) = Some pk ->
    let site' := login_site (index make_password check_password site sid password) in
    exists stu,
      find (fun s => String.eqb (Student.student_id s) sid) (students (site_db site'))
      = Some stu
      /\ Student.id stu = pk
      /\ Student.status stu <> blacklist
      /\ Student.is_auto_created stu = false
      /\ student_check_password check_password site' stu password = true
      /\ login_page (index make_password check_password site sid password)
         = redirect_booking.
Proof.
  intros site sid password pk. unfold index.
  destruct sid as [|a sid0]; [discriminate|].
  destruct password as [|b pw0]; [discriminate|].
  cbv iota. set (sid := String a sid0). set (password := String b pw0).
  clearbody sid password.
  destruct (find (fun s => String.eqb (Student.student_id s) sid)
              (students (site_db site))) as [stu|] eqn:Hf.
  - destruct (Student.is_auto_created stu) eqn:Hauto.
    + assert (Hsid : Student.student_id stu = sid).
      { apply find_some in Hf. destruct Hf as [_ Hf]. now apply String.eqb_eq in Hf. }
      assert (Hfound : find (fun s => String.eqb (Student.student_id s) sid)
                         (save_student (set_auto_created false stu)
                            (students (site_db site)))
                       = Some (set_auto_created false stu)).
      { apply (find_sid_save sid _ stu); auto. }
      assert (Hcheck : forall db rq n,
                 student_check_password check_password
                   (mkSite db rq n
                      (store_password make_password (Student.id stu) password
                         (passwords site)))
                   (set_auto_created false stu) password = true).
      { intros db rq n. rewrite (check_stored _ _ password).
        - apply String.eqb_refl.
        - apply password_of_store. }
      destruct (Student.status stu) eqn:Hst; try discriminate.
      * simpl. intros H. injection H as <-.
        exists (set_auto_created false stu).
        split; [exact Hfound|]. split; [reflexivity|].
        split; [simpl; rewrite Hst; discriminate|]. split; [reflexivity|].
        split; [apply Hcheck|reflexivity].
      * simpl. intros H. injection H as <-.
        exists (set_auto_created false stu).
        split; [exact Hfound|]. split; [reflexivity|].
        split; [simpl; rewrite Hst; discriminate|]. split; [reflexivity|].
        split; [apply Hcheck|reflexivity].
    + destruct (student_check_password check_password site stu password) eqn:Hc;
        [|discriminate]. simpl negb. cbv iota.
      destruct (Student.status stu) eqn:Hst; try discriminate;
        simpl; intros H; injection H as <-;
        exists stu; rewrite Hst; repeat split; auto; discriminate.
  - simpl. intros H. injection H as <-.
    exists (Student.mk (next_student_id (site_db site)) sid normal user false).
    split.
    { rewrite (find_app_none _ _ _ Hf). simpl. rewrite String.eqb_refl. reflexivity. }
    split; [reflexivity|]. split; [discriminate|]. split; [reflexivity|].
    split; [|reflexivity].
    rewrite (check_stored _ _ password).
    + apply String.eqb_refl.
    + apply password_of_store.
Qed.

(** X22.  The first login sets the password.  For a student number with
    no account, and for one whose account the staff created (and did not
    blacklist), [index] opens a session whatever non-empty password is
    typed; from then on that password, and no other, opens a session
    for this student number. *)
Theorem first_login_sets_password :
  forall site sid password,
    sid <> EmptyString -> password <> EmptyString ->
    (find (fun s => String.eqb (Student.student_id s) sid) (students (site_db site))
     = None
     \/ exists stu,
          find (fun s => String.eqb (Student.student_id s) sid)
            (students (site_db site)) = Some stu
          /\ Student.is_auto_created stu = true
          /\ Student.status stu <> blacklist) ->
    exists pk,
      login_session (index make_password check_password site sid password) = Some pk
      /\ forall typed,
           login_session
             (index make_password check_password
                (login_site (index make_password check_password site sid password))
                sid typed)
           = if String.eqb typed password then Some pk else None.
Proof.
  intros site sid password Hsid Hpw Hcase.
  destruct (index_first site sid password Hsid Hpw Hcase)
    as (site' & stu' & msgs & Hrun & Hf & Hauto & Hst & Hstored).
  rewrite Hrun. exists (Student.id stu'). split; [reflexivity|].
  intros typed. simpl login_site.
  now apply index_login.
Qed.

(** *** The link of the reset mail *)

Lemma strip_prefix_app p s : strip_prefix p (p ++ s) = Some s.
Proof. induction p as [|c p IH]; simpl; auto. now rewrite Ascii.eqb_refl. Qed.

Lemma str_converter_app t :
  t <> EmptyString -> all_chars (is_not "/") t = true ->
  str_converter (t ++ "/") = Some t.
Proof.
  induction t as [|c t IH]; [congruence|]. intros _ H.
  rewrite all_chars_cons in H. apply andb_true_iff in H. destruct H as [Hc Ht].
  unfold is_not in Hc. apply negb_true_iff in Hc.
  change (String c t ++ "/")%string with (String c (t ++ "/")).
  cbn [str_converter]. rewrite Hc.
  destruct t as [|c' t'].
  - reflexivity.
  - assert (E : String.eqb (String c' t' ++ "/") "/" = false).
    { rewrite all_chars_cons in Ht. apply andb_true_iff in Ht. destruct Ht as [Hc' _].
      unfold is_not in Hc'. apply negb_true_iff in Hc'.
      change (String c' t' ++ "/")%string with (String c' (t' ++ "/")).
      cbn [String.eqb]. now rewrite Hc'. }
    rewrite E, IH by (auto; discriminate). reflexivity.
Qed.

Lemma str_converter_some :
  forall s t,
    str_converter s = Some t ->
    s = (t ++ "/")%string /\ all_chars (is_not "/") t = true.
Proof.
  induction s as [|c s IH]; intros t H; [discriminate|].
  cbn [str_converter] in H.
  destruct (Ascii.eqb c "/") eqn:Ec; [discriminate|].
  destruct (String.eqb s "/") eqn:Es.
  - apply String.eqb_eq in Es. inversion H; subst.
    split; [reflexivity|]. rewrite all_chars_cons. unfold is_not. now rewrite Ec.
  - destruct (str_converter s) as [t'|]; [|discriminate].
    inversion H; subst. destruct (IH t' eq_refl) as [-> Ht'].
    split; [reflexivity|]. rewrite all_chars_cons. unfold is_not. now rewrite Ec.
Qed.

(** A segment ends at the first slash. *)
Lemma segment_unique :
  forall s t,
    all_chars (is_not "/") t = true -> (s ++ "/")%string = (t ++ "/")%string ->
    all_chars (is_not "/") s = true.
Proof.
  induction s as [|c s IH]; intros t Ht E; [reflexivity|].
  destruct t as [|c' t'].
  - simpl in E. inversion E. destruct s; discriminate.
  - simpl in E. inversion E; subst.
    rewrite all_chars_cons in Ht |- *. apply andb_true_iff in Ht.
    destruct Ht as [Hc Ht]. rewrite Hc. simpl. eapply IH; eauto.
Qed.

Lemma pchar_digit_or_minus c : digit_or_minus c = true -> pchar c = true.
Proof.
  destruct c as [[] [] [] [] [] [] [] []]; vm_compute; intros H;
    (reflexivity || discriminate H).
Qed.

Lemma pchar_not_slash c : pchar c = true -> is_not "/" c = true.
Proof.
  intros H. unfold is_not. apply negb_true_iff.
  destruct (Ascii.eqb c "/") eqn:E; [|reflexivity].
  apply Ascii.eqb_eq in E. subst. vm_compute in H. discriminate H.
Qed.

Lemma pchar_path_char c : pchar c = true -> path_char c = true.
Proof. intros H. unfold path_char. now rewrite H. Qed.

Lemma reset_data_pchar pk new_password :
  all_chars pchar new_password = true ->
  all_chars pchar (reset_data pk new_password) = true.
Proof.
  intros H. unfold reset_data. rewrite !all_chars_app, H.
  rewrite (all_chars_impl digit_or_minus pchar (str pk) pchar_digit_or_minus (str_chars pk)).
  reflexivity.
Qed.

(** The link of a token of path characters arrives and is routed to
    [reset_confirm] with that token. *)
Lemma reset_link_routed token :
  token <> EmptyString -> all_chars pchar token = true ->
  followed_link (reset_url token) = Some (reset_url token)
  /\ reset_confirm_route (reset_url token) = Some token.
Proof.
  intros Hne Hp. split.
  - unfold followed_link, reset_url. rewrite !all_chars_app.
    rewrite (all_chars_impl pchar path_char token pchar_path_char Hp). reflexivity.
  - unfold reset_confirm_route, reset_url. rewrite strip_prefix_app.
    apply str_converter_app; auto.
    apply (all_chars_impl pchar); auto. apply pchar_not_slash.
Qed.

(** A token with a slash in it is not routed to [reset_confirm]: a new
    password that holds a slash gives a link that is of no use. *)
Lemma reset_link_slash unsign site token :
  all_chars (is_not "/") token = false ->
  follow_reset_link make_password unsign site (reset_url token) = None.
Proof.
  intros H. unfold follow_reset_link, followed_link.
  destruct (all_chars path_char (reset_url token)); [|reflexivity].
  unfold reset_confirm_route, reset_url. rewrite strip_prefix_app.
  destruct (str_converter (token ++ "/")) as [t|] eqn:E; [|reflexivity].
  apply str_converter_some in E. destruct E as [E Ht].
  rewrite (segment_unique token t Ht E) in H. discriminate.
Qed.

(** X23.  A password reset, from the request to the next login.  Take an
    existing student number and a non-empty new password made of
    characters that stand for themselves in the path of a URL: letters,
    digits and [-._~!$&'()*+,;=:@].  The signer appends to the data a
    colon and characters of that kind, and accepts the token when the
    link is followed.  Then [reset_request] mails a link which, followed
    as it is written, is routed by [reset-confirm/<str:token>/] to
    [reset_confirm] and accepted: the password of this student becomes
    the new one, every other password and the students stay as they are,
    and (the account being in use and not blacklisted) exactly the new
    password opens a session afterwards. *)
Theorem reset_round_trip :
  forall (sign : string -> string) (unsign : string -> option string)
         site sid new_password (send_mail : Z -> bool) stu,
    (forall value, exists tail,
        sign value = (value ++ ":" ++ tail)%string /\ all_chars pchar tail = true) ->
    unsign (sign (reset_data (Student.id stu) new_password))
    = Some (reset_data (Student.id stu) new_password) ->
    sid <> EmptyString -> new_password <> EmptyString ->
    all_chars pchar new_password = true ->
    NoDup (map Student.id (students (site_db site))) ->
    find (fun s => String.eqb (Student.student_id s) sid) (students (site_db site))
    = Some stu ->
    send_mail (Student.id stu) = true ->
    exists link site',
      reset_request sign site sid new_password send_mail
      = reset_mail_sent (Student.id stu) link
      /\ follow_reset_link make_password unsign site link
         = Some (site', confirm_done (Student.id stu))
      /\ site_db site' = site_db site
      /\ promotion_requests site' = promotion_requests site
      /\ password_of site' (Student.id stu) = make_password new_password
      /\ (forall pk, pk <> Student.id stu -> password_of site' pk = password_of site pk)
      /\ (Student.is_auto_created stu = false ->
          Student.status stu <> blacklist ->
          forall typed,
            login_session (index make_password check_password site' sid typed)
            = if String.eqb typed new_password then Some (Student.id stu) else None).
Proof.
  intros sign unsign site sid new_password send_mail stu Hsign Hfresh Hsid Hpw Hsafe
    Hnd Hf Hmail.
  assert (Hin : In stu (students (site_db site))).
  { apply find_some in Hf. tauto. }
  pose proof (get_student_unique _ _ Hnd Hin) as Hget.
  set (data := reset_data (Student.id stu) new_password) in *.
  assert (Htok : sign data <> EmptyString /\ all_chars pchar (sign data) = true).
  { destruct (Hsign data) as (tail & -> & Htail). split.
    - unfold data, reset_data. discriminate.
    - rewrite !all_chars_app, Htail. unfold data.
      rewrite reset_data_pchar by exact Hsafe. reflexivity. }
  destruct Htok as [Hne Hp].
  destruct (reset_link_routed (sign data) Hne Hp) as [Hfollow Hroute].
  exists (reset_url (sign data)).
  eexists. split.
  { unfold reset_request.
    destruct sid as [|a sid0]; [congruence|].
    destruct new_password as [|b pw0]; [congruence|].
    cbv iota. rewrite Hf. cbv zeta. rewrite Hmail. reflexivity. }
  split.
  { unfold follow_reset_link. rewrite Hfollow, Hroute, Hfresh. unfold data.
    rewrite reset_confirm_data, Hget. reflexivity. }
  rewrite (save_student_same _ _ Hnd Hin), with_students_same.
  split; [reflexivity|]. split; [reflexivity|].
  split; [apply password_of_store|].
  split.
  { intros pk Hpk. rewrite password_of_store_other by exact Hpk.
    destruct site; reflexivity. }
  intros Hauto Hst typed.
  apply index_login; auto. apply password_of_store.
Qed.

End AccountFacts.

Section AccountRuns.

Local Open Scope string_scope.
Local Open Scope Z_scope.

Import Demo Scenes.

Lemma demo_make_nonempty : forall raw, demo_make_password raw <> EmptyString.
Proof. intros raw. discriminate. Qed.

Lemma demo_check_make :
  forall raw typed,
    demo_check_password typed (demo_make_password raw) = String.eqb typed raw.
Proof. intros raw typed. reflexivity. Qed.

Lemma index_session_sound_witness :
  login_session
    (index demo_make_password demo_check_password demo_site_alice "U202400001"
       "tea:time") = Some 1
  /\ exists stu,
       find (fun s => String.eqb (Student.student_id s) "U202400001")
         (students (site_db demo_site_alice)) = Some stu
       /\ Student.status stu <> blacklist.
Proof.
  assert (H : login_session
                (index demo_make_password demo_check_password demo_site_alice
                   "U202400001" "tea:time") = Some 1) by (vm_compute; reflexivity).
  split; [exact H|].
  destruct (index_session_sound demo_make_password demo_check_password
              demo_make_nonempty demo_check_make demo_site_alice "U202400001"
              "tea:time" 1 H) as (stu & Hf & _ & Hst & _).
  exists stu. split; [exact Hf|exact Hst].
Defined.

Lemma first_login_sets_password_witness :
  exists pk,
    login_session
      (index demo_make_password demo_check_password demo_site_carol "U202400003"
         "first") = Some pk
    /\ login_session
         (index demo_make_password demo_check_password
            (login_site
               (index demo_make_password demo_check_password demo_site_carol
                  "U202400003" "first"))
            "U202400003" "second") = None.
Proof.
  destruct (first_login_sets_password demo_make_password demo_check_password
              demo_make_nonempty demo_check_make demo_site_carol "U202400003" "first")
    as (pk & Hs & Hnext).
  - discriminate.
  - discriminate.
  - right. exists carol. split; [reflexivity|]. split; [reflexivity|discriminate].
  - exists pk. split; [exact Hs|]. rewrite Hnext. reflexivity.
Defined.

Lemma demo_sign_format :
  forall value, exists tail,
    demo_sign value = (value ++ ":" ++ tail)%string
    /\ PyText.all_chars pchar tail = true.
Proof.
  intros value.
  exists ("1tZ4x9" ++ ":" ++ demo_signature (value ++ ":" ++ "1tZ4x9"))%string.
  split; [reflexivity|].
  rewrite !all_chars_app. unfold demo_signature.
  rewrite (all_chars_impl PyText.digit_or_minus pchar _ pchar_digit_or_minus
             (str_chars _)).
  reflexivity.
Defined.

Lemma reset_round_trip_witness :
  exists site',
    reset_request demo_sign demo_site_alice "U202400001" "a-b:c" (fun _ => true)
    = reset_mail_sent 1 "/reset-confirm/reset:1:a-b:c:1tZ4x9:20/"
    /\ follow_reset_link demo_make_password demo_unsign demo_site_alice
         "/reset-confirm/reset:1:a-b:c:1tZ4x9:20/"
       = Some (site', confirm_done 1)
    /\ login_session
         (index demo_make_password demo_check_password site' "U202400001" "a-b:c")
       = Some 1
    /\ login_session
         (index demo_make_password demo_check_password site' "U202400001"
            "tea:time")
       = None.
Proof.
  destruct (reset_round_trip demo_make_password demo_check_password
              demo_make_nonempty demo_check_make demo_sign demo_unsign
              demo_site_alice "U202400001" "a-b:c" (fun _ => true) alice)
    as (link & site' & Hreq & Hconf & _ & _ & _ & _ & Hlogin).
  - exact demo_sign_format.
  - vm_compute. reflexivity.
  - discriminate.
  - discriminate.
  - vm_compute. reflexivity.
  - repeat constructor; simpl; intuition discriminate.
  - reflexivity.
  - reflexivity.
  - assert (Hl : link = "/reset-confirm/reset:1:a-b:c:1tZ4x9:20/").
    { assert (E : reset_request demo_sign demo_site_alice "U202400001" "a-b:c"
                    (fun _ => true)
                  = reset_mail_sent 1 "/reset-confirm/reset:1:a-b:c:1tZ4x9:20/")
        by (vm_compute; reflexivity).
      rewrite Hreq in E. injection E as E. exact E. }
    exists site'. rewrite <- Hl. split; [exact Hreq|]. split; [exact Hconf|].
    split; rewrite Hlogin; try reflexivity; discriminate.
Defined.

End AccountRuns.

(** ** The scheduler tick, and the dry run of [send_access_codes] *)

Section SchedulerFacts.

Variable settings : Settings.

(** What a run of [send_access_codes] reads of the reservations is the
    approved ones: two accumulators that agree on them, on the codes and
    on the outbox still do after a job. *)
Lemma notify_job_view env today acc1 acc2 j :
  access_codes (na_db acc1) = access_codes (na_db acc2) ->
  next_code_id (na_db acc1) = next_code_id (na_db acc2) ->
  na_outbox acc1 = na_outbox acc2 ->
  na_total_sent acc1 = na_total_sent acc2 ->
  (forall c d s, filter (approved_for c d s) (reservations (na_db acc1))
                 = filter (approved_for c d s) (reservations (na_db acc2))) ->
  let acc1' := notify_job settings env today acc1 j in
  let acc2' := notify_job settings env today acc2 j in
  access_codes (na_db acc1') = access_codes (na_db acc2')
  /\ next_code_id (na_db acc1') = next_code_id (na_db acc2')
  /\ na_outbox acc1' = na_outbox acc2'
  /\ na_total_sent acc1' = na_total_sent acc2'
  /\ reservations (na_db acc1') = reservations (na_db acc1)
  /\ reservations (na_db acc2') = reservations (na_db acc2).
Proof.
  intros Hc Hn Ho Ht Hr. unfold notify_job, notify_classroom, get_or_create_code.
  rewrite Hc, Hn.
  destruct (find (code_for (Classroom.id (snd j)) today (fst j))
              (access_codes (na_db acc2))) as [a|] eqn:Ef.
  - destruct (AccessCode.notified a); [simpl; tauto|].
    rewrite (Hr (Classroom.id (snd j)) today (fst j)).
    destruct (filter (approved_for (Classroom.id (snd j)) today (fst j))
                (reservations (na_db acc2))) as [|r rs].
    + simpl. rewrite ?Hc, ?Hn. tauto.
    + destruct (ne_dry_run env); simpl; rewrite ?Hc, ?Ho, ?Ht; tauto.
  - simpl AccessCode.notified. cbv iota. simpl reservations.
    rewrite (Hr (Classroom.id (snd j)) today (fst j)).
    destruct (filter (approved_for (Classroom.id (snd j)) today (fst j))
                (reservations (na_db acc2))) as [|r rs].
    + simpl. rewrite ?Hc, ?Hn. tauto.
    + destruct (ne_dry_run env); simpl; rewrite ?Hc, ?Ho, ?Ht; tauto.
Qed.

Lemma notify_fold_view env today js :
  forall acc1 acc2,
    access_codes (na_db acc1) = access_codes (na_db acc2) ->
    next_code_id (na_db acc1) = next_code_id (na_db acc2) ->
    na_outbox acc1 = na_outbox acc2 ->
    na_total_sent acc1 = na_total_sent acc2 ->
    (forall c d s, filter (approved_for c d s) (reservations (na_db acc1))
                   = filter (approved_for c d s) (reservations (na_db acc2))) ->
    let acc1' := fold_left (notify_job settings env today) js acc1 in
    let acc2' := fold_left (notify_job settings env today) js acc2 in
    access_codes (na_db acc1') = access_codes (na_db acc2')
    /\ next_code_id (na_db acc1') = next_code_id (na_db acc2')
    /\ na_outbox acc1' = na_outbox acc2'
    /\ na_total_sent acc1' = na_total_sent acc2'
    /\ reservations (na_db acc1') = reservations (na_db acc1)
    /\ reservations (na_db acc2') = reservations (na_db acc2).
Proof.
  induction js as [|j js IH]; intros acc1 acc2 Hc Hn Ho Ht Hr; simpl; [tauto|].
  destruct (notify_job_view env today acc1 acc2 j Hc Hn Ho Ht Hr)
    as (Hc' & Hn' & Ho' & Ht' & Hr1 & Hr2).
  assert (Hr' : forall c d s,
             filter (approved_for c d s)
               (reservations (na_db (notify_job settings env today acc1 j)))
             = filter (approved_for c d s)
                 (reservations (na_db (notify_job settings env today acc2 j)))).
  { intros c d s. rewrite Hr1, Hr2. apply Hr. }
  destruct (IH _ _ Hc' Hn' Ho' Ht' Hr') as (A & B & C & D & E & F).
  repeat split; auto; congruence.
Qed.

Lemma filter_map_fixed {A} (p : A -> bool) (g : A -> A) l :
  (forall x, p (g x) = p x) -> (forall x, p x = true -> g x = x) ->
  filter p (map g l) = filter p l.
Proof.
  intros Hp Hg. induction l as [|x l IH]; simpl; auto.
  rewrite Hp, IH. destruct (p x) eqn:E; [now rewrite Hg|reflexivity].
Qed.

(** [cleanup] leaves the approved reservations where they are. *)
Lemma cleanup_keeps_approved db now today c d s :
  NoDup (map Reservation.id (reservations db)) ->
  filter (approved_for c d s) (reservations (fst (cleanup settings db now today)))
  = filter (approved_for c d s) (reservations db).
Proof.
  intros Hnd. rewrite (cleanup_rows settings db now today Hnd).
  apply filter_map_fixed.
  - intros r. unfold approved_for, has_status.
    destruct (Reservation.status r) eqn:Es; simpl; rewrite ?Es; try reflexivity.
    destruct (staleb settings now today r); simpl; rewrite ?Es;
      rewrite ?andb_false_r; reflexivity.
  - intros r Hr. unfold approved_for, has_status in *.
    destruct (Reservation.status r) eqn:Es; simpl; try reflexivity.
    rewrite andb_false_r in Hr. discriminate.
Qed.

Lemma cleanup_classrooms db now today :
  classrooms (fst (cleanup settings db now today)) = classrooms db
  /\ access_codes (fst (cleanup settings db now today)) = access_codes db
  /\ next_code_id (fst (cleanup settings db now today)) = next_code_id db.
Proof.
  unfold cleanup. destruct (expire_past_deadline settings now today (reservations db)).
  simpl. tauto.
Qed.

(** X24.  One tick of the scheduler.  [cleanup] runs before the access
    codes are sent and does not change what is sent: the mails of the
    tick, their number and the table of codes are those of
    [send_access_codes] run on its own, and the reservations are left as
    [cleanup] leaves them. *)
Theorem run_all_tasks_sends_the_same :
  forall db now today env,
    NoDup (map Reservation.id (reservations db)) ->
    let tick := run_all_tasks settings db now today env in
    let alone := send_access_codes settings db env in
    na_outbox tick = na_outbox alone
    /\ na_total_sent tick = na_total_sent alone
    /\ access_codes (na_db tick) = access_codes (na_db alone)
    /\ reservations (na_db tick)
       = reservations (fst (cleanup settings db now today)).
Proof.
  intros db now today env Hnd. unfold run_all_tasks.
  destruct (cleanup_classrooms db now today) as (Hcl & Hco & Hnx).
  pose proof (fun c d s => cleanup_keeps_approved db now today c d s Hnd) as Hap.
  destruct (cleanup settings db now today) as [db1 counts]. simpl fst in *.
  cbv zeta. rewrite !send_access_codes_jobs.
  assert (Hj : jobs settings db1 (ne_now env) = jobs settings db (ne_now env)).
  { unfold jobs. now rewrite Hcl. }
  rewrite Hj.
  destruct (notify_fold_view env (date_of (ne_now env)) (jobs settings db (ne_now env))
              (Build_NotifyAcc db1 [] 0) (Build_NotifyAcc db [] 0))
    as (A & B & C & D & E & F); simpl; auto.
Qed.

(** X25.  A dry run of [send_access_codes] sends nothing and touches no
    reservation, and it does not stand in the way of the real run: for
    every classroom and slot of the day with an approved reservation, the
    code is as notified or not as it was before. *)
Theorem send_access_codes_dry_run :
  forall db env,
    ne_dry_run env = true ->
    codes_wf db ->
    let run := send_access_codes settings db env in
    na_outbox run = []
    /\ na_total_sent run = 0%nat
    /\ reservations (na_db run) = reservations db
    /\ forall c s,
         student_seats db c (date_of (ne_now env)) s <> [] ->
         notifiedb (na_db run) c (date_of (ne_now env)) s
         = notifiedb db c (date_of (ne_now env)) s.
Proof.
  intros db env Hdry Hwf. cbv zeta. rewrite send_access_codes_jobs.
  set (today := date_of (ne_now env)).
  assert (H : forall js acc,
             codes_wf (na_db acc) ->
             let acc' := fold_left (notify_job settings env today) js acc in
             codes_wf (na_db acc')
             /\ na_outbox acc' = na_outbox acc
             /\ na_total_sent acc' = na_total_sent acc
             /\ reservations (na_db acc') = reservations (na_db acc)
             /\ forall c s,
                  student_seats (na_db acc) c today s <> [] ->
                  notifiedb (na_db acc') c today s = notifiedb (na_db acc) c today s).
  { induction js as [|j js IH]; intros acc Hacc; simpl; [tauto|].
    assert (Hstep :
              codes_wf (na_db (notify_job settings env today acc j))
              /\ na_outbox (notify_job settings env today acc j) = na_outbox acc
              /\ na_total_sent (notify_job settings env today acc j) = na_total_sent acc
              /\ reservations (na_db (notify_job settings env today acc j))
                 = reservations (na_db acc)
              /\ forall c s,
                   student_seats (na_db acc) c today s <> [] ->
                   notifiedb (na_db (notify_job settings env today acc j)) c today s
                   = notifiedb (na_db acc) c today s).
    { unfold notify_job, notify_classroom.
      pose proof (get_or_create_code_spec (na_db acc) (Classroom.id (snd j)) today
                    (fst j)
                    (generate_access_code settings
                       (ne_random env (Classroom.id (snd j)) (fst j))) Hacc) as Hg.
      cbv zeta in Hg.
      destruct (get_or_create_code (na_db acc) (Classroom.id (snd j)) today (fst j)
                  (generate_access_code settings
                     (ne_random env (Classroom.id (snd j)) (fst j)))) as [db1 a].
      simpl fst in Hg. simpl snd in Hg.
      destruct Hg as (Hwf1 & Hin & Hfind & Hrows & Hnot & Hother & _).
      assert (Hsame : forall c s, notifiedb db1 c today s = notifiedb (na_db acc) c today s).
      { intros c s. destruct (pair_eq_dec (c, s) (Classroom.id (snd j), fst j)) as [E|E].
        - inversion E; subst. unfold notifiedb at 1. rewrite Hfind. now rewrite Hnot.
        - unfold notifiedb. now rewrite (Hother c s E). }
      destruct (AccessCode.notified a) eqn:Ea.
      { simpl. split; [exact Hwf1|]. split; [reflexivity|]. split; [reflexivity|].
        split; [exact Hrows|]. intros c s _. apply Hsame. }
      rewrite Hrows.
      destruct (filter (approved_for (Classroom.id (snd j)) today (fst j))
                  (reservations (na_db acc))) as [|r rs] eqn:Ef.
      - simpl. split; [now apply mark_notified_wf|].
        split; [reflexivity|]. split; [reflexivity|]. split; [exact Hrows|].
        intros c s Hseats. rewrite <- Hsame.
        unfold notifiedb. rewrite (mark_notified_find db1 a c today s Hwf1 Hin).
        destruct (find (code_for c today s) (access_codes db1)) as [x|] eqn:Ex;
          [|reflexivity].
        simpl. destruct (AccessCode.id x =? AccessCode.id a) eqn:Eid; [|reflexivity].
        exfalso. apply Z.eqb_eq in Eid.
        assert (Hx : In x (access_codes db1)) by (apply find_some in Ex; tauto).
        destruct Hwf1 as (Hnd & _ & _).
        pose proof (codes_unique_by_id (access_codes db1) x a Hnd Hx Hin Eid) as ->.
        apply find_some in Ex. destruct Ex as [_ Ex]. apply code_for_iff in Ex.
        apply find_some in Hfind. destruct Hfind as [_ Hf]. apply code_for_iff in Hf.
        rewrite Ex in Hf. inversion Hf; subst.
        apply Hseats. unfold student_seats. rewrite Ef. reflexivity.
      - rewrite Hdry. simpl. split; [exact Hwf1|]. split; [reflexivity|].
        split; [reflexivity|]. split; [exact Hrows|]. intros c s _. apply Hsame. }
    destruct Hstep as (W & O & T & R & N).
    destruct (IH _ W) as (W' & O' & T' & R' & N').
    split; [exact W'|]. split; [congruence|]. split; [congruence|].
    split; [congruence|].
    intros c s Hseats. rewrite N'.
    - now apply N.
    - unfold student_seats in *. now rewrite R. }
  destruct (H (jobs settings db (ne_now env)) (Build_NotifyAcc db [] 0) Hwf)
    as (_ & O & T & R & N).
  split; [exact O|]. split; [exact T|]. split; [exact R|]. exact N.
Qed.

End SchedulerFacts.

Section SchedulerRuns.

Import Demo Scenes.

Lemma run_all_tasks_sends_the_same_witness :
  NoDup (map Reservation.id (reservations db))
  /\ na_outbox (run_all_tasks cfg db (ne_now notify_env) tomorrow notify_env)
     = [mail_access_code 1 1 tomorrow 1 "482913"%string].
Proof.
  split; [exact demo_keys|].
  destruct (run_all_tasks_sends_the_same cfg db (ne_now notify_env) tomorrow notify_env
              demo_keys) as (H & _).
  rewrite H. vm_compute. reflexivity.
Defined.

Lemma send_access_codes_dry_run_witness :
  ne_dry_run dry_env = true
  /\ codes_wf db
  /\ student_seats db 1 tomorrow 1 = [1]
  /\ na_outbox (send_access_codes cfg db dry_env) = []
  /\ notifiedb (na_db (send_access_codes cfg db dry_env)) 1 tomorrow 1 = false.
Proof.
  assert (Hs : student_seats db 1 tomorrow 1 = [1]) by (vm_compute; reflexivity).
  destruct (send_access_codes_dry_run cfg db dry_env eq_refl demo_codes)
    as (Ho & _ & _ & Hn).
  split; [reflexivity|]. split; [exact demo_codes|]. split; [exact Hs|].
  split; [exact Ho|].
  assert (Hd : date_of (ne_now dry_env) = tomorrow) by (vm_compute; reflexivity).
  rewrite Hd in Hn. rewrite (Hn 1 1).
  - reflexivity.
  - rewrite Hs. discriminate.
Defined.

End SchedulerRuns.

(** ** [my_bookings] *)

Section BookingsFacts.

Variable settings : Settings.
Variable order_by_created_at_desc : list Reservation.t -> list Reservation.t.

(** Ordering a query result rearranges it. *)
Hypothesis order_by_permutes : forall l, Permutation (order_by_created_at_desc l) l.


Lemma seat_total_cons r rows :
  seat_total (r :: rows) = (length (seat_entries r) + seat_total rows)%nat.
Proof. reflexivity. Qed.

Lemma seat_count_cons s r rows :
  seat_count s (r :: rows)
  = ((if has_status s r then length (seat_entries r) else 0) + seat_count s rows)%nat.
Proof.
  unfold seat_count. simpl. destruct (has_status s r); reflexivity.
Qed.




(** The group of a batch after its rows have been added. *)
Lemma add_rows_spec rows :
  forall g0,
    let g := add_rows rows g0 in
    length (seats g) = (length (seats g0) + seat_total rows)%nat
    /\ (forall s,
          match s with
          | pending => count_pending (status_counts g)
                       = (count_pending (status_counts g0) + seat_count s rows)%nat
          | approved => count_approved (status_counts g)
                        = (count_approved (status_counts g0) + seat_count s rows)%nat
          | rejected => count_rejected (status_counts g)
                        = (count_rejected (status_counts g0) + seat_count s rows)%nat
          | cancelled => count_cancelled (status_counts g)
                         = (count_cancelled (status_counts g0) + seat_count s rows)%nat
          | expired => count_expired (status_counts g)
                       = (count_expired (status_counts g0) + seat_count s rows)%nat
          end)
    /\ can_cancel g = can_cancel g0
    /\ cancel_deadline g = cancel_deadline g0
    /\ group_batch_id g = group_batch_id g0
    /\ group_date g = group_date g0
    /\ group_time_slot g = group_time_slot g0.
Proof.
  induction rows as [|r rows IH]; intros g0; cbv zeta.
  - unfold seat_count, seat_total. simpl. split; [lia|].
    split; [intros []; lia|]. repeat split.
  - change (add_rows (r :: rows) g0) with (add_rows rows (add_row r g0)).
    destruct (IH (add_row r g0)) as (Hs & Hc & Hcc & Hcd & Hb & Hd & Ht).
    split.
    { rewrite Hs, seat_total_cons. simpl. rewrite length_app. lia. }
    split.
    { intros s. specialize (Hc s). rewrite seat_count_cons.
      unfold has_status. unfold has_status in Hc.
      destruct s; rewrite Hc; simpl;
        destruct (Reservation.status r); simpl; lia. }
    repeat split; auto.
Qed.

Lemma new_group_init res now g0 :
  new_group settings res now = Ok g0 ->
  seats g0 = [] /\ status_counts g0 = mkCounts 0 0 0 0 0
  /\ group_batch_id g0 = Reservation.batch_id res
  /\ group_date g0 = Reservation.date res
  /\ group_time_slot g0 = Reservation.time_slot res.
Proof.
  unfold new_group.
  destruct (get_time_slot_display settings (Reservation.time_slot res)) as [label|v].
  - destruct label as [|c label].
    + intros H. injection H as <-. repeat split.
    + destruct (start_hm (String c label)) as [[h m]|];
        intros H; injection H as <-; repeat split.
  - destruct v; [|discriminate|discriminate].
    intros H. injection H as <-. repeat split.
Qed.


Lemma update_group_keys bid f groups :
  map fst (update_group bid f groups) = map fst groups.
Proof.
  unfold update_group. rewrite map_map. apply map_ext. intros e.
  destruct (fst e =? bid); reflexivity.
Qed.

Lemma update_group_in bid f groups b g :
  In (b, g) (update_group bid f groups)
  -> exists g1, In (b, g1) groups /\ g = if b =? bid then f g1 else g1.
Proof.
  unfold update_group. intros H. apply in_map_iff in H.
  destruct H as ([b1 g1] & E & Hin). simpl in E.
  destruct (b1 =? bid) eqn:Eb; injection E as <- <-; exists g1; rewrite Eb; auto.
Qed.

Lemma has_group_in bid groups :
  has_group bid groups = true <-> In bid (map fst groups).
Proof.
  unfold has_group. rewrite existsb_exists, in_map_iff. split.
  - intros (e & Hin & E). apply Z.eqb_eq in E. now exists e.
  - intros (e & E & Hin). exists e. split; auto. now apply Z.eqb_eq.
Qed.

Lemma has_group_update bid bid' f groups :
  has_group bid' (update_group bid f groups) = has_group bid' groups.
Proof.
  apply eq_true_iff_eq. rewrite !has_group_in, update_group_keys. tauto.
Qed.

(** The first loop, batch by batch: every batch that has been met has one
    group, made from its first row and grown by all its rows. *)
Lemma group_loop now raw_res :
  forall groups,
    fold_left (group_step settings now) raw_res (Ok []) = Ok groups ->
    NoDup (map fst groups)
    /\ (forall r, In r raw_res -> In (Reservation.batch_id r) (map fst groups))
    /\ (forall bid g, In (bid, g) groups ->
          exists first rest g0,
            filter (of_batch bid) raw_res = first :: rest
            /\ new_group settings first now = Ok g0
            /\ g = add_rows (first :: rest) g0).
Proof.
  induction raw_res as [|r rs IH] using rev_ind; intros groups Hrun.
  - simpl in Hrun. injection Hrun as <-. split; [constructor|].
    split; intros; contradiction.
  - rewrite fold_left_app in Hrun. simpl in Hrun.
    destruct (fold_left (group_step settings now) rs (Ok [])) as [groups1|e];
      [|discriminate].
    destruct (IH groups1 eq_refl) as (Hnd & Hall & Hgr). clear IH.
    unfold group_step in Hrun.
    destruct (has_group (Reservation.batch_id r) groups1) eqn:Hhas.
    + injection Hrun as <-. rewrite update_group_keys.
      split; [exact Hnd|]. split.
      { intros x Hx. apply in_app_or in Hx. destruct Hx as [Hx|[<-|[]]].
        - now apply Hall.
        - now apply has_group_in. }
      intros bid g Hin. apply update_group_in in Hin.
      destruct Hin as (g1 & Hin1 & ->).
      destruct (Hgr bid g1 Hin1) as (first & rest & g0 & Hf & Hn & ->).
      rewrite filter_app. simpl. unfold of_batch at 2.
      rewrite Z.eqb_sym. destruct (bid =? Reservation.batch_id r) eqn:Eb.
      * exists first, (rest ++ [r]), g0. rewrite Hf. split; [reflexivity|].
        split; [exact Hn|].
        change (first :: rest ++ [r]) with ((first :: rest) ++ [r]).
        unfold add_rows. rewrite fold_left_app. reflexivity.
      * exists first, rest, g0. rewrite Hf, app_nil_r. auto.
    + destruct (new_group settings r now) as [g0|e] eqn:Hnew; [|discriminate].
      injection Hrun as <-. rewrite update_group_keys, map_app. simpl.
      assert (Hfresh : ~ In (Reservation.batch_id r) (map fst groups1)).
      { intros H. apply has_group_in in H. congruence. }
      split.
      { apply NoDup_app; auto.
        - repeat constructor. simpl. tauto.
        - intros b Hb [<-|[]]. contradiction. }
      split.
      { intros x Hx. apply in_app_or in Hx. apply in_or_app.
        destruct Hx as [Hx|[<-|[]]]; [left; now apply Hall|right; simpl; auto]. }
      intros bid g Hin. apply update_group_in in Hin.
      destruct Hin as (g1 & Hin1 & ->). apply in_app_or in Hin1.
      rewrite filter_app. simpl. unfold of_batch at 2. rewrite Z.eqb_sym.
      destruct Hin1 as [Hin1|[E|[]]].
      * assert (Hne : (bid =? Reservation.batch_id r) = false).
        { apply Z.eqb_neq. intros ->. apply Hfresh.
          apply in_map_iff. now exists (Reservation.batch_id r, g1). }
        rewrite Hne. destruct (Hgr bid g1 Hin1) as (first & rest & g0' & Hf & Hn & ->).
        exists first, rest, g0'. rewrite Hf, app_nil_r. auto.
      * inversion E; subst. rewrite Z.eqb_refl.
        assert (Hnone : filter (of_batch (Reservation.batch_id r)) rs = []).
        { destruct (filter (of_batch (Reservation.batch_id r)) rs) as [|x l] eqn:Ef;
            [reflexivity|].
          assert (Hx : In x (filter (of_batch (Reservation.batch_id r)) rs))
            by (rewrite Ef; simpl; auto).
          apply filter_In in Hx. destruct Hx as [Hx Eb]. unfold of_batch in Eb.
          apply Z.eqb_eq in Eb. exfalso. apply Hfresh. rewrite <- Eb. now apply Hall. }
        rewrite Hnone. exists r, [], g1. auto.
Qed.

Lemma group_loop_raises now raw_res e :
  fold_left (group_step settings now) raw_res (Ok []) = Raise e -> e = AttributeError.
Proof.
  induction raw_res as [|r rs IH] using rev_ind; [discriminate|].
  rewrite fold_left_app. simpl.
  destruct (fold_left (group_step settings now) rs (Ok [])) as [groups1|e1].
  - unfold group_step. destruct (has_group _ groups1); [discriminate|].
    unfold new_group.
    destruct (get_time_slot_display settings (Reservation.time_slot r)) as [label|v].
    + destruct label; [discriminate|].
      destruct (start_hm _) as [[h m]|]; discriminate.
    + destruct v; [discriminate| |]; intros H; injection H as <-; reflexivity.
  - intros H. injection H as <-. now apply IH.
Qed.


Lemma filter_permutation {A} (p : A -> bool) l l' :
  Permutation l l' -> Permutation (filter p l) (filter p l').
Proof.
  induction 1; simpl.
  - constructor.
  - destruct (p x); [now constructor|assumption].
  - destruct (p x), (p y); try apply perm_swap; try apply Permutation_refl.
    all: constructor; apply Permutation_refl.
  - eapply Permutation_trans; eassumption.
Qed.




(** The rows of a batch as the loop meets them are the rows of the batch. *)
Lemma raw_batch_rows db student bid :
  Permutation
    (filter (of_batch bid)
       (order_by_created_at_desc
          (filter (fun r => Reservation.student r =? student) (reservations db))))
    (batch_rows db student bid).
Proof.
  unfold batch_rows.
  rewrite <- (filter_filter (fun r => Reservation.student r =? student) (of_batch bid)).
  apply filter_permutation. apply order_by_permutes.
Qed.


Lemma display_unknown slot :
  ~ In slot (map fst (TIME_SLOTS settings)) ->
  get_time_slot_display settings slot = slot_value slot.
Proof.
  unfold get_time_slot_display. generalize (slot_value slot).
  induction (TIME_SLOTS settings) as [|kv l IH]; intros d Hn; simpl; auto.
  simpl in Hn. destruct (fst kv =? slot) eqn:E.
  - apply Z.eqb_eq in E. tauto.
  - apply IH. tauto.
Qed.

Lemma display_label slot label :
  get_time_slot_display settings slot = slot_name label ->
  slot_label settings slot = label.
Proof.
  unfold get_time_slot_display, slot_label, Py.dict_get.
  assert (H : forall pairs d s,
             (forall l, d = slot_name l -> s = l) ->
             forall l,
               fold_left (fun acc kv => if fst kv =? slot then slot_name (snd kv) else acc)
                 pairs d = slot_name l ->
               fold_left (fun acc kv => if fst kv =? slot then snd kv else acc) pairs s
               = l).
  { induction pairs as [|kv pairs IH]; intros d s Hd l; simpl; [apply Hd|].
    apply IH. intros l0. destruct (fst kv =? slot); [congruence|apply Hd]. }
  apply H. discriminate.
Qed.

Lemma new_group_can_cancel res now g0 :
  new_group settings res now = Ok g0 ->
  can_cancel g0 = true ->
  exists deadline,
    slot_deadline settings (Reservation.date res) (Reservation.time_slot res)
    = Some deadline
    /\ now < deadline.
Proof.
  unfold new_group.
  destruct (get_time_slot_display settings (Reservation.time_slot res))
    as [label|v] eqn:Ed.
  - apply display_label in Ed. destruct label as [|c label].
    + intros H. injection H as <-. discriminate.
    + destruct (start_hm (String c label)) as [[h m]|] eqn:Eh.
      * intros H. injection H as <-. simpl. intros Hlt. apply Z.ltb_lt in Hlt.
        eexists. split; [|exact Hlt].
        unfold slot_deadline, get_slot_start_time. rewrite Ed, Eh. reflexivity.
      * intros H. injection H as <-. discriminate.
  - destruct v; [|discriminate|discriminate].
    intros H. injection H as <-. discriminate.
Qed.

Lemma finalize_group g : booking_group (finalize g) = g.
Proof.
  unfold finalize.
  repeat match goal with |- context [if ?c then _ else _] => destruct c end;
    reflexivity.
Qed.

(** X27.  A reservation whose slot is no longer one of [TIME_SLOTS]
    breaks the page: when the student has a batch all of whose
    reservations have a slot that is not zero and not among the choices,
    [my_bookings] fails with an [AttributeError]. *)
Theorem my_bookings_unknown_slot :
  forall db sid student now status_filter r,
    get_student db sid = Some student ->
    In r (reservations db) ->
    Reservation.student r = Student.id student ->
    (forall x, In x (batch_rows db (Student.id student) (Reservation.batch_id r)) ->
       Reservation.time_slot x <> 0
       /\ ~ In (Reservation.time_slot x) (map fst (TIME_SLOTS settings))) ->
    my_bookings settings order_by_created_at_desc db (Some sid) now status_filter
    = bookings_server_error AttributeError.
Proof.
  intros db sid student now status_filter r Hget Hin Hstu Hbad.
  unfold my_bookings. rewrite Hget.
  set (mine := filter (fun r => Reservation.student r =? Student.id student)
                 (reservations db)).
  set (raw_res := order_by_created_at_desc mine).
  destruct (fold_left (group_step settings now) raw_res (Ok [])) as [groups|e] eqn:Hrun.
  - exfalso. destruct (group_loop now raw_res groups Hrun) as (_ & Hall & Hgr).
    assert (Hr : In r raw_res).
    { eapply Permutation_in; [apply Permutation_sym, order_by_permutes|].
      apply filter_In. split; [exact Hin|]. now apply Z.eqb_eq. }
    apply Hall in Hr. apply in_map_iff in Hr. destruct Hr as ([bid g] & E & Hg).
    simpl in E. subst bid.
    destruct (Hgr _ g Hg) as (first & rest & g0 & Hf & Hn & _).
    assert (Hfirst : In first (batch_rows db (Student.id student)
                                 (Reservation.batch_id r))).
    { eapply Permutation_in; [apply raw_batch_rows|].
      fold mine. fold raw_res. rewrite Hf. simpl. auto. }
    destruct (Hbad first Hfirst) as [Hz Hno].
    unfold new_group in Hn. rewrite (display_unknown _ Hno) in Hn.
    destruct (Reservation.time_slot first); [congruence|discriminate|discriminate].
  - now rewrite (group_loop_raises now raw_res e Hrun).
Qed.

(** X28.  What the page offers, [cancel_booking] does.  When the page
    of a student shows a batch as one that can be cancelled, the
    reservations of the batch share their date and slot, and one of them
    is pending or approved, then [cancel_booking] at that moment cancels
    every pending and approved reservation of the batch and leaves all
    other rows as they are. *)
Theorem my_bookings_can_cancel :
  forall db sid student now status_filter bookings b,
    NoDup (map Reservation.id (reservations db)) ->
    get_student db sid = Some student ->
    my_bookings settings order_by_created_at_desc db (Some sid) now status_filter
    = bookings_page student bookings status_filter ->
    In b bookings ->
    can_cancel (booking_group b) = true ->
    let bid := group_batch_id (booking_group b) in
    (forall x y,
       In x (batch_rows db (Student.id student) bid) ->
       In y (batch_rows db (Student.id student) bid) ->
       Reservation.date x = Reservation.date y
       /\ Reservation.time_slot x = Reservation.time_slot y) ->
    (exists r, In r (reservations db) /\ in_batch bid student r) ->
    exists cnt,
      snd (cancel_booking settings db (Some sid) true bid now)
      = redirect_my_bookings [success_cancelled cnt]
      /\ Forall2 (user_cancelled bid student) (reservations db)
           (reservations (fst (cancel_booking settings db (Some sid) true bid now))).
Proof.
  intros db sid student now status_filter bookings b Hnd Hget Hpage Hb Hcan bid
         Hshare (r0 & Hr0 & Hb0).
  unfold my_bookings in Hpage. rewrite Hget in Hpage.
  set (mine := filter (fun r => Reservation.student r =? Student.id student)
                 (reservations db)) in Hpage.
  set (raw_res := order_by_created_at_desc mine) in Hpage.
  destruct (fold_left (group_step settings now) raw_res (Ok [])) as [groups|e] eqn:Hrun;
    [|discriminate].
  assert (Hin : In b (map (fun e => finalize (snd e)) groups)).
  { injection Hpage as <-. destruct (String.eqb status_filter "all"); [exact Hb|].
    apply filter_In in Hb. tauto. }
  clear Hpage. apply in_map_iff in Hin. destruct Hin as ([bid' g] & Eb & Hg).
  simpl in Eb.
  destruct (group_loop now raw_res groups Hrun) as (_ & _ & Hgr).
  destruct (Hgr bid' g Hg) as (top & rest & g0 & Hf & Hn & Eg).
  assert (Hbg : booking_group b = g) by (rewrite <- Eb; apply finalize_group).
  destruct (add_rows_spec (top :: rest) g0) as (_ & _ & Hcc & _ & Hbid & _).
  cbv zeta in Hcc, Hbid. rewrite <- Eg in Hcc, Hbid.
  destruct (new_group_init _ _ _ Hn) as (_ & _ & Hb1 & _).
  assert (Hfirst_raw : In top (filter (of_batch bid') raw_res))
    by (rewrite Hf; simpl; auto).
  assert (Ebid : bid = bid').
  { unfold bid. rewrite Hbg, Hbid, Hb1. apply filter_In in Hfirst_raw.
    destruct Hfirst_raw as [_ E]. now apply Z.eqb_eq in E. }
  assert (Hfirst : In top (batch_rows db (Student.id student) bid)).
  { rewrite Ebid. eapply Permutation_in; [apply raw_batch_rows|exact Hfirst_raw]. }
  destruct (new_group_can_cancel top now g0 Hn) as (deadline & Hdl & Hlt).
  { rewrite <- Hcc, <- Hbg. exact Hcan. }
  clearbody bid. clear Hcan Hbg Hcc Hbid Hb1 Hfirst_raw Ebid Hf Hg Hgr Hrun Eb.
  unfold cancel_booking. simpl negb. cbv iota. rewrite Hget.
  set (qs := filter (cancellable bid student) (reservations db)).
  assert (Hq0 : In r0 qs) by (apply filter_In; split; auto; now apply cancellable_iff).
  destruct (first qs) as [first_res|] eqn:Ef;
    [|apply first_none in Ef; rewrite Ef in Hq0; destruct Hq0].
  apply first_in in Ef. apply filter_In in Ef. destruct Ef as [Hin Hc].
  assert (Hfr : In first_res (batch_rows db (Student.id student) bid)).
  { apply filter_In. split; [exact Hin|]. unfold cancellable in Hc.
    apply andb_true_iff in Hc. destruct Hc as [Hc _].
    apply andb_true_iff in Hc. destruct Hc as [E1 E2].
    now rewrite E1, E2. }
  destruct (Hshare first_res top Hfr Hfirst) as [Ed Es].
  unfold booking_closed. rewrite Ed, Es, Hdl.
  assert (E : (now >=? deadline) = false)
    by (rewrite Z.geb_leb; apply Z.leb_gt; exact Hlt).
  rewrite E. simpl snd. simpl fst.
  exists (length qs). split.
  - destruct qs; [destruct Hq0|]. reflexivity.
  - simpl reservations. unfold qs. rewrite save_each_filter; auto.
    unfold update_where. clear. induction (reservations db) as [|r l IH]; simpl;
      constructor; auto.
    unfold user_cancelled, cancel_by_user.
    destruct (cancellable bid student r) eqn:Ec.
    + left. apply cancellable_iff in Ec. auto.
    + right. split; auto. intros H. apply cancellable_iff in H. congruence.
Qed.

End BookingsFacts.

Section BookingsRuns.

Import Demo BookingScenes.

Lemma newest_first_permutes : forall l, Permutation (newest_first l) l.
Proof. intros l. apply Permutation_sym, Permutation_rev. Qed.


Lemma my_bookings_unknown_slot_witness :
  my_bookings cfg newest_first db_old_slot (Some 1) noon "all"
  = bookings_server_error AttributeError.
Proof.
  apply (my_bookings_unknown_slot cfg newest_first newest_first_permutes db_old_slot 1
           alice noon "all" r6).
  - reflexivity.
  - simpl. auto.
  - reflexivity.
  - intros x Hx. vm_compute in Hx. destruct Hx as [<-|[]].
    split; [discriminate|]. simpl. intuition discriminate.
Defined.

Lemma my_bookings_can_cancel_witness :
  exists cnt,
    snd (cancel_booking cfg db (Some 1) true 100 noon)
    = redirect_my_bookings [success_cancelled cnt].
Proof.
  assert (Hpage : my_bookings cfg newest_first db (Some 1) noon "all"
                  = bookings_page alice alice_page "all") by (vm_compute; reflexivity).
  assert (Hb : In (nth 1 alice_page (finalize (init_group r1 (slot_value 0) false None)))
                  alice_page) by (vm_compute; auto).
  destruct (my_bookings_can_cancel cfg newest_first newest_first_permutes db 1 alice noon
              "all" alice_page _ demo_keys eq_refl Hpage Hb) as (cnt & Hc & _).
  - vm_compute. reflexivity.
  - intros x y Hx Hy. vm_compute in Hx, Hy.
    destruct Hx as [<-|[]], Hy as [<-|[]]. split; reflexivity.
  - exists r1. split; [simpl; auto|]. repeat split. right. reflexivity.
  - exists cnt. exact Hc.
Defined.

End BookingsRuns.
